(* ===== verification/_CoqProject ===== *)
-Q . S2P
Prelude.v
Format.v
JsNumber.v
View.v
Wallet.v
Store.v
GoldRate.v
Ledger.v
LedgerInv.v
LedgerSpec.v
Auth.v
Register.v
Accounts.v
Kyc.v
Razorpay.v
Tree.v
Referrals.v
Admin.v
AccountTable.v
Home.v
Transactions.v
PlansTab.v
MockScreens.v
Navigation.v
