(* ===== verification/Prelude.v ===== *)
(** * A S Jewellers gold-savings app: a verification development

    The repository is an Expo / React Native front end over a hosted
    Supabase backend, with two Deno edge functions.  Most of its 8700
    lines are screens.  The logic that moves money and gold is written
    inline in those screens and in the edge functions.  Some backend
    procedures and triggers are called by the repository but not
    contained in it.  This development models that logic as executable
    Rocq definitions over explicit stores that stand for the Supabase
    tables.  It proves what the code guarantees and where it falls short.

    ** Files, in dependency order, and the code they model

    - [Prelude.v] (this file): the state-and-exception monad [ST] with
      its notations in [asj_scope], fault oracles, sums of rationals, the
      JavaScript [||] and [Math.round], the [case_if] tactic and the
      [asj] hint databases.
    - [Format.v]: [toString(b)], [padStart], [toFixed], [trim],
      [toUpperCase] and [toLowerCase], [includes], [slice]; with their
      read-back lemmas.
    - [JsNumber.v]: JavaScript numbers with [NaN] and [Infinity],
      division, comparison, and [Number(s)] on strings (StringToNumber),
      with the read-back of [n.toString()].
    - [View.v]: JSX as a tree of [Node]s (texts, buttons with their
      [onPress] action, inputs, modals), and the effects of a handler
      ([Alert.alert], [router.push/replace/back], [Share.share]).
    - [Wallet.v]: the [wallets] row, credit and debit, and the
      [WalletStore] typeclass interface.
    - [Store.v]: the Supabase tables the plans, home and referral screens
      use ([Store.DB]) and the write primitives, each of which a fault
      oracle can make fail.
    - [GoldRate.v]: the latest [gold_rates] row and the 6500 fallback of
      [makePayment] ([src/app/(tabs)/plans.tsx]).
    - [Ledger.v], [LedgerInv.v], [LedgerSpec.v]: [subscribeToPlan],
      [makePayment] and the "Pay Month" session of [plans.tsx] in the
      [ST] monad.  A step relation runs whole sessions, and its invariant
      is proved by rule induction.  [LedgerSpec.v] holds the spec's
      abstract [recordMonthlyPayment] and the refinement theorem.
    - [Auth.v]: [src/contexts/AuthContext.tsx] (session restore, the auth
      listener, sign-in, sign-out, profile reload) and the login screen.
      It also models the auth service they call.
    - [Register.v]: [src/app/auth/register.tsx]: validation, sign-up, the
      referral lookup, the profile and wallet inserts, the input filters
      and the form.
    - [Accounts.v]: [src/contexts/AccountContext.tsx],
      [src/app/accounts.tsx] and [src/components/AccountSwitcher.tsx]:
      loading, selection and its persistence, creation under the backend's
      cap of ten, the screens.
    - [Kyc.v]: [src/app/kyc/[accountId].tsx], and a step relation over
      the account operations of the app.
    - [Razorpay.v]: the two edge functions [create-razorpay-order] and
      [verify-razorpay-payment].  The Razorpay API is an input.
      HMAC-SHA256 is a [Section] variable.
    - [Tree.v]: [src/app/tree.tsx], with [buildTreeStructure] over a heap
      of shared node objects.
    - [Referrals.v]: [src/app/(tabs)/referrals.tsx].
    - [Admin.v]: [src/app/admin/]: the guard, dashboard, users,
      withdrawals and transactions screens.
    - [AccountTable.v]: the composition of the writers of
      [investment_accounts] and [transactions] (account creation, KYC
      submission, both edge functions) as one step relation
      [table_step] over the verifier's store; the dashboard of
      [Admin.v] reads [transactions].
    - [Home.v]: [src/app/(tabs)/index.tsx]: [loadData] with its five
      queries, the balances, gold, plan and earnings cards and the demo
      account switcher.
    - [Transactions.v]: [src/app/(tabs)/transactions.tsx]: the payment
      list and the monthly schedule loop.
    - [PlansTab.v]: the screen half of [src/app/(tabs)/plans.tsx]: its
      state, mount loaders, confirmation alerts (kept as the open
      dialog), the handlers around [Ledger.makePayment] and
      [Ledger.subscribeToPlan], the plan cards and the progress view;
      [plans_step] is a run of the tab (mount or any press).
    - [MockScreens.v]: the demonstration screens of the tab group
      ([planScreen], [myActivityPlan], [planDetail], [option], [wallet],
      [dummy]), which show hard-coded data and touch no table.
    - [Navigation.v]: the profile tab ([profile.tsx]) over
      [AuthContext], and the routes: [index.tsx], the two layouts, the
      reading of pushed paths, and the navigation relation [nav] whose
      edges are the effects of the modelled handlers and the tab bar.

    ** What the theorems show

    - Ledger: every branch of [makePayment] (monthly, final with bonus,
      schedule complete, each failing write); the invariant of reachable
      stores ([total_paid] is the sum of the payments, months [1..k],
      bonus iff complete, gold equals holdings); and the refinement of the
      spec's contract.  It also proves the lost update under a stale
      snapshot, and that no subscription ever leaves [active].
    - Razorpay: a 200 answer implies every check passed.  The same
      payment replayed is credited twice.  A failed transaction insert is
      swallowed.  The order amount is at least 100 paise and within half
      a paisa of the request.  The hex digest round-trips, and comparing
      digests is comparing MACs.
    - Auth and registration: the login screen accepts only a hard-coded
      pair, even for registered users.  A session restores after
      sign-in.  The successful registration writes the specified rows,
      and each failure path of [handleRegister] leaves the described
      state (orphaned auth user, empty phone, broken referral lookup,
      missing wallet).  The referral code lies in [REF100000..999999].
    - Accounts and KYC: a foreign saved account id selects nothing.  A
      switch persists on the web.  The ten-account cap holds.  The
      screen offers exactly the described actions.  KYC updates any
      account by id, and no operation ever verifies an account (rule
      induction).
    - The account table (composition): along any interleaving of the
      four writers the table stays well formed and capped, rows name
      existing accounts, and accounts keep owner and number.  While no
      row insert is lost, every balance equals the sum of its top-up
      rows.  The dashboard's Total Invested never changes, because no
      writer adds an [investment] row.  A KYC submission and a payment
      verification commute, even on one account: same response, same
      final store.
    - Tree and referrals: the tree walk over the shared objects terminates
      (levels strictly increase along edges).  The tree misplaces
      members of a second branch.  The referral totals count exactly
      levels 1..10 with failed queries as zero.  A missing payer
      profile breaks the render.
    - Admin: withdrawal updates are unguarded and move no money; the user
      list never shows a phone number.
    - Home: composed with the ledger invariant, the home tab of any
      reachable store shows a [total_paid] equal to the sum of the
      monthly payments and a gold balance equal to the holdings; its
      commission total differs from the referrals tab's by exactly the
      commissions outside levels 1..10.
    - Transactions: in any reachable store the schedule has one cell per
      month, paid exactly up to the number of monthly payments, and the
      paid cells add up to [total_paid]; a failed payments query shows
      every month pending without an error.
    - Demonstration screens and navigation: the installment screen the
      plan cards open confirms a "payment" of any non-numeric amount
      ([Number] gives [NaN]); every tab is reachable from the start
      screen (reachability in the [nav] relation); "Go to Referral
      History" opens a blank screen; every path a modelled screen
      pushes or replaces, in any environment, names a route file of
      [src/app] ([links_resolve]).
    - Plans tab: no run of the tab ever inserts a subscription (rule
      induction over [plans_step], with the [st_preserves] combinators
      of this file); in any reachable store the tab offers "Pay Month"
      exactly while months remain and shows the completion banner
      exactly when the bonus payment exists.
    - Wallet: credits keep [total_balance] consistent; debit fails
      exactly on insufficient balance.

    ** Numbers, bounds and fuel

    JavaScript numbers are exact rationals [Q]; floating-point rounding is
    not modelled (the spec allows "rounding tolerance"), and [Math.round]
    is [floor (x + 1/2)].  Counts and month numbers are [nat].  Digit
    printing uses fuel [S (N.size n)], which [Format.fuel_enough] shows is
    more than the number of digits.  The tree walk uses fuel one more
    than the deepest level, which [Tree.tree_walk_terminates] shows is
    never exhausted.  Dates are kept as the strings the code formats, or
    as their order only (rate dates, creation ranks).  Tables whose order
    matters are lists in insertion order; keyed tables are [gmap]s.

    ** Not modelled

    Styles, icons, status colours and animations: they are about 45% of
    the source lines ([StyleSheet.create] objects and style props) and
    the [Node] tree leaves them out, so the map stops at the logic and
    the JSX structure; the session storage wrapper of
    [AuthContext]; the delays of timers (a callback is an action); the
    clipboard; the stack history of the
    router ([router.back]); which of [src/app/index.tsx] and the home
    tab the bare path ["/"] opens ([Navigation.route_of_path] reads it
    as the start screen).  Backend code that
    is not in the repository (the account-number procedure, the
    ten-account trigger, the referral-commission cascade) appears only
    through the behaviour the client code expects of it; the spec's
    commission engine is not modelled.  HMAC-SHA256, base64 ([btoa]) and
    UTF-8 beyond ASCII are not modelled.  PROJECT.json lists every
    component with its status. *)

From stdpp Require Export base gmap strings list.
From Stdlib Require Export QArith Qround Lqa.

Declare Scope asj_scope.
Delimit Scope asj_scope with asj.

(** ** A state and exception monad

    The screens call Supabase one request after another and [throw] on
    some errors.  A throw aborts the rest of the handler, but the writes
    already made stay in the database.  [ST S E A] makes this explicit:
    the state is threaded through a [Throw] too. *)

Inductive exc (E A : Type) : Type :=
| Ret (a : A)
| Throw (e : E).
Arguments Ret {E A} a.
Arguments Throw {E A} e.

Definition ST (S E A : Type) : Type := S -> exc E A * S.

Definition st_ret {S E A} (a : A) : ST S E A := fun s => (Ret a, s).

Definition st_bind {S E A B} (m : ST S E A) (k : A -> ST S E B) : ST S E B :=
  fun s =>
    match m s with
    | (Ret a, s') => k a s'
    | (Throw e, s') => (Throw e, s')
    end.

Definition st_throw {S E A} (e : E) : ST S E A := fun s => (Throw e, s).
Definition st_get {S E} : ST S E S := fun s => (Ret s, s).
Definition st_put {S E} (s : S) : ST S E unit := fun _ => (Ret tt, s).
Definition st_modify {S E} (f : S -> S) : ST S E unit := fun s => (Ret tt, f s).

Notation "x <- m ;; k" := (st_bind m (fun x => k))
  (at level 100, m at next level, right associativity) : asj_scope.
Notation "m ;; k" := (st_bind m (fun _ => k))
  (at level 100, right associativity) : asj_scope.

(** Running a computation: the final state and the result. *)
Definition st_state {S E A} (m : ST S E A) (s : S) : S := snd (m s).
Definition st_result {S E A} (m : ST S E A) (s : S) : exc E A := fst (m s).

(** ** Fault oracles

    A fault oracle says, for each write of a handler, whether the backend
    answers it with an error.  [no_faults] is a run in which every request
    succeeds. *)
Definition Faults (W : Type) : Type := W -> bool.
Definition no_faults {W} : Faults W := fun _ => false.

(** ** Sums of rationals: the [reduce((sum, x) => sum + x, 0)] of the code *)

Fixpoint sumQ {A} (f : A -> Q) (l : list A) : Q :=
  match l with
  | [] => 0
  | x :: l' => f x + sumQ f l'
  end.

Notation "'Σ' f '@' l" := (sumQ f l) (at level 35, f at level 0) : asj_scope.

(** The code folds from the left; the sum is the same. *)
Definition fold_sumQ {A} (f : A -> Q) (l : list A) : Q :=
  fold_left (fun acc x => acc + f x) l 0.

(** ** JavaScript number idioms *)

(** [x || d] on a number that may be missing: [0] (and a missing value)
    is falsy and yields the default. *)
Definition js_or (o : option Q) (d : Q) : Q :=
  match o with
  | Some x => if Qeq_bool x 0 then d else x
  | None => d
  end.

(** [Math.round]: round half up, [floor (x + 1/2)]. *)
Definition js_round (x : Q) : Z := Qfloor (x + (1 # 2)).

(** ** Laws and lemmas *)

Section MonadLaws.
Context {S E : Type}.

Lemma st_bind_ret_l {A B} (a : A) (k : A -> ST S E B) s :
  st_bind (st_ret a) k s = k a s.
Proof. reflexivity. Qed.

Lemma st_bind_ret_r {A} (m : ST S E A) s : st_bind m st_ret s = m s.
Proof. unfold st_bind. by destruct (m s) as [[] ?]. Qed.

Lemma st_bind_assoc {A B C} (m : ST S E A) (k : A -> ST S E B)
      (h : B -> ST S E C) s :
  st_bind (st_bind m k) h s = st_bind m (fun a => st_bind (k a) h) s.
Proof. unfold st_bind. destruct (m s) as [[] ?]; reflexivity. Qed.

Lemma st_bind_throw {A B} (e : E) (k : A -> ST S E B) s :
  st_bind (st_throw e) k s = (Throw e, s).
Proof. reflexivity. Qed.

(** A computation that throws after [m] keeps [m]'s writes. *)
Lemma st_bind_Throw {A B} (m : ST S E A) (k : A -> ST S E B) s e s' :
  m s = (Throw e, s') -> st_bind m k s = (Throw e, s').
Proof. intros H. unfold st_bind. by rewrite H. Qed.

Lemma st_bind_Ret {A B} (m : ST S E A) (k : A -> ST S E B) s a s' :
  m s = (Ret a, s') -> st_bind m k s = k a s'.
Proof. intros H. unfold st_bind. by rewrite H. Qed.

(** A computation preserves [P] when every run from a state satisfying
    [P] ends, returning or throwing, in one satisfying [P]. *)
Definition st_preserves {A} (P : S -> Prop) (m : ST S E A) : Prop :=
  forall s, P s -> P (snd (m s)).

Lemma st_preserves_ret {A} P (a : A) : st_preserves P (st_ret a).
Proof. by intros s. Qed.

Lemma st_preserves_throw {A} P (e : E) : st_preserves P (st_throw (A:=A) e).
Proof. by intros s. Qed.

Lemma st_preserves_get P : st_preserves P st_get.
Proof. by intros s. Qed.

Lemma st_preserves_modify P f : (forall s, P s -> P (f s)) -> st_preserves P (st_modify f).
Proof. intros Hf s. apply Hf. Qed.

Lemma st_preserves_bind {A B} P (m : ST S E A) (k : A -> ST S E B) :
  st_preserves P m -> (forall a, st_preserves P (k a)) -> st_preserves P (st_bind m k).
Proof.
  intros Hm Hk s Hs. unfold st_bind. specialize (Hm s Hs).
  destruct (m s) as [[a|e] s']; [by apply Hk|done].
Qed.
End MonadLaws.

(** Split a preservation goal along the program's binds and branches. *)
Ltac st_preserves_split :=
  repeat match goal with
  | |- st_preserves _ (st_bind _ _) => apply st_preserves_bind; [|intros ?]
  | |- st_preserves _ (st_ret _) => apply st_preserves_ret
  | |- st_preserves _ (st_throw _) => apply st_preserves_throw
  | |- st_preserves _ st_get => apply st_preserves_get
  | |- st_preserves _ (if ?b then _ else _) => destruct b
  | |- st_preserves _ (match ?x with _ => _ end) => destruct x
  end.

Section SumQ.
Context {A : Type}.
Implicit Types (f g : A -> Q) (l : list A).

Lemma sumQ_app f l1 l2 : sumQ f (l1 ++ l2) == sumQ f l1 + sumQ f l2.
Proof. induction l1 as [|x l1 IH]; simpl; [lra|]. rewrite IH. lra. Qed.

Lemma sumQ_snoc f l x : sumQ f (l ++ [x]) == sumQ f l + f x.
Proof. rewrite sumQ_app. simpl. lra. Qed.

Lemma sumQ_ext f g l : (forall x, x ∈ l -> f x == g x) -> sumQ f l == sumQ g l.
Proof.
  induction l as [|x l IH]; intros H; simpl; [reflexivity|].
  rewrite (H x) by set_solver. rewrite IH by set_solver. reflexivity.
Qed.

(** A sum of equal terms. *)
Lemma sumQ_const f l c :
  (forall x, x ∈ l -> f x == c) -> sumQ f l == inject_Z (Z.of_nat (length l)) * c.
Proof.
  induction l as [|x l IH]; intros H; cbn [sumQ length]; [reflexivity|].
  rewrite (H x), IH by set_solver.
  rewrite Nat2Z.inj_succ, <- Z.add_1_r, inject_Z_plus. ring.
Qed.

Lemma sumQ_nonneg f l : (forall x, x ∈ l -> 0 <= f x) -> 0 <= sumQ f l.
Proof.
  induction l as [|x l IH]; intros H; simpl; [lra|].
  pose proof (H x ltac:(set_solver)). pose proof (IH ltac:(set_solver)). lra.
Qed.

Lemma sumQ_filter_zero (P : A -> bool) f l :
  (forall x, x ∈ l -> P x = false -> f x == 0) ->
  sumQ f (List.filter P l) == sumQ f l.
Proof.
  induction l as [|x l IH]; intros H; simpl; [reflexivity|].
  destruct (P x) eqn:HP; simpl.
  - rewrite IH by set_solver. reflexivity.
  - rewrite (H x) by set_solver. rewrite IH by set_solver. lra.
Qed.

Lemma fold_sumQ_acc f l acc :
  fold_left (fun acc x => acc + f x) l acc == acc + sumQ f l.
Proof.
  revert acc. induction l as [|x l IH]; intros acc; simpl; [lra|].
  rewrite IH. lra.
Qed.

Lemma fold_sumQ_sumQ f l : fold_sumQ f l == sumQ f l.
Proof. unfold fold_sumQ. rewrite fold_sumQ_acc. lra. Qed.
End SumQ.

#[export] Instance sumQ_proper {A} :
  Proper (pointwise_relation A Qeq ==> eq ==> Qeq) (@sumQ A).
Proof.
  intros f g Hfg l ? <-. apply sumQ_ext. intros x _. apply Hfg.
Qed.

(** ** Lists *)

Lemma NoDup_map_filter {A B} (f : A -> B) (P : A -> bool) (l : list A) :
  NoDup (map f l) -> NoDup (map f (List.filter P l)).
Proof.
  induction l as [|x l IH]; simpl; [done|]. intros Hnd.
  apply NoDup_cons in Hnd as [Hx Hnd]. destruct (P x); simpl; [|by apply IH].
  constructor; [|by apply IH]. intros Hin. apply Hx.
  apply list_elem_of_In in Hin. apply list_elem_of_In.
  apply in_map_iff in Hin as (y & <- & Hy). apply filter_In in Hy as [Hy _].
  by apply in_map.
Qed.

(** A loop that pushes [f i] for each [i]. *)
Lemma foldl_snoc_map {A B} (f : A -> B) (l : list A) acc :
  foldl (fun acc i => acc ++ [f i]) acc l = acc ++ map f l.
Proof.
  revert acc. induction l as [|x l IH]; intros acc; simpl; [by rewrite app_nil_r|].
  by rewrite IH, <- app_assoc.
Qed.

Lemma filter_none {A} (P : A -> bool) (l : list A) :
  (forall x, In x l -> P x = false) -> List.filter P l = [].
Proof.
  induction l as [|x l IH]; intros H; simpl; [done|].
  rewrite (H x) by (left; done). apply IH. intros y Hy. apply H. by right.
Qed.

(** ** Maps *)

Lemma map_Forall_alter_2 {K A} `{Countable K} (P : K -> A -> Prop) (f : A -> A) i
      (m : gmap K A) :
  map_Forall P m -> (forall x, m !! i = Some x -> P i (f x)) -> map_Forall P (alter f i m).
Proof.
  intros Hm Hf j y. rewrite lookup_alter_Some.
  intros [(<- & x & Hx & ->)|(_ & Hy)]; [by apply Hf | by apply Hm].
Qed.

Lemma js_or_some_zero x : js_or (Some x) 0 == x.
Proof.
  unfold js_or. destruct (Qeq_bool x 0) eqn:E; [|reflexivity].
  apply Qeq_bool_eq in E. by rewrite E.
Qed.

Lemma js_or_pos o d :
  0 < d -> (forall x, o = Some x -> 0 <= x) -> 0 < js_or o d.
Proof.
  intros Hd Ho. destruct o as [x|]; simpl; [|done].
  destruct (Qeq_bool x 0) eqn:E; [done|].
  apply Qeq_bool_neq in E. pose proof (Ho x eq_refl).
  apply Qle_lt_or_eq in H as [H|H]; [done|]. exfalso. apply E. by symmetry.
Qed.

Lemma js_round_bounds x :
  x - (1 # 2) < inject_Z (js_round x) /\ inject_Z (js_round x) <= x + (1 # 2).
Proof.
  unfold js_round. split.
  - pose proof (Qlt_floor (x + (1 # 2))) as H.
    rewrite inject_Z_plus in H. unfold inject_Z at 2 in H. lra.
  - apply Qfloor_le.
Qed.

(** ** Proof automation shared by the components *)

Create HintDb asj discriminated.
#[export] Hint Resolve sumQ_nonneg Qle_refl : asj.
Create Rewrite HintDb asj_rw.
#[export] Hint Rewrite @st_bind_ret_l @st_bind_throw : asj_rw.

(** Case on the first [if] or [match] on a boolean test in the goal. *)
Tactic Notation "case_if" :=
  match goal with
  | |- context [if ?b then _ else _] => destruct b eqn:?
  | H : context [if ?b then _ else _] |- _ => destruct b eqn:?
  end.

Tactic Notation "case_if" "as" ident(E) :=
  match goal with
  | |- context [if ?b then _ else _] => destruct b eqn:E
  | H : context [if ?b then _ else _] |- _ => destruct b eqn:E
  end.

(** Invert a hypothesis and clean up. *)
Ltac invc H := inversion H; subst; clear H.
