(* ===== verification/Format.v ===== *)
(** * The JavaScript number and string built-ins the code relies on

    Screens print amounts with [Number.prototype.toFixed], the Razorpay
    verifier prints the HMAC with [toString(16)] and [padStart(2, '0')],
    and the forms clean their input with [trim], [toUpperCase] and
    [replace(/\D/g, '')].  This file gives each built-in an executable
    definition on [string] (ASCII characters) and on exact numbers, and
    proves what the callers rely on: printing a natural number in base
    [b] and parsing it back is the identity, [toFixed d x] denotes a
    number within [1 / (2 * 10^d)] of [x], and a cleaned phone number
    holds only digits.

    Numbers are exact: [toFixed] rounds the exact rational, where the
    engine rounds the nearest double.  Strings are ASCII: the inputs
    these functions see in the app (ids, digits, PAN letters) are. *)

From S2P Require Import Prelude.
From Stdlib Require Import Ascii Qabs.

Module Format.

Local Open Scope N_scope.

(** ** Digits of a natural number in base [b] *)

(** Least significant digit first; [fuel] bounds the number of digits. *)
Fixpoint digits_rev (b : N) (fuel : nat) (n : N) : list N :=
  match fuel with
  | O => []
  | S f => (n mod b) :: (if n <? b then [] else digits_rev b f (n / b))
  end.

Fixpoint value_rev (b : N) (l : list N) : N :=
  match l with
  | [] => 0
  | d :: l' => d + b * value_rev b l'
  end.

(** [0-9a-z], lower case, as [Number.prototype.toString(radix)] prints. *)
Definition digit_char (d : N) : ascii :=
  if d <? 10 then ascii_of_N (48 + d) else ascii_of_N (87 + d).

Definition char_value (c : ascii) : option N :=
  let n := N_of_ascii c in
  if (48 <=? n) && (n <=? 57) then Some (n - 48)
  else if (97 <=? n) && (n <=? 122) then Some (n - 87) else None.

(** One step of reading a digit of base [b]. *)
Definition digit_step (b : N) (acc : option N) (c : ascii) : option N :=
  match acc, char_value c with
  | Some a, Some d => if d <? b then Some (b * a + d) else None
  | _, _ => None
  end.

Definition parse_chars (b : N) (l : list ascii) : option N :=
  match l with
  | [] => None
  | _ => foldl (digit_step b) (Some 0) l
  end.

(** Reading digits of base [b], most significant first. *)
Definition parse_base (b : N) (s : string) : option N :=
  parse_chars b (String.list_ascii_of_string s).

(** [s.padStart(n, c)] with a one-character pad. *)
Definition pad_chars (n : nat) (c : ascii) (l : list ascii) : list ascii :=
  replicate (n - length l) c ++ l.

Definition padStart (n : nat) (c : ascii) (s : string) : string :=
  String.string_of_list_ascii (pad_chars n c (String.list_ascii_of_string s)).

(** ** Fixed-point printing: [x.toFixed(d)] *)

(** The integer [n] with [n / 10^d - x] closest to zero, the larger one on
    a tie: [floor (x * 10^d + 1/2)] for [x >= 0]. *)
Definition scaled_round (d : nat) (x : Q) : N :=
  Z.to_N (Qfloor (x * inject_Z (10 ^ Z.of_nat d) + (1 # 2))%Q).

Definition base_chars (b n : N) : list ascii :=
  map digit_char (rev (digits_rev b (S (N.to_nat (N.size n))) n)).

(** [n.toString(b)]. *)
Definition to_base (b n : N) : string := String.string_of_list_ascii (base_chars b n).

(** The digits of [n] with a decimal point before the last [d] of them,
    padded with zeros to at least [d + 1] digits. *)
Definition point_chars (d : nat) (n : N) : list ascii :=
  let l := pad_chars (S d) "0" (base_chars 10 n) in
  match d with
  | O => l
  | _ => take (length l - d) l ++ "."%char :: drop (length l - d) l
  end.

(** [toFixed]: a negative number prints as [-] followed by its absolute
    value (so [(-0.001).toFixed(2)] is ["-0.00"]). *)
Definition toFixed (d : nat) (x : Q) : string :=
  String.string_of_list_ascii
    (if negb (Qle_bool 0 x) then "-"%char :: point_chars d (scaled_round d (Qopp x))
     else point_chars d (scaled_round d x)).

(** The number a fixed-point string with [d] decimals denotes: optional
    [-], digits, and (when [d > 0]) [.] followed by [d] digits. *)
Definition parse_point (d : nat) (l : list ascii) : option Q :=
  match d with
  | O => (fun n => inject_Z (Z.of_N n)) <$> parse_chars 10 l
  | _ =>
      let k := (length l - d - 1)%nat in
      match drop k l with
      | "."%char :: rest =>
          n1 ← parse_chars 10 (take k l);
          n2 ← parse_chars 10 rest;
          if bool_decide (length rest = d) then
            Some (inject_Z (Z.of_N (n1 * 10 ^ N.of_nat d + n2)) / inject_Z (10 ^ Z.of_nat d))%Q
          else None
      | _ => None
      end
  end.

Definition parse_fixed (d : nat) (s : string) : option Q :=
  match String.list_ascii_of_string s with
  | c :: l => if Ascii.eqb c "-" then Qopp <$> parse_point d l else parse_point d (c :: l)
  | [] => None
  end.

(** ** String clean-up *)

(** [s.trim()] on ASCII white space. *)
Definition trim (s : string) : string :=
  let drop := fix drop (l : list ascii) :=
    match l with c :: l' => if stdpp.strings.Ascii.is_space c then drop l' else l | [] => [] end in
  String.string_of_list_ascii
    (rev (drop (rev (drop (String.list_ascii_of_string s))))).

Definition is_digit (c : ascii) : bool :=
  let n := N_of_ascii c in (48 <=? n) && (n <=? 57).

(** [s.replace(/\D/g, '')] (and [/\D+/g], which removes the same). *)
Definition strip_non_digits (s : string) : string :=
  String.string_of_list_ascii (filter is_digit (String.list_ascii_of_string s)).

(** [s.toUpperCase()] on ASCII letters. *)
Definition to_upper_char (c : ascii) : ascii :=
  let n := N_of_ascii c in
  if (97 <=? n) && (n <=? 122) then ascii_of_N (n - 32) else c.

Definition toUpperCase (s : string) : string :=
  String.string_of_list_ascii (map to_upper_char (String.list_ascii_of_string s)).

(** [s.toLowerCase()] on ASCII letters. *)
Definition to_lower_char (c : ascii) : ascii :=
  let n := N_of_ascii c in
  if (65 <=? n) && (n <=? 90) then ascii_of_N (n + 32) else c.

Definition toLowerCase (s : string) : string :=
  String.string_of_list_ascii (map to_lower_char (String.list_ascii_of_string s)).

(** [s.includes(needle)]. *)
Fixpoint chars_prefix (p l : list ascii) : bool :=
  match p, l with
  | [], _ => true
  | c :: p', d :: l' => Ascii.eqb c d && chars_prefix p' l'
  | _ :: _, [] => false
  end.

Fixpoint chars_contain (p l : list ascii) : bool :=
  chars_prefix p l || match l with [] => false | _ :: l' => chars_contain p l' end.

Definition includes (hay needle : string) : bool :=
  chars_contain (String.list_ascii_of_string needle) (String.list_ascii_of_string hay).

(** Fresh keys for generated ids: [pre] followed by a number. *)
Definition fresh_key (pre : string) (n : nat) : string := pre +:+ to_base 10 (N.of_nat n).

(** [s.slice(0, k)]: the first [k] characters, or all of a shorter string. *)
Definition slice_first (k : nat) (s : string) : string :=
  String.string_of_list_ascii (take k (String.list_ascii_of_string s)).

(** [s.slice(-k)]: the last [k] characters, or all of a shorter string. *)
Definition slice_last (k : nat) (s : string) : string :=
  let l := String.list_ascii_of_string s in String.string_of_list_ascii (drop (length l - k) l).

(** ** Printing and reading numbers *)

Ltac nbool :=
  repeat match goal with
         | |- context [(?a <=? ?b)] => destruct (N.leb_spec a b)
         | |- context [(?a <? ?b)] => destruct (N.ltb_spec a b)
         end; simpl; try (exfalso; lia).

Lemma digits_rev_value b fuel n :
  2 <= b -> n < b ^ N.of_nat fuel -> value_rev b (digits_rev b fuel n) = n.
Proof.
  intros Hb. revert n. induction fuel as [|f IH]; intros n Hn; simpl.
  - simpl in Hn. lia.
  - destruct (N.ltb_spec n b); simpl.
    + rewrite N.mod_small by lia. lia.
    + rewrite IH.
      * pose proof (N.div_mod n b ltac:(lia)). lia.
      * apply N.Div0.div_lt_upper_bound.
        rewrite Nat2N.inj_succ, N.pow_succ_r' in Hn. lia.
Qed.

Lemma fuel_enough b n : 2 <= b -> n < b ^ N.of_nat (S (N.to_nat (N.size n))).
Proof.
  intros Hb. rewrite Nat2N.inj_succ, N2Nat.id, N.pow_succ_r'.
  pose proof (N.size_gt n) as Hs.
  assert (2 ^ N.size n <= b ^ N.size n) by (apply N.pow_le_mono_l; lia).
  set (P := b ^ N.size n) in *. nia.
Qed.

Lemma digits_rev_lt b fuel n : 0 < b -> Forall (fun d => d < b) (digits_rev b fuel n).
Proof.
  intros Hb. revert n. induction fuel as [|f IH]; intros n; simpl; [done|].
  constructor; [apply N.mod_lt; lia|]. case_if; auto.
Qed.

Lemma char_value_digit_char d : d < 36 -> char_value (digit_char d) = Some d.
Proof.
  intros Hd. unfold digit_char, char_value.
  destruct (N.ltb_spec d 10); rewrite N_ascii_embedding by lia; nbool; f_equal; lia.
Qed.

Lemma foldl_digit_step_None b l : foldl (digit_step b) None l = None.
Proof. induction l; simpl; auto. Qed.

(** Reading more digits after a prefix worth [a]: the prefix shifts. *)
Lemma foldl_digit_step_shift b a l :
  foldl (digit_step b) (Some a) l =
  (fun v => a * b ^ N.of_nat (length l) + v) <$> foldl (digit_step b) (Some 0) l.
Proof.
  revert a. induction l as [|c l IH]; intros a; simpl; [f_equal; lia|].
  destruct (char_value c) as [v|]; [|by rewrite !foldl_digit_step_None].
  destruct (v <? b); [|by rewrite !foldl_digit_step_None].
  rewrite IH, (IH (b * 0 + v)). destruct (foldl _ (Some 0) l); simpl; [|done].
  f_equal. rewrite Nat2N.inj_succ, N.pow_succ_r'. ring.
Qed.

Lemma foldl_digits b ds :
  0 < b <= 36 -> Forall (fun d => d < b) ds ->
  foldl (digit_step b) (Some 0) (map digit_char (rev ds)) = Some (value_rev b ds).
Proof.
  intros Hb. induction ds as [|d ds IH]; intros Hf; simpl; [done|].
  apply Forall_cons in Hf as [Hd Hf].
  rewrite map_app, foldl_app, IH by done. simpl. unfold digit_step.
  rewrite char_value_digit_char by lia. nbool. f_equal. lia.
Qed.

Lemma base_chars_length b n : length (base_chars b n) <> 0%nat.
Proof. unfold base_chars. rewrite length_map, length_rev. simpl. lia. Qed.

Lemma parse_chars_foldl b l :
  l <> [] -> parse_chars b l = foldl (digit_step b) (Some 0) l.
Proof. by destruct l. Qed.

Lemma parse_base_chars b n : 2 <= b <= 36 -> parse_chars b (base_chars b n) = Some n.
Proof.
  intros Hb. rewrite parse_chars_foldl
    by (intros E; apply (base_chars_length b n); by rewrite E).
  unfold base_chars. rewrite foldl_digits; [| lia | apply digits_rev_lt; lia].
  f_equal. apply digits_rev_value; [lia|]. apply fuel_enough; lia.
Qed.

(** ** Fixed-point strings *)

Definition digit_ok (b : N) (c : ascii) : Prop := exists v, char_value c = Some v /\ v < b.

Lemma base_chars_digits b n : 0 < b <= 36 -> Forall (digit_ok b) (base_chars b n).
Proof.
  intros Hb. unfold base_chars. apply Forall_map, Forall_rev.
  eapply Forall_impl; [apply digits_rev_lt; lia|]. intros d Hd. cbv beta in Hd.
  exists d. split; [apply char_value_digit_char|]; lia.
Qed.

Lemma pad_chars_digits k l : Forall (digit_ok 10) l -> Forall (digit_ok 10) (pad_chars k "0" l).
Proof.
  intros Hl. apply Forall_app; split; [|done].
  apply Forall_replicate. exists 0. split; [reflexivity | lia].
Qed.

Lemma foldl_digits_Some b a l :
  Forall (digit_ok b) l -> exists v, foldl (digit_step b) (Some a) l = Some v.
Proof.
  revert a. induction l as [|c l IH]; intros a Hl; simpl; [eauto|].
  apply Forall_cons in Hl as [(v & Hv & Hvb) Hl]. rewrite Hv.
  destruct (N.ltb_spec v b); [by apply IH | lia].
Qed.

Lemma foldl_zeros b k :
  0 < b -> foldl (digit_step b) (Some 0) (replicate k "0"%char) = Some 0.
Proof.
  intros Hb. assert (E : digit_step b (Some 0) "0"%char = Some 0).
  { unfold digit_step. change (char_value "0"%char) with (Some 0).
    cbv beta iota. rewrite (proj2 (N.ltb_lt 0 b) Hb). f_equal. lia. }
  induction k as [|k IH]; [done|]. cbn [replicate foldl]. by rewrite E.
Qed.

(** [n.toString(b).padStart(k, '0')] reads back as [n]. *)
Lemma parse_pad_chars b k n :
  2 <= b <= 36 -> foldl (digit_step b) (Some 0) (pad_chars k "0" (base_chars b n)) = Some n.
Proof.
  intros Hb. unfold pad_chars. rewrite foldl_app, foldl_zeros by lia. rewrite <- parse_chars_foldl.
  - by apply parse_base_chars.
  - intros E. apply (base_chars_length b n). by rewrite E.
Qed.

Lemma pad_chars_length k l : (k <= length (pad_chars k "0" l))%nat.
Proof. unfold pad_chars. rewrite length_app, length_replicate. lia. Qed.

(** Splitting a digit string: the prefix is worth [v1], the suffix [v2],
    and the whole [v1 * b ^ |suffix| + v2]. *)
Lemma parse_split b l1 l2 n :
  l1 <> [] -> l2 <> [] -> Forall (digit_ok b) (l1 ++ l2) ->
  foldl (digit_step b) (Some 0) (l1 ++ l2) = Some n ->
  exists v1 v2, parse_chars b l1 = Some v1 /\ parse_chars b l2 = Some v2 /\
                n = v1 * b ^ N.of_nat (length l2) + v2.
Proof.
  intros H1 H2 Hd Hn. apply Forall_app in Hd as [Hd1 Hd2].
  destruct (foldl_digits_Some b 0 l1 Hd1) as [v1 Hv1].
  destruct (foldl_digits_Some b 0 l2 Hd2) as [v2 Hv2].
  exists v1, v2. rewrite !parse_chars_foldl by done. split; [done|]. split; [done|].
  rewrite foldl_app, Hv1, foldl_digit_step_shift, Hv2 in Hn. simpl in Hn. congruence.
Qed.

Lemma parse_point_chars d n :
  exists q, parse_point d (point_chars d n) = Some q /\
            q == inject_Z (Z.of_N n) / inject_Z (10 ^ Z.of_nat d).
Proof.
  pose proof (parse_pad_chars 10 (S d) n ltac:(lia)) as Hn.
  pose proof (pad_chars_length (S d) (base_chars 10 n)) as HL.
  pose proof (pad_chars_digits (S d) _ (base_chars_digits 10 n ltac:(lia))) as Hdig.
  unfold point_chars, parse_point. set (l := pad_chars (S d) "0" (base_chars 10 n)) in *.
  destruct d as [|d'].
  - rewrite parse_chars_foldl, Hn by (intros E; rewrite E in HL; simpl in HL; lia).
    eexists. split; [reflexivity|]. unfold Qdiv.
    change (Qinv (inject_Z (10 ^ Z.of_nat 0))) with 1%Q. ring.
  - set (k := (length l - S d')%nat).
    assert (Hk : (k + S d' = length l)%nat) by (unfold k; lia).
    rewrite <- (take_drop k l) in Hn, Hdig.
    destruct (parse_split 10 (take k l) (drop k l) n) as (v1 & v2 & E1 & E2 & Ev);
      [ intros E; apply (f_equal length) in E; rewrite length_take in E; simpl in E; lia
      | intros E; apply (f_equal length) in E; rewrite length_drop in E; simpl in E; lia
      | done | done | ].
    rewrite length_app, length_take, (Nat.min_l k) by lia. simpl.
    replace (k + S (length (drop k l)) - S d' - 1)%nat with k
      by (rewrite length_drop; lia).
    rewrite drop_app_length' by (rewrite length_take_le; lia).
    rewrite take_app_length' by (rewrite length_take_le; lia).
    rewrite E1, E2. simpl. rewrite bool_decide_true by (rewrite length_drop; lia).
    eexists. split; [reflexivity|]. rewrite Ev, length_drop.
    replace (length l - k)%nat with (S d') by lia. reflexivity.
Qed.

Lemma inject_Z_pow10_pos d : (0 < inject_Z (10 ^ Z.of_nat d))%Q.
Proof.
  change 0%Q with (inject_Z 0). rewrite <- Zlt_Qlt. apply Z.pow_pos_nonneg; lia.
Qed.

(** [|a| * t = |a * t|] for [t > 0]. *)
Lemma Qabs_mult_pos a t : (0 < t)%Q -> (Qabs a * t == Qabs (a * t))%Q.
Proof. intros Ht. rewrite Qabs_Qmult, (Qabs_pos t) by lra. reflexivity. Qed.

(** The number [toFixed] prints for [x >= 0] is within half a unit of
    the last decimal. *)
Lemma scaled_round_close d x :
  (0 <= x)%Q ->
  (Qabs (inject_Z (Z.of_N (scaled_round d x)) / inject_Z (10 ^ Z.of_nat d) - x)
     * inject_Z (10 ^ Z.of_nat d) <= 1 # 2)%Q.
Proof.
  intros Hx. pose proof (inject_Z_pow10_pos d) as HT. unfold scaled_round.
  set (T := inject_Z (10 ^ Z.of_nat d)) in *.
  assert (HxT : (0 <= x * T)%Q) by (apply Qmult_le_0_compat; lra).
  pose proof (Qfloor_le (x * T + (1 # 2))) as Hle.
  pose proof (Qlt_floor (x * T + (1 # 2))) as Hlt.
  set (f := Qfloor (x * T + (1 # 2))) in *.
  rewrite inject_Z_plus in Hlt. change (inject_Z 1) with 1%Q in Hlt.
  assert (Hf : (0 <= f)%Z).
  { destruct (Z_lt_le_dec f 0) as [Hneg|]; [exfalso|done].
    assert (inject_Z f <= inject_Z (-1))%Q by (rewrite <- Zle_Qle; lia).
    change (inject_Z (-1)) with (-1)%Q in *. lra. }
  rewrite Z2N.id by done. rewrite Qabs_mult_pos by done.
  setoid_replace ((inject_Z f / T - x) * T)%Q with (inject_Z f - x * T)%Q
    using relation Qeq by (field; lra).
  apply Qabs_Qle_condition. lra.
Qed.

Lemma point_chars_head d n :
  exists c rest, point_chars d n = c :: rest /\ Ascii.eqb c "-" = false.
Proof.
  pose proof (pad_chars_length (S d) (base_chars 10 n)) as HL.
  pose proof (pad_chars_digits (S d) _ (base_chars_digits 10 n ltac:(lia))) as Hdig.
  unfold point_chars. remember (pad_chars (S d) "0" (base_chars 10 n)) as l eqn:El.
  destruct l as [|c l']; [simpl in HL; lia|].
  assert (Hc : Ascii.eqb c "-" = false).
  { apply Forall_cons in Hdig as [(v & Hv & _) _]. apply Ascii.eqb_neq.
    intros ->. discriminate Hv. }
  destruct d as [|d']; [by exists c, l'|].
  simpl in HL |- *. destruct (length l' - d')%nat as [|m] eqn:Em; [lia|].
  simpl. by exists c, (take m l' ++ "."%char :: drop (S m) (c :: l')).
Qed.

(** [toFixed d x] prints a string that reads back as a number [q] with
    [|q - x| <= 1 / (2 * 10^d)]: the amounts the screens show are the
    amounts held, to the last printed decimal. *)
Theorem toFixed_parse d x :
  exists q, parse_fixed d (toFixed d x) = Some q /\
            (Qabs (q - x) * inject_Z (10 ^ Z.of_nat d) <= 1 # 2)%Q.
Proof.
  unfold toFixed, parse_fixed. rewrite String.list_ascii_of_string_of_list_ascii.
  destruct (Qle_bool 0 x) eqn:Hx; cbn [negb].
  - apply Qle_bool_iff in Hx.
    destruct (parse_point_chars d (scaled_round d x)) as (q & Hq & Eq).
    destruct (point_chars_head d (scaled_round d x)) as (c & rest & Hcr & Hc).
    rewrite Hcr, Hc, <- Hcr, Hq. exists q. split; [done|].
    setoid_rewrite Eq. by apply scaled_round_close.
  - assert (Hx' : (0 <= - x)%Q).
    { apply Qnot_lt_le. intros H. assert (0 <= x)%Q as H0 by lra.
      apply Qle_bool_iff in H0. congruence. }
    destruct (parse_point_chars d (scaled_round d (- x))) as (q & Hq & Eq).
    rewrite Hq. exists (- q)%Q. split; [done|].
    setoid_replace (- q - x)%Q with (- (q - - x))%Q using relation Qeq by ring.
    rewrite Qabs_opp. setoid_rewrite Eq. by apply scaled_round_close.
Qed.


(** ** Strings as character lists *)

Lemma length_string_of_list l : String.length (String.string_of_list_ascii l) = length l.
Proof. induction l as [|c l IH]; simpl; auto. Qed.

Lemma forallb_take {A} (f : A -> bool) n l : forallb f l = true -> forallb f (take n l) = true.
Proof.
  revert n. induction l as [|x l IH]; intros [|n] H; simpl in *; auto.
  apply andb_prop in H as [-> H]. simpl. auto.
Qed.

Lemma strip_non_digits_chars s :
  forallb is_digit (String.list_ascii_of_string (strip_non_digits s)) = true.
Proof.
  unfold strip_non_digits. rewrite String.list_ascii_of_string_of_list_ascii.
  apply forallb_forall. intros c Hc. apply list_elem_of_In, list_elem_of_filter in Hc as [Hc _].
  by apply Is_true_true_1.
Qed.

Lemma append_inj_l p s1 s2 : p +:+ s1 = p +:+ s2 -> s1 = s2.
Proof. induction p as [|c p IH]; simpl; [done|]. intros H. injection H. apply IH. Qed.

Lemma parse_to_base b n : (2 <= b <= 36)%N -> parse_base b (to_base b n) = Some n.
Proof.
  intros Hb. unfold parse_base, to_base. rewrite String.list_ascii_of_string_of_list_ascii.
  by apply parse_base_chars.
Qed.

(** Generated keys are distinct: printing in base 10 loses nothing. *)
Lemma fresh_key_inj pre n m : fresh_key pre n = fresh_key pre m -> n = m.
Proof.
  unfold fresh_key. intros H. apply append_inj_l in H.
  apply (f_equal (parse_base 10)) in H. rewrite !parse_to_base in H by lia.
  injection H. lia.
Qed.

End Format.
