(* ===== verification/JsNumber.v ===== *)
(** * JavaScript numbers where the code meets non-finite values

    [Number(s)] on a string the user typed, and divisions by a rate that
    may be [0], produce [NaN] and [Infinity], which the exact rationals
    of the rest of the development do not have.  [JsNum] adds them, with
    the comparisons and the [toFixed] the screens apply.

    [js_Number] follows the StringToNumber grammar of the language on
    ASCII input: white space around the literal is ignored, the empty
    string is [0], a decimal literal has an optional sign, digits with an
    optional fraction and an optional exponent, or is [Infinity]; the
    prefixes [0x], [0o] and [0b] read an unsigned integer in base 16, 8
    or 2; anything else is [NaN].  Values are exact: a literal too large
    for a double is kept, not rounded to [Infinity]. *)

From S2P Require Import Prelude Format.
From Stdlib Require Import Ascii.

Module JsNumber.
Import Format.

Inductive JsNum := JFin (q : Q) | JInf (positive : bool) | JNaN.

(** [x / y]. *)
Definition js_div (x y : Q) : JsNum :=
  if Qeq_bool y 0 then (if Qeq_bool x 0 then JNaN else JInf (negb (Qle_bool x 0))) else JFin (x / y).

(** Multiplication by a positive constant. *)
Definition js_scale (n : JsNum) (c : Q) : JsNum :=
  match n with JFin q => JFin (q * c) | n => n end.

(** [n < c] for a finite [c]: false on [NaN]. *)
Definition js_lt (n : JsNum) (c : Q) : bool :=
  match n with
  | JFin q => negb (Qle_bool c q)
  | JInf pos => negb pos
  | JNaN => false
  end.

(** ** [Number(s)] *)

(** The longest prefix whose characters satisfy [p], and the rest. *)
Fixpoint span (p : ascii -> bool) (l : list ascii) : list ascii * list ascii :=
  match l with
  | c :: l' => if p c then let '(a, r) := span p l' in (c :: a, r) else ([], l)
  | [] => ([], [])
  end.

Definition is_base_digit (b : N) (c : ascii) : bool :=
  match char_value (to_lower_char c) with Some v => (v <? b)%N | None => false end.

Definition digits_value (b : N) (ds : list ascii) : N :=
  match ds with [] => 0%N | _ => default 0%N (parse_chars b (map to_lower_char ds)) end.

Definition Qof_N (n : N) : Q := inject_Z (Z.of_N n).

(** The exponent part [e[+-]digits], or [None] when malformed. *)
Definition parse_exponent (l : list ascii) : option Z :=
  let '(sg, r) := match l with
                  | c :: r => if Ascii.eqb c "+" then (1%Z, r)
                              else if Ascii.eqb c "-" then ((-1)%Z, r) else (1%Z, l)
                  | [] => (1%Z, [])
                  end in
  match span (is_base_digit 10) r with
  | ([], _) => None
  | (ed, []) => Some (sg * Z.of_N (digits_value 10 ed))%Z
  | (_, _ :: _) => None
  end.

(** An unsigned decimal literal: [digits[.digits][e...]] or [.digits[e...]]. *)
Definition parse_unsigned_decimal (l : list ascii) : option Q :=
  let '(ip, r1) := span (is_base_digit 10) l in
  let '(fp, r2) := match r1 with
                   | c :: r => if Ascii.eqb c "." then span (is_base_digit 10) r else ([], r1)
                   | [] => ([], [])
                   end in
  match ip, fp with
  | [], [] => None
  | _, _ =>
      let mant := Qof_N (digits_value 10 ip) +
                  Qof_N (digits_value 10 fp) / inject_Z (10 ^ Z.of_nat (length fp)) in
      match r2 with
      | [] => Some mant
      | e :: r3 =>
          if Ascii.eqb e "e" || Ascii.eqb e "E"
          then (fun x => mant * Qpower 10 x) <$> parse_exponent r3
          else None
      end
  end.

Definition chars_of (s : string) : list ascii := String.list_ascii_of_string s.

(** A decimal literal without its sign. *)
Definition unsigned_number (l : list ascii) : JsNum :=
  if bool_decide (l = chars_of "Infinity") then JInf true else
  match parse_unsigned_decimal l with Some q => JFin q | None => JNaN end.

Definition negate (n : JsNum) : JsNum :=
  match n with JFin q => JFin (- q) | JInf p => JInf (negb p) | JNaN => JNaN end.

(** [0x], [0o], [0b]: digits of the base and nothing else. *)
Definition prefixed (b : N) (l : list ascii) : JsNum :=
  match span (is_base_digit b) l with
  | ((_ :: _) as ds, []) => JFin (Qof_N (digits_value b ds))
  | _ => JNaN
  end.

Definition radix_of (c : ascii) : option N :=
  if Ascii.eqb (to_lower_char c) "x" then Some 16%N
  else if Ascii.eqb (to_lower_char c) "o" then Some 8%N
  else if Ascii.eqb (to_lower_char c) "b" then Some 2%N else None.

Definition js_Number (s : string) : JsNum :=
  match chars_of (trim s) with
  | [] => JFin 0
  | c :: l =>
      if Ascii.eqb c "+" then unsigned_number l
      else if Ascii.eqb c "-" then negate (unsigned_number l)
      else match l with
           | r :: l' => if Ascii.eqb c "0" then
                          match radix_of r with Some b => prefixed b l' | None => unsigned_number (c :: l) end
                        else unsigned_number (c :: l)
           | [] => unsigned_number [c]
           end
  end.

(** ** Lemmas *)

Lemma digit10_cases c : digit_ok 10 c -> c ∈ ["0"; "1"; "2"; "3"; "4"; "5"; "6"; "7"; "8"; "9"]%char.
Proof.
  intros (v & Hv & Hlt). rewrite <- (ascii_N_embedding c). unfold char_value in Hv.
  remember (N_of_ascii c) as n. clear Heqn.
  destruct (N.leb_spec 48 n), (N.leb_spec n 57); simpl in Hv.
  { assert (n = 48 \/ n = 49 \/ n = 50 \/ n = 51 \/ n = 52 \/ n = 53 \/ n = 54 \/ n = 55 \/
            n = 56 \/ n = 57)%N as Hn by lia.
    destruct_or! Hn; subst n; apply (bool_decide_unpack _); vm_compute; reflexivity. }
  all: destruct (N.leb_spec 97 n), (N.leb_spec n 122); simpl in Hv; try discriminate;
    injection Hv as <-; lia.
Qed.

(** What the parser needs to know of a decimal digit. *)
Lemma digit10_props c :
  digit_ok 10 c ->
  to_lower_char c = c /\ is_base_digit 10 c = true /\ Ascii.is_space c = false /\
  Ascii.eqb c "+" = false /\ Ascii.eqb c "-" = false /\ radix_of c = None /\ c <> "I"%char.
Proof.
  intros Hc%digit10_cases.
  repeat (apply elem_of_cons in Hc as [->|Hc]; [vm_compute; split_and!; (reflexivity || discriminate)|]).
  by apply elem_of_nil in Hc.
Qed.

Lemma span_all p l : Forall (fun c => p c = true) l -> span p l = (l, []).
Proof. induction 1 as [|c l Hc _ IH]; simpl; [done|]. by rewrite Hc, IH. Qed.

Lemma trim_digits l :
  Forall (digit_ok 10) l -> trim (String.string_of_list_ascii l) = String.string_of_list_ascii l.
Proof.
  intros Hl. unfold trim. rewrite String.list_ascii_of_string_of_list_ascii.
  destruct l as [|c l']; [done|]. pose proof Hl as Hl'. apply Forall_cons in Hl' as [Hc _].
  simpl. rewrite (proj1 (proj2 (proj2 (digit10_props c Hc)))).
  destruct (@rev ascii (cons c l')) as [|d r] eqn:E; [by apply (f_equal length) in E; rewrite length_rev in E|].
  assert (Hd : digit_ok 10 d).
  { rewrite Forall_forall in Hl. apply Hl. apply list_elem_of_In, in_rev. rewrite E. by left. }
  simpl. rewrite (proj1 (proj2 (proj2 (digit10_props d Hd)))). rewrite <- E, rev_involutive. done.
Qed.

Lemma map_to_lower_digits l : Forall (digit_ok 10) l -> map to_lower_char l = l.
Proof. induction 1 as [|c l Hc _ IH]; [done|]. simpl. by rewrite IH, (proj1 (digit10_props c Hc)). Qed.

(** A non-empty run of decimal digits is read as the number it denotes. *)
Lemma unsigned_digits l n :
  Forall (digit_ok 10) l -> parse_chars 10 l = Some n ->
  exists q, unsigned_number l = JFin q /\ q == Qof_N n.
Proof.
  intros Hl Hp. destruct l as [|c l']; [discriminate|].
  pose proof Hl as Hc. apply Forall_cons in Hc as [Hc _].
  unfold unsigned_number. rewrite bool_decide_false.
  2: { intros Heq. injection Heq as Hc' _. by apply (digit10_props c Hc). }
  assert (Hv : digits_value 10 (c :: l') = n).
  { unfold digits_value. by rewrite (map_to_lower_digits (c :: l') Hl), Hp. }
  unfold parse_unsigned_decimal.
  rewrite span_all by (eapply Forall_impl; [exact Hl|]; intros x Hx; apply (digit10_props x Hx)).
  cbn -[digits_value]. rewrite Hv.
  eexists. split; [reflexivity|]. unfold Qof_N. change (inject_Z 0 / inject_Z (10 ^ Z.of_nat 0)) with 0. apply Qplus_0_r.
Qed.

(** ** Theorems *)

(** [Number(n.toString())] reads back [n]. *)
Theorem js_Number_to_base n : exists q, js_Number (to_base 10 n) = JFin q /\ q == Qof_N n.
Proof.
  pose proof (base_chars_digits 10 n ltac:(lia)) as Hd.
  pose proof (parse_base_chars 10 n ltac:(lia)) as Hp.
  unfold js_Number, to_base. rewrite trim_digits by done. unfold chars_of.
  rewrite String.list_ascii_of_string_of_list_ascii.
  destruct (base_chars 10 n) as [|c l] eqn:E; [by destruct (base_chars_length 10 n)|].
  pose proof Hd as Hc. apply Forall_cons in Hc as [Hc Hl].
  destruct (digit10_props c Hc) as (_ & _ & _ & -> & -> & _ & _).
  pose proof (unsigned_digits _ _ Hd Hp) as Hu.
  destruct l as [|r l']; [exact Hu|].
  apply Forall_cons in Hl as [Hr _]. destruct (digit10_props r Hr) as (_ & _ & _ & _ & _ & -> & _).
  by destruct (Ascii.eqb c "0").
Qed.

End JsNumber.
