(* ===== verification/View.v ===== *)
(** * What a screen renders

    The screens are React Native function components.  Their JSX is
    modelled as a tree of [Node]s: texts, buttons carrying the action
    their [onPress] runs, inputs bound to a form field, spinners, modals
    and plain containers ([View], [ScrollView], fragments).  Styles and
    icons are left out; what is kept is what the user reads and what
    the user can press.  A text is the list of its JSX children: literal
    strings, numbers together with the formatting call the code applies
    ([toFixed], [toLocaleString] or none), and dates with theirs.
    [texts] and [actions] read a tree back, and the screens' theorems are
    stated with them. *)

From S2P Require Import Prelude Format.

Module View.

(** How a number child is printed. *)
Inductive NumFmt :=
| Plain                  (** [{x}]: JavaScript's [Number.prototype.toString] *)
| Fixed (d : nat)        (** [{x.toFixed(d)}] *)
| Locale.                (** [{x.toLocaleString()}]: device locale *)

(** How a date child is printed: [toLocaleDateString()] with no options,
    with ['en-IN'] only, or with ['en-IN'] and options (day and short
    month, with or without the year, two-digit day with short month and
    year, or the time as well). *)
Inductive DateFmt := DateDefault | DateIN | DateINShort | DateINLong | DateIN2Year | DateTimeIN.

Inductive Piece :=
| PS (s : string)
| PN (x : Q) (f : NumFmt)
| PD (iso : string) (f : DateFmt).

#[warnings="-register-all"]
Inductive Node (A : Type) :=
| Text (ps : list Piece)
| Button (a : A) (disabled : bool) (children : list (Node A))
| Box (children : list (Node A))
| Input (field : string) (value : string) (secure : bool)
| Spinner
| Modal (visible : bool) (children : list (Node A)).

Arguments Text {A} ps.
Arguments Button {A} a disabled children.
Arguments Box {A} children.
Arguments Input {A} field value secure.
Arguments Spinner {A}.
Arguments Modal {A} visible children.

(** Literal text. *)
Definition T {A} (s : string) : Node A := Text [PS s].

(** A count as a JSX child: [{n}]. *)
Definition num (n : nat) : Piece := PN (inject_Z (Z.of_nat n)) Plain.

(** [{cond && <X/>}]. *)
Definition when {A} (b : bool) (n : Node A) : list (Node A) := if b then [n] else [].

(** Every text the tree holds, in document order; the children of a
    hidden modal are not on screen. *)
Fixpoint texts {A} (n : Node A) : list (list Piece) :=
  match n with
  | Text ps => [ps]
  | Button _ _ ch | Box ch => flat_map texts ch
  | Modal v ch => if v then flat_map texts ch else []
  | Input _ _ _ | Spinner => []
  end.

(** The actions the user can trigger: enabled buttons on screen. *)
Fixpoint actions {A} (n : Node A) : list A :=
  match n with
  | Button a d ch => (if d then [] else [a]) ++ flat_map actions ch
  | Box ch => flat_map actions ch
  | Modal v ch => if v then flat_map actions ch else []
  | Text _ | Input _ _ _ | Spinner => []
  end.

(** What a handler asks of the app besides changing its own state:
    [Alert.alert(title, message)] and the [expo-router] calls
    [router.push(path)], [router.replace(path)] and [router.back()], and
    [Share.share({message})].  [AlertThen] is an alert whose OK button
    runs a further effect; [AlertP] is an alert whose message is a
    template literal with numbers, kept as pieces. *)
Inductive Effect :=
| Alert (title msg : string)
| AlertThen (title msg : string) (on_ok : Effect)
| AlertP (title : string) (msg : list Piece)
| Push (path : string)
| Replace (path : string)
| Back
| Share (message : string).

(** A text is on screen. *)
Definition shows {A} (n : Node A) (ps : list Piece) : Prop := ps ∈ texts n.

End View.
