(* ===== verification/Wallet.v ===== *)
(** * Wallet / balance store

    The [wallets] row of a user ([WalletData] in [src/app/(tabs)/index.tsx]),
    the row [handleRegister] inserts ([src/app/auth/register.tsx]), the
    gold credit [makePayment] issues as raw SQL ([src/app/(tabs)/plans.tsx]),
    and the credit/debit surface the spec gives the balance store (4.5),
    which the commission engine uses.  The store of all wallets is a
    [gmap string Wallet] keyed by user id.  It is reached through the
    [WalletStore] interface, whose laws the gmap instance discharges. *)

From S2P Require Import Prelude.

Module Wallets.

Record Wallet := mkWallet {
  saving_balance : Q;
  referral_balance : Q;
  total_balance : Q;
  gold_balance_mg : Q;
  total_earnings : Q;
  total_withdrawn : Q
}.

(** [handleRegister] inserts [saving_balance], [referral_balance] and
    [total_balance] as 0; the other columns take their table defaults,
    modelled as 0 (the home screen's initial state shows the same). *)
Definition new_wallet : Wallet :=
  {| saving_balance := 0; referral_balance := 0; total_balance := 0;
     gold_balance_mg := 0; total_earnings := 0; total_withdrawn := 0 |}.

(** The fields a credit may touch (spec 4.5). *)
Inductive Field :=
| SavingBalance
| ReferralBalance
| GoldBalanceMg
| TotalEarnings
| TotalWithdrawn.

#[export] Instance Field_eq_dec : EqDecision Field.
Proof. solve_decision. Defined.

Definition get_field (f : Field) (w : Wallet) : Q :=
  match f with
  | SavingBalance => saving_balance w
  | ReferralBalance => referral_balance w
  | GoldBalanceMg => gold_balance_mg w
  | TotalEarnings => total_earnings w
  | TotalWithdrawn => total_withdrawn w
  end.

Definition set_field (f : Field) (v : Q) (w : Wallet) : Wallet :=
  match f with
  | SavingBalance =>
      {| saving_balance := v; referral_balance := referral_balance w;
         total_balance := total_balance w; gold_balance_mg := gold_balance_mg w;
         total_earnings := total_earnings w; total_withdrawn := total_withdrawn w |}
  | ReferralBalance =>
      {| saving_balance := saving_balance w; referral_balance := v;
         total_balance := total_balance w; gold_balance_mg := gold_balance_mg w;
         total_earnings := total_earnings w; total_withdrawn := total_withdrawn w |}
  | GoldBalanceMg =>
      {| saving_balance := saving_balance w; referral_balance := referral_balance w;
         total_balance := total_balance w; gold_balance_mg := v;
         total_earnings := total_earnings w; total_withdrawn := total_withdrawn w |}
  | TotalEarnings =>
      {| saving_balance := saving_balance w; referral_balance := referral_balance w;
         total_balance := total_balance w; gold_balance_mg := gold_balance_mg w;
         total_earnings := v; total_withdrawn := total_withdrawn w |}
  | TotalWithdrawn =>
      {| saving_balance := saving_balance w; referral_balance := referral_balance w;
         total_balance := total_balance w; gold_balance_mg := gold_balance_mg w;
         total_earnings := total_earnings w; total_withdrawn := v |}
  end.

(** Recompute [total_balance = saving_balance + referral_balance]. *)
Definition recompute_total (w : Wallet) : Wallet :=
  {| saving_balance := saving_balance w; referral_balance := referral_balance w;
     total_balance := saving_balance w + referral_balance w;
     gold_balance_mg := gold_balance_mg w;
     total_earnings := total_earnings w; total_withdrawn := total_withdrawn w |}.

Definition touches_total (f : Field) : bool :=
  match f with SavingBalance | ReferralBalance => true | _ => false end.

(** [credit(userId, field, amount)] of spec 4.5: add to the field, and
    recompute the total in the same step when the field is one of its
    parts. *)
Definition credit (f : Field) (amt : Q) (w : Wallet) : Wallet :=
  let w' := set_field f (get_field f w + amt) w in
  if touches_total f then recompute_total w' else w'.

Inductive WalletError := InsufficientBalance.

(** A debit that would make the field negative fails. *)
Definition debit (f : Field) (amt : Q) (w : Wallet) : WalletError + Wallet :=
  if Qle_bool amt (get_field f w) then
    let w' := set_field f (get_field f w - amt) w in
    inr (if touches_total f then recompute_total w' else w')
  else inl InsufficientBalance.

(** [UPDATE wallets SET gold_balance_mg = gold_balance_mg + mg WHERE
    user_id = u] as [makePayment] sends it through [execute_sql].  An
    update that matches no row changes nothing and is no error. *)
Definition add_gold_sql (u : string) (mg : Q) (ws : gmap string Wallet)
  : gmap string Wallet :=
  alter (fun w => set_field GoldBalanceMg (gold_balance_mg w + mg) w) u ws.

(** ** The balance invariant of spec 3 and 4.5 *)

Definition balanced (w : Wallet) : Prop :=
  total_balance w == saving_balance w + referral_balance w.

Definition nonneg (w : Wallet) : Prop :=
  0 <= saving_balance w /\ 0 <= referral_balance w /\ 0 <= gold_balance_mg w.

Definition wallet_ok (w : Wallet) : Prop := balanced w /\ nonneg w.

Definition all_ok (ws : gmap string Wallet) : Prop :=
  map_Forall (fun _ w => wallet_ok w) ws.

(** ** Interface of the balance store

    What the ledger and the commission engine need from the wallets:
    read one wallet, credit one field of one wallet.  The laws say a
    credit touches exactly the named wallet, in the way [credit] says. *)
Class WalletStore (M : Type) := {
  ws_get : M -> string -> option Wallet;
  ws_credit : Field -> string -> Q -> M -> M
}.

Class WalletStoreLaws (M : Type) `{WalletStore M} := {
  ws_get_credit_eq f u a m : ws_get (ws_credit f u a m) u = credit f a <$> ws_get m u;
  ws_get_credit_ne f u v a m : u <> v -> ws_get (ws_credit f u a m) v = ws_get m v
}.

(** Every wallet a store holds is well formed. *)
Definition store_ok `{WalletStore M} (m : M) : Prop :=
  forall u w, ws_get m u = Some w -> wallet_ok w.

(** A wallet for the worked examples. *)
Definition sample_wallet : Wallet :=
  {| saving_balance := 50; referral_balance := 20; total_balance := 70;
     gold_balance_mg := 100; total_earnings := 20; total_withdrawn := 0 |}.

#[export] Instance gmap_wallet_store : WalletStore (gmap string Wallet) := {
  ws_get m u := m !! u;
  ws_credit f u a m := alter (credit f a) u m
}.

#[export] Instance gmap_wallet_store_laws : WalletStoreLaws (gmap string Wallet).
Proof.
  split.
  - intros f u a m. simpl. by rewrite lookup_alter_eq.
  - intros f u v a m Hne. simpl. by rewrite lookup_alter_ne.
Qed.

(** ** Lemmas *)

Lemma get_set_field_eq f v w : get_field f (set_field f v w) = v.
Proof. by destruct f. Qed.

Lemma get_set_field_ne f g v w : f <> g -> get_field g (set_field f v w) = get_field g w.
Proof. destruct f, g; simpl; congruence. Qed.

Lemma recompute_total_balanced w : balanced (recompute_total w).
Proof. unfold balanced. simpl. reflexivity. Qed.

Lemma set_field_balanced f v w :
  touches_total f = false -> balanced w -> balanced (set_field f v w).
Proof. destruct f; simpl; done. Qed.

Lemma add_gold_sql_lookup u mg ws :
  add_gold_sql u mg ws !! u =
  (fun w => set_field GoldBalanceMg (gold_balance_mg w + mg) w) <$> ws !! u.
Proof. unfold add_gold_sql. by rewrite lookup_alter_eq. Qed.

Lemma add_gold_sql_lookup_ne u v mg ws : u <> v -> add_gold_sql u mg ws !! v = ws !! v.
Proof. intros. unfold add_gold_sql. by rewrite lookup_alter_ne. Qed.

Lemma credit_balanced f a w : balanced w -> balanced (credit f a w).
Proof.
  intros Hb. unfold credit. destruct (touches_total f) eqn:Ht.
  - apply recompute_total_balanced.
  - by apply set_field_balanced.
Qed.

Lemma credit_get_eq f a w : get_field f (credit f a w) == get_field f w + a.
Proof. unfold credit. destruct f; simpl; reflexivity. Qed.

Lemma credit_get_ne f g a w :
  f <> g -> touches_total f = false -> get_field g (credit f a w) = get_field g w.
Proof. intros Hne Ht. unfold credit. rewrite Ht. by apply get_set_field_ne. Qed.

Lemma credit_wallet_ok f a w : 0 <= a -> wallet_ok w -> wallet_ok (credit f a w).
Proof.
  intros Ha [Hb (Hs & Hr & Hg)]. split; [by apply credit_balanced|].
  unfold credit, nonneg. destruct f; simpl; lra.
Qed.

(** a credit of a non-negative amount keeps a wallet well formed
    ([total_balance = saving_balance + referral_balance], no balance
    negative), adds the amount to the credited field, and leaves every
    other field alone unless the credited field is a part of the total. *)
Theorem credit_preserves_ok f a w :
  0 <= a -> wallet_ok w ->
  wallet_ok (credit f a w) /\ get_field f (credit f a w) == get_field f w + a /\
  (touches_total f = false -> forall g, g <> f -> get_field g (credit f a w) = get_field g w).
Proof.
  intros Ha Hok. split; [by apply credit_wallet_ok|].
  split; [apply credit_get_eq|]. intros Ht g Hg. apply credit_get_ne; [by intros ->|done].
Qed.

(** a debit fails with [InsufficientBalance] exactly when the amount
    exceeds the balance of the field, and otherwise lowers that field by
    the amount and keeps the wallet well formed. *)
Theorem debit_spec f a w :
  0 <= a -> wallet_ok w ->
  (debit f a w = inl InsufficientBalance <-> get_field f w < a) /\
  (forall w', debit f a w = inr w' ->
     get_field f w' == get_field f w - a /\ wallet_ok w').
Proof.
  intros Ha [Hb (Hs & Hr & Hg)]. unfold debit.
  destruct (Qle_bool a (get_field f w)) eqn:Hle.
  - apply Qle_bool_iff in Hle. split.
    + split; [discriminate|]. intros. lra.
    + intros w' [= <-]. split.
      * destruct f; simpl; reflexivity.
      * split.
        -- destruct (touches_total f) eqn:Ht;
             [apply recompute_total_balanced | by apply set_field_balanced].
        -- unfold nonneg. destruct f; simpl in *; lra.
  - split.
    + split; [intros _|done]. apply Qnot_le_lt. intros H.
      apply Qle_bool_iff in H. congruence.
    + discriminate.
Qed.

(** ** Clients of the interface *)
Section StoreInvariant.
Context `{WalletStoreLaws M}.

(** proved against [WalletStore] only: crediting any field of any
    user with a non-negative amount keeps every wallet of the store
    well formed. *)
Theorem ws_credit_store_ok f u a m :
  0 <= a -> store_ok m -> store_ok (ws_credit f u a m).
Proof.
  intros Ha Hok v w Hv. destruct (decide (u = v)) as [<-|Hne].
  - rewrite ws_get_credit_eq in Hv.
    destruct (ws_get m u) as [w0|] eqn:E; simpl in Hv; [|done].
    injection Hv as <-. apply credit_wallet_ok; eauto.
  - rewrite ws_get_credit_ne in Hv by done. eauto.
Qed.
End StoreInvariant.

Lemma new_wallet_ok : wallet_ok new_wallet.
Proof. split; [unfold balanced; simpl; reflexivity | unfold nonneg; simpl; lra]. Qed.

Lemma all_ok_store_ok ws : all_ok ws <-> store_ok ws.
Proof. split; intros H u w Hu; by apply (H u w). Qed.

(** ** Witnesses *)

Lemma sample_wallet_ok : wallet_ok sample_wallet.
Proof. split; [unfold balanced | unfold nonneg]; simpl; lra. Qed.

Lemma credit_preserves_ok_witness :
  wallet_ok (credit ReferralBalance 100 sample_wallet) /\
  get_field ReferralBalance (credit ReferralBalance 100 sample_wallet) == 120.
Proof.
  destruct (credit_preserves_ok ReferralBalance 100 sample_wallet ltac:(lra) sample_wallet_ok)
    as (H1 & H2 & _).
  split; [exact H1 | rewrite H2; simpl; reflexivity].
Defined.

Lemma debit_spec_witness : debit SavingBalance 80 sample_wallet = inl InsufficientBalance.
Proof.
  apply (proj1 (debit_spec SavingBalance 80 sample_wallet ltac:(lra) sample_wallet_ok)).
  simpl. lra.
Defined.

Lemma ws_credit_store_ok_witness :
  store_ok (ws_credit ReferralBalance "A" 100 ({["A" := sample_wallet]} : gmap string Wallet)).
Proof.
  apply ws_credit_store_ok; [lra|].
  intros u w Hw. simpl in Hw. apply lookup_singleton_Some in Hw as [_ <-].
  exact sample_wallet_ok.
Defined.

End Wallets.
