(* ===== verification/Store.v ===== *)
(** * The shared store: the Supabase tables the modelled code reads and writes

    Row types follow the column names of the inserts and selects in the
    source ([plans.tsx], [register.tsx], [index.tsx], [referrals.tsx]).
    Tables with a primary key the code updates by ([user_subscriptions],
    [wallets], [profiles]) are [gmap]s.  Append-only tables whose order
    the code reads ([payments], [gold_holdings], [referral_tree],
    [referral_commissions]) are lists in insertion order.  Fresh ids come
    from the counter [next_id]; the database generates UUIDs, and only
    their freshness matters to the code.

    A write may fail.  [sb_write] performs a write unless the fault oracle
    says it fails, and returns whether it failed, which is the [error]
    field of a Supabase response.  The handler decides whether to throw. *)

From S2P Require Import Prelude Wallet.
Export Wallets.

Module Store.

(** [gold_rates (rate_per_gram, rate_date)]; dates are ordered keys. *)
Record GoldRateRow := mkRate { rate_date : nat; rate_per_gram : Q }.

(** [interface Plan] of [plans.tsx], with the [status] column that
    [loadPlans] filters on. *)
Record Plan := mkPlan {
  plan_id : string;
  plan_name : string;
  monthly_amount : Q;
  duration_months : nat;
  payment_months : nat;
  bonus_percentage : Q;
  plan_active : bool
}.

Inductive SubStatus := SubActive | SubCompleted | SubCancelled.
#[export] Instance SubStatus_eq_dec : EqDecision SubStatus.
Proof. solve_decision. Defined.

(** A [user_subscriptions] row as [subscribeToPlan] inserts it. *)
Record SubRow := mkSub {
  sub_id : nat;
  sub_user : string;
  sub_plan_id : string;
  start_date : nat;
  end_date : nat;
  sub_status : SubStatus;
  total_paid : Q;
  bonus_amount : Q;
  final_amount : Q
}.

Inductive PaymentType := MonthlyPayment | BonusPayment.
#[export] Instance PaymentType_eq_dec : EqDecision PaymentType.
Proof. solve_decision. Defined.

Inductive PayStatus := PayPending | PayCompleted | PayFailed.

(** A [payments] row as [makePayment] inserts it. *)
Record PaymentRow := mkPayment {
  pay_id : nat;
  pay_user : string;
  pay_sub : nat;
  amount : Q;
  payment_type : PaymentType;
  month_number : nat;
  pay_status : PayStatus;
  gold_rate : Q;
  gold_milligrams : Q
}.

Inductive HoldingType := MonthlyPurchase | BonusGold.

(** A [gold_holdings] row. *)
Record HoldingRow := mkHolding {
  h_user : string;
  h_sub : nat;
  h_payment : nat;
  amount_paid : Q;
  h_rate : Q;
  h_mg : Q;
  h_type : HoldingType
}.

(** A [profiles] row as [handleRegister] inserts it; [is_admin] is the
    column the admin screens read and toggle (false unless set). *)
Record Profile := mkProfile {
  prof_id : string;
  phone_number : string;
  full_name : string;
  aadhar_number : string;
  pan_number : string;
  referral_code : string;
  referred_by : option string;
  prof_status : string;
  kyc_verified : bool;
  is_admin : bool
}.

(** [referral_tree (user_id, referred_user_id, level)]: [user_id] is the
    ancestor and [referred_user_id] the descendant [level] hops below. *)
Record ReferralEdge := mkEdge { anc : string; desc : string; level : nat }.
#[export] Instance ReferralEdge_eq_dec : EqDecision ReferralEdge.
Proof. solve_decision. Defined.

(** [referral_commissions (user_id, from_user_id, level, amount,
    percentage, created_at)], with the source payment of spec 3.  Rows
    are kept in insertion order, which is the order of [created_at]. *)
Record CommissionRow := mkCommission {
  c_user : string;
  c_from : string;
  c_level : nat;
  c_amount : Q;
  c_percentage : Q;
  c_created_at : string;
  c_source : nat
}.

(** [referral_levels_config (level, percentage)]. *)
Record LevelConfig := mkLevel { lc_level : nat; lc_percentage : Q }.

Record DB := mkDB {
  gold_rates : list GoldRateRow;
  plans : list Plan;
  user_subscriptions : gmap nat SubRow;
  payments : list PaymentRow;
  gold_holdings : list HoldingRow;
  wallets : gmap string Wallet;
  profiles : gmap string Profile;
  referral_tree : list ReferralEdge;
  referral_commissions : list CommissionRow;
  referral_levels_config : list LevelConfig;
  next_id : nat
}.

Definition empty_db : DB :=
  {| gold_rates := []; plans := []; user_subscriptions := ∅; payments := [];
     gold_holdings := []; wallets := ∅; profiles := ∅; referral_tree := [];
     referral_commissions := []; referral_levels_config := []; next_id := 1%nat |}.

(** ** Setters, one per table *)

Definition set_rates (l : list GoldRateRow) (db : DB) : DB :=
  {| gold_rates := l; plans := plans db; user_subscriptions := user_subscriptions db;
     payments := payments db; gold_holdings := gold_holdings db;
     wallets := wallets db; profiles := profiles db;
     referral_tree := referral_tree db;
     referral_commissions := referral_commissions db;
     referral_levels_config := referral_levels_config db; next_id := next_id db |}.

Definition set_subs (m : gmap nat SubRow) (db : DB) : DB :=
  {| gold_rates := gold_rates db; plans := plans db; user_subscriptions := m;
     payments := payments db; gold_holdings := gold_holdings db;
     wallets := wallets db; profiles := profiles db;
     referral_tree := referral_tree db;
     referral_commissions := referral_commissions db;
     referral_levels_config := referral_levels_config db; next_id := next_id db |}.

Definition set_payments (l : list PaymentRow) (db : DB) : DB :=
  {| gold_rates := gold_rates db; plans := plans db;
     user_subscriptions := user_subscriptions db;
     payments := l; gold_holdings := gold_holdings db;
     wallets := wallets db; profiles := profiles db;
     referral_tree := referral_tree db;
     referral_commissions := referral_commissions db;
     referral_levels_config := referral_levels_config db; next_id := next_id db |}.

Definition set_holdings (l : list HoldingRow) (db : DB) : DB :=
  {| gold_rates := gold_rates db; plans := plans db;
     user_subscriptions := user_subscriptions db;
     payments := payments db; gold_holdings := l;
     wallets := wallets db; profiles := profiles db;
     referral_tree := referral_tree db;
     referral_commissions := referral_commissions db;
     referral_levels_config := referral_levels_config db; next_id := next_id db |}.

Definition set_wallets (m : gmap string Wallet) (db : DB) : DB :=
  {| gold_rates := gold_rates db; plans := plans db;
     user_subscriptions := user_subscriptions db;
     payments := payments db; gold_holdings := gold_holdings db;
     wallets := m; profiles := profiles db;
     referral_tree := referral_tree db;
     referral_commissions := referral_commissions db;
     referral_levels_config := referral_levels_config db; next_id := next_id db |}.

Definition set_profiles (m : gmap string Profile) (db : DB) : DB :=
  {| gold_rates := gold_rates db; plans := plans db;
     user_subscriptions := user_subscriptions db;
     payments := payments db; gold_holdings := gold_holdings db;
     wallets := wallets db; profiles := m;
     referral_tree := referral_tree db;
     referral_commissions := referral_commissions db;
     referral_levels_config := referral_levels_config db; next_id := next_id db |}.

Definition set_tree (l : list ReferralEdge) (db : DB) : DB :=
  {| gold_rates := gold_rates db; plans := plans db;
     user_subscriptions := user_subscriptions db;
     payments := payments db; gold_holdings := gold_holdings db;
     wallets := wallets db; profiles := profiles db;
     referral_tree := l;
     referral_commissions := referral_commissions db;
     referral_levels_config := referral_levels_config db; next_id := next_id db |}.

Definition set_commissions (l : list CommissionRow) (db : DB) : DB :=
  {| gold_rates := gold_rates db; plans := plans db;
     user_subscriptions := user_subscriptions db;
     payments := payments db; gold_holdings := gold_holdings db;
     wallets := wallets db; profiles := profiles db;
     referral_tree := referral_tree db;
     referral_commissions := l;
     referral_levels_config := referral_levels_config db; next_id := next_id db |}.

Definition bump_id (db : DB) : DB :=
  {| gold_rates := gold_rates db; plans := plans db;
     user_subscriptions := user_subscriptions db;
     payments := payments db; gold_holdings := gold_holdings db;
     wallets := wallets db; profiles := profiles db;
     referral_tree := referral_tree db;
     referral_commissions := referral_commissions db;
     referral_levels_config := referral_levels_config db; next_id := S (next_id db) |}.

(** ** Table operations *)

(** [.insert(row).select().single()] on [payments]: the row gets the
    fresh id, which the response returns. *)
Definition db_insert_payment (p : PaymentRow) (db : DB) : DB :=
  let p' := {| pay_id := next_id db; pay_user := pay_user p; pay_sub := pay_sub p;
               amount := amount p; payment_type := payment_type p;
               month_number := month_number p; pay_status := pay_status p;
               gold_rate := gold_rate p; gold_milligrams := gold_milligrams p |} in
  bump_id (set_payments (payments db ++ [p']) db).

Definition db_insert_holding (h : HoldingRow) (db : DB) : DB :=
  set_holdings (gold_holdings db ++ [h]) db.

(** [.update(f).eq('id', sid)] on [user_subscriptions]: no matching row
    means no change and no error. *)
Definition db_update_sub (sid : nat) (f : SubRow -> SubRow) (db : DB) : DB :=
  set_subs (alter f sid (user_subscriptions db)) db.

Definition db_insert_sub (s : SubRow) (db : DB) : DB :=
  let s' := {| sub_id := next_id db; sub_user := sub_user s; sub_plan_id := sub_plan_id s;
               start_date := start_date s; end_date := end_date s;
               sub_status := sub_status s; total_paid := total_paid s;
               bonus_amount := bonus_amount s; final_amount := final_amount s |} in
  bump_id (set_subs (<[next_id db := s']> (user_subscriptions db)) db).

Definition db_add_gold (u : string) (mg : Q) (db : DB) : DB :=
  set_wallets (add_gold_sql u mg (wallets db)) db.

(** ** Supabase requests under a fault oracle *)
Section Requests.
Context {W E : Type} (fl : Faults W).

(** A write: applied and [false] (no error), or not applied and
    [true] when the oracle fails it. *)
Definition sb_write (w : W) (f : DB -> DB) : ST DB E bool :=
  fun db => if fl w then (Ret true, db) else (Ret false, f db).

(** An insert that returns the new row's id as its [data], or [None]
    (null data) with an error. *)
Definition sb_insert_payment (w : W) (p : PaymentRow) : ST DB E (option nat) :=
  fun db => if fl w then (Ret None, db)
            else (Ret (Some (next_id db)), db_insert_payment p db).

Lemma sb_write_preserves (P : DB -> Prop) w f :
  (forall db, P db -> P (f db)) -> st_preserves (E:=E) P (sb_write w f).
Proof. intros Hf db Hdb. unfold sb_write. destruct (fl w); simpl; auto. Qed.

Lemma sb_insert_payment_preserves (P : DB -> Prop) w p :
  (forall db, P db -> P (db_insert_payment p db)) ->
  st_preserves (E:=E) P (sb_insert_payment w p).
Proof. intros Hf db Hdb. unfold sb_insert_payment. destruct (fl w); simpl; auto. Qed.
End Requests.

(** ** Lemmas on the tables *)

Lemma db_insert_payment_payments p db :
  payments (db_insert_payment p db) =
  payments db ++ [{| pay_id := next_id db; pay_user := pay_user p; pay_sub := pay_sub p;
                     amount := amount p; payment_type := payment_type p;
                     month_number := month_number p; pay_status := pay_status p;
                     gold_rate := gold_rate p; gold_milligrams := gold_milligrams p |}].
Proof. reflexivity. Qed.

Lemma sb_write_ok {W E} (fl : Faults W) w f db :
  fl w = false -> @sb_write W E fl w f db = (Ret false, f db).
Proof. intros H. unfold sb_write. by rewrite H. Qed.

Lemma sb_write_fail {W E} (fl : Faults W) w f db :
  fl w = true -> @sb_write W E fl w f db = (Ret true, db).
Proof. intros H. unfold sb_write. by rewrite H. Qed.

Lemma sb_insert_payment_ok {W E} (fl : Faults W) w p db :
  fl w = false ->
  @sb_insert_payment W E fl w p db = (Ret (Some (next_id db)), db_insert_payment p db).
Proof. intros H. unfold sb_insert_payment. by rewrite H. Qed.

Lemma sb_insert_payment_fail {W E} (fl : Faults W) w p db :
  fl w = true -> @sb_insert_payment W E fl w p db = (Ret None, db).
Proof. intros H. unfold sb_insert_payment. by rewrite H. Qed.

End Store.
