(* ===== verification/GoldRate.v ===== *)
(** * Rate provider

    [gold_rates] is read with [.order('rate_date', {ascending: false})
    .limit(1).maybeSingle()] in [loadGoldRate] and in [makePayment]
    ([src/app/(tabs)/plans.tsx]) and in [loadData]
    ([src/app/(tabs)/index.tsx]).  [makePayment] charges at
    [goldRateData?.rate_per_gram || 6500].  [loadGoldRate] shows
    [parseFloat(rate_per_gram)] when a row exists and otherwise keeps the
    screen's initial 6500.  Ties on [rate_date] have no order in SQL; the
    model returns the row that comes first in the table, which is one of
    the orders the database may return. *)

From S2P Require Import Prelude Wallet Store.
Import Store.

Module GoldRate.

(** The first row of the table in descending [rate_date] order. *)
Fixpoint latest_row (rows : list GoldRateRow) : option GoldRateRow :=
  match rows with
  | [] => None
  | r :: rs =>
      match latest_row rs with
      | None => Some r
      | Some r' => if Nat.ltb (rate_date r) (rate_date r') then Some r' else Some r
      end
  end.

(** The fallback rate written in the source. *)
Definition default_rate : Q := 6500.

(** [const goldRate = goldRateData?.rate_per_gram || 6500]. *)
Definition charge_rate (db : DB) : Q :=
  js_or (rate_per_gram <$> latest_row (gold_rates db)) default_rate.

(** [loadGoldRate]: the rate the plan cards show, starting from the
    screen state [prev] ([useState<number>(6500)]). *)
Definition loadGoldRate (prev : Q) (db : DB) : Q :=
  match latest_row (gold_rates db) with
  | Some r => rate_per_gram r
  | None => prev
  end.

(** A table whose latest rate was published as 0. *)
Definition zero_rate_db : DB := set_rates [mkRate 1 6500; mkRate 2 0] empty_db.

(** ** Lemmas *)

Lemma latest_row_None rows : latest_row rows = None <-> rows = [].
Proof.
  split; [|by intros ->].
  destruct rows as [|r rs]; simpl; [done|].
  destruct (latest_row rs); [case_if|]; discriminate.
Qed.

Lemma latest_row_in rows r : latest_row rows = Some r -> r ∈ rows.
Proof.
  revert r. induction rows as [|x rs IH]; intros r H; simpl in H; [done|].
  destruct (latest_row rs) as [r'|] eqn:E.
  - case_if; injection H as <-; [set_solver|]. set_solver.
  - injection H as <-. set_solver.
Qed.

Lemma latest_row_max rows r :
  latest_row rows = Some r -> forall r', r' ∈ rows -> (rate_date r' <= rate_date r)%nat.
Proof.
  revert r. induction rows as [|x rs IH]; intros r H r' Hin; simpl in H; [done|].
  destruct (latest_row rs) as [m|] eqn:E.
  - pose proof (IH m eq_refl) as Hm.
    apply elem_of_cons in Hin as [->|Hin].
    + case_if; injection H as <-; [apply Nat.ltb_lt in Heqb; lia | lia].
    + specialize (Hm r' Hin). case_if; injection H as <-; [done|].
      apply Nat.ltb_ge in Heqb. lia.
  - injection H as <-. apply latest_row_None in E as ->.
    apply elem_of_cons in Hin as [->|Hin]; [lia | set_solver].
Qed.

(** the rate provider returns a published row whose date is the
    latest of the table (spec 4.1), and nothing only when no rate was
    ever published. *)
Theorem latest_row_spec rows :
  (latest_row rows = None <-> rows = []) /\
  (forall r, latest_row rows = Some r ->
     r ∈ rows /\ forall r', r' ∈ rows -> (rate_date r' <= rate_date r)%nat).
Proof.
  split; [apply latest_row_None|].
  intros r H. split; [by apply latest_row_in | by apply latest_row_max].
Qed.

(** the rate [makePayment] charges at is strictly positive as long as
    no published rate is negative: a missing table and a zero rate both
    fall back to 6500. *)
Theorem charge_rate_pos db :
  (forall r, r ∈ gold_rates db -> 0 <= rate_per_gram r) -> 0 < charge_rate db.
Proof.
  intros Hnn. unfold charge_rate. apply js_or_pos; [unfold default_rate; lra|].
  intros x Hx. destruct (latest_row (gold_rates db)) as [r|] eqn:E; [|done].
  injection Hx as <-. by apply Hnn, latest_row_in.
Qed.

(** when the latest published rate is 0, the plans screen shows a
    rate of 0 per gram while [makePayment] charges at the 6500 fallback:
    the rate shown and the rate charged disagree. *)
Theorem zero_rate_display_diverges db r prev :
  latest_row (gold_rates db) = Some r -> rate_per_gram r == 0 ->
  loadGoldRate prev db = rate_per_gram r /\ charge_rate db = default_rate.
Proof.
  intros Hl Hz. unfold loadGoldRate, charge_rate. rewrite Hl. split; [done|].
  simpl. apply Qeq_eq_bool in Hz. by rewrite Hz.
Qed.

(** ** Witnesses *)

Lemma charge_rate_pos_witness : 0 < charge_rate zero_rate_db.
Proof.
  apply charge_rate_pos. intros r Hr. simpl in Hr.
  repeat (apply elem_of_cons in Hr as [->|Hr]; [simpl; lra|]). by apply elem_of_nil in Hr.
Defined.

Lemma zero_rate_display_diverges_witness :
  loadGoldRate 6500 zero_rate_db = 0 /\ charge_rate zero_rate_db = 6500.
Proof.
  exact (zero_rate_display_diverges zero_rate_db (mkRate 2 0) 6500 eq_refl
           ltac:(simpl; reflexivity)).
Defined.

End GoldRate.
