(* ===== verification/Ledger.v ===== *)
(** * Subscription ledger: [src/app/(tabs)/plans.tsx]

    The screen keeps [plans], [subscription] (the active
    [user_subscriptions] row joined with its plan) and [payments] (its
    monthly payments) as React state.  [makePayment] works from that
    snapshot: it sends each request of the payment in order and throws on
    two of the errors, while the writes made before a throw stay in the
    database.  The model is [makePayment] as a computation of
    [ST DB LedgerError] under a fault oracle, from a snapshot passed in
    explicitly, so that a stale snapshot can be studied too.
    [pay_session] is one press of the "Pay Month" button on a freshly
    loaded screen. *)

From S2P Require Import Prelude Wallet Store GoldRate.
Import Store GoldRate.

Module Ledger.

(** ** Plans *)

(** The plan [loadPlans] shows when the table has no active plan. *)
Definition default_plan : Plan :=
  {| plan_id := "default-plan"; plan_name := "Gold Saver Plan";
     monthly_amount := 1500; duration_months := 12; payment_months := 11;
     bonus_percentage := 833 # 100; plan_active := true |}.

Definition loadPlans (db : DB) : list Plan :=
  match List.filter plan_active (plans db) with
  | [] => [default_plan]
  | ps => ps
  end.

Definition find_plan (pid : string) (ps : list Plan) : option Plan :=
  List.find (fun p => String.eqb (plan_id p) pid) ps.

(** ** The loaded subscription *)

(** [subscription] state: the row and its [plan:plans] join (all columns), which is
    [null] when the row names no plan of the table. *)
Record SubView := mkView { sv_row : SubRow; sv_plan : option Plan }.

Definition is_active_of (u : string) (s : SubRow) : bool :=
  String.eqb (sub_user s) u && bool_decide (sub_status s = SubActive).

(** The rows [.eq('user_id', u).eq('status', 'active')] selects. *)
Definition active_subs (db : DB) (u : string) : list SubRow :=
  List.map snd (List.filter (fun ks => is_active_of u (snd ks))
                            (map_to_list (user_subscriptions db))).

(** [loadSubscription]: [.eq('user_id').eq('status','active')
    .maybeSingle()].  [maybeSingle] yields no data for zero rows and an
    error (no data) for more than one. *)
Definition loadSubscription (db : DB) (u : string) : option SubView :=
  match active_subs db u with
  | [s] => Some {| sv_row := s; sv_plan := find_plan (sub_plan_id s) (plans db) |}
  | _ => None
  end.

Definition is_monthly_of (sid : nat) (p : PaymentRow) : bool :=
  Nat.eqb (pay_sub p) sid && bool_decide (payment_type p = MonthlyPayment).

Definition is_bonus_of (sid : nat) (p : PaymentRow) : bool :=
  Nat.eqb (pay_sub p) sid && bool_decide (payment_type p = BonusPayment).

(** [.order('month_number', { ascending: true })]: a stable insertion
    sort on the month number. *)
Fixpoint insert_by_month (p : PaymentRow) (l : list PaymentRow) : list PaymentRow :=
  match l with
  | [] => [p]
  | q :: l' => if Nat.leb (month_number p) (month_number q) then p :: q :: l'
               else q :: insert_by_month p l'
  end.

Fixpoint sort_by_month (l : list PaymentRow) : list PaymentRow :=
  match l with
  | [] => []
  | p :: l' => insert_by_month p (sort_by_month l')
  end.

(** [loadPayments]: the monthly payments of one subscription. *)
Definition loadPayments (db : DB) (sid : nat) : list PaymentRow :=
  sort_by_month (List.filter (is_monthly_of sid) (payments db)).

(** ** Requests, errors and outcomes *)

(** The writes of [subscribeToPlan] and [makePayment], in source order. *)
Inductive LedgerWrite :=
| W_subscribe
| W_payment | W_holding | W_gold | W_total
| W_bonus_sub | W_bonus_payment | W_bonus_holding | W_bonus_gold.

#[export] Instance LedgerWrite_eq_dec : EqDecision LedgerWrite.
Proof. solve_decision. Defined.

(** What ends a handler in its [catch]: a thrown Supabase error, the
    [Plan not found] error, or a [TypeError] on a [null]. *)
Inductive LedgerError :=
| PlanNotFound
| DbFailed (w : LedgerWrite)
| BonusPaymentNull
| PlanJoinNull.

Inductive PayOutcome :=
| Paid (month : nat) (mg : Q)
| AllPaid
| NoSubscription.

Definition Ledger (A : Type) : Type := ST DB LedgerError A.

Local Open Scope asj_scope.

(** ** [subscribeToPlan] *)

(** [today] is the month index of [new Date()]; [end_date] is
    [setMonth(getMonth() + duration_months)]. *)
Definition subscribeToPlan (fl : Faults LedgerWrite) (ps : list Plan) (u : string)
           (planId : string) (today : nat) : Ledger unit :=
  match find_plan planId ps with
  | None => st_throw PlanNotFound
  | Some plan =>
      err <- sb_write fl W_subscribe
               (db_insert_sub
                  {| sub_id := 0; sub_user := u; sub_plan_id := planId;
                     start_date := today; end_date := today + duration_months plan;
                     sub_status := SubActive; total_paid := 0; bonus_amount := 0;
                     final_amount := 0 |}) ;;
      if err then st_throw (DbFailed W_subscribe) else st_ret tt
  end.

(** ** [makePayment] *)

(** [const bonusAmountRs = 4500] and the bonus row's [month_number: 12]. *)
Definition bonusAmountRs : Q := 4500.
Definition bonus_month : nat := 12.

(** [goldMilligrams = (amount / goldRate) * 1000]. *)
Definition gold_mg (amt rate : Q) : Q := amt / rate * 1000.

Definition set_total_paid (t : Q) (s : SubRow) : SubRow :=
  {| sub_id := sub_id s; sub_user := sub_user s; sub_plan_id := sub_plan_id s;
     start_date := start_date s; end_date := end_date s; sub_status := sub_status s;
     total_paid := t; bonus_amount := bonus_amount s; final_amount := final_amount s |}.

Definition set_bonus (b f : Q) (s : SubRow) : SubRow :=
  {| sub_id := sub_id s; sub_user := sub_user s; sub_plan_id := sub_plan_id s;
     start_date := start_date s; end_date := end_date s; sub_status := sub_status s;
     total_paid := total_paid s; bonus_amount := b; final_amount := f |}.

Definition payment_row (u : string) (sid : nat) (amt : Q) (ty : PaymentType)
           (month : nat) (rate mg : Q) : PaymentRow :=
  {| pay_id := 0; pay_user := u; pay_sub := sid; amount := amt; payment_type := ty;
     month_number := month; pay_status := PayCompleted; gold_rate := rate;
     gold_milligrams := mg |}.

Definition holding_row (u : string) (sid pid : nat) (amt rate mg : Q)
           (ty : HoldingType) : HoldingRow :=
  {| h_user := u; h_sub := sid; h_payment := pid; amount_paid := amt;
     h_rate := rate; h_mg := mg; h_type := ty |}.

(** The bonus branch, run after [total_paid] was written. *)
Definition pay_bonus (fl : Faults LedgerWrite) (u : string) (sub : SubRow)
           (newTotalPaid goldRate : Q) : Ledger unit :=
  let bonusGoldMilligrams := gold_mg bonusAmountRs goldRate in
  let finalAmount := newTotalPaid + bonusAmountRs in
  _ <- sb_write fl W_bonus_sub
         (db_update_sub (sub_id sub) (set_bonus bonusAmountRs finalAmount)) ;;
  bonusPayment <- sb_insert_payment fl W_bonus_payment
                    (payment_row u (sub_id sub) bonusAmountRs BonusPayment bonus_month
                                 goldRate bonusGoldMilligrams) ;;
  match bonusPayment with
  | None => st_throw BonusPaymentNull
  | Some bid =>
      _ <- sb_write fl W_bonus_holding
             (db_insert_holding (holding_row u (sub_id sub) bid bonusAmountRs goldRate
                                            bonusGoldMilligrams BonusGold)) ;;
      _ <- sb_write fl W_bonus_gold (db_add_gold u bonusGoldMilligrams) ;;
      st_ret tt
  end.

(** [makePayment] from the snapshot [sv] and [payments]. *)
Definition makePayment (fl : Faults LedgerWrite) (u : string) (sv : SubView)
           (paid : list PaymentRow) : Ledger PayOutcome :=
  match sv_plan sv with
  | None => st_throw PlanJoinNull
  | Some plan =>
      let sub := sv_row sv in
      let nextMonth := S (length paid) in
      if Nat.ltb (payment_months plan) nextMonth then st_ret AllPaid else
      db <- st_get ;;
      let goldRate := charge_rate db in
      let goldMilligrams := gold_mg (monthly_amount plan) goldRate in
      paymentData <- sb_insert_payment fl W_payment
                       (payment_row u (sub_id sub) (monthly_amount plan) MonthlyPayment
                                    nextMonth goldRate goldMilligrams) ;;
      match paymentData with
      | None => st_throw (DbFailed W_payment)
      | Some pid =>
          _ <- sb_write fl W_holding
                 (db_insert_holding (holding_row u (sub_id sub) pid (monthly_amount plan)
                                                goldRate goldMilligrams MonthlyPurchase)) ;;
          _ <- sb_write fl W_gold (db_add_gold u goldMilligrams) ;;
          let newTotalPaid := total_paid sub + monthly_amount plan in
          subError <- sb_write fl W_total
                        (db_update_sub (sub_id sub) (set_total_paid newTotalPaid)) ;;
          if subError then st_throw (DbFailed W_total) else
          (if Nat.eqb nextMonth (payment_months plan)
           then pay_bonus fl u sub newTotalPaid goldRate else st_ret tt) ;;
          st_ret (Paid nextMonth goldMilligrams)
      end
  end.

(** One press of "Pay Month" on a freshly loaded screen. *)
Definition pay_session (fl : Faults LedgerWrite) (u : string) : Ledger PayOutcome :=
  db <- st_get ;;
  match loadSubscription db u with
  | None => st_ret NoSubscription
  | Some sv => makePayment fl u sv (loadPayments db (sub_id (sv_row sv)))
  end.

(** ** What a run without faults writes

    [bonus_effect] and [pay_effect] spell out, table operation by table
    operation, the store [makePayment] leaves when every request
    succeeds; [makePayment_no_faults] proves that it is the one. *)

Definition bonus_effect (u : string) (sub : SubRow) (t r : Q) (db : DB) : DB :=
  let mgb := gold_mg bonusAmountRs r in
  let db1 := db_update_sub (sub_id sub) (set_bonus bonusAmountRs (t + bonusAmountRs)) db in
  let bid := next_id db1 in
  let db2 := db_insert_payment
               (payment_row u (sub_id sub) bonusAmountRs BonusPayment bonus_month r mgb) db1 in
  let db3 := db_insert_holding
               (holding_row u (sub_id sub) bid bonusAmountRs r mgb BonusGold) db2 in
  db_add_gold u mgb db3.

Definition pay_effect (u : string) (sub : SubRow) (plan : Plan) (m : nat) (db : DB) : DB :=
  let r := charge_rate db in
  let mg := gold_mg (monthly_amount plan) r in
  let pid := next_id db in
  let db1 := db_insert_payment
               (payment_row u (sub_id sub) (monthly_amount plan) MonthlyPayment m r mg) db in
  let db2 := db_insert_holding
               (holding_row u (sub_id sub) pid (monthly_amount plan) r mg MonthlyPurchase) db1 in
  let db3 := db_add_gold u mg db2 in
  let t := total_paid sub + monthly_amount plan in
  let db4 := db_update_sub (sub_id sub) (set_total_paid t) db3 in
  if Nat.eqb m (payment_months plan) then bonus_effect u sub t r db4 else db4.

(** The row [makePayment] appends to [payments] for month [m]. *)
Definition monthly_row (u : string) (sid : nat) (plan : Plan) (m id : nat) (r : Q) : PaymentRow :=
  {| pay_id := id; pay_user := u; pay_sub := sid; amount := monthly_amount plan;
     payment_type := MonthlyPayment; month_number := m; pay_status := PayCompleted;
     gold_rate := r; gold_milligrams := gold_mg (monthly_amount plan) r |}.

Definition bonus_row (u : string) (sid id : nat) (r : Q) : PaymentRow :=
  {| pay_id := id; pay_user := u; pay_sub := sid; amount := bonusAmountRs;
     payment_type := BonusPayment; month_number := bonus_month; pay_status := PayCompleted;
     gold_rate := r; gold_milligrams := gold_mg bonusAmountRs r |}.

(** ** Sample data for the worked examples of spec 8 *)

(** Plan(monthly = 1000, payment_months = 12), gold at 6500 per gram. *)
Definition sample_plan : Plan :=
  {| plan_id := "gold-12"; plan_name := "Gold Plan"; monthly_amount := 1000;
     duration_months := 12; payment_months := 12; bonus_percentage := 5;
     plan_active := true |}.

Definition sample_sub (paid : Q) : SubRow :=
  {| sub_id := 1; sub_user := "A"; sub_plan_id := "gold-12"; start_date := 0;
     end_date := 12; sub_status := SubActive; total_paid := paid; bonus_amount := 0;
     final_amount := 0 |}.

Definition sample_db (paid : Q) : DB :=
  {| gold_rates := [mkRate 1 6500]; plans := [sample_plan];
     user_subscriptions := {[1%nat := sample_sub paid]}; payments := [];
     gold_holdings := []; wallets := {["A" := new_wallet]}; profiles := ∅;
     referral_tree := []; referral_commissions := []; referral_levels_config := [];
     next_id := 2 |}.

Definition sample_view (paid : Q) : SubView := mkView (sample_sub paid) (Some sample_plan).

(** Eleven monthly payments already made (only their number matters). *)
Definition eleven_paid : list PaymentRow :=
  repeat (monthly_row "A" 1 sample_plan 1 0 6500) 11.

Lemma makePayment_all_paid fl u sv paid db plan :
  sv_plan sv = Some plan -> (payment_months plan <= length paid)%nat ->
  makePayment fl u sv paid db = (Ret AllPaid, db).
Proof.
  intros Hp Hle. unfold makePayment. rewrite Hp.
  replace (Nat.ltb (payment_months plan) (S (length paid))) with true
    by (symmetry; apply Nat.ltb_lt; lia).
  reflexivity.
Qed.

Lemma makePayment_no_faults u sv paid db plan :
  sv_plan sv = Some plan -> (length paid < payment_months plan)%nat ->
  makePayment no_faults u sv paid db =
  (Ret (Paid (S (length paid)) (gold_mg (monthly_amount plan) (charge_rate db))),
   pay_effect u (sv_row sv) plan (S (length paid)) db).
Proof.
  intros Hp Hlt. unfold makePayment, pay_effect. rewrite Hp.
  replace (Nat.ltb (payment_months plan) (S (length paid))) with false
    by (symmetry; apply Nat.ltb_ge; lia).
  destruct (Nat.eqb (S (length paid)) (payment_months plan)); reflexivity.
Qed.

Lemma pay_effect_monthly u s p m db :
  Nat.eqb m (payment_months p) = false ->
  let db' := pay_effect u s p m db in
  payments db' = payments db ++
    [monthly_row u (sub_id s) p m (next_id db) (charge_rate db)] /\
  user_subscriptions db' =
    alter (set_total_paid (total_paid s + monthly_amount p)) (sub_id s)
          (user_subscriptions db) /\
  next_id db' = S (next_id db) /\ charge_rate db' = charge_rate db.
Proof. intros Hm db'. subst db'. unfold pay_effect. rewrite Hm. repeat split. Qed.

(** C2: a monthly payment that is not the last one, with every request
    succeeding: month [k+1] is recorded with
    [goldMilligrams = monthly_amount / rate * 1000] at the charged rate,
    one gold holding is written for it, the user's wallet gold grows by
    the same milligrams, and [total_paid] grows by the monthly amount. *)
Theorem makePayment_monthly u sv paid db plan :
  sv_plan sv = Some plan -> (S (length paid) < payment_months plan)%nat ->
  let r := charge_rate db in
  let sid := sub_id (sv_row sv) in
  let db' := st_state (makePayment no_faults u sv paid) db in
  st_result (makePayment no_faults u sv paid) db =
    Ret (Paid (S (length paid)) (monthly_amount plan / r * 1000)) /\
  payments db' = payments db ++ [monthly_row u sid plan (S (length paid)) (next_id db) r] /\
  gold_holdings db' = gold_holdings db ++
    [holding_row u sid (next_id db) (monthly_amount plan) r
                 (gold_mg (monthly_amount plan) r) MonthlyPurchase] /\
  wallets db' = add_gold_sql u (gold_mg (monthly_amount plan) r) (wallets db) /\
  user_subscriptions db' =
    alter (set_total_paid (total_paid (sv_row sv) + monthly_amount plan)) sid
          (user_subscriptions db).
Proof.
  intros Hp Hlt r sid db'. subst db'.
  unfold st_state, st_result. rewrite (makePayment_no_faults u sv paid db plan Hp) by lia.
  unfold pay_effect.
  replace (Nat.eqb (S (length paid)) (payment_months plan)) with false
    by (symmetry; apply Nat.eqb_neq; lia).
  repeat split.
Qed.

(** C3: the last monthly payment, with every request succeeding: besides
    month [k+1], a bonus payment of the hard-coded 4500 at month number
    12 is recorded and converted to gold at the same rate, both gold
    holdings are written and credited to the wallet, [total_paid] grows
    by the monthly amount, [bonus_amount] becomes 4500 and
    [final_amount] becomes [total_paid + 4500].  The status is left as
    it was: the code never writes [completed]. *)
Theorem makePayment_final u sv paid db plan :
  sv_plan sv = Some plan -> S (length paid) = payment_months plan ->
  let r := charge_rate db in
  let sid := sub_id (sv_row sv) in
  let t := total_paid (sv_row sv) + monthly_amount plan in
  let db' := st_state (makePayment no_faults u sv paid) db in
  st_result (makePayment no_faults u sv paid) db =
    Ret (Paid (S (length paid)) (gold_mg (monthly_amount plan) r)) /\
  payments db' = payments db ++
    [monthly_row u sid plan (S (length paid)) (next_id db) r;
     bonus_row u sid (S (next_id db)) r] /\
  gold_holdings db' = gold_holdings db ++
    [holding_row u sid (next_id db) (monthly_amount plan) r
                 (gold_mg (monthly_amount plan) r) MonthlyPurchase;
     holding_row u sid (S (next_id db)) bonusAmountRs r (gold_mg bonusAmountRs r) BonusGold] /\
  wallets db' = add_gold_sql u (gold_mg bonusAmountRs r)
                  (add_gold_sql u (gold_mg (monthly_amount plan) r) (wallets db)) /\
  user_subscriptions db' =
    alter (set_bonus bonusAmountRs (t + bonusAmountRs)) sid
          (alter (set_total_paid t) sid (user_subscriptions db)).
Proof.
  intros Hp Heq r sid t db'. subst db'.
  unfold st_state, st_result. rewrite (makePayment_no_faults u sv paid db plan Hp) by lia.
  unfold pay_effect. rewrite Heq, Nat.eqb_refl. simpl.
  rewrite <- !app_assoc. repeat split.
Qed.

(** C5: once [payment_months] payments are recorded, a press of
    "Pay Month" on the loaded screen answers [AllPaid] ("All payments
    completed! Waiting for bonus month.") and changes nothing, whatever
    the backend would have answered. *)
Theorem pay_session_schedule_complete fl u db sv plan :
  loadSubscription db u = Some sv -> sv_plan sv = Some plan ->
  (payment_months plan <= length (loadPayments db (sub_id (sv_row sv))))%nat ->
  pay_session fl u db = (Ret AllPaid, db).
Proof.
  intros Hl Hp Hle. unfold pay_session, st_bind, st_get. rewrite Hl.
  by apply makePayment_all_paid with plan.
Qed.

(** Unfold a run of [makePayment] up to its first decision on a fault. *)
Ltac run_makePayment Hp :=
  unfold makePayment; rewrite Hp;
  match goal with
  | |- context [Nat.ltb (payment_months ?plan) (S (length ?paid))] =>
      replace (Nat.ltb (payment_months plan) (S (length paid))) with false
        by (symmetry; apply Nat.ltb_ge; lia)
  end;
  unfold st_state, st_result, st_bind, st_get, sb_insert_payment, sb_write.

(** C7: when the [total_paid] update fails after the payment row was
    inserted, [makePayment] throws, yet the payment row (and, when those
    requests went through, the gold holding and the wallet credit) stay
    in the store while [total_paid] keeps its old value: the sequence is
    not atomic, against spec 4.2 and 7. *)
Theorem makePayment_total_write_fails fl u sv paid db plan :
  sv_plan sv = Some plan -> (length paid < payment_months plan)%nat ->
  fl W_payment = false -> fl W_total = true ->
  let r := charge_rate db in
  let db' := st_state (makePayment fl u sv paid) db in
  st_result (makePayment fl u sv paid) db = Throw (DbFailed W_total) /\
  payments db' = payments db ++
    [monthly_row u (sub_id (sv_row sv)) plan (S (length paid)) (next_id db) r] /\
  user_subscriptions db' = user_subscriptions db /\
  (fl W_gold = false ->
   wallets db' = add_gold_sql u (gold_mg (monthly_amount plan) r) (wallets db)).
Proof.
  intros Hp Hlt Hpay Htot r db'. subst db'. run_makePayment Hp.
  rewrite Hpay. destruct (fl W_holding), (fl W_gold); rewrite Htot;
    simpl; repeat split; congruence.
Qed.

(** C8: when the bonus [payments] insert fails on the last month, the
    [null] it returns makes [bonusPayment.id] throw; by then
    [bonus_amount] and [final_amount] are written, but no bonus payment,
    no bonus holding and no bonus gold exist, against the failure
    semantics of spec 4.2. *)
Theorem makePayment_bonus_insert_fails fl u sv paid db plan :
  sv_plan sv = Some plan -> S (length paid) = payment_months plan ->
  fl W_payment = false -> fl W_total = false -> fl W_bonus_payment = true ->
  fl W_bonus_sub = false ->
  let r := charge_rate db in
  let sid := sub_id (sv_row sv) in
  let t := total_paid (sv_row sv) + monthly_amount plan in
  let db' := st_state (makePayment fl u sv paid) db in
  st_result (makePayment fl u sv paid) db = Throw BonusPaymentNull /\
  payments db' = payments db ++ [monthly_row u sid plan (S (length paid)) (next_id db) r] /\
  user_subscriptions db' =
    alter (set_bonus bonusAmountRs (t + bonusAmountRs)) sid
          (alter (set_total_paid t) sid (user_subscriptions db)) /\
  (fl W_gold = false ->
   wallets db' = add_gold_sql u (gold_mg (monthly_amount plan) r) (wallets db)).
Proof.
  intros Hp Heq Hpay Htot Hbp Hbs r sid t db'. subst db'. run_makePayment Hp.
  rewrite Hpay, Heq, Nat.eqb_refl.
  unfold pay_bonus, st_bind, sb_write, sb_insert_payment.
  destruct (fl W_holding), (fl W_gold); rewrite Htot, Hbs, Hbp;
    simpl; repeat split; congruence.
Qed.

Lemma set_total_paid_idem t s : set_total_paid t (set_total_paid t s) = set_total_paid t s.
Proof. reflexivity. Qed.

Lemma charge_rate_pay_effect u sub plan m db :
  charge_rate (pay_effect u sub plan m db) = charge_rate db.
Proof. unfold pay_effect. by case_if. Qed.

(** C6: two payments made from the same loaded snapshot (two devices,
    or a second press before the screen reloads) both record month
    [k+1] and both credit the gold, but [total_paid] grows only once:
    the update writes the snapshot's [total_paid + monthly_amount].
    Spec 5 asks for the serialisation that would prevent this. *)
Theorem makePayment_stale_snapshot_race u sv paid db plan :
  sv_plan sv = Some plan -> (S (length paid) < payment_months plan)%nat ->
  let sid := sub_id (sv_row sv) in
  let r := charge_rate db in
  let db2 := st_state (makePayment no_faults u sv paid)
               (st_state (makePayment no_faults u sv paid) db) in
  payments db2 = payments db ++
    [monthly_row u sid plan (S (length paid)) (next_id db) r;
     monthly_row u sid plan (S (length paid)) (S (next_id db)) r] /\
  user_subscriptions db2 =
    alter (set_total_paid (total_paid (sv_row sv) + monthly_amount plan)) sid
          (user_subscriptions db).
Proof.
  intros Hp Hlt sid r db2. subst db2. unfold st_state.
  assert (Hm : Nat.eqb (S (length paid)) (payment_months plan) = false)
    by (apply Nat.eqb_neq; lia).
  rewrite (makePayment_no_faults u sv paid db plan Hp) by lia. simpl.
  destruct (pay_effect_monthly u (sv_row sv) plan _ db Hm) as (P1 & S1 & N1 & R1).
  rewrite (makePayment_no_faults u sv paid _ plan Hp) by lia. simpl.
  destruct (pay_effect_monthly u (sv_row sv) plan _
              (pay_effect u (sv_row sv) plan (S (length paid)) db) Hm) as (P2 & S2 & _).
  rewrite P2, S2, P1, S1, N1, R1, <- app_assoc, alter_alter_eq. by split.
Qed.

(** ** Witnesses *)

(** Spec 8: paying month 1 of the sample plan at 6500 per gram records
    month 1 and credits [1000 / 6500 * 1000 = 2000/13] (153.846) mg. *)
Lemma makePayment_monthly_witness :
  (S 0 < payment_months sample_plan)%nat /\
  st_result (makePayment no_faults "A" (sample_view 0) []) (sample_db 0) =
    Ret (Paid 1 (monthly_amount sample_plan / charge_rate (sample_db 0) * 1000)) /\
  monthly_amount sample_plan / charge_rate (sample_db 0) * 1000 == 2000 # 13.
Proof.
  split; [simpl; lia|]. split.
  - exact (proj1 (makePayment_monthly "A" (sample_view 0) [] (sample_db 0) sample_plan
                    eq_refl ltac:(simpl; lia))).
  - vm_compute. reflexivity.
Defined.

(** Spec 8: paying month 12 emits the 4500 bonus at month number 12. *)
Lemma makePayment_final_witness :
  S (length eleven_paid) = payment_months sample_plan /\
  payments (st_state (makePayment no_faults "A" (sample_view 11000) eleven_paid)
                     (sample_db 11000)) =
    [monthly_row "A" 1 sample_plan 12 2 (charge_rate (sample_db 11000));
     bonus_row "A" 1 3 (charge_rate (sample_db 11000))].
Proof.
  split; [reflexivity|].
  exact (proj1 (proj2 (makePayment_final "A" (sample_view 11000) eleven_paid
                         (sample_db 11000) sample_plan eq_refl eq_refl))).
Defined.

(** Spec 8 boundary: with all twelve months paid the session changes
    nothing. *)
Lemma pay_session_schedule_complete_witness :
  let db := sample_db 12000 in
  let db12 := set_payments (repeat (monthly_row "A" 1 sample_plan 1 0 6500) 12) db in
  pay_session no_faults "A" db12 = (Ret AllPaid, db12).
Proof.
  intros db db12.
  apply (pay_session_schedule_complete no_faults "A" db12 (sample_view 12000) sample_plan);
    [vm_compute; reflexivity | reflexivity | vm_compute; lia].
Defined.

Lemma makePayment_total_write_fails_witness :
  let fl := fun w => bool_decide (w = W_total) in
  st_result (makePayment fl "A" (sample_view 0) []) (sample_db 0) = Throw (DbFailed W_total) /\
  user_subscriptions (st_state (makePayment fl "A" (sample_view 0) []) (sample_db 0)) =
    user_subscriptions (sample_db 0).
Proof.
  intros fl.
  pose proof (makePayment_total_write_fails fl "A" (sample_view 0) [] (sample_db 0) sample_plan
                eq_refl ltac:(simpl; lia) eq_refl eq_refl) as (H1 & _ & H3 & _).
  split; [exact H1 | exact H3].
Defined.

Lemma makePayment_bonus_insert_fails_witness :
  let fl := fun w => bool_decide (w = W_bonus_payment) in
  st_result (makePayment fl "A" (sample_view 11000) eleven_paid) (sample_db 11000) =
    Throw BonusPaymentNull.
Proof.
  intros fl.
  exact (proj1 (makePayment_bonus_insert_fails fl "A" (sample_view 11000) eleven_paid
                  (sample_db 11000) sample_plan eq_refl eq_refl eq_refl eq_refl eq_refl eq_refl)).
Defined.

Lemma makePayment_stale_snapshot_race_witness :
  map month_number
    (payments (st_state (makePayment no_faults "A" (sample_view 0) [])
                (st_state (makePayment no_faults "A" (sample_view 0) []) (sample_db 0)))) =
  [1%nat; 1%nat].
Proof.
  rewrite (proj1 (makePayment_stale_snapshot_race "A" (sample_view 0) [] (sample_db 0)
                    sample_plan eq_refl ltac:(simpl; lia))).
  reflexivity.
Defined.

End Ledger.
