(* ===== verification/LedgerInv.v ===== *)
(** * The ledger as a transition system, and its invariant

    [ledger_step] runs whole handlers of the app on the store: a user
    registers, an administrator publishes a gold rate, [subscribeToPlan]
    runs from the plans screen, or "Pay Month" is pressed on a freshly
    loaded screen ([pay_session]).  Requests succeed in this relation; the
    effect of failing ones is the subject of the error theorems of
    [Ledger.v].  [ledger_inv] holds in every store reachable from an empty
    one; it is proved by induction on the steps.  It says:
    - subscription rows are keyed by their id, and the ids are below the
      fresh-id counter;
    - every payment belongs to a subscription row; every subscription,
      holding and wallet belongs to a registered profile;
    - a user has at most one active subscription;
    - for each subscription and its plan, the monthly payments carry the
      months [1..k] in order, [k <= payment_months], each pays the plan's
      monthly amount, [total_paid] is their sum, and the bonus row and the
      [bonus_amount]/[final_amount] columns are set exactly when the
      schedule is complete;
    - the gold of each wallet is the sum of the user's gold holdings. *)

From S2P Require Import Prelude Wallet Store GoldRate Ledger.
Import Store GoldRate Ledger.

Module LedgerInv.

Definition monthly_of (db : DB) (sid : nat) : list PaymentRow :=
  List.filter (is_monthly_of sid) (payments db).

Definition bonus_of (db : DB) (sid : nat) : list PaymentRow :=
  List.filter (is_bonus_of sid) (payments db).

Definition holdings_of (db : DB) (u : string) : list HoldingRow :=
  List.filter (fun h => String.eqb (h_user h) u) (gold_holdings db).

(** A fresh store holding the published plans. *)
Definition init_db (ps : list Plan) : DB :=
  {| gold_rates := []; plans := ps; user_subscriptions := ∅; payments := [];
     gold_holdings := []; wallets := ∅; profiles := ∅; referral_tree := [];
     referral_commissions := []; referral_levels_config := []; next_id := 1%nat |}.

Inductive ledger_step : DB -> DB -> Prop :=
| ls_register db u p :
    profiles db !! u = None ->
    ledger_step db (set_wallets (<[u := new_wallet]> (wallets db))
                                (set_profiles (<[u := p]> (profiles db)) db))
| ls_register_no_wallet db u p :
    profiles db !! u = None ->
    ledger_step db (set_profiles (<[u := p]> (profiles db)) db)
| ls_publish_rate db r :
    ledger_step db (set_rates (gold_rates db ++ [r]) db)
| ls_subscribe db u pid today :
    is_Some (profiles db !! u) -> loadSubscription db u = None ->
    ledger_step db (st_state (subscribeToPlan no_faults (loadPlans db) u pid today) db)
| ls_pay db u :
    ledger_step db (st_state (pay_session no_faults u) db).

(** ** The invariant *)

(** The bonus is issued on the payment of month [payment_months]. *)
Definition bonus_due (p : Plan) (k : nat) : bool :=
  Nat.eqb k (payment_months p) && Nat.ltb 0 (payment_months p).

Definition sched_inv (p : Plan) (s : SubRow) (ms bs : list PaymentRow) : Prop :=
  map month_number ms = seq 1 (length ms) /\
  (length ms <= payment_months p)%nat /\
  Forall (fun q => amount q = monthly_amount p /\ pay_user q = sub_user s) ms /\
  total_paid s == sumQ amount ms /\
  (if bonus_due p (length ms)
   then (exists b, bs = [b] /\ amount b = bonusAmountRs /\ month_number b = bonus_month) /\
        bonus_amount s == bonusAmountRs /\ final_amount s == total_paid s + bonusAmountRs
   else bs = [] /\ bonus_amount s == 0 /\ final_amount s == 0).

Definition sub_inv (db : DB) (s : SubRow) : Prop :=
  sub_status s = SubActive /\
  match find_plan (sub_plan_id s) (plans db) with
  | None => monthly_of db (sub_id s) = [] /\ bonus_of db (sub_id s) = [] /\
            total_paid s == 0 /\ bonus_amount s == 0 /\ final_amount s == 0
  | Some p => sched_inv p s (monthly_of db (sub_id s)) (bonus_of db (sub_id s))
  end.

Definition unique_active (db : DB) : Prop :=
  forall u k1 k2 s1 s2,
    user_subscriptions db !! k1 = Some s1 -> user_subscriptions db !! k2 = Some s2 ->
    is_active_of u s1 = true -> is_active_of u s2 = true -> k1 = k2.

Record ledger_inv (db : DB) : Prop := {
  li_keys : map_Forall (fun k s => sub_id s = k /\ (k < next_id db)%nat)
                       (user_subscriptions db);
  li_pay_ref : forall p, p ∈ payments db -> is_Some (user_subscriptions db !! pay_sub p);
  li_sub_prof : map_Forall (fun _ s => is_Some (profiles db !! sub_user s))
                           (user_subscriptions db);
  li_hold_prof : forall h, h ∈ gold_holdings db -> is_Some (profiles db !! h_user h);
  li_wallet_prof : forall u, is_Some (wallets db !! u) -> is_Some (profiles db !! u);
  li_unique : unique_active db;
  li_subs : map_Forall (fun _ s => sub_inv db s) (user_subscriptions db);
  li_gold : forall u w, wallets db !! u = Some w ->
            gold_balance_mg w == sumQ h_mg (holdings_of db u)
}.

(** ** A sample run: user A registers, subscribes to the sample plan,
    and presses "Pay Month" [n] times. *)

Definition sample_profile : Profile :=
  {| prof_id := "A"; phone_number := "9876543210"; full_name := "Asha";
     aadhar_number := "123412341234"; pan_number := "ABCDE1234F";
     referral_code := "REF123456"; referred_by := None; prof_status := "active";
     kyc_verified := false; is_admin := false |}.

Definition run_register (db : DB) : DB :=
  set_wallets (<["A" := new_wallet]> (wallets db))
              (set_profiles (<["A" := sample_profile]> (profiles db)) db).

Definition run_subscribe (db : DB) : DB :=
  st_state (subscribeToPlan no_faults (loadPlans db) "A" "gold-12" 0) db.

Definition run_pays (n : nat) (db : DB) : DB :=
  Nat.iter n (st_state (pay_session no_faults "A")) db.

Definition sample_run (n : nat) : DB :=
  run_pays n (run_subscribe (run_register (init_db [sample_plan]))).

(** ** Loading the subscription *)

Lemma length_le_1_same_key {K V} (l : list (K * V)) :
  NoDup (map fst l) -> (forall x y, x ∈ l -> y ∈ l -> fst x = fst y) ->
  (length l <= 1)%nat.
Proof.
  destruct l as [|a [|b l]]; simpl; intros Hnd Hk; [lia|lia|].
  exfalso. apply NoDup_cons in Hnd as [Hn _]. apply Hn.
  rewrite (Hk a b) by set_solver. left.
Qed.

Lemma active_subs_elem db u s :
  s ∈ active_subs db u <->
  exists k, user_subscriptions db !! k = Some s /\ is_active_of u s = true.
Proof.
  unfold active_subs. rewrite list_elem_of_In, in_map_iff. split.
  - intros [[k s'] [Hs Hin]]. simpl in Hs. subst s'.
    apply filter_In in Hin as [Hin Ha]. apply list_elem_of_In in Hin.
    apply elem_of_map_to_list in Hin. eauto.
  - intros [k [Hk Ha]]. exists (k, s). split; [done|].
    apply filter_In. split; [|done]. apply list_elem_of_In.
    by apply elem_of_map_to_list.
Qed.

Lemma active_subs_length db u : unique_active db -> (length (active_subs db u) <= 1)%nat.
Proof.
  intros Hu. unfold active_subs. rewrite length_map.
  apply length_le_1_same_key.
  - apply NoDup_map_filter. apply (NoDup_fst_map_to_list (user_subscriptions db)).
  - intros [k1 s1] [k2 s2] H1 H2. simpl.
    apply list_elem_of_In, filter_In in H1 as [H1 A1], H2 as [H2 A2].
    apply list_elem_of_In, elem_of_map_to_list in H1, H2. simpl in *.
    by apply (Hu u k1 k2 s1 s2).
Qed.

Lemma loadSubscription_Some db u sv :
  loadSubscription db u = Some sv ->
  (exists k, user_subscriptions db !! k = Some (sv_row sv)) /\
  is_active_of u (sv_row sv) = true /\
  sv_plan sv = find_plan (sub_plan_id (sv_row sv)) (plans db).
Proof.
  unfold loadSubscription. destruct (active_subs db u) as [|s [|]] eqn:E; try discriminate.
  intros [= <-]. simpl.
  assert (Hs : s ∈ active_subs db u) by (rewrite E; set_solver).
  apply active_subs_elem in Hs as (k & Hk & Ha). eauto.
Qed.

Lemma loadSubscription_None db u :
  unique_active db -> loadSubscription db u = None ->
  forall k s, user_subscriptions db !! k = Some s -> is_active_of u s = false.
Proof.
  intros Hu Hl k s Hk. destruct (is_active_of u s) eqn:Ha; [|done]. exfalso.
  pose proof (active_subs_length db u Hu) as Hlen.
  assert (Hs : s ∈ active_subs db u) by (apply active_subs_elem; eauto).
  unfold loadSubscription in Hl.
  destruct (active_subs db u) as [|x [|y l]]; simpl in *; [set_solver|done|lia].
Qed.

(** ** What one payment does to each table *)

Lemma pay_effect_tables u s p m db :
  let r := charge_rate db in
  let sid := sub_id s in
  let t := total_paid s + monthly_amount p in
  let db' := pay_effect u s p m db in
  gold_rates db' = gold_rates db /\ plans db' = plans db /\ profiles db' = profiles db /\
  payments db' = payments db ++ monthly_row u sid p m (next_id db) r ::
    (if Nat.eqb m (payment_months p) then [bonus_row u sid (S (next_id db)) r] else []) /\
  gold_holdings db' = gold_holdings db ++
    holding_row u sid (next_id db) (monthly_amount p) r (gold_mg (monthly_amount p) r)
                MonthlyPurchase ::
    (if Nat.eqb m (payment_months p)
     then [holding_row u sid (S (next_id db)) bonusAmountRs r (gold_mg bonusAmountRs r) BonusGold]
     else []) /\
  wallets db' =
    (if Nat.eqb m (payment_months p) then add_gold_sql u (gold_mg bonusAmountRs r) else id)
      (add_gold_sql u (gold_mg (monthly_amount p) r) (wallets db)) /\
  user_subscriptions db' =
    alter (fun s0 => (if Nat.eqb m (payment_months p)
                      then set_bonus bonusAmountRs (t + bonusAmountRs) else id)
                       (set_total_paid t s0)) sid (user_subscriptions db) /\
  (next_id db < next_id db')%nat.
Proof.
  intros r sid t db'. subst db'. unfold pay_effect.
  destruct (Nat.eqb m (payment_months p)); simpl; rewrite <- ?app_assoc;
    rewrite ?alter_alter_eq; repeat split; lia.
Qed.

Lemma length_insert_by_month q l : length (insert_by_month q l) = S (length l).
Proof. induction l as [|x l IH]; simpl; [done|]. case_if; simpl; auto. Qed.

Lemma length_loadPayments db sid : length (loadPayments db sid) = length (monthly_of db sid).
Proof.
  unfold loadPayments, monthly_of. generalize (List.filter (is_monthly_of sid) (payments db)).
  intros l. induction l as [|x l IH]; simpl; [done|]. by rewrite length_insert_by_month, IH.
Qed.

(** One more month keeps the schedule invariant. *)
Lemma sched_inv_pay p s ms bs u pid r :
  sched_inv p s ms bs -> (length ms < payment_months p)%nat -> u = sub_user s ->
  let t := total_paid s + monthly_amount p in
  let due := Nat.eqb (S (length ms)) (payment_months p) in
  sched_inv p ((if due then set_bonus bonusAmountRs (t + bonusAmountRs) else id)
                 (set_total_paid t s))
            (ms ++ [monthly_row u (sub_id s) p (S (length ms)) pid r])
            (bs ++ if due then [bonus_row u (sub_id s) (S pid) r] else []).
Proof.
  intros (Hm & Hle & Hall & Ht & Hb) Hlt -> t due.
  unfold bonus_due in Hb.
  replace (Nat.eqb (length ms) (payment_months p)) with false in Hb
    by (symmetry; apply Nat.eqb_neq; lia).
  destruct Hb as (-> & Hb0 & Hf0). subst due. unfold sched_inv, bonus_due.
  rewrite length_app. simpl length. rewrite Nat.add_1_r.
  destruct (Nat.eqb (S (length ms)) (payment_months p)) eqn:Hd.
  - apply Nat.eqb_eq in Hd. rewrite <- Hd. cbn -[seq sumQ].
    split; [rewrite map_app, Hm, seq_S; reflexivity|].
    split; [lia|].
    split; [apply Forall_app; split; [done|repeat constructor]|].
    split; [rewrite sumQ_snoc, <- Ht; reflexivity|].
    split; [eexists; split; [reflexivity|split; reflexivity]|].
    split; reflexivity.
  - cbn -[seq sumQ]. split; [rewrite map_app, Hm, seq_S; reflexivity|].
    split; [lia|].
    split; [apply Forall_app; split; [done|repeat constructor]|].
    split; [rewrite sumQ_snoc, <- Ht; reflexivity|].
    cbn -[seq sumQ]. split; [done|split; done].
Qed.

(** ** Steps that leave payments and plans alone *)

Lemma sub_inv_ext db db' s :
  plans db' = plans db -> payments db' = payments db -> sub_inv db s -> sub_inv db' s.
Proof. intros Hp Hq. unfold sub_inv, monthly_of, bonus_of. by rewrite Hp, Hq. Qed.

Lemma subs_ext db db' :
  plans db' = plans db -> payments db' = payments db ->
  map_Forall (fun _ s => sub_inv db s) (user_subscriptions db) ->
  map_Forall (fun _ s => sub_inv db' s) (user_subscriptions db).
Proof. intros Hp Hq H k s Hk. eapply sub_inv_ext; eauto. Qed.

Lemma holdings_of_nil db u :
  (forall h, h ∈ gold_holdings db -> is_Some (profiles db !! h_user h)) ->
  profiles db !! u = None -> holdings_of db u = [].
Proof.
  intros Hh Hu. unfold holdings_of. apply filter_none. intros h Hin.
  destruct (String.eqb_spec (h_user h) u) as [<-|]; [|done].
  destruct (Hh h) as [? Hs]; [by apply list_elem_of_In|congruence].
Qed.

Lemma inv_register db u p :
  ledger_inv db -> profiles db !! u = None ->
  ledger_inv (set_wallets (<[u := new_wallet]> (wallets db))
                          (set_profiles (<[u := p]> (profiles db)) db)).
Proof.
  intros [Hk Hr Hsp Hhp Hwp Hu Hs Hg] Hnone. split; simpl; try done.
  - intros k s Hks. rewrite lookup_insert_is_Some'. right. by apply (Hsp k s).
  - intros h Hh. rewrite lookup_insert_is_Some'. auto.
  - intros v. rewrite !lookup_insert_is_Some'. intros [->|Hv]; auto.
  - intros v w. rewrite lookup_insert_Some. intros [[<- <-]|[Hne Hv]].
    + assert (E : holdings_of db u = []) by (apply holdings_of_nil; done).
      unfold holdings_of in *. simpl in *. rewrite E. reflexivity.
    + by apply Hg.
Qed.

Lemma inv_register_no_wallet db u p :
  ledger_inv db -> profiles db !! u = None ->
  ledger_inv (set_profiles (<[u := p]> (profiles db)) db).
Proof.
  intros [Hk Hr Hsp Hhp Hwp Hu Hs Hg] Hnone. split; simpl; try done.
  - intros k s Hks. rewrite lookup_insert_is_Some'. right. by apply (Hsp k s).
  - intros h Hh. rewrite lookup_insert_is_Some'. auto.
  - intros v Hv. rewrite lookup_insert_is_Some'. auto.
Qed.

Lemma inv_publish_rate db r : ledger_inv db -> ledger_inv (set_rates (gold_rates db ++ [r]) db).
Proof. intros [Hk Hr Hsp Hhp Hwp Hu Hs Hg]. by split. Qed.

(** ** Subscribing *)

Lemma subscribeToPlan_state ps u pid today db :
  st_state (subscribeToPlan no_faults ps u pid today) db =
  match find_plan pid ps with
  | None => db
  | Some plan =>
      db_insert_sub
        {| sub_id := 0; sub_user := u; sub_plan_id := pid; start_date := today;
           end_date := today + duration_months plan; sub_status := SubActive;
           total_paid := 0; bonus_amount := 0; final_amount := 0 |} db
  end.
Proof. unfold subscribeToPlan. by destruct (find_plan pid ps). Qed.

(** A fresh subscription id has no payment yet. *)
Lemma fresh_no_payments db :
  ledger_inv db -> monthly_of db (next_id db) = [] /\ bonus_of db (next_id db) = [].
Proof.
  intros [Hk Hr _ _ _ _ _ _].
  assert (Hno : forall q, q ∈ payments db -> pay_sub q <> next_id db).
  { intros q Hq Heq. destruct (Hr q Hq) as [s Hs]. rewrite Heq in Hs.
    pose proof (Hk _ _ Hs) as [_ Hlt]. lia. }
  unfold monthly_of, bonus_of, is_monthly_of, is_bonus_of.
  split; apply filter_none; intros q Hq;
    apply list_elem_of_In in Hq; specialize (Hno q Hq);
    destruct (Nat.eqb_spec (pay_sub q) (next_id db)); done.
Qed.

Lemma is_active_of_true u s : is_active_of u s = true <-> sub_user s = u /\ sub_status s = SubActive.
Proof.
  unfold is_active_of. rewrite andb_true_iff, String.eqb_eq, bool_decide_eq_true. done.
Qed.

Lemma inv_subscribe db u pid today :
  ledger_inv db -> is_Some (profiles db !! u) -> loadSubscription db u = None ->
  ledger_inv (st_state (subscribeToPlan no_faults (loadPlans db) u pid today) db).
Proof.
  intros Hinv Hprof Hl. rewrite subscribeToPlan_state.
  destruct (find_plan pid (loadPlans db)) as [plan|]; [|done].
  pose proof (fresh_no_payments db Hinv) as [Hm0 Hb0].
  pose proof (loadSubscription_None db u (li_unique db Hinv) Hl) as Hna.
  destruct Hinv as [Hk Hr Hsp Hhp Hwp Hu Hs Hg].
  assert (Hfresh : user_subscriptions db !! next_id db = None).
  { destruct (user_subscriptions db !! next_id db) as [s|] eqn:E; [|done].
    destruct (Hk _ _ E) as [_ ?]. lia. }
  split; simpl.
  - apply map_Forall_insert_2; [simpl; lia|].
    intros k s Hks. destruct (Hk k s Hks) as [? ?]. split; [done|lia].
  - intros q Hq. rewrite lookup_insert_is_Some'. auto.
  - apply map_Forall_insert_2; [done|]. intros k s Hks. by apply (Hsp k s).
  - done.
  - done.
  - intros v k1 k2 s1 s2 H1 H2 A1 A2. simpl in H1, H2.
    apply lookup_insert_Some in H1 as [[<- <-]|[N1 H1]];
    apply lookup_insert_Some in H2 as [[<- <-]|[N2 H2]]; try done.
    + apply is_active_of_true in A1 as [Hv _]. simpl in Hv. subst v.
      by rewrite (Hna k2 s2 H2) in A2.
    + apply is_active_of_true in A2 as [Hv _]. simpl in Hv. subst v.
      by rewrite (Hna k1 s1 H1) in A1.
    + by apply (Hu v k1 k2 s1 s2).
  - apply map_Forall_insert_2.
    + unfold sub_inv. simpl. split; [done|].
      unfold monthly_of, bonus_of in *. simpl. rewrite Hm0, Hb0.
      destruct (find_plan pid (plans db)) as [p|]; [|done].
      unfold sched_inv, bonus_due. simpl.
      destruct (payment_months p); simpl; repeat split; try done; lia.
    + intros k s Hks. apply (sub_inv_ext db); [done|done|]. by apply (Hs k s).
  - done.
Qed.

(** ** Paying *)

Lemma is_monthly_monthly_row sid' u sid p m i r :
  is_monthly_of sid' (monthly_row u sid p m i r) = Nat.eqb sid sid'.
Proof. unfold is_monthly_of. simpl. by rewrite andb_true_r. Qed.

Lemma is_monthly_bonus_row sid' u sid i r : is_monthly_of sid' (bonus_row u sid i r) = false.
Proof. unfold is_monthly_of. simpl. by rewrite andb_false_r. Qed.

Lemma is_bonus_monthly_row sid' u sid p m i r :
  is_bonus_of sid' (monthly_row u sid p m i r) = false.
Proof. unfold is_bonus_of. simpl. by rewrite andb_false_r. Qed.

Lemma is_bonus_bonus_row sid' u sid i r : is_bonus_of sid' (bonus_row u sid i r) = Nat.eqb sid sid'.
Proof. unfold is_bonus_of. simpl. by rewrite andb_true_r. Qed.

Lemma monthly_of_pay u s p m db sid' :
  monthly_of (pay_effect u s p m db) sid' =
  monthly_of db sid' ++
    (if Nat.eqb (sub_id s) sid'
     then [monthly_row u (sub_id s) p m (next_id db) (charge_rate db)] else []).
Proof.
  pose proof (pay_effect_tables u s p m db) as (_ & _ & _ & Hp & _).
  unfold monthly_of. rewrite Hp, List.filter_app. f_equal. simpl.
  rewrite is_monthly_monthly_row.
  destruct (Nat.eqb m (payment_months p)); simpl; rewrite ?is_monthly_bonus_row;
    by destruct (Nat.eqb (sub_id s) sid').
Qed.

Lemma bonus_of_pay u s p m db sid' :
  bonus_of (pay_effect u s p m db) sid' =
  bonus_of db sid' ++
    (if Nat.eqb (sub_id s) sid' && Nat.eqb m (payment_months p)
     then [bonus_row u (sub_id s) (S (next_id db)) (charge_rate db)] else []).
Proof.
  pose proof (pay_effect_tables u s p m db) as (_ & _ & _ & Hp & _).
  unfold bonus_of. rewrite Hp, List.filter_app. f_equal. simpl.
  rewrite is_bonus_monthly_row.
  destruct (Nat.eqb m (payment_months p)); simpl; rewrite ?is_bonus_bonus_row;
    destruct (Nat.eqb (sub_id s) sid'); done.
Qed.

Lemma holdings_of_pay u s p m db v :
  let r := charge_rate db in
  holdings_of (pay_effect u s p m db) v =
  holdings_of db v ++
    (if String.eqb u v
     then holding_row u (sub_id s) (next_id db) (monthly_amount p) r
            (gold_mg (monthly_amount p) r) MonthlyPurchase ::
          (if Nat.eqb m (payment_months p)
           then [holding_row u (sub_id s) (S (next_id db)) bonusAmountRs r
                   (gold_mg bonusAmountRs r) BonusGold] else [])
     else []).
Proof.
  intros r. pose proof (pay_effect_tables u s p m db) as (_ & _ & _ & _ & Hh & _).
  unfold holdings_of. rewrite Hh, List.filter_app. f_equal.
  destruct (Nat.eqb m (payment_months p)); cbn [List.filter holding_row h_user];
    by destruct (String.eqb u v).
Qed.

Lemma gold_pay u s p m db :
  (forall v w, wallets db !! v = Some w -> gold_balance_mg w == sumQ h_mg (holdings_of db v)) ->
  forall v w, wallets (pay_effect u s p m db) !! v = Some w ->
  gold_balance_mg w == sumQ h_mg (holdings_of (pay_effect u s p m db) v).
Proof.
  intros Hg v w Hw. rewrite holdings_of_pay, sumQ_app.
  pose proof (pay_effect_tables u s p m db) as (_ & _ & _ & _ & _ & Hws & _).
  rewrite Hws in Hw. destruct (String.eqb_spec u v) as [<-|Hne].
  - destruct (Nat.eqb m (payment_months p)); simpl in Hw;
      rewrite ?add_gold_sql_lookup in Hw;
      destruct (wallets db !! u) as [w0|] eqn:E; simpl in Hw; try discriminate;
      injection Hw as <-; simpl; rewrite (Hg u w0 E); lra.
  - destruct (Nat.eqb m (payment_months p)); simpl in Hw;
      rewrite ?add_gold_sql_lookup_ne in Hw by done;
      simpl; rewrite (Hg v w Hw); lra.
Qed.

Lemma sub_inv_other db db' s :
  plans db' = plans db -> monthly_of db' (sub_id s) = monthly_of db (sub_id s) ->
  bonus_of db' (sub_id s) = bonus_of db (sub_id s) -> sub_inv db s -> sub_inv db' s.
Proof. intros Hp Hm Hb. unfold sub_inv. by rewrite Hp, Hm, Hb. Qed.

Lemma subs_pay db u s p :
  ledger_inv db -> user_subscriptions db !! sub_id s = Some s -> sub_user s = u ->
  find_plan (sub_plan_id s) (plans db) = Some p ->
  (length (monthly_of db (sub_id s)) < payment_months p)%nat ->
  let db' := pay_effect u s p (S (length (monthly_of db (sub_id s)))) db in
  map_Forall (fun _ s' => sub_inv db' s') (user_subscriptions db').
Proof.
  intros Hinv Hk Hu Hp Hlt db'.
  pose proof (pay_effect_tables u s p (S (length (monthly_of db (sub_id s)))) db)
    as (_ & Hpl & _ & _ & _ & _ & Hsubs & _).
  fold db' in Hpl, Hsubs. rewrite Hsubs.
  intros k' s' Hk'. apply lookup_alter_Some in Hk' as [(<- & s0 & Hs0 & ->)|(Hne & Hk')].
  - rewrite Hk in Hs0. injection Hs0 as <-.
    pose proof (li_subs db Hinv _ _ Hk) as [Hst Hm]. rewrite Hp in Hm.
    pose proof (sched_inv_pay p s _ _ u (next_id db) (charge_rate db) Hm Hlt (eq_sym Hu))
      as Hsp.
    unfold sub_inv. subst db'. cbv zeta in Hsp.
    destruct (Nat.eqb (S (length (monthly_of db (sub_id s)))) (payment_months p)) eqn:Hd;
      cbn [id set_bonus set_total_paid sub_status sub_plan_id sub_id];
      rewrite Hpl, monthly_of_pay, bonus_of_pay, Nat.eqb_refl, Hd, Hp; by simpl andb.
  - pose proof (li_keys db Hinv k' s' Hk') as [Hid _].
    pose proof (li_keys db Hinv _ _ Hk) as [_ _].
    apply sub_inv_other with db; [done| | |by apply (li_subs db Hinv k')];
      subst db'; rewrite ?monthly_of_pay, ?bonus_of_pay;
      replace (Nat.eqb (sub_id s) (sub_id s')) with false
        by (symmetry; apply Nat.eqb_neq; congruence);
      simpl; by rewrite app_nil_r.
Qed.

Lemma is_active_of_pay (b : bool) t bo f v s :
  is_active_of v ((if b then set_bonus bo f else id) (set_total_paid t s)) = is_active_of v s.
Proof. by destruct b. Qed.

Lemma inv_pay_effect db u s p :
  ledger_inv db -> user_subscriptions db !! sub_id s = Some s -> is_active_of u s = true ->
  find_plan (sub_plan_id s) (plans db) = Some p ->
  (length (monthly_of db (sub_id s)) < payment_months p)%nat ->
  ledger_inv (pay_effect u s p (S (length (monthly_of db (sub_id s)))) db).
Proof.
  intros Hinv Hk Ha Hp Hlt.
  pose proof (Ha) as Ha'. apply is_active_of_true in Ha' as [Hu _].
  set (m := S (length (monthly_of db (sub_id s)))).
  pose proof (pay_effect_tables u s p m db)
    as (Hra & Hpl & Hpr & Hpay & Hhold & Hws & Hsubs & Hnext).
  destruct Hinv as [Hkeys Hr Hsp Hhp Hwp Huq Hs Hg] eqn:Hinv'.
  split.
  - rewrite Hsubs. apply map_Forall_alter_2.
    + intros k s0 Hk0. destruct (Hkeys k s0 Hk0). split; [done|lia].
    + intros s0 Hs0. destruct (Hkeys _ _ Hs0). split; [by destruct (Nat.eqb m _)|lia].
  - rewrite Hpay, Hsubs. intros q Hq. apply lookup_alter_is_Some.
    apply elem_of_app in Hq as [Hq|Hq]; [by apply Hr|].
    destruct (Nat.eqb m (payment_months p));
      repeat (apply elem_of_cons in Hq as [->|Hq]; [simpl; rewrite Hk; eauto|]);
      by apply elem_of_nil in Hq.
  - rewrite Hsubs, Hpr. apply map_Forall_alter_2.
    + intros k s0 Hk0. by apply (Hsp k s0).
    + intros s0 Hs0. destruct (Nat.eqb m _); by apply (Hsp _ s0 Hs0).
  - rewrite Hhold, Hpr. intros h Hh.
    assert (Hpu : is_Some (profiles db !! u)) by (rewrite <- Hu; by apply (Hsp _ s Hk)).
    apply elem_of_app in Hh as [Hh|Hh]; [by apply Hhp|].
    destruct (Nat.eqb m (payment_months p));
      repeat (apply elem_of_cons in Hh as [->|Hh]; [done|]);
      by apply elem_of_nil in Hh.
  - rewrite Hws, Hpr. intros v Hv. apply Hwp.
    destruct (Nat.eqb m (payment_months p)); simpl in Hv;
      unfold add_gold_sql in Hv; rewrite ?lookup_alter_is_Some in Hv; done.
  - intros v k1 k2 s1 s2 H1 H2 A1 A2. rewrite Hsubs in H1, H2.
    apply lookup_alter_Some in H1 as [(<- & x1 & H1 & ->)|(_ & H1)];
    apply lookup_alter_Some in H2 as [(<- & x2 & H2 & ->)|(_ & H2)];
    rewrite ?is_active_of_pay in A1; rewrite ?is_active_of_pay in A2;
    unfold unique_active in Huq; eauto.
  - by apply subs_pay.
  - by apply gold_pay.
Qed.

Lemma inv_pay db u : ledger_inv db -> ledger_inv (st_state (pay_session no_faults u) db).
Proof.
  intros Hinv. unfold pay_session, st_state, st_bind, st_get.
  destruct (loadSubscription db u) as [sv|] eqn:Hl; [|done].
  apply loadSubscription_Some in Hl as ([k Hk] & Ha & Hplan).
  pose proof (li_keys db Hinv _ _ Hk) as [Hid _]. rewrite <- Hid in Hk.
  destruct (sv_plan sv) as [p|] eqn:Hp; [|unfold makePayment; by rewrite Hp].
  destruct (Nat.le_gt_cases (payment_months p)
              (length (loadPayments db (sub_id (sv_row sv))))) as [Hle|Hgt].
  - by rewrite (makePayment_all_paid _ u sv _ db p Hp Hle).
  - rewrite (makePayment_no_faults u sv _ db p Hp Hgt). simpl.
    rewrite length_loadPayments in *. apply inv_pay_effect; auto.
Qed.

Lemma inv_step db db' : ledger_step db db' -> ledger_inv db -> ledger_inv db'.
Proof.
  intros Hs Hinv. destruct Hs.
  - by apply inv_register.
  - by apply inv_register_no_wallet.
  - by apply inv_publish_rate.
  - by apply inv_subscribe.
  - by apply inv_pay.
Qed.

Lemma inv_init ps : ledger_inv (init_db ps).
Proof.
  split; simpl; try done.
  all: try (intros u k1 k2 s1 s2 H1; by rewrite lookup_empty in H1).
  all: try (intros u w Hw; by rewrite lookup_empty in Hw).
  all: try (intros x Hx; by apply elem_of_nil in Hx).
  intros u [w Hw]. by rewrite lookup_empty in Hw.
Qed.

Lemma inv_rtc db db' : rtc ledger_step db db' -> ledger_inv db -> ledger_inv db'.
Proof. induction 1; eauto using inv_step. Qed.

(** C1: every store reachable from a fresh one by registrations, rate
    publications, subscriptions from the plans screen and "Pay Month"
    sessions satisfies the ledger invariant: per subscription, the
    monthly payments carry months [1..k] with [k <= payment_months],
    [total_paid] equals their sum, the bonus row and columns exist
    exactly when the schedule is complete, a user has at most one active
    subscription, and each wallet's gold equals the sum of the user's
    gold holdings. *)
Theorem ledger_inv_reachable ps db : rtc ledger_step (init_db ps) db -> ledger_inv db.
Proof. intros H. eapply inv_rtc; [exact H | apply inv_init]. Qed.

(** C10: in every reachable store, every subscription row has status
    [active]: no handler of the code ever writes [completed] or
    [cancelled], so a completed plan keeps blocking the user's next
    enrolment (the plans screen only offers to subscribe when no
    active subscription loads). *)
Theorem status_always_active ps db :
  rtc ledger_step (init_db ps) db ->
  map_Forall (fun _ s => sub_status s = SubActive) (user_subscriptions db).
Proof.
  intros Hr k s Hks. pose proof (inv_rtc _ _ Hr (inv_init ps)) as Hinv.
  by destruct (li_subs db Hinv k s Hks).
Qed.

Lemma rtc_pays db n : rtc ledger_step db (run_pays n db).
Proof.
  induction n as [|n IH]; simpl; [apply rtc_refl|].
  eapply rtc_r; [exact IH | apply ls_pay].
Qed.

Lemma rtc_sample_run n : rtc ledger_step (init_db [sample_plan]) (sample_run n).
Proof.
  apply (rtc_l _ _ (run_register (init_db [sample_plan]))).
  { apply (ls_register _ "A" sample_profile). reflexivity. }
  apply (rtc_l _ _ (run_subscribe (run_register (init_db [sample_plan])))).
  { apply ls_subscribe; [eexists; reflexivity | vm_compute; reflexivity]. }
  apply rtc_pays.
Qed.

Lemma sample_run_inv n : ledger_inv (sample_run n).
Proof. eapply inv_rtc; [apply rtc_sample_run | apply inv_init]. Qed.

(** ** Witness *)

Lemma ledger_inv_reachable_witness : ledger_inv (sample_run 12).
Proof. apply (ledger_inv_reachable [sample_plan]). apply rtc_sample_run. Defined.

Lemma status_always_active_witness :
  map_Forall (fun _ s => sub_status s = SubActive) (user_subscriptions (sample_run 12)).
Proof. apply (status_always_active [sample_plan]). apply rtc_sample_run. Defined.

End LedgerInv.
