(* ===== verification/LedgerSpec.v ===== *)
(** * The spec's ledger contract, and the code against it

    Spec 4.2 describes [recordMonthlyPayment] on an abstract subscription:
    the number of months paid, [total_paid], [bonus_amount],
    [final_amount] and the status.  [record_monthly] is that contract,
    with [ScheduleComplete] as its error.  [abs_of] reads the abstract
    subscription off the store.  The refinement theorem says that one
    "Pay Month" session changes the store the way the contract says, up
    to [abs_equiv], which compares amounts with [==] and leaves the status
    out.  The status is where code and spec part: the code never writes
    [completed].  The last theorems show that, and what follows from it. *)

From S2P Require Import Prelude Wallet Store GoldRate Ledger LedgerInv.
Import Store GoldRate Ledger LedgerInv.

Module LedgerSpec.

Record AbsSub := mkAbs {
  a_paid : nat;
  a_total : Q;
  a_bonus : Q;
  a_final : Q;
  a_completed : bool
}.

Inductive SpecError := ScheduleComplete.

(** [recordMonthlyPayment] of spec 4.2, with the bonus the code pays. *)
Definition record_monthly (p : Plan) (bonus : Q) (a : AbsSub) : SpecError + AbsSub :=
  if Nat.ltb (a_paid a) (payment_months p) then
    let t := a_total a + monthly_amount p in
    if Nat.eqb (S (a_paid a)) (payment_months p)
    then inr {| a_paid := S (a_paid a); a_total := t; a_bonus := bonus;
                a_final := t + bonus; a_completed := true |}
    else inr {| a_paid := S (a_paid a); a_total := t; a_bonus := a_bonus a;
                a_final := a_final a; a_completed := a_completed a |}
  else inl ScheduleComplete.

Definition abs_of (db : DB) (s : SubRow) : AbsSub :=
  {| a_paid := length (monthly_of db (sub_id s)); a_total := total_paid s;
     a_bonus := bonus_amount s; a_final := final_amount s;
     a_completed := bool_decide (sub_status s = SubCompleted) |}.

(** Agreement on everything but the status. *)
Definition abs_equiv (a b : AbsSub) : Prop :=
  a_paid a = a_paid b /\ a_total a == a_total b /\ a_bonus a == a_bonus b /\
  a_final a == a_final b.

Definition res_equiv (r1 r2 : SpecError + AbsSub) : Prop :=
  match r1, r2 with
  | inl e1, inl e2 => e1 = e2
  | inr a1, inr a2 => abs_equiv a1 a2
  | _, _ => False
  end.

#[export] Instance abs_equiv_equiv : Equivalence abs_equiv.
Proof.
  split.
  - intros a. repeat split; reflexivity.
  - intros a b (H1 & H2 & H3 & H4). repeat split; by symmetry.
  - intros a b c (H1 & H2 & H3 & H4) (G1 & G2 & G3 & G4).
    repeat split; etransitivity; eauto.
Qed.

#[export] Instance record_monthly_proper p b :
  Proper (abs_equiv ==> res_equiv) (record_monthly p b).
Proof.
  intros [k1 t1 b1 f1 c1] [k2 t2 b2 f2 c2] (H1 & H2 & H3 & H4).
  simpl in *. subst k2. unfold record_monthly.
  cbn [a_paid a_total a_bonus a_final a_completed].
  destruct (Nat.ltb k1 (payment_months p)); [|done].
  destruct (Nat.eqb (S k1) (payment_months p)); unfold res_equiv, abs_equiv;
    cbn [a_paid a_total a_bonus a_final a_completed];
    repeat split; try reflexivity; lra.
Qed.

Lemma loaded_row db u sv :
  ledger_inv db -> loadSubscription db u = Some sv ->
  user_subscriptions db !! sub_id (sv_row sv) = Some (sv_row sv) /\
  is_active_of u (sv_row sv) = true /\
  sv_plan sv = find_plan (sub_plan_id (sv_row sv)) (plans db).
Proof.
  intros Hinv Hl. apply loadSubscription_Some in Hl as ([k Hk] & Ha & Hp).
  destruct (li_keys db Hinv _ _ Hk) as [Hid _]. rewrite Hid. auto.
Qed.

(** C4: refinement of the spec's [recordMonthlyPayment] (4.2) by one
    "Pay Month" session: when the contract answers [ScheduleComplete]
    the session answers [AllPaid] and leaves the store as it was, and
    otherwise the subscription row afterwards has the months paid,
    [total_paid], [bonus_amount] and [final_amount] the contract
    prescribes (status aside, see [final_payment_status_diverges]). *)
Theorem pay_session_refines db u sv p :
  ledger_inv db -> loadSubscription db u = Some sv -> sv_plan sv = Some p ->
  let s := sv_row sv in
  let db' := st_state (pay_session no_faults u) db in
  match record_monthly p bonusAmountRs (abs_of db s) with
  | inl ScheduleComplete => pay_session no_faults u db = (Ret AllPaid, db)
  | inr a' => exists s', user_subscriptions db' !! sub_id s = Some s' /\
                         abs_equiv (abs_of db' s') a'
  end.
Proof.
  intros Hinv Hl Hp s db'. pose proof (loaded_row db u sv Hinv Hl) as (Hk & _ & _).
  fold s in Hk. unfold record_monthly. cbn [abs_of a_paid].
  destruct (Nat.ltb_spec (length (monthly_of db (sub_id s))) (payment_months p)) as [Hlt|Hge].
  2: { unfold pay_session, st_bind, st_get. rewrite Hl.
       apply (makePayment_all_paid _ u sv _ db p Hp). by rewrite length_loadPayments. }
  assert (Hdb : db' = pay_effect u s p (S (length (monthly_of db (sub_id s)))) db).
  { subst db'. unfold pay_session, st_state, st_bind, st_get. rewrite Hl.
    rewrite (makePayment_no_faults u sv _ db p Hp) by (by rewrite length_loadPayments).
    by rewrite length_loadPayments. }
  pose proof (pay_effect_tables u s p (S (length (monthly_of db (sub_id s)))) db)
    as (_ & _ & _ & _ & _ & _ & Hsubs & _).
  rewrite <- Hdb in Hsubs.
  destruct (Nat.eqb (S (length (monthly_of db (sub_id s)))) (payment_months p)) eqn:Hd;
    (eexists; rewrite Hsubs, lookup_alter_eq, Hk; split; [reflexivity|]);
    unfold abs_of, abs_equiv; cbn [a_paid a_total a_bonus a_final];
    rewrite Hdb, monthly_of_pay, Nat.eqb_refl, length_app;
    cbn; repeat split; try lia; reflexivity.
Qed.



(** ** Witnesses *)

Lemma pay_session_refines_witness :
  exists s', user_subscriptions (st_state (pay_session no_faults "A") (sample_run 0))
               !! 1%nat = Some s' /\
    abs_equiv (abs_of (st_state (pay_session no_faults "A") (sample_run 0)) s')
              {| a_paid := 1; a_total := 0 + 1000; a_bonus := 0; a_final := 0;
                 a_completed := false |}.
Proof.
  pose proof (pay_session_refines (sample_run 0) "A" (sample_view 0) sample_plan
                (sample_run_inv 0) ltac:(vm_compute; reflexivity) eq_refl) as H.
  vm_compute in H |- *. exact H.
Defined.



End LedgerSpec.
