(* ===== verification/Auth.v ===== *)
(** * Sign-in: the auth service, [AuthContext] and the login screen

    [src/contexts/AuthContext.tsx] keeps [user], [profile] and [loading]
    for every screen.  It persists the Supabase session under
    [SESSION_KEY] in the device storage and restores it on mount.  It
    listens to the auth state changes of the Supabase client.  It also
    offers [signInWithPassword] (phone to [<digits>@asjewellers.app]),
    [signOut] and [reloadProfile].  The login screen
    ([src/app/auth/login.tsx]) does not use any of them: it compares the
    form with a hard-coded phone and password and navigates to the tabs.

    The Supabase auth service is not part of the repository.  It is
    modelled by its documented behaviour as a map from e-mail to user
    and a map from access token to user id, with e-mail confirmation
    off, so that a sign-up returns a session.  The device storage is the
    value stored under [SESSION_KEY]: [localStorage] on the web and
    [SecureStore] on devices behave alike as key-value stores. *)

From S2P Require Import Prelude Format View Wallet Store.
From Stdlib Require Import Ascii.
Import Format View Store.

Module Auth.

(** ** The auth service *)

Record AuthUser := mkAuthUser {
  au_id : string;
  au_password : string;
  au_phone : string;
  au_name : string
}.

Record Session := mkSession { s_user : string; s_token : string }.

Record AuthServer := mkAuthServer {
  au_users : gmap string AuthUser;     (** by e-mail *)
  au_tokens : gmap string string;      (** access token to user id *)
  au_next : nat                        (** fresh ids and tokens *)
}.

Inductive AuthError := AlreadyRegistered | InvalidCredentials.

Definition auth_error_message (e : AuthError) : string :=
  match e with
  | AlreadyRegistered => "User already registered"
  | InvalidCredentials => "Invalid login credentials"
  end.

(** A new session for user [uid]: a fresh access token. *)
Definition open_session (srv : AuthServer) (uid : string) : Session * AuthServer :=
  let tok := fresh_key "tok-" (au_next srv) in
  (mkSession uid tok,
   mkAuthServer (au_users srv) (<[tok := uid]> (au_tokens srv)) (S (au_next srv))).

(** [supabase.auth.signUp({email, password, options: {data}})]. *)
Definition signUp (srv : AuthServer) (email pw phone name : string)
  : AuthError + (AuthUser * Session * AuthServer) :=
  match au_users srv !! email with
  | Some _ => inl AlreadyRegistered
  | None =>
      let u := mkAuthUser (fresh_key "user-" (au_next srv)) pw phone name in
      let srv1 := mkAuthServer (<[email := u]> (au_users srv)) (au_tokens srv)
                               (S (au_next srv)) in
      let '(sess, srv2) := open_session srv1 (au_id u) in
      inr (u, sess, srv2)
  end.

(** [supabase.auth.signInWithPassword({email, password})]. *)
Definition signIn (srv : AuthServer) (email pw : string) : AuthError + (Session * AuthServer) :=
  match au_users srv !! email with
  | Some u => if String.eqb (au_password u) pw then inr (open_session srv (au_id u))
              else inl InvalidCredentials
  | None => inl InvalidCredentials
  end.

(** [supabase.auth.getUser()] for the client holding token [tok]. *)
Definition getUser (srv : AuthServer) (tok : string) : option string := au_tokens srv !! tok.

Definition revoke (srv : AuthServer) (tok : string) : AuthServer :=
  mkAuthServer (au_users srv) (delete tok (au_tokens srv)) (au_next srv).

(** ** The phone number as the auth e-mail *)

(** [`${phone.replace(/\D+/g, '')}@asjewellers.app`], written alike in
    [handleRegister] and in [signInWithPassword]. *)
Definition phone_email (phone : string) : string :=
  strip_non_digits phone +:+ "@asjewellers.app".

(** ** [AuthContext] *)

Record AuthCtx := mkCtx {
  user : option string;
  profile : option Profile;
  loading : bool
}.

Definition ctx_init : AuthCtx := mkCtx None None true.

(** The device state of the provider: the stored session and the token
    the Supabase client holds. *)
Record Device := mkDevice {
  stored : option Session;
  client : option Session
}.

(** [fetchProfile]: [select * from profiles where id = userId],
    [maybeSingle]; an error ([fail]) or no row gives [null]. *)
Definition fetchProfile (fail : bool) (db : DB) (uid : string) : option Profile :=
  if fail then None else profiles db !! uid.

Definition set_user (u : option string) (c : AuthCtx) : AuthCtx :=
  mkCtx u (profile c) (loading c).
Definition set_profile (p : option Profile) (c : AuthCtx) : AuthCtx :=
  mkCtx (user c) p (loading c).
Definition set_loading (b : bool) (c : AuthCtx) : AuthCtx :=
  mkCtx (user c) (profile c) b.

(** The mount effect: restore the stored session, ask the service for
    its user, fetch the profile, and stop loading whatever happened. *)
Definition restore (fail : bool) (srv : AuthServer) (db : DB) (dev : Device) (c : AuthCtx)
  : Device * AuthCtx :=
  match stored dev with
  | None => (dev, set_loading false c)
  | Some sess =>
      let dev' := mkDevice (stored dev) (Some sess) in
      let u := getUser srv (s_token sess) in
      let c1 := set_user u c in
      let c2 := match u with Some uid => set_profile (fetchProfile fail db uid) c1 | None => c1 end in
      (dev', set_loading false c2)
  end.

(** The [onAuthStateChange] listener, for the session the client now
    holds ([None] after a sign-out). *)
Definition on_auth_change (fail : bool) (db : DB) (sess : option Session) (dev : Device)
    (c : AuthCtx) : Device * AuthCtx :=
  match sess with
  | Some s => (mkDevice (Some s) (Some s),
               set_profile (fetchProfile fail db (s_user s)) (set_user (Some (s_user s)) c))
  | None => (mkDevice None None, set_profile None (set_user None c))
  end.

(** [signInWithPassword(phone, password)]: the error message it returns
    ([None] for [{ error: null }]). *)
Definition ctx_signIn (fail : bool) (srv : AuthServer) (db : DB) (phone pw : string)
    (dev : Device) (c : AuthCtx) : option string * AuthServer * Device * AuthCtx :=
  match signIn srv (phone_email phone) pw with
  | inl e => (Some (auth_error_message e), srv, dev, c)
  | inr (sess, srv') =>
      let c1 := set_user (Some (s_user sess)) c in
      (None, srv', mkDevice (Some sess) (Some sess),
       set_profile (fetchProfile fail db (s_user sess)) c1)
  end.

(** [signOut]: the service call's errors are only logged. *)
Definition ctx_signOut (srv : AuthServer) (dev : Device) (c : AuthCtx)
  : AuthServer * Device * AuthCtx :=
  let srv' := match client dev with Some s => revoke srv (s_token s) | None => srv end in
  (srv', mkDevice None None, set_profile None (set_user None c)).

(** [reloadProfile]. *)
Definition reloadProfile (fail : bool) (srv : AuthServer) (db : DB) (dev : Device) (c : AuthCtx)
  : AuthCtx :=
  let u := match client dev with Some s => getUser srv (s_token s) | None => None end in
  match u with
  | Some uid => set_profile (fetchProfile fail db uid) (set_user u c)
  | None => set_profile None (set_user None c)
  end.

(** ** The login screen *)

Record LoginState := mkLogin {
  l_phone : string;
  l_password : string;
  l_loading : bool;
  l_error : string
}.

Definition login_init : LoginState := mkLogin "" "" false "".

Definition validPhone : string := "1234567890".
Definition validPassword : string := "123456".

(** [handleLogin]. *)
Definition handleLogin (st : LoginState) : LoginState * list Effect :=
  if String.eqb (l_phone st) validPhone && String.eqb (l_password st) validPassword
  then (mkLogin (l_phone st) (l_password st) false "", [Replace "/(tabs)"])
  else (mkLogin (l_phone st) (l_password st) false "Invalid phone number or password", []).

Inductive LoginAction := DoLogin | GoRegister.

(** The login screen's JSX, debug block included. *)
Definition login_view (st : LoginState) : Node LoginAction :=
  Box ([T "A S JEWELLERS"; T "Sign in to your account";
        Box ([Text [PS "Phone: "; PS (l_phone st)];
              Text [PS "Password: "; PN (inject_Z (Z.of_nat (String.length (l_password st)))) Plain;
                    PS " chars"];
              Text [PS "Loading: "; PS (if l_loading st then "Yes" else "No")]] ++
             when (negb (String.eqb (l_error st) "")) (Text [PS "Error: "; PS (l_error st)]))] ++
       when (negb (String.eqb (l_error st) "")) (Box [T (l_error st)]) ++
       [Box [T "Phone Number"; Input "phone" (l_phone st) false];
        Box [T "Password"; Input "password" (l_password st) true];
        Button DoLogin (l_loading st) [T (if l_loading st then "Signing In..." else "Sign In")];
        Button GoRegister false [Text [PS "Don't have an account? "; PS "Register"]]]).

Definition login_press (a : LoginAction) (st : LoginState) : LoginState * list Effect :=
  match a with
  | DoLogin => handleLogin st
  | GoRegister => (st, [Push "/auth/register"])
  end.

(** ** Lemmas *)

Lemma signIn_open srv email pw u :
  au_users srv !! email = Some u -> au_password u = pw ->
  signIn srv email pw = inr (open_session srv (au_id u)).
Proof. intros Hu Hp. unfold signIn. rewrite Hu, Hp, String.eqb_refl. reflexivity. Qed.

Lemma signUp_Some srv email pw phone name u s srv' :
  signUp srv email pw phone name = inr (u, s, srv') ->
  au_users srv' !! email = Some u /\ au_password u = pw /\ s_user s = au_id u /\
  getUser srv' (s_token s) = Some (au_id u).
Proof.
  unfold signUp. destruct (au_users srv !! email); [discriminate|].
  intros [= <- <- <-]. unfold getUser. simpl. rewrite !lookup_insert_eq. auto.
Qed.

Lemma phone_email_digits p p' :
  strip_non_digits p' = strip_non_digits p -> phone_email p' = phone_email p.
Proof. unfold phone_email. by intros ->. Qed.

(** ** Theorems *)

(** C23: the login screen lets a user in exactly when the form holds the
    hard-coded phone [1234567890] and password [123456]; any other input
    shows "Invalid phone number or password" and navigates nowhere. *)
Theorem handleLogin_hardcoded st :
  (snd (handleLogin st) = [Replace "/(tabs)"] <->
   l_phone st = validPhone /\ l_password st = validPassword) /\
  (snd (handleLogin st) = [] <->
   l_error (fst (handleLogin st)) = "Invalid phone number or password").
Proof.
  unfold handleLogin.
  destruct (String.eqb_spec (l_phone st) validPhone) as [Hp|Hp],
           (String.eqb_spec (l_password st) validPassword) as [Hw|Hw]; simpl;
    split; split; intros H; try done; try (split; assumption);
    try discriminate; try (destruct H; congruence).
Qed.


(** C27: a session survives a restart: after a successful
    [signInWithPassword], mounting a fresh provider on the same device
    restores the same user and the same profile. *)
Theorem session_restore_roundtrip fail srv db phone pw dev c srv' dev' c' :
  ctx_signIn fail srv db phone pw dev c = (None, srv', dev', c') ->
  user (snd (restore fail srv' db dev' ctx_init)) = user c' /\
  profile (snd (restore fail srv' db dev' ctx_init)) = profile c' /\
  loading (snd (restore fail srv' db dev' ctx_init)) = false.
Proof.
  unfold ctx_signIn. destruct (signIn srv (phone_email phone) pw) as [e|[sess srv1]] eqn:E;
    [discriminate|].
  intros [= <- <- <-]. unfold signIn in E.
  destruct (au_users srv !! phone_email phone) as [u|]; [|discriminate].
  case_if; [|discriminate]. injection E as <- <-.
  unfold restore, open_session, getUser. simpl. rewrite lookup_insert_eq. auto.
Qed.

(** [signOut] forgets the session on the device and on the service:
    a later mount restores nobody, and the old token no longer resolves. *)
Theorem signOut_forgets srv db dev c s fail :
  client dev = Some s ->
  let '(srv', dev', c') := ctx_signOut srv dev c in
  user c' = None /\ profile c' = None /\ stored dev' = None /\
  getUser srv' (s_token s) = None /\
  user (snd (restore fail srv' db dev' ctx_init)) = None.
Proof.
  intros Hc. unfold ctx_signOut. rewrite Hc. simpl.
  unfold getUser, revoke. simpl. by rewrite lookup_delete_eq.
Qed.

(** ** Witnesses *)

Definition srv0 : AuthServer := mkAuthServer ∅ ∅ 0.

(** Asha registers as ["98765 43210"] with password ["secret1"]. *)
Definition srv_asha : AuthServer :=
  match signUp srv0 (phone_email "98765 43210") "secret1" (strip_non_digits "98765 43210") "Asha"
  with inr (_, _, s) => s | inl _ => srv0 end.


Lemma session_restore_roundtrip_witness :
  exists srv' dev' c',
    ctx_signIn false srv_asha empty_db "9876543210" "secret1" (mkDevice None None) ctx_init =
      (None, srv', dev', c') /\
    user (snd (restore false srv' empty_db dev' ctx_init)) = user c'.
Proof.
  destruct (ctx_signIn false srv_asha empty_db "9876543210" "secret1" (mkDevice None None)
              ctx_init) as [[[r srv'] dev'] c'] eqn:E.
  assert (r = None) as -> by (vm_compute in E; congruence).
  exists srv', dev', c'. split; [reflexivity|].
  exact (proj1 (session_restore_roundtrip false srv_asha empty_db _ _ _ _ srv' dev' c' E)).
Defined.

Lemma signOut_forgets_witness :
  let s := mkSession "user-0" "tok-1" in
  let '(srv', dev', c') := ctx_signOut srv_asha (mkDevice (Some s) (Some s)) ctx_init in
  user c' = None /\ profile c' = None /\ stored dev' = None /\
  getUser srv' (s_token s) = None /\
  user (snd (restore false srv' empty_db dev' ctx_init)) = None.
Proof.
  exact (signOut_forgets srv_asha empty_db (mkDevice (Some (mkSession "user-0" "tok-1"))
           (Some (mkSession "user-0" "tok-1"))) ctx_init (mkSession "user-0" "tok-1") false eq_refl).
Defined.

End Auth.
