(* ===== verification/Register.v ===== *)
(** * Registration ([src/app/auth/register.tsx])

    [handleRegister] validates the form, signs the user up with the auth
    service under [<digits of phone>@asjewellers.app], looks the referral
    code up in [profiles], draws a referral code [REF<6 digits>] from
    [Math.random()], inserts the [profiles] row and then the [wallets]
    row, whose error is only logged.  Every exit goes through [finally],
    which clears [loading].  The form's inputs filter what is typed
    (Aadhar: digits, at most 12; PAN: upper case, at most 10; referral
    code: upper case).

    A run is a function of the form, the auth service, the store, the
    value [Math.random()] returned, and the answers of the three
    requests that can fail: the referral lookup, the profile insert and
    the wallet insert.  A referral lookup that matches several profiles
    fails as [maybeSingle] does. *)

From S2P Require Import Prelude Format View Wallet Store Auth.
From Stdlib Require Import Ascii.
Import Format View Store Auth.

Module Register.

Record RegForm := mkReg {
  fullName : string;
  phone : string;
  password : string;
  confirmPassword : string;
  aadharNumber : string;
  panNumber : string;
  referralCode : string;
  r_loading : bool
}.

Definition reg_init : RegForm := mkReg "" "" "" "" "" "" "" false.

Definition set_r_loading (b : bool) (f : RegForm) : RegForm :=
  mkReg (fullName f) (phone f) (password f) (confirmPassword f) (aadharNumber f)
        (panNumber f) (referralCode f) b.

(** ** The validations *)

Definition chars (s : string) : list ascii := String.list_ascii_of_string s.

Definition is_upper (c : ascii) : bool :=
  let n := N_of_ascii c in ((65 <=? n) && (n <=? 90))%N.

(** [/^\d{12}$/.test(aadharNumber)]. *)
Definition aadhar_ok (s : string) : bool :=
  Nat.eqb (String.length s) 12 && forallb is_digit (chars s).

(** [/^[A-Z]{5}[0-9]{4}[A-Z]$/.test(panNumber)]. *)
Definition pan_ok (s : string) : bool :=
  match chars s with
  | [a1; a2; a3; a4; a5; d1; d2; d3; d4; z] =>
      forallb is_upper [a1; a2; a3; a4; a5] && forallb is_digit [d1; d2; d3; d4] && is_upper z
  | _ => false
  end.

(** The first failing validation, as the alert's message. *)
Definition validate (f : RegForm) : option string :=
  if String.eqb (trim (fullName f)) "" then Some "Enter full name"
  else if String.eqb (phone f) "" || Nat.ltb (String.length (phone f)) 10
  then Some "Enter valid phone number"
  else if Nat.ltb (String.length (password f)) 6
  then Some "Password must be at least 6 characters"
  else if negb (String.eqb (password f) (confirmPassword f)) then Some "Passwords do not match"
  else if negb (aadhar_ok (aadharNumber f)) then Some "Enter valid 12-digit Aadhar"
  else if negb (pan_ok (panNumber f)) then Some "Invalid PAN format (ABCDE1234F)"
  else None.

(** ** The requests *)

(** The answers of the requests that can fail, as error messages. *)
Record RegFaults := mkRegFaults {
  f_ref_lookup : option string;
  f_profile : option string;
  f_wallet : option string
}.

Definition reg_no_faults : RegFaults := mkRegFaults None None None.

(** [select id from profiles where referral_code = code], [maybeSingle]:
    no row is [null], one row its id, more rows an error. *)
Definition lookup_referrer (fl : RegFaults) (db : DB) (code : string)
  : string + option string :=
  match f_ref_lookup fl with
  | Some m => inl m
  | None =>
      match filter (fun p => String.eqb (referral_code p.2) code) (map_to_list (profiles db)) with
      | [] => inr None
      | [(uid, _)] => inr (Some uid)
      | _ => inl "JSON object requested, multiple (or no) rows returned"
      end
  end.

(** The referral check: [inr (Some referrerId)] to go on (no code gives
    [null]), [inr None] for an unknown code, [inl] an error to throw. *)
Definition resolve_referrer (fl : RegFaults) (db : DB) (f : RegForm)
  : string + option (option string) :=
  if String.eqb (trim (referralCode f)) "" then inr (Some None)
  else match lookup_referrer fl db (toUpperCase (trim (referralCode f))) with
       | inl m => inl m
       | inr None => inr None
       | inr (Some uid) => inr (Some (Some uid))
       end.

(** ['REF' + Math.floor(100000 + Math.random() * 900000)]. *)
Definition referral_of_random (r : Q) : string :=
  "REF" +:+ to_base 10 (Z.to_N (Qfloor (100000 + r * 900000))).

Definition new_profile (uid : string) (f : RegForm) (code : string) (referrer : option string)
  : Profile :=
  {| prof_id := uid; phone_number := strip_non_digits (phone f);
     full_name := trim (fullName f); aadhar_number := aadharNumber f;
     pan_number := toUpperCase (panNumber f); referral_code := code;
     referred_by := referrer; prof_status := "active"; kyc_verified := false;
     is_admin := false |}.

(** [err.message || 'Unable to register']. *)
Definition error_alert (m : string) : Effect :=
  Alert "Error" (if String.eqb m "" then "Unable to register" else m).

Definition success_alert : Effect :=
  AlertThen "Success" "Account created successfully!" (Replace "/auth/login").

(** The "Already have an account? Sign In" link. *)
Definition goLogin_effects : list Effect := [Replace "/auth/login"].

(** [handleRegister]: the form afterwards, the effects, and the auth
    service and store afterwards. *)
Definition handleRegister (fl : RegFaults) (r : Q) (f : RegForm) (srv : AuthServer) (db : DB)
  : RegForm * list Effect * AuthServer * DB :=
  let done_ (e : Effect) (srv' : AuthServer) (db' : DB) :=
    (set_r_loading false f, [e], srv', db') in
  match validate f with
  | Some m => done_ (Alert "Error" m) srv db
  | None =>
      let sanitizedPhone := strip_non_digits (phone f) in
      match signUp srv (phone_email (phone f)) (password f) sanitizedPhone (trim (fullName f)) with
      | inl e => done_ (error_alert (auth_error_message e)) srv db
      | inr (u, _, srv1) =>
          match resolve_referrer fl db f with
          | inl m => done_ (error_alert m) srv1 db
          | inr None => done_ (Alert "Error" "Invalid referral code") srv1 db
          | inr (Some rid) =>
              let p := new_profile (au_id u) f (referral_of_random r) rid in
              match f_profile fl with
              | Some m => done_ (error_alert m) srv1 db
              | None =>
                  let db1 := set_profiles (<[au_id u := p]> (profiles db)) db in
                  let db2 := match f_wallet fl with
                             | Some _ => db1
                             | None => set_wallets (<[au_id u := new_wallet]> (wallets db1)) db1
                             end in
                  done_ success_alert srv1 db2
              end
          end
      end
  end.

(** ** The inputs *)

Definition onChangeAadhar (text : string) (f : RegForm) : RegForm :=
  mkReg (fullName f) (phone f) (password f) (confirmPassword f)
        (slice_first 12 (strip_non_digits text)) (panNumber f) (referralCode f)
        (r_loading f).

Definition onChangePan (t : string) (f : RegForm) : RegForm :=
  mkReg (fullName f) (phone f) (password f) (confirmPassword f) (aadharNumber f)
        (slice_first 10 (toUpperCase t)) (referralCode f) (r_loading f).

Definition onChangeReferral (t : string) (f : RegForm) : RegForm :=
  mkReg (fullName f) (phone f) (password f) (confirmPassword f) (aadharNumber f)
        (panNumber f) (toUpperCase t) (r_loading f).

(** ** The screen *)

Inductive RegAction := DoRegister | GoLogin.

(** The [Input] component: a label and a text input. *)
Definition input_view {A} (label field value : string) (secure : bool) : Node A :=
  Box [T label; Input field value secure].

Definition register_view (f : RegForm) : Node RegAction :=
  Box [Box [T "Create Account"; T "Join A S Jewellers Today";
            input_view "Full Name *" "fullName" (fullName f) false;
            input_view "Phone Number *" "phone" (phone f) false;
            input_view "Password *" "password" (password f) true;
            input_view "Confirm Password *" "confirmPassword" (confirmPassword f) true;
            input_view "Aadhar Number *" "aadharNumber" (aadharNumber f) false;
            input_view "PAN Number *" "panNumber" (panNumber f) false;
            input_view "Referral Code (Optional)" "referralCode" (referralCode f) false;
            Button DoRegister (r_loading f)
              [T (if r_loading f then "Creating Account..." else "Register")];
            Button GoLogin false [Text [PS "Already have an account? "; PS "Sign In"]]]].

(** ** Lemmas *)

Lemma validate_None f :
  validate f = None <->
  trim (fullName f) <> "" /\ (10 <= String.length (phone f))%nat /\
  (6 <= String.length (password f))%nat /\ password f = confirmPassword f /\
  aadhar_ok (aadharNumber f) = true /\ pan_ok (panNumber f) = true.
Proof.
  unfold validate.
  destruct (String.eqb_spec (trim (fullName f)) ""), (String.eqb_spec (phone f) ""),
    (Nat.ltb_spec (String.length (phone f)) 10), (Nat.ltb_spec (String.length (password f)) 6),
    (String.eqb_spec (password f) (confirmPassword f)), (aadhar_ok (aadharNumber f)),
    (pan_ok (panNumber f)); simpl;
    split; intros Hx; try discriminate; try (subst; simpl in *; lia);
    try (destruct Hx as (? & ? & ? & ? & ? & ?); first [congruence | lia]); intuition;
    match goal with E : phone f = "" |- _ => rewrite E in *; simpl in *; lia end.
Qed.

Lemma signUp_fresh srv email pw ph nm :
  au_users srv !! email = None ->
  exists u s srv1, signUp srv email pw ph nm = inr (u, s, srv1) /\
                   au_users srv1 !! email = Some u /\ au_password u = pw.
Proof.
  intros H. unfold signUp. rewrite H. do 3 eexists. split; [reflexivity|].
  simpl. by rewrite lookup_insert_eq.
Qed.

Lemma signUp_taken srv email pw ph nm u :
  au_users srv !! email = Some u -> signUp srv email pw ph nm = inl AlreadyRegistered.
Proof. intros H. unfold signUp. by rewrite H. Qed.

Lemma handleRegister_signUp_fails fl r f srv db e :
  validate f = None ->
  signUp srv (phone_email (phone f)) (password f) (strip_non_digits (phone f))
         (trim (fullName f)) = inl e ->
  handleRegister fl r f srv db =
    (set_r_loading false f, [error_alert (auth_error_message e)], srv, db).
Proof. intros Hv Hs. unfold handleRegister. by rewrite Hv, Hs. Qed.

(** ** Theorems *)

(** C26: a valid form with a fresh phone and an existing (or no) referral
    code, every request succeeding: the auth user is created under
    [<digits>@asjewellers.app], its [profiles] row holds the digits of
    the phone, the trimmed name, the PAN in upper case, the random
    referral code and the referrer, a zeroed wallet is created, and the
    success alert leads to the login screen. *)
Theorem handleRegister_success r f srv db rid :
  validate f = None -> au_users srv !! phone_email (phone f) = None ->
  resolve_referrer reg_no_faults db f = inr (Some rid) ->
  exists u srv1,
    au_users srv1 !! phone_email (phone f) = Some u /\ au_password u = password f /\
    handleRegister reg_no_faults r f srv db =
      (set_r_loading false f, [success_alert], srv1,
       set_wallets (<[au_id u := new_wallet]> (wallets db))
         (set_profiles (<[au_id u := new_profile (au_id u) f (referral_of_random r) rid]>
                          (profiles db)) db)).
Proof.
  intros Hv Hfresh Href.
  destruct (signUp_fresh srv (phone_email (phone f)) (password f) (strip_non_digits (phone f))
              (trim (fullName f)) Hfresh) as (u & s & srv1 & Hs & Hu & Hp).
  exists u, srv1. split; [done|]. split; [done|].
  unfold handleRegister. rewrite Hv, Hs, Href. reflexivity.
Qed.

(** the phone is checked for its length before its non-digits are
    removed: any ten characters pass, and a phone without a single digit
    signs the user up under the e-mail [@asjewellers.app] with an empty
    [phone_number]; a second such registration is refused as
    "User already registered". *)
Theorem phone_length_checked_raw r f1 f2 srv db :
  validate f1 = None -> validate f2 = None ->
  strip_non_digits (phone f1) = "" -> strip_non_digits (phone f2) = "" ->
  au_users srv !! "@asjewellers.app" = None ->
  resolve_referrer reg_no_faults db f1 = inr (Some None) ->
  let '(_, _, srv1, db1) := handleRegister reg_no_faults r f1 srv db in
  (exists u, au_users srv1 !! "@asjewellers.app" = Some u /\
             option_map phone_number (profiles db1 !! au_id u) = Some "") /\
  snd (fst (fst (handleRegister reg_no_faults r f2 srv1 db1))) =
    [Alert "Error" "User already registered"].
Proof.
  intros Hv1 Hv2 Hd1 Hd2 Hfree Href.
  assert (He : forall f, strip_non_digits (phone f) = "" -> phone_email (phone f) = "@asjewellers.app")
    by (intros f Hf; unfold phone_email; rewrite Hf; reflexivity).
  rewrite <- (He f1 Hd1) in Hfree.
  destruct (handleRegister_success r f1 srv db None Hv1 Hfree Href) as (u & srv1 & Hu & _ & ->).
  split.
  - exists u. rewrite <- (He f1 Hd1). split; [done|]. simpl.
    rewrite lookup_insert_eq. unfold new_profile. simpl. by rewrite Hd1.
  - rewrite (He f1 Hd1), <- (He f2 Hd2) in Hu.
    rewrite (handleRegister_signUp_fails _ _ _ _ _ AlreadyRegistered Hv2)
      by (by apply (signUp_taken _ _ _ _ _ u)).
    reflexivity.
Qed.

(** C25: the sign-up happens before the referral code is checked.  With
    an unknown code the user sees "Invalid referral code" and no profile
    is written, but the auth account exists: every later attempt with
    the same phone digits is refused as "User already registered", so
    the phone can never get a profile. *)
Theorem invalid_referral_orphans_account r f srv db :
  validate f = None -> au_users srv !! phone_email (phone f) = None ->
  resolve_referrer reg_no_faults db f = inr None ->
  let '(_, eff, srv1, db1) := handleRegister reg_no_faults r f srv db in
  eff = [Alert "Error" "Invalid referral code"] /\ db1 = db /\
  forall fl r' f', validate f' = None -> strip_non_digits (phone f') = strip_non_digits (phone f) ->
    handleRegister fl r' f' srv1 db1 =
      (set_r_loading false f', [Alert "Error" "User already registered"], srv1, db1).
Proof.
  intros Hv Hfresh Href.
  destruct (signUp_fresh srv (phone_email (phone f)) (password f) (strip_non_digits (phone f))
              (trim (fullName f)) Hfresh) as (u & s & srv1 & Hs & Hu & _).
  unfold handleRegister at 1. rewrite Hv, Hs, Href. split; [done|]. split; [done|].
  intros fl r' f' Hv' Hd.
  apply (handleRegister_signUp_fails _ _ _ _ _ AlreadyRegistered Hv').
  apply (signUp_taken _ _ _ _ _ u). by rewrite (phone_email_digits _ _ Hd).
Qed.

Lemma Qfloor_between (y : Q) (lo hi : Z) :
  inject_Z lo <= y -> y < inject_Z (hi + 1) -> (lo <= Qfloor y <= hi)%Z.
Proof.
  intros Hlo Hhi. pose proof (Qfloor_le y). pose proof (Qlt_floor y). split.
  - destruct (Z_lt_le_dec (Qfloor y) lo); [exfalso|done].
    assert (inject_Z (Qfloor y + 1) <= inject_Z lo) by (rewrite <- Zle_Qle; lia). lra.
  - destruct (Z_lt_le_dec hi (Qfloor y)); [exfalso|done].
    assert (inject_Z (hi + 1) <= inject_Z (Qfloor y)) by (rewrite <- Zle_Qle; lia). lra.
Qed.

(** for any value [0 <= Math.random() < 1] the referral code drawn is
    ["REF"] followed by a number between 100000 and 999999. *)
Theorem referral_code_range r :
  0 <= r < 1 ->
  exists n, referral_of_random r = "REF" +:+ to_base 10 n /\ (100000 <= n <= 999999)%N.
Proof.
  intros Hr. eexists. split; [reflexivity|].
  assert (H : (100000 <= Qfloor (100000 + r * 900000) <= 999999)%Z)
    by (apply Qfloor_between; change (inject_Z 100000) with 100000%Q;
        change (inject_Z (999999 + 1)) with 1000000%Q; nra).
  lia.
Qed.

(** referral codes are drawn at random and never checked for
    uniqueness; once two profiles share a code, every registration that
    enters it fails, because the lookup's [maybeSingle] finds two rows. *)
Theorem duplicate_referral_code_breaks_lookup fl db u1 u2 p1 p2 :
  f_ref_lookup fl = None -> u1 <> u2 ->
  profiles db !! u1 = Some p1 -> profiles db !! u2 = Some p2 ->
  referral_code p1 = referral_code p2 ->
  exists m, lookup_referrer fl db (referral_code p1) = inl m.
Proof.
  intros Hfl Hne H1 H2 Hc. unfold lookup_referrer. rewrite Hfl.
  assert (Hin : forall u p, profiles db !! u = Some p -> referral_code p = referral_code p1 ->
            (u, p) ∈ filter (fun p0 => String.eqb (referral_code p0.2) (referral_code p1))
                            (map_to_list (profiles db))).
  { intros u p Hu Hp. apply list_elem_of_filter. split; [simpl; rewrite Hp, String.eqb_refl; exact I|].
    by apply elem_of_map_to_list. }
  pose proof (Hin u1 p1 H1 eq_refl) as I1. pose proof (Hin u2 p2 H2 (eq_sym Hc)) as I2.
  destruct (filter _ _) as [|[k v] [|y l]]; eauto.
  - by apply elem_of_nil in I1.
  - apply list_elem_of_singleton in I1, I2. congruence.
Qed.

(** the wallet insert's error is only logged: when it fails, the user
    still gets the success alert and a profile, but no wallet. *)
Theorem wallet_error_ignored r f srv db rid m :
  validate f = None -> au_users srv !! phone_email (phone f) = None ->
  resolve_referrer reg_no_faults db f = inr (Some rid) ->
  exists u srv1 db',
    handleRegister (mkRegFaults None None (Some m)) r f srv db =
      (set_r_loading false f, [success_alert], srv1, db') /\
    profiles db' !! au_id u = Some (new_profile (au_id u) f (referral_of_random r) rid) /\
    wallets db' = wallets db.
Proof.
  intros Hv Hfresh Href.
  destruct (signUp_fresh srv (phone_email (phone f)) (password f) (strip_non_digits (phone f))
              (trim (fullName f)) Hfresh) as (u & s & srv1 & Hs & _ & _).
  exists u, srv1. eexists. unfold handleRegister. rewrite Hv, Hs.
  replace (resolve_referrer _ db f) with (resolve_referrer reg_no_faults db f) by reflexivity.
  rewrite Href. split; [reflexivity|]. simpl. by rewrite lookup_insert_eq.
Qed.

(** whatever is typed, the Aadhar field holds at most twelve
    characters, all of them digits. *)
Theorem onChangeAadhar_digits text f :
  (String.length (aadharNumber (onChangeAadhar text f)) <= 12)%nat /\
  forallb is_digit (chars (aadharNumber (onChangeAadhar text f))) = true.
Proof.
  unfold onChangeAadhar, slice_first, chars. simpl. split.
  - rewrite length_string_of_list, length_take. lia.
  - rewrite String.list_ascii_of_string_of_list_ascii.
    apply forallb_take, strip_non_digits_chars.
Qed.

(** ** Witnesses *)

Definition f_ok : RegForm :=
  mkReg "Asha" "9876543210" "secret1" "secret1" "123412341234" "ABCDE1234F" "" false.

(** Ten dashes for a phone number. *)
Definition f_dashes : RegForm :=
  mkReg "Asha" "----------" "secret1" "secret1" "123412341234" "ABCDE1234F" "" false.

Definition f_badref : RegForm :=
  mkReg "Asha" "9876543210" "secret1" "secret1" "123412341234" "ABCDE1234F" "ref000000" false.

(** Two profiles that drew the same code. *)
Definition twin_db : DB :=
  set_profiles {[ "A" := new_profile "A" f_ok "REF550000" None;
                  "B" := new_profile "B" f_dashes "REF550000" None ]} empty_db.

Lemma handleRegister_success_witness :
  exists u srv1,
    au_users srv1 !! phone_email (phone f_ok) = Some u /\ au_password u = password f_ok /\
    handleRegister reg_no_faults (1#2) f_ok srv0 empty_db =
      (set_r_loading false f_ok, [success_alert], srv1,
       set_wallets (<[au_id u := new_wallet]> (wallets empty_db))
         (set_profiles (<[au_id u := new_profile (au_id u) f_ok (referral_of_random (1#2)) None]>
                          (profiles empty_db)) empty_db)).
Proof. apply handleRegister_success; vm_compute; reflexivity. Defined.

Lemma phone_length_checked_raw_witness :
  let '(_, _, srv1, db1) := handleRegister reg_no_faults (1#2) f_dashes srv0 empty_db in
  (exists u, au_users srv1 !! "@asjewellers.app" = Some u /\
             option_map phone_number (profiles db1 !! au_id u) = Some "") /\
  snd (fst (fst (handleRegister reg_no_faults (1#2) f_dashes srv1 db1))) =
    [Alert "Error" "User already registered"].
Proof. apply phone_length_checked_raw; vm_compute; reflexivity. Defined.

Lemma invalid_referral_orphans_account_witness :
  let '(_, eff, srv1, db1) := handleRegister reg_no_faults (1#2) f_badref srv0 empty_db in
  eff = [Alert "Error" "Invalid referral code"] /\ db1 = empty_db /\
  forall fl r' f', validate f' = None -> strip_non_digits (phone f') = strip_non_digits (phone f_badref) ->
    handleRegister fl r' f' srv1 db1 =
      (set_r_loading false f', [Alert "Error" "User already registered"], srv1, db1).
Proof. apply invalid_referral_orphans_account; vm_compute; reflexivity. Defined.

Lemma referral_code_range_witness :
  exists n, referral_of_random (1#2) = "REF" +:+ to_base 10 n /\ (100000 <= n <= 999999)%N.
Proof. apply referral_code_range. lra. Defined.

Lemma duplicate_referral_code_breaks_lookup_witness :
  exists m, lookup_referrer reg_no_faults twin_db "REF550000" = inl m.
Proof.
  exact (duplicate_referral_code_breaks_lookup reg_no_faults twin_db "A" "B"
           (new_profile "A" f_ok "REF550000" None) (new_profile "B" f_dashes "REF550000" None)
           eq_refl ltac:(discriminate) eq_refl eq_refl eq_refl).
Defined.

Lemma wallet_error_ignored_witness :
  exists u srv1 db',
    handleRegister (mkRegFaults None None (Some "timeout")) (1#2) f_ok srv0 empty_db =
      (set_r_loading false f_ok, [success_alert], srv1, db') /\
    profiles db' !! au_id u = Some (new_profile (au_id u) f_ok (referral_of_random (1#2)) None) /\
    wallets db' = wallets empty_db.
Proof. apply wallet_error_ignored; vm_compute; reflexivity. Defined.

End Register.
