(* ===== verification/Accounts.v ===== *)
(** * Investment accounts: [AccountContext], the accounts screen, the switcher

    A user owns up to ten investment accounts ([investment_accounts]).
    [src/contexts/AccountContext.tsx] loads them, ordered primary first
    and then by creation.  It selects the one whose id was saved under
    [selectedAccountId] in [localStorage], or, with nothing saved, the
    primary account or the first one.  [setSelectedAccount] saves the id.
    [createAccount] asks the backend for an account number and inserts a
    non-primary account; the cap of ten is enforced by the database,
    whose error message the code recognises by ["Maximum 10"].
    [src/app/accounts.tsx] lists the accounts and creates new ones.
    [src/components/AccountSwitcher.tsx] switches between them.

    [localStorage] exists on the web only: on a device nothing is saved
    and nothing is read back.  The backend's account-number procedure
    and the ten-account trigger are not in the repository.  The number
    is an input of [createAccount].  The trigger is modelled as the
    refusal of an eleventh account with a message containing
    ["Maximum 10"], which is what the client code expects of it.
    [created_at] is a creation rank. *)

From S2P Require Import Prelude Format View.
Import Format View.

Module Accounts.

Record InvestmentAccount := mkAcct {
  acc_id : string;
  acc_user : string;
  account_number : string;
  account_name : string;
  acc_aadhar : option string;
  acc_pan : option string;
  acc_kyc_verified : bool;
  kyc_verified_at : option string;
  is_primary : bool;
  acc_status : string;
  created_at : nat;
  wallet_balance : option Q      (** read by the Razorpay verifier *)
}.

Record AcctDB := mkAcctDB {
  inv_accounts : gmap string InvestmentAccount;
  acct_next : nat
}.

(** ** The provider's state *)

Record AcctCtx := mkACtx {
  accounts : list InvestmentAccount;
  selected : option InvestmentAccount;
  a_loading : bool
}.

Definition actx_init : AcctCtx := mkACtx [] None true.

(** The browser's [localStorage] entry [selectedAccountId], when there
    is a browser. *)
Record Platform := mkPlatform { is_web : bool; saved_id : option string }.

Definition set_a_loading (b : bool) (c : AcctCtx) : AcctCtx := mkACtx (accounts c) (selected c) b.

(** [.order('is_primary', {ascending: false}).order('created_at', {ascending: true})]. *)
Definition acct_before (a b : InvestmentAccount) : bool :=
  (is_primary a && negb (is_primary b)) ||
  (Bool.eqb (is_primary a) (is_primary b) && Nat.leb (created_at a) (created_at b)).

Fixpoint insert_acct (a : InvestmentAccount) (l : list InvestmentAccount) : list InvestmentAccount :=
  match l with
  | [] => [a]
  | b :: l' => if acct_before a b then a :: l else b :: insert_acct a l'
  end.

Definition sort_accts (l : list InvestmentAccount) : list InvestmentAccount :=
  foldr insert_acct [] l.

(** [select * from investment_accounts where user_id = uid] in that order. *)
Definition user_accounts (db : AcctDB) (uid : string) : list InvestmentAccount :=
  sort_accts (filter (fun a => String.eqb (acc_user a) uid) (map snd (map_to_list (inv_accounts db)))).

(** [getSavedAccountId]. *)
Definition getSavedAccountId (pl : Platform) : option string :=
  if is_web pl then saved_id pl else None.

(** [savedAccountId ? data.find(id) : data.find(is_primary) || data[0]]. *)
Definition choose_account (saved : option string) (data : list InvestmentAccount)
  : option InvestmentAccount :=
  match saved with
  | Some sid => if String.eqb sid "" then
                  match List.find is_primary data with Some a => Some a | None => head data end
                else List.find (fun a => String.eqb (acc_id a) sid) data
  | None => match List.find is_primary data with Some a => Some a | None => head data end
  end.

(** [loadAccounts]: [fail] is an error of the select. *)
Definition loadAccounts (fail : bool) (pl : Platform) (db : AcctDB) (user : option string)
    (c : AcctCtx) : AcctCtx :=
  match user with
  | None => c
  | Some uid =>
      if fail then set_a_loading false c else
      match user_accounts db uid with
      | [] => set_a_loading false c
      | data => mkACtx data (choose_account (getSavedAccountId pl) data) false
      end
  end.

(** The [useEffect] on [user]. *)
Definition on_user (fail : bool) (pl : Platform) (db : AcctDB) (user : option string)
    (c : AcctCtx) : AcctCtx :=
  match user with
  | Some _ => loadAccounts fail pl db user (set_a_loading true c)
  | None => mkACtx [] None false
  end.

(** [setSelectedAccount]: select, and save the id where there is a
    [localStorage]. *)
Definition saveAccountId (accountId : string) (pl : Platform) : Platform :=
  if is_web pl then mkPlatform true (Some accountId) else pl.

Definition setSelectedAccount (a : InvestmentAccount) (pl : Platform) (c : AcctCtx)
  : Platform * AcctCtx :=
  (saveAccountId (acc_id a) pl, mkACtx (accounts c) (Some a) (a_loading c)).

(** ** Creating an account *)

Definition max_accounts_msg : string := "Maximum 10 investment accounts allowed per user".

(** The insert with the backend's cap of ten accounts per user. *)
Definition insert_account (db : AcctDB) (uid number name : string)
  : string + (InvestmentAccount * AcctDB) :=
  if Nat.leb 10 (length (user_accounts db uid)) then inl max_accounts_msg
  else
    let a := {| acc_id := fresh_key "acct-" (acct_next db); acc_user := uid;
                account_number := number; account_name := name; acc_aadhar := None;
                acc_pan := None; acc_kyc_verified := false; kyc_verified_at := None;
                is_primary := false; acc_status := "active"; created_at := acct_next db;
                wallet_balance := None |} in
    inr (a, mkAcctDB (<[acc_id a := a]> (inv_accounts db)) (S (acct_next db))).

(** [error.message.includes('Maximum 10')]. *)
Definition mentions_max (m : string) : bool := includes m "Maximum 10".

Record CreateResult := mkResult { success : bool; c_error : option string }.

(** [error.message || 'Failed to create account']. *)
Definition failed (m : string) : CreateResult :=
  mkResult false (Some (if String.eqb m "" then "Failed to create account" else m)).

(** [createAccount(accountName)]: [number] is the answer of the
    [generate_account_number] procedure. *)
Definition createAccount (number : string + string) (pl : Platform) (db : AcctDB)
    (user : option string) (name : string) (c : AcctCtx) : CreateResult * AcctDB * AcctCtx :=
  match user with
  | None => (mkResult false (Some "User not logged in"), db, c)
  | Some uid =>
      match number with
      | inl m => (failed m, db, c)
      | inr n =>
          match insert_account db uid n name with
          | inl m => if mentions_max m
                     then (mkResult false (Some "You can only create up to 10 investment accounts"), db, c)
                     else (failed m, db, c)
          | inr (_, db') => (mkResult true None, db', loadAccounts false pl db' user (set_a_loading true c))
          end
      end
  end.

(** ** The accounts screen ([src/app/accounts.tsx]) *)

Record AccountsScreen := mkAScreen {
  createModalVisible : bool;
  newAccountName : string;
  creating : bool
}.

Definition ascreen_init : AccountsScreen := mkAScreen false "" false.

Inductive AccountsAction :=
| AGoBack
| AOpenCreate
| ASwitch (a : InvestmentAccount)
| AOpenKyc (id : string)
| ACancelCreate
| AConfirmCreate.

Definition is_selected (c : AcctCtx) (a : InvestmentAccount) : bool :=
  match selected c with Some s => String.eqb (acc_id s) (acc_id a) | None => false end.

(** [{n} slot{n !== 1 ? 's' : ''} available]. *)
Definition slots_text (n : nat) : list Piece :=
  [PN (inject_Z (10 - Z.of_nat n)) Plain; PS " slot";
   PS (if Z.eqb (10 - Z.of_nat n) 1 then "" else "s"); PS " available"].

Definition header_view : Node AccountsAction :=
  Box [Button AGoBack false []; T "My Investment Accounts"; Box []].

Definition account_card (c : AcctCtx) (a : InvestmentAccount) : Node AccountsAction :=
  let sel := is_selected c a in
  let top := Box ([T (if is_primary a then "👑" else "💼")] ++
                  when (is_primary a) (Box [T "PRIMARY"])) in
  let header := Box (top :: when sel (Box [T "● ACTIVE"])) in
  let date := match kyc_verified_at a with
              | Some d => when (acc_kyc_verified a && negb (String.eqb d "")) (Text [PD d DateINShort])
              | None => []
              end in
  let status := Box (Box [T (if acc_kyc_verified a then "Verified" else "Pending")] :: date) in
  let kyc := when (acc_kyc_verified a)
               (Box [T "Aadhar"; Text [PS "****"; PS (default "" (slice_last 4 <$> acc_aadhar a))];
                     T "PAN"; T (default "" (acc_pan a))]) in
  let actions_ :=
    Box ((if sel then Box [T "Currently Using"] else Button (ASwitch a) false [T "Switch to Account"]) ::
         when (negb (acc_kyc_verified a)) (Button (AOpenKyc (acc_id a)) false [T "Complete KYC"])) in
  Box [Box ([header; T (account_name a); T (account_number a); Box []; status] ++ kyc ++ [actions_])].

(** The create-account modal. *)
Definition accounts_modal (st : AccountsScreen) : Node AccountsAction :=
  Modal (createModalVisible st)
    [Box [Box [T "Create New Account"; T "Enter a name for your investment account";
               Input "newAccountName" (newAccountName st) false;
               Box [Button ACancelCreate (creating st) [T "Cancel"];
                    Button AConfirmCreate (creating st)
                      [if creating st then Spinner else T "Create"]]]]].

(** The screen while the context loads. *)
Definition accounts_loading : Node AccountsAction := Box [header_view; Box [Spinner]].

(** The static "Account Independence Features" section. *)
Definition accounts_info : Node AccountsAction :=
  Box [T "💡 Account Independence Features";
       Box [Box [T "Separate Wallet"]; Box [T "Own Investments"];
            Box [T "Individual KYC"]; Box [T "Separate History"]]].

Definition accounts_view (c : AcctCtx) (st : AccountsScreen) : Node AccountsAction :=
  let n := length (accounts c) in
  if a_loading c then accounts_loading else
  Box [header_view;
       Box [Box [Box [Text [PN (inject_Z (Z.of_nat n)) Plain]; T "Active Accounts"];
                 Box [Text [PN (inject_Z (10 - Z.of_nat n)) Plain]; T "Slots Available"];
                 Box [Text [PN (inject_Z (Z.of_nat (length (List.filter acc_kyc_verified (accounts c))))) Plain];
                      T "KYC Verified"]];
            T "Switch Between Accounts";
            T "Each account is completely independent with its own wallet, investments, and KYC";
            Box (map (account_card c) (accounts c) ++
                 when (Nat.ltb n 10)
                   (Box [Button AOpenCreate false
                           [T "Add New Account"; Text (slots_text n); Box [T "Create Account"]]]));
            accounts_info];
       accounts_modal st].

(** The name input ([maxLength={50}]). *)
Definition onChangeAccountName (t : string) (st : AccountsScreen) : AccountsScreen :=
  mkAScreen (createModalVisible st) (slice_first 50 t) (creating st).

(** [handleCreateAccount]. *)
Definition handleCreateAccount (number : string + string) (pl : Platform) (db : AcctDB)
    (user : option string) (c : AcctCtx) (st : AccountsScreen)
  : AccountsScreen * list Effect * AcctDB * AcctCtx :=
  if String.eqb (trim (newAccountName st)) "" then
    (st, [Alert "Error" "Please enter an account name"], db, c)
  else
    let '(r, db', c') := createAccount number pl db user (trim (newAccountName st)) c in
    if success r then
      (mkAScreen false "" false, [Alert "Success" "Account created successfully"], db', c')
    else
      (mkAScreen (createModalVisible st) (newAccountName st) false,
       [Alert "Error" (match c_error r with
                       | Some m => if String.eqb m "" then "Failed to create account" else m
                       | None => "Failed to create account" end)], db', c').

(** [handleSwitchAccount]. *)
Definition handleSwitchAccount (a : InvestmentAccount) (pl : Platform) (c : AcctCtx)
  : Platform * AcctCtx * list Effect :=
  let '(pl', c') := setSelectedAccount a pl c in
  (pl', c', [Alert "Switched" ("Now using " +:+ account_name a)]).

(** A press on the accounts screen: the [onPress] handlers of its
    buttons.  [number] is the account-number answer a create would get. *)
Definition accounts_press (act : AccountsAction) (number : string + string) (pl : Platform)
    (db : AcctDB) (user : option string) (c : AcctCtx) (st : AccountsScreen)
  : AccountsScreen * list Effect * Platform * AcctDB * AcctCtx :=
  match act with
  | AGoBack => (st, [Back], pl, db, c)
  | AOpenCreate => (mkAScreen true (newAccountName st) (creating st), [], pl, db, c)
  | ASwitch a => let '(pl', c', eff) := handleSwitchAccount a pl c in (st, eff, pl', db, c')
  | AOpenKyc id => (st, [Push ("/kyc/" +:+ id)], pl, db, c)
  | ACancelCreate => (mkAScreen false "" (creating st), [], pl, db, c)
  | AConfirmCreate =>
      let '(st', eff, db', c') := handleCreateAccount number pl db user c st in (st', eff, pl, db', c')
  end.

(** ** The switcher ([src/components/AccountSwitcher.tsx]) *)

Inductive SwitcherAction := SOpen | SClose | SSelect (a : InvestmentAccount) | SCreate | SManage.

Definition switcher_item (sel : InvestmentAccount) (a : InvestmentAccount) : Node SwitcherAction :=
  Button (SSelect a) false
    ([Box [Box [T (if is_primary a then "👑" else "💼")];
           Box [Box [T (account_name a)]; T (account_number a);
                Box (when (is_primary a) (Box [T "PRIMARY"]) ++
                     [Box [Box []; T (if acc_kyc_verified a then "Verified" else "Pending")]])]]] ++
     when (String.eqb (acc_id sel) (acc_id a)) (Box [])).

(** The "Create New Account" entry, shown below ten accounts. *)
Definition switcher_add (n : nat) : list (Node SwitcherAction) :=
  when (Nat.ltb n 10)
    (Button SCreate false [Box []; Box [T "Create New Account"; Text (slots_text n)]]).

Definition switcher_manage : Node SwitcherAction :=
  Button SManage false [Box []; T "Manage All Accounts"].

(** [null] when no account is selected. *)
Definition switcher_view (c : AcctCtx) (modalVisible : bool) : option (Node SwitcherAction) :=
  match selected c with
  | None => None
  | Some sel =>
      let n := length (accounts c) in
      Some (Box
        [Button SOpen false
           [Box [Box [T (if is_primary sel then "👑" else "💼")];
                 Box [T "Current Account"; T (account_name sel); T (account_number sel)];
                 Box []]];
         Modal modalVisible
           [Button SClose false
              [Box [Box [T "Switch Account"; Button SClose false [T "✕"]];
                    Text [PN (inject_Z (Z.of_nat n)) Plain; PS " of 10 accounts • Each account is independent"];
                    Box (map (switcher_item sel) (accounts c) ++ switcher_add n);
                    switcher_manage]]]])
  end.

(** A press in the switcher: the modal's visibility afterwards. *)
Definition switcher_press (a : SwitcherAction) (pl : Platform) (c : AcctCtx)
  : bool * Platform * AcctCtx * list Effect :=
  match a with
  | SOpen => (true, pl, c, [])
  | SClose => (false, pl, c, [])
  | SSelect acc => let '(pl', c') := setSelectedAccount acc pl c in (false, pl', c', [])
  | SCreate | SManage => (false, pl, c, [Push "/accounts"])
  end.

(** ** Well-formed account tables *)

(** Accounts are keyed by their id, and every id is a generated key
    below the counter. *)
Definition acct_ok (db : AcctDB) : Prop :=
  forall k a, inv_accounts db !! k = Some a ->
    acc_id a = k /\ exists n, k = fresh_key "acct-" n /\ (n < acct_next db)%nat.

(** ** Lemmas *)

Lemma insert_acct_perm a l : insert_acct a l ≡ₚ a :: l.
Proof.
  induction l as [|b l IH]; simpl; [done|]. case_if; [done|].
  rewrite IH. apply perm_swap.
Qed.

Lemma sort_accts_perm l : sort_accts l ≡ₚ l.
Proof. induction l as [|a l IH]; simpl; [done|]. by rewrite insert_acct_perm, IH. Qed.

Lemma user_accounts_elem db uid a :
  a ∈ user_accounts db uid <->
  (exists k, inv_accounts db !! k = Some a) /\ acc_user a = uid.
Proof.
  unfold user_accounts. rewrite sort_accts_perm, list_elem_of_filter, list_elem_of_fmap.
  split.
  - intros [Hu ([k a'] & -> & Hin)]. apply elem_of_map_to_list in Hin.
    split; [eauto|]. apply String.eqb_eq. by apply Is_true_true_1.
  - intros [[k Hk] Hu]. split; [simpl; rewrite Hu, String.eqb_refl; exact I|].
    exists (k, a). split; [done|]. by apply elem_of_map_to_list.
Qed.

Lemma length_user_accounts_insert db k a n uid :
  inv_accounts db !! k = None ->
  length (user_accounts (mkAcctDB (<[k := a]> (inv_accounts db)) n) uid) =
  ((if String.eqb (acc_user a) uid then 1 else 0) + length (user_accounts db uid))%nat.
Proof.
  intros Hk. unfold user_accounts. simpl.
  rewrite !sort_accts_perm, map_to_list_insert by done. simpl.
  rewrite filter_cons. destruct (String.eqb (acc_user a) uid); simpl; lia.
Qed.

Lemma user_accounts_ids db uid :
  acct_ok db -> NoDup (map acc_id (user_accounts db uid)).
Proof.
  intros Hok. unfold user_accounts. rewrite sort_accts_perm.
  assert (Hmap : forall l : list (string * InvestmentAccount),
            Forall (fun ka => acc_id ka.2 = ka.1) l -> NoDup l.*1 ->
            NoDup (map acc_id (filter (fun a => String.eqb (acc_user a) uid) (map snd l)))).
  { induction l as [|[k a] l IH]; intros Hf Hnd; simpl; [constructor|].
    apply Forall_cons in Hf as [Ha Hf]. apply NoDup_cons in Hnd as [Hn Hnd]. simpl in *.
    rewrite filter_cons. case_decide; simpl; [|by apply IH].
    constructor; [|by apply IH]. rewrite Ha. intros Hin. apply Hn.
    apply list_elem_of_fmap in Hin as (a' & Ha' & Hin).
    apply list_elem_of_filter in Hin as [_ Hin]. apply list_elem_of_fmap in Hin as ([k' a''] & -> & Hin).
    apply list_elem_of_fmap. exists (k', a''). split; [|done]. simpl. rewrite Ha'.
    rewrite Forall_forall in Hf. by apply (Hf (k', a'')). }
  apply Hmap; [|apply NoDup_fst_map_to_list].
  apply Forall_forall. intros [k a] Hin. apply elem_of_map_to_list in Hin.
  by apply (Hok k a).
Qed.

Lemma find_id_unique l a :
  NoDup (map acc_id l) -> a ∈ l -> List.find (fun b => String.eqb (acc_id b) (acc_id a)) l = Some a.
Proof.
  induction l as [|b l IH]; intros Hnd Hin; [by apply elem_of_nil in Hin|].
  simpl in Hnd. apply NoDup_cons in Hnd as [Hn Hnd]. simpl.
  destruct (String.eqb_spec (acc_id b) (acc_id a)) as [E|E].
  - apply elem_of_cons in Hin as [->|Hin]; [done|].
    exfalso. apply Hn. rewrite E. apply list_elem_of_fmap. eauto.
  - apply elem_of_cons in Hin as [->|Hin]; [done|]. by apply IH.
Qed.

Lemma fresh_acct_free db : acct_ok db -> inv_accounts db !! fresh_key "acct-" (acct_next db) = None.
Proof.
  intros Hok. destruct (inv_accounts db !! _) as [a|] eqn:E; [|done].
  destruct (Hok _ _ E) as (_ & n & Hn & Hlt). apply fresh_key_inj in Hn. lia.
Qed.

Lemma insert_account_ok db uid number name a db' :
  acct_ok db -> insert_account db uid number name = inr (a, db') ->
  acct_ok db' /\ acc_user a = uid /\ inv_accounts db !! acc_id a = None /\
  db' = mkAcctDB (<[acc_id a := a]> (inv_accounts db)) (S (acct_next db)).
Proof.
  intros Hok. unfold insert_account. case_if; [discriminate|]. intros [= <- <-].
  pose proof (fresh_acct_free db Hok) as Hfree. split; [|done].
  intros k b Hk. simpl in Hk. apply lookup_insert_Some in Hk as [[<- <-]|[Hne Hk]].
  - split; [done|]. eexists. split; [reflexivity|]. simpl. lia.
  - destruct (Hok k b Hk) as (Hid & n & Hn & Hlt). split; [done|]. exists n. simpl. split; [done|lia].
Qed.

(** The insert keeps every user at ten accounts or fewer. *)
Lemma insert_account_cap db uid number name a db' :
  acct_ok db -> (forall u, (length (user_accounts db u) <= 10)%nat) ->
  insert_account db uid number name = inr (a, db') ->
  forall u, (length (user_accounts db' u) <= 10)%nat.
Proof.
  intros Hok Hcap E u.
  destruct (insert_account_ok db uid number name a db' Hok E) as (_ & Hu & Hfree & ->).
  rewrite length_user_accounts_insert by done. unfold insert_account in E.
  destruct (Nat.leb_spec 10 (length (user_accounts db uid))) as [_|Hlt]; [discriminate|].
  specialize (Hcap u). destruct (String.eqb_spec (acc_user a) u); [subst; lia|lia].
Qed.

(** [createAccount] leaves the table as it was or performs one insert. *)
Lemma createAccount_db number pl db user name c r db' c' :
  createAccount number pl db user name c = (r, db', c') ->
  db' = db \/ exists uid n a, user = Some uid /\ number = inr n /\
                              insert_account db uid n name = inr (a, db').
Proof.
  unfold createAccount. destruct user as [uid|]; [|intros [= _ <- _]; by left].
  destruct number as [m|n]; [intros [= _ <- _]; by left|].
  destruct (insert_account db uid n name) as [m|[a db1]] eqn:E.
  - case_if; intros [= _ <- _]; by left.
  - intros [= _ <- _]. right. by exists uid, n, a.
Qed.

(** An update of one row that keeps its id keeps the table well formed. *)
Lemma alter_acct_ok f k db :
  (forall a, acc_id (f a) = acc_id a) -> acct_ok db ->
  acct_ok (mkAcctDB (alter f k (inv_accounts db)) (acct_next db)).
Proof.
  intros Hf Hok k' b. cbn [inv_accounts acct_next]. rewrite lookup_alter_Some.
  intros [(Hk & a & Ha & ->)|[_ Hb]]; [rewrite Hf|]; eauto.
Qed.

(** An update of one row that keeps its owner keeps each user's count. *)
Lemma user_accounts_alter f k db n u :
  (forall a, acc_user (f a) = acc_user a) ->
  length (user_accounts (mkAcctDB (alter f k (inv_accounts db)) n) u) =
  length (user_accounts db u).
Proof.
  intros Hf. destruct db as [m next]. cbn [inv_accounts].
  destruct (m !! k) as [a|] eqn:Hk.
  - rewrite <- (insert_delete_id m k a Hk), alter_insert_eq.
    pose proof (lookup_delete_eq m k) as Hd.
    pose proof (length_user_accounts_insert (mkAcctDB (delete k m) n) k (f a) n u Hd) as E1.
    pose proof (length_user_accounts_insert (mkAcctDB (delete k m) n) k a next u Hd) as E2.
    cbn [inv_accounts] in E1, E2. by rewrite E1, E2, Hf.
  - by rewrite alter_id' by done.
Qed.

(** Primary accounts come before the others. *)
Fixpoint primaries_first (l : list InvestmentAccount) : Prop :=
  match l with
  | a :: ((b :: _) as l') => (is_primary b = true -> is_primary a = true) /\ primaries_first l'
  | _ => True
  end.

Lemma insert_acct_head a b l :
  exists c l', insert_acct a (b :: l) = c :: l' /\ (c = a \/ c = b).
Proof. simpl. case_if; eauto. Qed.

Lemma insert_acct_primaries a l : primaries_first l -> primaries_first (insert_acct a l).
Proof.
  assert (Hord : forall b, acct_before a b = false -> is_primary a = true -> is_primary b = true)
    by (intros b H Ha; unfold acct_before in H; rewrite Ha in H; by destruct (is_primary b)).
  induction l as [|b l IH]; intros Hp; [done|].
  cbn [insert_acct]. destruct (acct_before a b) eqn:Hab.
  - cbn [primaries_first]. split; [|done]. intros Hb. unfold acct_before in Hab.
    rewrite Hb in Hab. by destruct (is_primary a).
  - assert (Hpl : primaries_first l) by (destruct l; [done|apply Hp]).
    specialize (IH Hpl). destruct l as [|b' l'].
    + cbn. split; [|done]. by apply Hord.
    + destruct (insert_acct_head a b' l') as (c & l'' & E & Hc). rewrite E in IH |- *.
      cbn [primaries_first] in *. split; [|exact IH].
      destruct Hc as [->| ->]; [by apply Hord | exact (proj1 Hp)].
Qed.

Lemma sort_accts_primaries l : primaries_first (sort_accts l).
Proof. induction l as [|a l IH]; simpl; [done|]. by apply insert_acct_primaries. Qed.

Lemma find_primary_head l :
  primaries_first l ->
  List.find is_primary l = match l with b :: _ => if is_primary b then Some b else None | [] => None end.
Proof.
  induction l as [|a l IH]; simpl; [done|]. intros Hp. destruct (is_primary a) eqn:Ha; [done|].
  destruct l as [|b l]; [done|]. destruct Hp as [Hba Hp]. rewrite IH by done.
  destruct (is_primary b) eqn:Hb; [|done]. pose proof (Hba eq_refl). congruence.
Qed.

Lemma default_choice_head l :
  primaries_first l -> choose_account None l = head l.
Proof.
  intros Hp. simpl. rewrite find_primary_head by done.
  destruct l as [|b l]; [done|]. simpl. by destruct (is_primary b).
Qed.

Lemma find_id_None l sid :
  (forall a, a ∈ l -> acc_id a <> sid) -> List.find (fun a => String.eqb (acc_id a) sid) l = None.
Proof.
  induction l as [|a l IH]; intros H; simpl; [done|].
  destruct (String.eqb_spec (acc_id a) sid) as [E|_].
  - exfalso. apply (H a); [left|done].
  - apply IH. intros b Hb. apply H. by right.
Qed.

Lemma fresh_key_nonempty pre n : pre <> "" -> fresh_key pre n <> "".
Proof. unfold fresh_key. destruct pre; simpl; [done|discriminate]. Qed.

Definition card_actions (c : AcctCtx) (a : InvestmentAccount) : list AccountsAction :=
  (if is_selected c a then [] else [ASwitch a]) ++
  (if acc_kyc_verified a then [] else [AOpenKyc (acc_id a)]).

Lemma account_card_actions c a : actions (account_card c a) = card_actions c a.
Proof.
  unfold account_card, card_actions. simpl.
  destruct (is_primary a), (is_selected c a), (acc_kyc_verified a); simpl;
    destruct (kyc_verified_at a) as [d|]; try destruct (String.eqb d ""); simpl;
    rewrite ?app_nil_r; reflexivity.
Qed.

Lemma flat_map_app {A B} (f : A -> list B) l1 l2 :
  flat_map f (l1 ++ l2) = flat_map f l1 ++ flat_map f l2.
Proof. induction l1; simpl; [done|]. by rewrite IHl1, app_assoc. Qed.

(** ** Theorems *)

(** C34: on a shared browser, an account id saved by another user is
    looked for among the new user's accounts, found nowhere, and nothing
    falls back to the primary account: the accounts load but none is
    selected, and the account switcher renders nothing. *)
Theorem foreign_saved_id_selects_nothing pl db uid c sid b :
  is_web pl = true -> saved_id pl = Some sid -> sid <> "" ->
  user_accounts db uid <> [] ->
  (forall a, a ∈ user_accounts db uid -> acc_id a <> sid) ->
  accounts (loadAccounts false pl db (Some uid) c) = user_accounts db uid /\
  selected (loadAccounts false pl db (Some uid) c) = None /\
  switcher_view (loadAccounts false pl db (Some uid) c) b = None.
Proof.
  intros Hw Hs Hne Hnil Hnot. unfold loadAccounts.
  destruct (user_accounts db uid) as [|a0 l] eqn:E; [done|].
  unfold getSavedAccountId. rewrite Hw, Hs. cbn -[List.find].
  destruct (String.eqb_spec sid "") as [->|_]; [done|].
  rewrite find_id_None by exact Hnot. unfold switcher_view. auto.
Qed.

(** with nothing saved (always the case on a device), loading selects
    the first account of the list, which is the user's primary account
    whenever there is one; so on a device a switch is forgotten at the
    next load. *)
Theorem default_selection_first pl db uid c a :
  getSavedAccountId pl = None -> user_accounts db uid <> [] ->
  selected (loadAccounts false pl db (Some uid) c) = head (user_accounts db uid) /\
  (a ∈ user_accounts db uid -> is_primary a = true ->
   option_map is_primary (head (user_accounts db uid)) = Some true).
Proof.
  intros Hs Hnil. pose proof (sort_accts_primaries
    (filter (fun a => String.eqb (acc_user a) uid) (map snd (map_to_list (inv_accounts db))))) as Hp.
  fold (user_accounts db uid) in Hp. split.
  - unfold loadAccounts. rewrite Hs.
    destruct (user_accounts db uid) as [|a0 l] eqn:E; [done|]. by apply default_choice_head.
  - intros Hin Ha. destruct (user_accounts db uid) as [|b l] eqn:E; [done|].
    pose proof (find_primary_head (b :: l) Hp) as Hf. simpl in Hf |- *.
    destruct (is_primary b) eqn:Hb; [done|].
    assert (List.find is_primary (b :: l) <> None) as Hs'.
    { apply list_elem_of_In in Hin. intros Hn. eapply find_none in Hn; [|exact Hin].
      congruence. }
    simpl in Hs'. rewrite Hb in Hs'. rewrite Hf in Hs'. by simpl in Hs'.
Qed.

(** on the web a switch survives a reload: after
    [setSelectedAccount a] the next [loadAccounts] selects [a] again. *)
Theorem switch_persists_on_web pl db uid c a :
  acct_ok db -> is_web pl = true -> a ∈ user_accounts db uid ->
  selected (loadAccounts false (fst (setSelectedAccount a pl c)) db (Some uid)
                         (snd (setSelectedAccount a pl c))) = Some a.
Proof.
  intros Hok Hw Hin. unfold setSelectedAccount, saveAccountId. rewrite Hw. simpl.
  apply user_accounts_elem in Hin as Hin'. destruct Hin' as [[k Hk] _].
  destruct (Hok k a Hk) as (Hid & n & Hn & _).
  pose proof (user_accounts_ids db uid Hok) as Hnd.
  unfold loadAccounts. destruct (user_accounts db uid) as [|b l] eqn:E;
    [by apply elem_of_nil in Hin|].
  unfold getSavedAccountId. cbn -[List.find].
  destruct (String.eqb_spec (acc_id a) "") as [Hz|_].
  { exfalso. rewrite Hid, Hn in Hz. by apply (fresh_key_nonempty "acct-" n). }
  exact (find_id_unique (b :: l) a Hnd Hin).
Qed.


(** what the accounts screen lets the user do: go back, switch to
    every account but the selected one, complete the KYC of every
    unverified account, add an account while fewer than ten exist, and,
    in the open dialog, cancel or create unless a creation is running. *)
Theorem accounts_view_actions c st :
  a_loading c = false ->
  actions (accounts_view c st) =
    AGoBack :: flat_map (card_actions c) (accounts c) ++
    (if Nat.ltb (length (accounts c)) 10 then [AOpenCreate] else []) ++
    (if createModalVisible st && negb (creating st) then [ACancelCreate; AConfirmCreate] else []).
Proof.
  intros Hl. unfold accounts_view. rewrite Hl. simpl.
  rewrite !app_nil_r, flat_map_app.
  assert (Hc : flat_map actions (map (account_card c) (accounts c)) =
               flat_map (card_actions c) (accounts c)).
  { induction (accounts c) as [|a l IH]; [done|]. cbn [map flat_map].
    by rewrite account_card_actions, IH. }
  rewrite Hc. destruct (Nat.ltb _ 10), (createModalVisible st), (creating st); simpl;
    rewrite ?app_nil_r, <- ?app_assoc; reflexivity.
Qed.

Lemma user_accounts_bound db uid :
  (length (user_accounts db uid) <= length (map_to_list (inv_accounts db)))%nat.
Proof.
  unfold user_accounts. rewrite (Permutation_length (sort_accts_perm _)).
  etransitivity; [apply length_filter|]. by rewrite length_map.
Qed.

(** ** Witnesses *)

Definition acctA1 : InvestmentAccount :=
  {| acc_id := "acct-0"; acc_user := "A"; account_number := "ASJ0001"; account_name := "Primary";
     acc_aadhar := None; acc_pan := None; acc_kyc_verified := false; kyc_verified_at := None;
     is_primary := true; acc_status := "active"; created_at := 0; wallet_balance := None |}.

Definition acctA2 : InvestmentAccount :=
  {| acc_id := "acct-1"; acc_user := "A"; account_number := "ASJ0002";
     account_name := "Family Savings"; acc_aadhar := Some "123412341234";
     acc_pan := Some "ABCDE1234F"; acc_kyc_verified := true; kyc_verified_at := Some "2025-01-05";
     is_primary := false; acc_status := "active"; created_at := 1; wallet_balance := Some 250 |}.

Definition sample_acct_db : AcctDB :=
  mkAcctDB {[ "acct-0" := acctA1; "acct-1" := acctA2 ]} 2.

Definition web_other : Platform := mkPlatform true (Some "acct-7").
Definition device : Platform := mkPlatform false None.

Lemma sample_user_accounts : user_accounts sample_acct_db "A" = [acctA1; acctA2].
Proof. vm_compute. reflexivity. Qed.

Lemma sample_acct_ok : acct_ok sample_acct_db.
Proof.
  intros k a H. simpl in H.
  apply lookup_insert_Some in H as [[<- <-]|[_ H]];
    [|apply lookup_singleton_Some in H as [<- <-]].
  - split; [done|]. exists 0%nat. split; [reflexivity|simpl; lia].
  - split; [done|]. exists 1%nat. split; [reflexivity|simpl; lia].
Qed.

Lemma foreign_saved_id_selects_nothing_witness :
  selected (loadAccounts false web_other sample_acct_db (Some "A") actx_init) = None.
Proof.
  refine (proj1 (proj2 (foreign_saved_id_selects_nothing web_other sample_acct_db "A" actx_init
                          "acct-7" false eq_refl eq_refl _ _ _))).
  - discriminate.
  - rewrite sample_user_accounts. discriminate.
  - rewrite sample_user_accounts. intros a Ha.
    repeat (apply elem_of_cons in Ha as [->|Ha]; [discriminate|]). by apply elem_of_nil in Ha.
Defined.

Lemma default_selection_first_witness :
  selected (loadAccounts false device sample_acct_db (Some "A") actx_init) = Some acctA1.
Proof.
  rewrite (proj1 (default_selection_first device sample_acct_db "A" actx_init acctA1 eq_refl
                    ltac:(rewrite sample_user_accounts; discriminate))).
  by rewrite sample_user_accounts.
Defined.

Lemma switch_persists_on_web_witness :
  selected (loadAccounts false (fst (setSelectedAccount acctA2 web_other actx_init))
              sample_acct_db (Some "A") (snd (setSelectedAccount acctA2 web_other actx_init)))
  = Some acctA2.
Proof.
  apply switch_persists_on_web; [exact sample_acct_ok | reflexivity |].
  rewrite sample_user_accounts. right. left.
Defined.


Lemma accounts_view_actions_witness :
  actions (accounts_view (loadAccounts false device sample_acct_db (Some "A") actx_init)
                         ascreen_init) =
    [AGoBack; AOpenKyc "acct-0"; ASwitch acctA2; AOpenCreate].
Proof.
  rewrite accounts_view_actions by reflexivity. vm_compute. reflexivity.
Defined.

End Accounts.
