(* ===== verification/Kyc.v ===== *)
(** * The KYC screen ([src/app/kyc/[accountId].tsx])

    The screen loads one investment account by id and shows either the
    verified details or a form for the Aadhar and PAN numbers.  On
    submit it validates the form with the registration screen's
    patterns and writes both numbers to the account.  It then reloads
    the account list of [AccountContext], and it says that an
    administrator will verify the details.  The account is read and
    written by its id alone.  No screen of the application ever sets
    [kyc_verified].

    Reads and writes go to the [investment_accounts] table of
    [Accounts.v]; [fail] flags model a request answered with an error. *)

From S2P Require Import Prelude Format View Wallet Store Auth Register Accounts.
Import Format View Register Accounts.

Module Kyc.

Record KycScreen := mkKyc {
  k_account : option InvestmentAccount;
  k_loading : bool;
  k_submitting : bool;
  k_aadhar : string;
  k_pan : string
}.

Definition kyc_init : KycScreen := mkKyc None true false "" "".

(** [validateAadhar] and [validatePAN]: the patterns of the
    registration form ([[A-Z]{1}] is [[A-Z]]). *)
Definition validateAadhar (s : string) : bool := aadhar_ok s.
Definition validatePAN (s : string) : bool := pan_ok s.

(** [loadAccountData]: [select * from investment_accounts where id =
    accountId], [single]. *)
Definition loadAccountData (fail : bool) (db : AcctDB) (accountId : string) (st : KycScreen)
  : KycScreen * list Effect :=
  if String.eqb accountId "" then (st, []) else
  match (if fail then None else inv_accounts db !! accountId) with
  | None => (mkKyc (k_account st) false (k_submitting st) (k_aadhar st) (k_pan st),
             [Alert "Error" "Failed to load account details"; Back])
  | Some a =>
      let aad := match acc_aadhar a with Some s => if String.eqb s "" then k_aadhar st else s
                                        | None => k_aadhar st end in
      let pan := match acc_pan a with Some s => if String.eqb s "" then k_pan st else s
                                     | None => k_pan st end in
      (mkKyc (Some a) false (k_submitting st) aad pan, [])
  end.

(** The update [{aadhar_number, pan_number}] where [id = accountId]; an
    id that matches no row updates nothing and is no error. *)
Definition set_kyc_numbers (aad pan : string) (a : InvestmentAccount) : InvestmentAccount :=
  {| acc_id := acc_id a; acc_user := acc_user a; account_number := account_number a;
     account_name := account_name a; acc_aadhar := Some aad; acc_pan := Some pan;
     acc_kyc_verified := acc_kyc_verified a; kyc_verified_at := kyc_verified_at a;
     is_primary := is_primary a; acc_status := acc_status a; created_at := created_at a;
     wallet_balance := wallet_balance a |}.

Definition kyc_success : Effect :=
  AlertThen "Success" "KYC details submitted successfully. Please wait for admin verification."
    Back.

(** [handleSubmit]: [err] is the error message of a failed update. *)
Definition handleSubmit (err : option string) (pl : Platform) (db : AcctDB)
    (user : option string) (c : AcctCtx) (accountId : string) (st : KycScreen)
  : KycScreen * list Effect * AcctDB * AcctCtx :=
  if String.eqb (trim (k_aadhar st)) "" || String.eqb (trim (k_pan st)) "" then
    (st, [Alert "Error" "Please fill in both Aadhar and PAN details"], db, c)
  else if negb (validateAadhar (k_aadhar st)) then
    (st, [Alert "Error" "Aadhar number must be exactly 12 digits"], db, c)
  else if negb (validatePAN (toUpperCase (k_pan st))) then
    (st, [Alert "Error" "PAN must be in format: ABCDE1234F"], db, c)
  else
    let st' := mkKyc (k_account st) (k_loading st) false (k_aadhar st) (k_pan st) in
    match err with
    | Some m => (st', [Alert "Error" (if String.eqb m "" then "Failed to submit KYC details" else m)],
                 db, c)
    | None =>
        let db' := mkAcctDB (alter (set_kyc_numbers (k_aadhar st) (toUpperCase (k_pan st)))
                                   accountId (inv_accounts db)) (acct_next db) in
        (st', [kyc_success], db', loadAccounts false pl db' user (set_a_loading true c))
    end.

(** The PAN input upper-cases what is typed ([maxLength={10}]); the
    Aadhar input keeps it as typed ([maxLength={12}]). *)
Definition onChangeKycAadhar (t : string) (st : KycScreen) : KycScreen :=
  mkKyc (k_account st) (k_loading st) (k_submitting st) (slice_first 12 t) (k_pan st).
Definition onChangeKycPan (t : string) (st : KycScreen) : KycScreen :=
  mkKyc (k_account st) (k_loading st) (k_submitting st) (k_aadhar st) (slice_first 10 (toUpperCase t)).

Inductive KycAction := KBack | KSubmit.

Definition kyc_header : Node KycAction :=
  Box [Button KBack false []; T "KYC Verification"; Box []].

(** [new Date(null)] is the epoch. *)
Definition epoch : string := "1970-01-01T00:00:00.000Z".

Definition kyc_verified_view (a : InvestmentAccount) : Node KycAction :=
  Box [kyc_header;
       Box [T "✓ KYC Verified";
            Text [PS "This account has been verified on"; PS " ";
                  PD (default epoch (kyc_verified_at a)) DateIN];
            Box [T "Account Name"; T (account_name a);
                 T "Account Number"; T (account_number a);
                 T "Aadhar Number";
                 Text [PS "****"; PS (default "" (slice_last 4 <$> acc_aadhar a))];
                 T "PAN Number"; T (default "" (acc_pan a))];
            Button KBack false [T "Go Back"]]].

Definition kyc_form_view (st : KycScreen) : Node KycAction :=
  Box [kyc_header;
       Box [Box [T "Account"; T (default "" (account_name <$> k_account st));
                 T (default "" (account_number <$> k_account st))];
            Box [T "Complete Your KYC";
                 T "This account requires separate KYC verification. Provide your Aadhar and PAN details below."];
            Box [Box [T "Aadhar Number *"; Input "aadharNumber" (k_aadhar st) false;
                      T "Must be exactly 12 digits"];
                 Box [T "PAN Number *"; Input "panNumber" (k_pan st) false;
                      T "Format: 5 letters + 4 digits + 1 letter"];
                 Box [T "⚠️ Important Information"; T "• Details will be verified by admin";
                      T "• Must match official documents";
                      T "• Each account needs unique Aadhar & PAN";
                      T "• Verification takes 1-2 business days";
                      T "• Cannot transact until verified"];
                 Button KSubmit (k_submitting st)
                   [if k_submitting st then Spinner else Box [T "Submit for Verification"]]]]].

Definition kyc_view (st : KycScreen) : Node KycAction :=
  if k_loading st then Box [kyc_header; Box [Spinner]] else
  match k_account st with
  | Some a => if acc_kyc_verified a then kyc_verified_view a else kyc_form_view st
  | None => kyc_form_view st
  end.

(** A press on the screen: the back arrows and the submit button. *)
Definition kyc_press (a : KycAction) (err : option string) (pl : Platform) (db : AcctDB)
    (user : option string) (c : AcctCtx) (accountId : string) (st : KycScreen)
  : KycScreen * list Effect * AcctDB * AcctCtx :=
  match a with
  | KBack => (st, [Back], db, c)
  | KSubmit => handleSubmit err pl db user c accountId st
  end.

(** ** The account operations of the application *)

(** What the application can do to [investment_accounts]: create an
    account, or submit KYC numbers for one. *)
Inductive acct_step : AcctDB -> AcctDB -> Prop :=
| as_create number pl db user name c r db' c' :
    createAccount number pl db user name c = (r, db', c') -> acct_step db db'
| as_kyc err pl db user c accountId st st' eff db' c' :
    handleSubmit err pl db user c accountId st = (st', eff, db', c') -> acct_step db db'.

Definition verified_in (db : AcctDB) (k : string) : Prop :=
  exists a, inv_accounts db !! k = Some a /\ acc_kyc_verified a = true.

(** ** Lemmas *)

Lemma handleSubmit_ok err pl db user c accountId st :
  trim (k_aadhar st) <> "" -> trim (k_pan st) <> "" ->
  validateAadhar (k_aadhar st) = true -> validatePAN (toUpperCase (k_pan st)) = true ->
  handleSubmit err pl db user c accountId st =
    let st' := mkKyc (k_account st) (k_loading st) false (k_aadhar st) (k_pan st) in
    match err with
    | Some m => (st', [Alert "Error" (if String.eqb m "" then "Failed to submit KYC details" else m)],
                 db, c)
    | None =>
        let db' := mkAcctDB (alter (set_kyc_numbers (k_aadhar st) (toUpperCase (k_pan st)))
                                   accountId (inv_accounts db)) (acct_next db) in
        (st', [kyc_success], db', loadAccounts false pl db' user (set_a_loading true c))
    end.
Proof.
  intros Ha Hp Hva Hvp. unfold handleSubmit.
  rewrite (proj2 (String.eqb_neq _ _) Ha), (proj2 (String.eqb_neq _ _) Hp), Hva, Hvp.
  reflexivity.
Qed.

Lemma verified_create number pl db user name c r db' c' k :
  createAccount number pl db user name c = (r, db', c') -> verified_in db' k -> verified_in db k.
Proof.
  unfold createAccount, verified_in.
  destruct user as [uid|]; [|intros [= _ <- _]; done].
  destruct number as [m|n]; [intros [= _ <- _]; done|].
  destruct (insert_account db uid n name) as [m|[a db1]] eqn:E.
  - destruct (mentions_max m); intros [= _ <- _]; done.
  - intros [= _ <- _] (a' & Ha' & Hv). unfold insert_account in E. case_if; [discriminate|].
    injection E as <- <-. simpl in Ha'.
    apply lookup_insert_Some in Ha' as [[_ <-]|[_ Ha']]; [discriminate|eauto].
Qed.

Lemma verified_kyc err pl db user c accountId st st' eff db' c' k :
  handleSubmit err pl db user c accountId st = (st', eff, db', c') ->
  verified_in db' k -> verified_in db k.
Proof.
  unfold handleSubmit, verified_in.
  repeat case_if; try (intros [= _ _ <- _]; done).
  destruct err; [intros [= _ _ <- _]; done|]. intros [= _ _ <- _] (a' & Ha' & Hv). simpl in Ha'.
  apply lookup_alter_Some in Ha' as [[<- (a & Ha & Ea)]|[_ Ha']]; [|eauto].
  subst a'. eauto.
Qed.

(** ** Theorems *)

(** C32: the KYC update is keyed by the account id alone: a valid
    submission for any account id overwrites that account's Aadhar and
    PAN, whoever owns it, and reports success; the owner and the
    verification flag are left as they were. *)
Theorem kyc_submit_any_account pl db user c accountId st a :
  trim (k_aadhar st) <> "" -> trim (k_pan st) <> "" ->
  validateAadhar (k_aadhar st) = true -> validatePAN (toUpperCase (k_pan st)) = true ->
  inv_accounts db !! accountId = Some a ->
  let '(_, eff, db', _) := handleSubmit None pl db user c accountId st in
  eff = [kyc_success] /\
  inv_accounts db' !! accountId = Some (set_kyc_numbers (k_aadhar st) (toUpperCase (k_pan st)) a) /\
  acc_user (set_kyc_numbers (k_aadhar st) (toUpperCase (k_pan st)) a) = acc_user a /\
  acc_kyc_verified (set_kyc_numbers (k_aadhar st) (toUpperCase (k_pan st)) a) = acc_kyc_verified a.
Proof.
  intros Ha Hp Hva Hvp Hk. rewrite handleSubmit_ok by done. cbn -[set_kyc_numbers alter].
  rewrite lookup_alter_eq, Hk. auto.
Qed.

(** C33: no operation of the application verifies an account: along any
    sequence of account creations and KYC submissions, an account is
    verified only if it was verified at the start.  The KYC screen
    promises an admin verification that no screen performs. *)
Theorem kyc_never_verified db db' k :
  rtc acct_step db db' -> verified_in db' k -> verified_in db k.
Proof.
  intros Hr. induction Hr as [|x y z Hs Hr IH]; [done|]. intros Hz.
  specialize (IH Hz). destruct Hs as [? ? ? ? ? ? ? ? ? E | ? ? ? ? ? ? ? ? ? ? ? E].
  - by apply (verified_create _ _ _ _ _ _ _ _ _ k E).
  - by apply (verified_kyc _ _ _ _ _ _ _ _ _ _ _ k E).
Qed.

(** a submission that fails validation (an empty field after
    trimming, an Aadhar that is not 12 digits, or a PAN that is not five
    letters, four digits and a letter once upper-cased) writes nothing,
    leaves the account context as it was, and shows one error alert. *)
Theorem kyc_submit_rejects err pl db user c accountId st :
  (String.eqb (trim (k_aadhar st)) "" || String.eqb (trim (k_pan st)) ""
   || negb (validateAadhar (k_aadhar st)) || negb (validatePAN (toUpperCase (k_pan st)))) = true ->
  exists m, handleSubmit err pl db user c accountId st = (st, [Alert "Error" m], db, c).
Proof.
  unfold handleSubmit. intros H.
  destruct (String.eqb (trim (k_aadhar st)) ""), (String.eqb (trim (k_pan st)) ""),
    (validateAadhar (k_aadhar st)), (validatePAN (toUpperCase (k_pan st)));
    cbn [orb negb] in *; eauto; discriminate.
Qed.

(** ** Witnesses *)

Definition kyc_form : KycScreen :=
  mkKyc None false false "123456789012" "abcde1234f".

Lemma kyc_submit_any_account_witness :
  let '(_, eff, db', _) := handleSubmit None device sample_acct_db (Some "B") actx_init "acct-0" kyc_form in
  eff = [kyc_success] /\
  inv_accounts db' !! "acct-0" = Some (set_kyc_numbers "123456789012" "ABCDE1234F" acctA1) /\
  acc_user (set_kyc_numbers "123456789012" "ABCDE1234F" acctA1) = "A" /\
  acc_kyc_verified (set_kyc_numbers "123456789012" "ABCDE1234F" acctA1) = false.
Proof.
  exact (kyc_submit_any_account device sample_acct_db (Some "B") actx_init "acct-0" kyc_form acctA1
           ltac:(vm_compute; discriminate) ltac:(vm_compute; discriminate)
           eq_refl eq_refl eq_refl).
Defined.

Lemma kyc_never_verified_witness : verified_in sample_acct_db "acct-1".
Proof.
  destruct (handleSubmit None device sample_acct_db (Some "B") actx_init "acct-1" kyc_form)
    as [[[st' eff] db'] c'] eqn:E.
  apply (kyc_never_verified sample_acct_db db' "acct-1").
  - eapply rtc_l; [exact (as_kyc _ _ _ _ _ _ _ _ _ _ _ E)|apply rtc_refl].
  - exists (set_kyc_numbers "123456789012" "ABCDE1234F" acctA2).
    replace db' with (snd (fst (handleSubmit None device sample_acct_db (Some "B") actx_init
                                  "acct-1" kyc_form))) by (rewrite E; reflexivity).
    split; [vm_compute; reflexivity | reflexivity].
Defined.

Lemma kyc_submit_rejects_witness :
  exists m, handleSubmit None device sample_acct_db (Some "A") actx_init "acct-0"
              (mkKyc None false false "1234 5678 9012" "ABCDE1234F")
            = (mkKyc None false false "1234 5678 9012" "ABCDE1234F", [Alert "Error" m],
               sample_acct_db, actx_init).
Proof. apply kyc_submit_rejects. vm_compute. reflexivity. Defined.

End Kyc.
