(* ===== verification/Razorpay.v ===== *)
(** * The Razorpay edge functions

    [src/supabase/functions/create-razorpay-order/index.ts] and
    [src/supabase/functions/verify-razorpay-payment/index.ts] are Deno
    request handlers.  Both answer a CORS pre-flight, authenticate the
    bearer token with the auth service, check the body and look up the
    caller's investment account.  The first one asks Razorpay for an
    order of the amount in paise.  The second one checks the HMAC-SHA256
    signature of [order_id|payment_id], fetches the payment, credits
    [wallet_balance] with its amount and records a [wallet_topup]
    transaction.  A thrown error becomes a 400 response with its message.

    The handlers run in the [ST] monad of the prelude over the store they
    read and write (auth service, investment accounts, transactions).
    The Razorpay API is an input: a function from the order request to
    its answer, and the payments it knows by id.  HMAC-SHA256 is a
    [Section] variable: no property below depends on what it computes,
    only on the bytes it returns.  [btoa] and the HTTP plumbing are not
    modelled; the credentials are passed to the API as the string
    [btoa] encodes.  Strings are byte strings, so [TextEncoder] is the
    identity on the ASCII identifiers Razorpay issues. *)

From S2P Require Import Prelude Format View Wallet Store Auth Register Accounts.
From Stdlib Require Import Ascii Qabs.
Import Format Auth Accounts.

Module Razorpay.

Local Open Scope asj_scope.

(** ** Hex digests: [Array.from(bytes).map(b => b.toString(16).padStart(2, '0')).join('')] *)

Definition hex_byte (b : N) : string := padStart 2 "0" (to_base 16 b).

Definition hex_of_bytes (bs : list N) : string := String.concat "" (map hex_byte bs).

(** Reading a digest back, two hex digits per byte. *)
Fixpoint hex_pairs (l : list ascii) : option (list N) :=
  match l with
  | [] => Some []
  | c1 :: c2 :: r =>
      match parse_chars 16 [c1; c2], hex_pairs r with
      | Some v, Some vs => Some (v :: vs)
      | _, _ => None
      end
  | _ => None
  end.

Definition hex_decode (s : string) : option (list N) := hex_pairs (String.list_ascii_of_string s).

(** Byte values, as [Uint8Array] holds them. *)
Definition bytes_ok (bs : list N) : Prop := Forall (fun b => (b < 256)%N) bs.

(** [new TextEncoder().encode(s)] on a byte string. *)
Definition utf8_encode (s : string) : list N := map N_of_ascii (String.list_ascii_of_string s).

(** ** Requests, responses and the store *)

Definition corsHeaders : list (string * string) :=
  [("Access-Control-Allow-Origin", "*");
   ("Access-Control-Allow-Methods", "GET, POST, PUT, DELETE, OPTIONS");
   ("Access-Control-Allow-Headers", "Content-Type, Authorization, X-Client-Info, Apikey")].

Definition jsonHeaders : list (string * string) :=
  corsHeaders ++ [("Content-Type", "application/json")].

Record Request (B : Type) := mkRequest {
  method : string;
  authorization : option string;
  body : B
}.
Arguments mkRequest {B}.
Arguments method {B}.
Arguments authorization {B}.
Arguments body {B}.

Inductive RespBody :=
| RNull
| RError (message : string)
| ROrder (orderId : string) (amount : Z) (currency keyId : string)
| RVerified (amount newBalance : Q).

Record Response := mkResponse {
  status : nat;
  headers : list (string * string);
  resp : RespBody
}.

Record Config := mkConfig { RAZORPAY_KEY_ID : string; RAZORPAY_KEY_SECRET : string }.

(** A row of [transactions]. *)
Record TxRow := mkTx {
  tx_account : string;
  tx_type : string;
  tx_amount : Q;
  tx_status : string;
  tx_description : string;
  tx_metadata : string * string * string
}.

Record RzStore := mkRzStore {
  rs_auth : AuthServer;
  rs_accounts : AcctDB;
  rs_transactions : list TxRow
}.

(** [select * from investment_accounts where id = accountId and user_id = uid]. *)
Definition find_account (db : AcctDB) (accountId uid : string) : option InvestmentAccount :=
  match inv_accounts db !! accountId with
  | Some a => if String.eqb (acc_user a) uid then Some a else None
  | None => None
  end.

(** [s.replace(p, r)]: the first occurrence only. *)
Fixpoint replace_first_chars (p r l : list ascii) : list ascii :=
  if chars_prefix p l then r ++ drop (length p) l else
  match l with
  | [] => []
  | c :: l' => c :: replace_first_chars p r l'
  end.

Definition replace_first (p r s : string) : string :=
  String.string_of_list_ascii
    (replace_first_chars (String.list_ascii_of_string p) (String.list_ascii_of_string r)
                         (String.list_ascii_of_string s)).

(** [req.headers.get('Authorization')!.replace('Bearer ', '')] and
    [supabase.auth.getUser(token)]; a missing header makes [replace]
    throw on [null]. *)
Definition authenticate (auth : option string) : ST RzStore string string :=
  match auth with
  | None => st_throw "Cannot read properties of null (reading 'replace')"
  | Some h =>
      s <- st_get ;;
      match getUser (rs_auth s) (replace_first "Bearer " "" h) with
      | Some uid => st_ret uid
      | None => st_throw "Unauthorized"
      end
  end.

(** [Deno.serve]: the pre-flight, and the [catch] that turns an error
    into a 400 response. *)
Definition serve {B} (handler : Request B -> ST RzStore string RespBody) (req : Request B)
    (s : RzStore) : Response * RzStore :=
  if String.eqb (method req) "OPTIONS" then (mkResponse 200 corsHeaders RNull, s) else
  match handler req s with
  | (Ret b, s') => (mkResponse 200 jsonHeaders b, s')
  | (Throw m, s') => (mkResponse 400 jsonHeaders (RError m), s')
  end.

(** ** [create-razorpay-order] *)

Record CreateBody := mkCreateBody { amount : option Q; c_accountId : option string }.

Record OrderPayload := mkPayload {
  op_amount : Z;
  op_currency : string;
  op_receipt : string;
  op_account_id : string;
  op_user_id : string
}.

Record RzOrder := mkOrder { o_id : string; o_amount : Z; o_currency : string }.

(** Razorpay's API: [POST /v1/orders] with the credentials answers an
    order or an error text; [GET /v1/payments/id] knows some payments. *)
Record RzPayment := mkPayment { p_status : string; p_amount : Z }.

Record Gateway := mkGateway {
  rz_create_order : string -> OrderPayload -> string + RzOrder;
  rz_payments : gmap string RzPayment
}.

Definition basic_credentials (cfg : Config) : string :=
  RAZORPAY_KEY_ID cfg +:+ ":" +:+ RAZORPAY_KEY_SECRET cfg.

(** A body field is falsy when missing or empty. *)
Definition truthy (o : option string) : bool :=
  match o with Some s => negb (String.eqb s "") | None => false end.

(** The order for [amount] rupees: [Math.round(amount * 100)] paise and
    the receipt [wallet_<accountId>_<Date.now()>]. *)
Definition order_payload (a : Q) (accountId uid : string) (now : N) : OrderPayload :=
  mkPayload (js_round (a * 100)) "INR" ("wallet_" +:+ accountId +:+ "_" +:+ to_base 10 now)
            accountId uid.

(** The handler.  [!amount || amount < 1]: a number is falsy only when
    it is 0, which is below 1. *)
Definition create_order (cfg : Config) (gw : Gateway) (now : N) (req : Request CreateBody)
  : ST RzStore string RespBody :=
  uid <- authenticate (authorization req) ;;
  match amount (body req) with
  | None => st_throw "Minimum amount is ₹1"
  | Some a =>
      if negb (Qle_bool 1 a) then st_throw "Minimum amount is ₹1" else
      if negb (truthy (c_accountId (body req))) then st_throw "Account ID is required" else
      let accountId := default "" (c_accountId (body req)) in
      s <- st_get ;;
      match find_account (rs_accounts s) accountId uid with
      | None => st_throw "Account not found"
      | Some _ =>
          match rz_create_order gw (basic_credentials cfg) (order_payload a accountId uid now) with
          | inl text => st_throw ("Razorpay API error: " +:+ text)
          | inr o => st_ret (ROrder (o_id o) (o_amount o) (o_currency o) (RAZORPAY_KEY_ID cfg))
          end
      end
  end.

(** ** [verify-razorpay-payment] *)

Record VerifyBody := mkVerifyBody {
  razorpay_order_id : option string;
  razorpay_payment_id : option string;
  razorpay_signature : option string;
  v_accountId : option string
}.

Record RzFaults := mkRzFaults { f_update : bool; f_transaction : bool }.

Definition rz_no_faults : RzFaults := mkRzFaults false false.

(** [update investment_accounts set wallet_balance = b where id = accountId]. *)
Definition with_wallet_balance (b : Q) (a : InvestmentAccount) : InvestmentAccount :=
  {| acc_id := acc_id a; acc_user := acc_user a; account_number := account_number a;
     account_name := account_name a; acc_aadhar := acc_aadhar a; acc_pan := acc_pan a;
     acc_kyc_verified := acc_kyc_verified a; kyc_verified_at := kyc_verified_at a;
     is_primary := is_primary a; acc_status := acc_status a; created_at := created_at a;
     wallet_balance := Some b |}.

Definition set_wallet_balance (accountId : string) (b : Q) (s : RzStore) : RzStore :=
  mkRzStore (rs_auth s)
    (mkAcctDB (alter (with_wallet_balance b) accountId (inv_accounts (rs_accounts s)))
              (acct_next (rs_accounts s)))
    (rs_transactions s).

Definition topup_row (accountId : string) (a : Q) (o p sg : string) : TxRow :=
  mkTx accountId "wallet_topup" a "completed" ("Wallet top-up via Razorpay (" +:+ p +:+ ")")
       (o, p, sg).

Definition insert_transaction (t : TxRow) (s : RzStore) : RzStore :=
  mkRzStore (rs_auth s) (rs_accounts s) (rs_transactions s ++ [t]).

(** [parseFloat(account.wallet_balance || 0)]. *)
Definition current_balance (a : InvestmentAccount) : Q := default 0 (wallet_balance a).

Section Verify.

(** [crypto.subtle.sign('HMAC', key, data)] with SHA-256. *)
Variable hmac_sha256 : list N -> list N -> list N.

Definition expected_signature (cfg : Config) (o p : string) : string :=
  hex_of_bytes (hmac_sha256 (utf8_encode (RAZORPAY_KEY_SECRET cfg)) (utf8_encode (o +:+ "|" +:+ p))).

Definition verify_payment (fl : RzFaults) (cfg : Config) (gw : Gateway) (req : Request VerifyBody)
  : ST RzStore string RespBody :=
  uid <- authenticate (authorization req) ;;
  let b := body req in
  if negb (truthy (razorpay_order_id b) && truthy (razorpay_payment_id b) &&
           truthy (razorpay_signature b) && truthy (v_accountId b))
  then st_throw "Missing required payment details" else
  let o := default "" (razorpay_order_id b) in
  let p := default "" (razorpay_payment_id b) in
  let sg := default "" (razorpay_signature b) in
  let accountId := default "" (v_accountId b) in
  if negb (String.eqb (expected_signature cfg o p) sg) then st_throw "Invalid payment signature" else
  match rz_payments gw !! p with
  | None => st_throw "Failed to fetch payment details"
  | Some pay =>
      if negb (String.eqb (p_status pay) "captured") && negb (String.eqb (p_status pay) "authorized")
      then st_throw "Payment not successful" else
      let amountInRupees := inject_Z (p_amount pay) / 100 in
      s <- st_get ;;
      match find_account (rs_accounts s) accountId uid with
      | None => st_throw "Account not found"
      | Some acct =>
          let newBalance := current_balance acct + amountInRupees in
          if f_update fl then st_throw "Failed to update wallet balance" else
          st_modify (set_wallet_balance accountId newBalance) ;;
          (if f_transaction fl then st_ret tt
           else st_modify (insert_transaction (topup_row accountId amountInRupees o p sg))) ;;
          st_ret (RVerified amountInRupees newBalance)
      end
  end.

End Verify.

(** What the verifier checks before it credits: the caller's token, the
    four body fields, the signature, the payment's status and the
    account's owner.  [o], [p], [sg] and [accountId] are the fields. *)
Definition topup_accepted (hmac_sha256 : list N -> list N -> list N) (cfg : Config) (gw : Gateway)
    (s : RzStore) (req : Request VerifyBody) (uid : string) (pay : RzPayment)
    (acct : InvestmentAccount) : Prop :=
  let b := body req in
  let o := default "" (razorpay_order_id b) in
  let p := default "" (razorpay_payment_id b) in
  (exists h, authorization req = Some h /\ getUser (rs_auth s) (replace_first "Bearer " "" h) = Some uid) /\
  truthy (razorpay_order_id b) && truthy (razorpay_payment_id b) &&
    truthy (razorpay_signature b) && truthy (v_accountId b) = true /\
  expected_signature hmac_sha256 cfg o p = default "" (razorpay_signature b) /\
  rz_payments gw !! p = Some pay /\
  (p_status pay = "captured" \/ p_status pay = "authorized") /\
  find_account (rs_accounts s) (default "" (v_accountId b)) uid = Some acct.

(** ** Lemmas on hex digests *)

Lemma digits_rev_two b fuel n :
  (0 < b)%N -> (n < b * b)%N -> (length (digits_rev b fuel n) <= 2)%nat.
Proof.
  intros Hb Hn. destruct fuel as [|fuel]; cbn [digits_rev length]; [lia|].
  destruct (n <? b)%N; cbn [length]; [lia|].
  assert (Hq : (n / b < b)%N) by (apply N.Div0.div_lt_upper_bound; lia).
  destruct fuel as [|fuel]; cbn [digits_rev length]; [lia|].
  rewrite (proj2 (N.ltb_lt _ _) Hq). cbn [length]. lia.
Qed.

Lemma hex_byte_chars b :
  (b < 256)%N ->
  String.list_ascii_of_string (hex_byte b) = pad_chars 2 "0" (base_chars 16 b) /\
  length (pad_chars 2 "0" (base_chars 16 b)) = 2%nat.
Proof.
  intros Hb. unfold hex_byte, padStart, to_base. rewrite !String.list_ascii_of_string_of_list_ascii.
  split; [done|]. assert (H2 : (length (base_chars 16 b) <= 2)%nat).
  { unfold base_chars. rewrite length_map, length_rev. apply digits_rev_two; lia. }
  unfold pad_chars. rewrite length_app, length_replicate. lia.
Qed.

Lemma list_ascii_append s1 s2 :
  String.list_ascii_of_string (s1 +:+ s2) =
  String.list_ascii_of_string s1 ++ String.list_ascii_of_string s2.
Proof. induction s1 as [|c s1 IH]; simpl; [done|]. by rewrite IH. Qed.

Lemma list_ascii_concat l :
  String.list_ascii_of_string (String.concat "" l) = List.concat (map String.list_ascii_of_string l).
Proof.
  induction l as [|x [|y l] IH]; [done| |].
  - cbn [String.concat map List.concat]. by rewrite app_nil_r.
  - change (String.concat "" (x :: y :: l)) with (x +:+ "" +:+ String.concat "" (y :: l)).
    rewrite !list_ascii_append, IH. reflexivity.
Qed.

Lemma length_list_ascii s : length (String.list_ascii_of_string s) = String.length s.
Proof. induction s as [|c s IH]; simpl; [done|]. by rewrite IH. Qed.

Lemma hex_pairs_bytes bs :
  bytes_ok bs ->
  hex_pairs (List.concat (map (fun b => String.list_ascii_of_string (hex_byte b)) bs)) = Some bs /\
  length (List.concat (map (fun b => String.list_ascii_of_string (hex_byte b)) bs)) = (2 * length bs)%nat.
Proof.
  induction bs as [|b bs IH]; intros Hok; [done|]. apply Forall_cons in Hok as [Hb Hok].
  destruct (IH Hok) as [IH1 IH2]. destruct (hex_byte_chars b Hb) as [E Hlen].
  cbn [map List.concat]. rewrite E.
  pose proof (parse_pad_chars 16 2 b ltac:(lia)) as Hp.
  destruct (pad_chars 2 "0" (base_chars 16 b)) as [|c1 [|c2 [|c3 r]]]; try discriminate Hlen.
  cbn [app hex_pairs length]. rewrite IH1, IH2.
  rewrite <- parse_chars_foldl in Hp by discriminate. rewrite Hp. split; [done | lia].
Qed.

(** Reading back a digest gives the bytes, two characters per byte. *)
Lemma hex_decode_of_bytes bs :
  bytes_ok bs -> hex_decode (hex_of_bytes bs) = Some bs /\
                 String.length (hex_of_bytes bs) = (2 * length bs)%nat.
Proof.
  intros Hok. unfold hex_decode, hex_of_bytes. rewrite <- length_list_ascii, list_ascii_concat, map_map.
  exact (hex_pairs_bytes bs Hok).
Qed.

(** ** Lemmas on the verifier *)

Lemma find_account_credit s accountId uid acct nb :
  find_account (rs_accounts s) accountId uid = Some acct ->
  inv_accounts (rs_accounts (set_wallet_balance accountId nb s)) !! accountId =
    Some (with_wallet_balance nb acct) /\
  find_account (rs_accounts (set_wallet_balance accountId nb s)) accountId uid =
    Some (with_wallet_balance nb acct).
Proof.
  unfold find_account, set_wallet_balance. cbn [rs_accounts inv_accounts].
  rewrite lookup_alter_eq. destruct (inv_accounts (rs_accounts s) !! accountId); [|done].
  case_if; [|done]. intros [= <-]. split; [done|]. simpl. by rewrite Heqb.
Qed.

Section VerifyLemmas.

Context (hmac_sha256 : list N -> list N -> list N) (cfg : Config) (gw : Gateway).

(** A run of the verifier that answers: everything was checked, and the
    store got the credit and, unless that insert failed, the row. *)
Lemma verify_payment_Ret fl req s b s' :
  verify_payment hmac_sha256 fl cfg gw req s = (Ret b, s') ->
  exists uid pay acct,
    topup_accepted hmac_sha256 cfg gw s req uid pay acct /\ f_update fl = false /\
    let amt := inject_Z (p_amount pay) / 100 in
    let accountId := default "" (v_accountId (body req)) in
    let s1 := set_wallet_balance accountId (current_balance acct + amt) s in
    b = RVerified amt (current_balance acct + amt) /\
    s' = if f_transaction fl then s1
         else insert_transaction (topup_row accountId amt (default "" (razorpay_order_id (body req)))
                (default "" (razorpay_payment_id (body req)))
                (default "" (razorpay_signature (body req)))) s1.
Proof.
  unfold verify_payment, authenticate, st_bind, st_get, st_throw, st_modify, st_ret.
  destruct (authorization req) as [h|] eqn:Ea; [|discriminate].
  destruct (getUser _ _) as [uid|] eqn:Eu; [|discriminate].
  case_if as Et; [discriminate|]. case_if as Es; [discriminate|].
  destruct (rz_payments gw !! _) as [pay|] eqn:Ep; [|discriminate].
  case_if as Est; [discriminate|].
  destruct (find_account _ _ _) as [acct|] eqn:Ef; [|discriminate].
  case_if as Eu'; [discriminate|]. intros H.
  exists uid, pay, acct. split.
  - apply negb_false_iff in Et. apply negb_false_iff, String.eqb_eq in Es.
    repeat split; eauto. apply andb_false_iff in Est as [E|E];
      apply negb_false_iff, String.eqb_eq in E; auto.
  - split; [done|]. destruct (f_transaction fl); injection H as <- <-; auto.
Qed.

Lemma verify_payment_accepts fl req s uid pay acct :
  topup_accepted hmac_sha256 cfg gw s req uid pay acct -> f_update fl = false ->
  let amt := inject_Z (p_amount pay) / 100 in
  let accountId := default "" (v_accountId (body req)) in
  let s1 := set_wallet_balance accountId (current_balance acct + amt) s in
  verify_payment hmac_sha256 fl cfg gw req s =
    (Ret (RVerified amt (current_balance acct + amt)),
     if f_transaction fl then s1
     else insert_transaction (topup_row accountId amt (default "" (razorpay_order_id (body req)))
            (default "" (razorpay_payment_id (body req)))
            (default "" (razorpay_signature (body req)))) s1).
Proof.
  intros ((h & Ea & Eu) & Et & Es & Ep & Est & Ef) Hu.
  unfold verify_payment, authenticate, st_bind, st_get, st_throw, st_modify, st_ret.
  rewrite Ea, Eu. cbv beta iota zeta. rewrite Et, Es, String.eqb_refl, Ep.
  destruct Est as [E | E]; rewrite E;
    cbn -[find_account set_wallet_balance insert_transaction topup_row current_balance];
    rewrite Ef, Hu; by destruct (f_transaction fl).
Qed.

(** The credited store passes the same checks again. *)
Lemma topup_accepted_credit req s uid pay acct nb t :
  topup_accepted hmac_sha256 cfg gw s req uid pay acct ->
  topup_accepted hmac_sha256 cfg gw
    (insert_transaction t (set_wallet_balance (default "" (v_accountId (body req))) nb s))
    req uid pay (with_wallet_balance nb acct).
Proof.
  intros (Ha & Et & Es & Ep & Est & Ef). repeat split; auto.
  apply (find_account_credit _ _ _ _ nb Ef).
Qed.

End VerifyLemmas.

Lemma Qle_bool_false a b : Qle_bool a b = false -> b < a.
Proof. intros H. apply Qnot_le_lt. intros Hle. apply Qle_bool_iff in Hle. congruence. Qed.

(** ** Theorems *)

(** a digest reads back: for bytes below 256, the hex string has two
    characters per byte and decoding it gives the bytes. *)
Theorem hex_roundtrip bs :
  bytes_ok bs -> hex_decode (hex_of_bytes bs) = Some bs /\
                 String.length (hex_of_bytes bs) = (2 * length bs)%nat.
Proof. apply hex_decode_of_bytes. Qed.

(** comparing hex digests is comparing the MACs: two byte strings have
    the same digest exactly when they are equal, so the signature check
    accepts exactly the signature whose bytes are the HMAC. *)
Theorem hex_digest_compare m1 m2 :
  bytes_ok m1 -> bytes_ok m2 -> (hex_of_bytes m1 = hex_of_bytes m2 <-> m1 = m2).
Proof.
  intros H1 H2. split; [|by intros ->]. intros E.
  apply (f_equal hex_decode) in E. rewrite (proj1 (hex_decode_of_bytes m1 H1)),
    (proj1 (hex_decode_of_bytes m2 H2)) in E. congruence.
Qed.

(** C16: every top-up the verifier answers with 200 passed all its checks:
    a token of the user who owns the account, the four fields, the
    signature over [order|payment], a captured or authorized payment;
    and the account's balance afterwards is the old one plus the
    payment's amount in rupees. *)
Theorem verify_credit_sound hmac_sha256 fl cfg gw req s r s' :
  method req <> "OPTIONS" ->
  serve (verify_payment hmac_sha256 fl cfg gw) req s = (r, s') -> status r = 200%nat ->
  exists uid pay acct,
    topup_accepted hmac_sha256 cfg gw s req uid pay acct /\
    let amt := inject_Z (p_amount pay) / 100 in
    resp r = RVerified amt (current_balance acct + amt) /\
    inv_accounts (rs_accounts s') !! default "" (v_accountId (body req)) =
      Some (with_wallet_balance (current_balance acct + amt) acct).
Proof.
  intros Hm. unfold serve. rewrite (proj2 (String.eqb_neq _ _) Hm).
  destruct (verify_payment _ _ _ _ _ _) as [[b|m] s1] eqn:E; intros [= <- <-]; [|discriminate].
  intros _. destruct (verify_payment_Ret _ _ _ _ _ _ _ _ E) as (uid & pay & acct & Ha & _ & -> & ->).
  exists uid, pay, acct. split; [done|]. split; [done|].
  destruct Ha as (_ & _ & _ & _ & _ & Ef).
  destruct (f_transaction fl); apply (find_account_credit _ _ _ _ _ Ef).
Qed.

(** C15: the verifier keeps no record of the payments it has credited:
    the same order, payment and signature verified twice both answer 200,
    credit the amount twice and record two top-up transactions. *)
Theorem verify_replay_credits_twice hmac_sha256 cfg gw s req uid pay acct :
  method req <> "OPTIONS" -> topup_accepted hmac_sha256 cfg gw s req uid pay acct ->
  let amt := inject_Z (p_amount pay) / 100 in
  let accountId := default "" (v_accountId (body req)) in
  let row := topup_row accountId amt (default "" (razorpay_order_id (body req)))
               (default "" (razorpay_payment_id (body req)))
               (default "" (razorpay_signature (body req))) in
  let '(r1, s1) := serve (verify_payment hmac_sha256 rz_no_faults cfg gw) req s in
  let '(r2, s2) := serve (verify_payment hmac_sha256 rz_no_faults cfg gw) req s1 in
  status r1 = 200%nat /\ status r2 = 200%nat /\
  inv_accounts (rs_accounts s2) !! accountId =
    Some (with_wallet_balance (current_balance acct + amt + amt)
            (with_wallet_balance (current_balance acct + amt) acct)) /\
  rs_transactions s2 = rs_transactions s ++ [row; row].
Proof.
  intros Hm Ha. unfold serve. rewrite (proj2 (String.eqb_neq _ _) Hm).
  rewrite (verify_payment_accepts _ _ _ rz_no_faults _ _ _ _ _ Ha eq_refl).
  cbn [f_transaction rz_no_faults]. cbv beta iota zeta.
  pose proof (topup_accepted_credit _ _ _ _ _ _ _ _ (current_balance acct + inject_Z (p_amount pay) / 100)
                (topup_row (default "" (v_accountId (body req))) (inject_Z (p_amount pay) / 100)
                   (default "" (razorpay_order_id (body req)))
                   (default "" (razorpay_payment_id (body req)))
                   (default "" (razorpay_signature (body req)))) Ha) as Ha'.
  rewrite (verify_payment_accepts _ _ _ rz_no_faults _ _ _ _ _ Ha' eq_refl). cbn [f_transaction rz_no_faults].
  split; [done|]. split; [done|]. destruct Ha' as (_ & _ & _ & _ & _ & Ef).
  split; [apply (find_account_credit _ _ _ _ _ Ef)|]. cbn. by rewrite <- app_assoc.
Qed.

(** C17: the two writes of a top-up fail differently: a failed balance
    update answers 400 and writes nothing, but a failed transaction insert
    is only logged, so the balance is credited, the answer is 200 and no
    transaction records it. *)
Theorem verify_write_failures hmac_sha256 cfg gw s req uid pay acct :
  method req <> "OPTIONS" -> topup_accepted hmac_sha256 cfg gw s req uid pay acct ->
  let amt := inject_Z (p_amount pay) / 100 in
  let accountId := default "" (v_accountId (body req)) in
  serve (verify_payment hmac_sha256 (mkRzFaults true false) cfg gw) req s =
    (mkResponse 400 jsonHeaders (RError "Failed to update wallet balance"), s) /\
  let '(r, s') := serve (verify_payment hmac_sha256 (mkRzFaults false true) cfg gw) req s in
  status r = 200%nat /\ resp r = RVerified amt (current_balance acct + amt) /\
  inv_accounts (rs_accounts s') !! accountId =
    Some (with_wallet_balance (current_balance acct + amt) acct) /\
  rs_transactions s' = rs_transactions s.
Proof.
  intros Hm Ha. unfold serve. rewrite (proj2 (String.eqb_neq _ _) Hm). split.
  - pose proof Ha as ((h & Ea & Eu) & Et & Es & Ep & Est & Ef).
    unfold verify_payment, authenticate, st_bind, st_get, st_throw.
    rewrite Ea, Eu. cbv beta iota zeta. rewrite Et, Es, String.eqb_refl, Ep.
    destruct Est as [E | E]; rewrite E; cbn -[find_account]; by rewrite Ef.
  - rewrite (verify_payment_accepts _ _ _ (mkRzFaults false true) _ _ _ _ _ Ha eq_refl).
    cbn [f_transaction].
    destruct Ha as (_ & _ & _ & _ & _ & Ef).
    repeat split; [apply (find_account_credit _ _ _ _ _ Ef)].
Qed.

(** C18: an order is only requested for the caller's own account and at
    least one rupee, and the amount sent is [Math.round(amount * 100)]
    paise: at least 100, and within half a paisa of the amount. *)
Theorem create_order_amount cfg gw now req s r s' :
  method req <> "OPTIONS" ->
  serve (create_order cfg gw now) req s = (r, s') -> status r = 200%nat ->
  s' = s /\
  exists a uid acct o,
    amount (body req) = Some a /\ 1 <= a /\
    find_account (rs_accounts s) (default "" (c_accountId (body req))) uid = Some acct /\
    rz_create_order gw (basic_credentials cfg)
      (order_payload a (default "" (c_accountId (body req))) uid now) = inr o /\
    resp r = ROrder (o_id o) (o_amount o) (o_currency o) (RAZORPAY_KEY_ID cfg) /\
    (100 <= op_amount (order_payload a (default "" (c_accountId (body req))) uid now))%Z /\
    Qabs (inject_Z (op_amount (order_payload a (default "" (c_accountId (body req))) uid now)) - a * 100)
      <= 1 # 2.
Proof.
  intros Hm. unfold serve. rewrite (proj2 (String.eqb_neq _ _) Hm).
  unfold create_order, authenticate, st_bind, st_get, st_throw, st_ret.
  destruct (authorization req) as [h|]; [|intros [= <- _]; discriminate].
  destruct (getUser _ _) as [uid|] eqn:Eu; [|intros [= <- _]; discriminate].
  destruct (amount (body req)) as [a|]; [|intros [= <- _]; discriminate].
  case_if as E1; [intros [= <- _]; discriminate|].
  case_if as E2; [intros [= <- _]; discriminate|].
  destruct (find_account _ _ _) as [acct|] eqn:Ef; [|intros [= <- _]; discriminate].
  destruct (rz_create_order _ _ _) as [t|o] eqn:Eo; [intros [= <- _]; discriminate|].
  intros [= <- <-] _. split; [done|]. apply negb_false_iff, Qle_bool_iff in E1.
  exists a, uid, acct, o. do 5 (split; [done|]). unfold order_payload; cbn [op_amount].
  destruct (js_round_bounds (a * 100)) as [Hlo Hhi]. split.
  - destruct (Z.le_gt_cases 100 (js_round (a * 100))) as [H|H]; [done|]. exfalso.
    assert (H' : (js_round (a * 100) <= 99)%Z) by lia. rewrite Zle_Qle in H'.
    change (inject_Z 99) with (99 # 1) in H'. lra.
  - apply Qabs_Qle_condition. split; lra.
Qed.

(** ** Witnesses *)

(** A stand-in for HMAC-SHA256 with byte outputs. *)
Definition toy_hmac (k d : list N) : list N := map (fun x => (x mod 256)%N) (k ++ d).

Definition cfg0 : Config := mkConfig "rzp_test_key" "s3cret".

Definition gw0 : Gateway :=
  mkGateway (fun _ p => inr (mkOrder "order_1" (op_amount p) "INR"))
            {[ "pay_1" := mkPayment "captured" 50000 ]}.

Definition store0 : RzStore :=
  mkRzStore (mkAuthServer ∅ {[ "tok-A" := "A" ]} 0) sample_acct_db [].

Definition topup_req : Request VerifyBody :=
  mkRequest "POST" (Some "Bearer tok-A")
    (mkVerifyBody (Some "order_1") (Some "pay_1")
       (Some (expected_signature toy_hmac cfg0 "order_1" "pay_1")) (Some "acct-0")).

Definition order_req : Request CreateBody :=
  mkRequest "POST" (Some "Bearer tok-A") (mkCreateBody (Some (1005 # 10)) (Some "acct-0")).

Lemma topup_req_accepted :
  topup_accepted toy_hmac cfg0 gw0 store0 topup_req "A" (mkPayment "captured" 50000) acctA1.
Proof.
  split; [exists "Bearer tok-A"; split; [reflexivity | vm_compute; reflexivity]|].
  split; [vm_compute; reflexivity|]. split; [reflexivity|].
  split; [vm_compute; reflexivity|]. split; [left; reflexivity|]. vm_compute. reflexivity.
Qed.

Lemma hex_roundtrip_witness :
  hex_decode (hex_of_bytes [0; 10; 171; 255]%N) = Some [0; 10; 171; 255]%N /\
  String.length (hex_of_bytes [0; 10; 171; 255]%N) = 8%nat.
Proof. apply hex_roundtrip. repeat constructor; vm_compute; reflexivity. Defined.

Lemma hex_digest_compare_witness :
  hex_of_bytes [1; 16]%N = hex_of_bytes [1; 16]%N <-> [1; 16]%N = [1; 16]%N.
Proof. apply hex_digest_compare; repeat constructor; vm_compute; reflexivity. Defined.

Lemma verify_credit_sound_witness :
  exists uid pay acct,
    topup_accepted toy_hmac cfg0 gw0 store0 topup_req uid pay acct /\
    let amt := inject_Z (p_amount pay) / 100 in
    resp (fst (serve (verify_payment toy_hmac rz_no_faults cfg0 gw0) topup_req store0)) =
      RVerified amt (current_balance acct + amt) /\
    inv_accounts (rs_accounts (snd (serve (verify_payment toy_hmac rz_no_faults cfg0 gw0) topup_req store0)))
      !! "acct-0" = Some (with_wallet_balance (current_balance acct + amt) acct).
Proof.
  apply (verify_credit_sound toy_hmac rz_no_faults cfg0 gw0 topup_req store0).
  - discriminate.
  - apply surjective_pairing.
  - vm_compute. reflexivity.
Defined.

Lemma verify_replay_credits_twice_witness :
  let '(r1, s1) := serve (verify_payment toy_hmac rz_no_faults cfg0 gw0) topup_req store0 in
  let '(r2, s2) := serve (verify_payment toy_hmac rz_no_faults cfg0 gw0) topup_req s1 in
  status r1 = 200%nat /\ status r2 = 200%nat /\
  inv_accounts (rs_accounts s2) !! "acct-0" =
    Some (with_wallet_balance (0 + inject_Z 50000 / 100 + inject_Z 50000 / 100)
            (with_wallet_balance (0 + inject_Z 50000 / 100) acctA1)) /\
  rs_transactions s2 = [] ++ [topup_row "acct-0" (inject_Z 50000 / 100) "order_1" "pay_1"
                                (expected_signature toy_hmac cfg0 "order_1" "pay_1");
                              topup_row "acct-0" (inject_Z 50000 / 100) "order_1" "pay_1"
                                (expected_signature toy_hmac cfg0 "order_1" "pay_1")].
Proof.
  exact (verify_replay_credits_twice toy_hmac cfg0 gw0 store0 topup_req "A" _ _
           ltac:(discriminate) topup_req_accepted).
Defined.

Lemma verify_write_failures_witness :
  serve (verify_payment toy_hmac (mkRzFaults true false) cfg0 gw0) topup_req store0 =
    (mkResponse 400 jsonHeaders (RError "Failed to update wallet balance"), store0) /\
  let '(r, s') := serve (verify_payment toy_hmac (mkRzFaults false true) cfg0 gw0) topup_req store0 in
  status r = 200%nat /\ resp r = RVerified (inject_Z 50000 / 100) (0 + inject_Z 50000 / 100) /\
  inv_accounts (rs_accounts s') !! "acct-0" =
    Some (with_wallet_balance (0 + inject_Z 50000 / 100) acctA1) /\
  rs_transactions s' = [].
Proof.
  exact (verify_write_failures toy_hmac cfg0 gw0 store0 topup_req "A" _ _
           ltac:(discriminate) topup_req_accepted).
Defined.

Lemma create_order_amount_witness :
  exists a uid acct o,
    amount (body order_req) = Some a /\ 1 <= a /\
    find_account (rs_accounts store0) "acct-0" uid = Some acct /\
    rz_create_order gw0 (basic_credentials cfg0) (order_payload a "acct-0" uid 7) = inr o /\
    resp (fst (serve (create_order cfg0 gw0 7) order_req store0)) =
      ROrder (o_id o) (o_amount o) (o_currency o) (RAZORPAY_KEY_ID cfg0) /\
    (100 <= op_amount (order_payload a "acct-0" uid 7))%Z /\
    Qabs (inject_Z (op_amount (order_payload a "acct-0" uid 7)) - a * 100) <= 1 # 2.
Proof.
  refine (proj2 (create_order_amount cfg0 gw0 7 order_req store0 _ _ _ _ _)).
  - discriminate.
  - apply surjective_pairing.
  - vm_compute. reflexivity.
Defined.

End Razorpay.
