(* ===== verification/Tree.v ===== *)
(** * The downline tree screen ([src/app/tree.tsx])

    The screen reads the caller's rows of [referral_tree] ordered by
    level, each row joined with the referred user's profile.  It then
    builds a forest of [TreeNode] objects in [buildTreeStructure].  A
    first pass allocates one node per row, records it in a JavaScript
    [Map] by profile id, and keeps the level-1 nodes as roots.  A second
    pass pushes every deeper node into the [children] array of the first
    node of the [Map] one level up that does not hold it yet.  The rows
    carry no referrer, so that node need not be the member's referrer.
    The screen renders the forest recursively, counts it, and toggles the
    expansion of a node.

    The nodes are shared mutable objects: the [Map], the roots and the
    [children] arrays all point at them, and a push into a node's
    [children] is seen from every path that reaches it.  The model keeps
    that sharing.  [Build] has a heap of node records addressed by
    location; the [Map] and [children] hold locations, and [Map.set]
    replaces in place.  The rendered forest is the heap unfolded from the
    roots.  The recursion on this object graph ([countChildren],
    [renderTreeNode]) terminates because every edge goes to a deeper
    level.  The unfolding uses fuel, and the theorems show that the
    maximal level plus one is enough.

    The order among rows of one level is the table order; PostgreSQL
    leaves it unspecified. *)

From S2P Require Import Prelude Format View Wallet Store.
From Stdlib Require Import Sorting.Sorted.
Import View Store.

Module Tree.

Local Open Scope nat_scope.

(** ** The query *)

Record ProfileRef := mkPRef { pr_id : string; pr_full_name : string; pr_phone_number : string }.

Record TreeRow := mkRow {
  r_level : nat;
  referred_user_id : string;
  referred_user : option ProfileRef
}.

(** [referred_user:profiles!...(id, full_name, phone_number)]: [null]
    when the profile is not there. *)
Definition join_profile (db : DB) (uid : string) : option ProfileRef :=
  (fun p => mkPRef (prof_id p) (full_name p) (phone_number p)) <$> profiles db !! uid.

Fixpoint insert_by_level (r : TreeRow) (l : list TreeRow) : list TreeRow :=
  match l with
  | [] => [r]
  | x :: l' => if Nat.leb (r_level r) (r_level x) then r :: l else x :: insert_by_level r l'
  end.

(** [.eq('user_id', uid).order('level', {ascending: true})]. *)
Definition tree_rows (db : DB) (uid : string) : list TreeRow :=
  foldr insert_by_level []
    (map (fun e => mkRow (level e) (desc e) (join_profile db (desc e)))
         (List.filter (fun e => String.eqb (anc e) uid) (referral_tree db))).

(** ** [buildTreeStructure] over a heap of node objects *)

Record TreeNode := mkNode {
  id : string;
  full_name_ : string;
  phone_number_ : string;
  n_level : nat;
  children : list nat
}.

Record Build := mkBuild {
  heap : list TreeNode;
  nodeMap : list (string * nat);      (** a [Map], in insertion order *)
  rootNodes : list nat
}.

Definition build_init : Build := mkBuild [] [] [].

(** [Map.prototype.set]: a new key goes last, an old one keeps its place. *)
Fixpoint map_set (k : string) (v : nat) (m : list (string * nat)) : list (string * nat) :=
  match m with
  | [] => [(k, v)]
  | (k', v') :: m' => if String.eqb k k' then (k, v) :: m' else (k', v') :: map_set k v m'
  end.

Definition map_get (k : string) (m : list (string * nat)) : option nat :=
  snd <$> List.find (fun e => String.eqb (fst e) k) m.

(** [x || 'Unknown'] on a string. *)
Definition or_default (s d : string) : string := if String.eqb s "" then d else s.

(** The first [forEach]: one new node per row with a profile. *)
Definition pass1 (st : Build) (ref : TreeRow) : Build :=
  match referred_user ref with
  | None => st
  | Some u =>
      let node := mkNode (pr_id u) (or_default (pr_full_name u) "Unknown")
                         (or_default (pr_phone_number u) "N/A") (r_level ref) [] in
      let loc := length (heap st) in
      mkBuild (heap st ++ [node]) (map_set (id node) loc (nodeMap st))
              (if Nat.eqb (r_level ref) 1 then rootNodes st ++ [loc] else rootNodes st)
  end.

(** [parentNode.children.find(c => c.id === childId)]. *)
Definition has_child (h : list TreeNode) (p : TreeNode) (cid : string) : bool :=
  existsb (fun c => match h !! c with Some n => String.eqb (id n) cid | None => false end)
          (children p).

Definition push_child (cl : nat) (p : TreeNode) : TreeNode :=
  mkNode (id p) (full_name_ p) (phone_number_ p) (n_level p) (children p ++ [cl]).

(** The [for ... of nodeMap.entries()] loop: push into the first node
    one level up that does not hold the child, then [break]. *)
Fixpoint attach (h : list TreeNode) (lvl cl : nat) (cid : string) (entries : list (string * nat))
  : list TreeNode :=
  match entries with
  | [] => h
  | (_, pl) :: rest =>
      match h !! pl with
      | Some p => if Nat.eqb (n_level p) (lvl - 1) && negb (has_child h p cid)
                  then <[pl := push_child cl p]> h
                  else attach h lvl cl cid rest
      | None => attach h lvl cl cid rest
      end
  end.

(** The second [forEach]. *)
Definition pass2 (st : Build) (ref : TreeRow) : Build :=
  if Nat.ltb 1 (r_level ref) then
    match referred_user ref with
    | None => st
    | Some u =>
        match map_get (pr_id u) (nodeMap st) with
        | None => st
        | Some cl =>
            match heap st !! cl with
            | None => st
            | Some child => mkBuild (attach (heap st) (r_level ref) cl (id child) (nodeMap st))
                                    (nodeMap st) (rootNodes st)
            end
        end
    end
  else st.

Definition buildTreeStructure (rows : list TreeRow) : Build :=
  let st := foldl pass1 build_init rows in foldl pass2 st rows.

(** ** The forest as the screen walks it *)

#[warnings="-register-all"]
Inductive Tree := TNode (tid name phone : string) (level : nat) (kids : list Tree).

Definition tree_id (t : Tree) : string := match t with TNode i _ _ _ _ => i end.
Definition tree_level (t : Tree) : nat := match t with TNode _ _ _ l _ => l end.
Definition tree_kids (t : Tree) : list Tree := match t with TNode _ _ _ _ k => k end.

(** Following the references from a location; [fuel] bounds the depth. *)
Fixpoint unfold_node (fuel : nat) (h : list TreeNode) (l : nat) : option Tree :=
  match fuel with
  | O => None
  | S f =>
      match h !! l with
      | None => None
      | Some n => TNode (id n) (full_name_ n) (phone_number_ n) (n_level n) <$>
                    mapM (unfold_node f h) (children n)
      end
  end.

Definition forest (fuel : nat) (st : Build) : option (list Tree) :=
  mapM (unfold_node fuel (heap st)) (rootNodes st).

(** [countChildren]. *)
Fixpoint countChildren (t : Tree) : nat :=
  match t with
  | TNode _ _ _ _ [] => 0
  | TNode _ _ _ _ ks => length ks + foldl (fun sum c => sum + countChildren c) 0 ks
  end.

(** [getTotalReferrals]: every node reached, counted once per path. *)
Fixpoint count_nodes (t : Tree) : nat :=
  match t with TNode _ _ _ _ ks => S (list_sum (map count_nodes ks)) end.

Definition getTotalReferrals (ts : list Tree) : nat := list_sum (map count_nodes ts).

(** [counts[level] = (counts[level] || 0) + 1]; [Object.entries] lists
    integer keys in ascending order. *)
Fixpoint bump (k : nat) (m : list (nat * nat)) : list (nat * nat) :=
  match m with
  | [] => [(k, 1%nat)]
  | (k', c) :: m' => if Nat.eqb k k' then (k', S c) :: m'
                     else if Nat.ltb k k' then (k, 1%nat) :: m else (k', c) :: bump k m'
  end.

Fixpoint levels_of (t : Tree) : list nat :=
  match t with TNode _ _ _ l ks => l :: flat_map levels_of ks end.

Definition getLevelCounts (ts : list Tree) : list (nat * nat) :=
  foldl (fun m l => bump l m) [] (flat_map levels_of ts).

(** Enough fuel for every walk of the screen: one more than the deepest
    level of the heap. *)
Definition tree_fuel (st : Build) : nat := S (list_max (map n_level (heap st))).

(** ** The screen *)

Record TreeScreen := mkTreeScreen {
  treeData : list Tree;
  t_loading : bool;
  expandedNodes : gset string
}.

Definition tree_init : TreeScreen := mkTreeScreen [] true ∅.

(** [loadTreeData]: [fail] is an error of the select. *)
Definition loadTreeData (fail : bool) (db : DB) (profile_id : string) (st : TreeScreen) : TreeScreen :=
  if String.eqb profile_id "" then st else
  if fail then mkTreeScreen (treeData st) false (expandedNodes st) else
  let b := buildTreeStructure (tree_rows db profile_id) in
  let tree := default [] (forest (tree_fuel b) b) in
  mkTreeScreen tree false (list_to_set (map tree_id tree)).

(** [toggleNode]. *)
Definition toggleNode (nodeId : string) (st : TreeScreen) : TreeScreen :=
  mkTreeScreen (treeData st) (t_loading st)
    (if bool_decide (nodeId ∈ expandedNodes st) then expandedNodes st ∖ {[nodeId]}
     else expandedNodes st ∪ {[nodeId]}).

Inductive TreeAction := TBack | TToggle (nodeId : string).

Definition plural (n : nat) : string := if Nat.eqb n 1 then "" else "s".

(** [renderTreeNode]: the row is pressable only with children; the
    children are shown when the node is expanded. *)
Fixpoint renderTreeNode (expanded : gset string) (t : Tree) : Node TreeAction :=
  match t with
  | TNode i name phone lvl ks =>
      let hasChildren := negb (Nat.eqb (length ks) 0) in
      Box (Button (TToggle i) (negb hasChildren)
             [Box ([Box [Box []; Box [Text [PS "L"; num lvl]]; Box [T name; T phone]]] ++
                   when hasChildren (Box [Text [num (countChildren t)]]))] ::
           when (bool_decide (i ∈ expanded) && hasChildren)
             (Box (map (renderTreeNode expanded) ks)))
  end.

Definition tree_header : Node TreeAction :=
  Box [Button TBack false []; T "Downline Tree"; Box []].

Definition tree_view (st : TreeScreen) : Node TreeAction :=
  if t_loading st then
    Box [tree_header; Box [Spinner; T "Loading your referral tree..."]]
  else
    let counts := getLevelCounts (treeData st) in
    let total := getTotalReferrals (treeData st) in
    Box [tree_header;
         Box [Box [T "Total Members"; Text [num total]];
              Box [];
              Box [T "Direct Referrals"; Text [num (length (treeData st))]]];
         Box ((match treeData st with
               | [] => [Box [T "No Referrals Yet";
                             T "Share your referral code to start building your network"]]
               | _ =>
                 [Box (T "Tap on any member with a badge to expand their downline" ::
                       map (renderTreeNode (expandedNodes st)) (treeData st));
                  Box ([T "Tree Structure Summary"] ++
                       map (fun '(lvl, c) => Box [Text [PS "Level "; num lvl; PS ":"];
                                                  Text [num c; PS " member"; PS (plural c)]]) counts ++
                       [Box [];
                        Box [T "Total:";
                             Text [num total; PS " member"; PS (plural total); PS " across ";
                                   num (length counts); PS " level"; PS (plural (length counts))]]])]
               end) ++ [Box []])].

Definition tree_press (a : TreeAction) (st : TreeScreen) : TreeScreen * list Effect :=
  match a with
  | TBack => (st, [Back])
  | TToggle i => (toggleNode i st, [])
  end.

(** ** Invariants of the node heap *)

(** Every [children] entry is a node of a deeper level. *)
Definition edges_up (h : list TreeNode) : Prop :=
  forall l n c, h !! l = Some n -> c ∈ children n ->
  exists m, h !! c = Some m /\ n_level n < n_level m.

(** The rows seen so far find, through the [Map], a node at least as
    deep as themselves. *)
Definition map_deep (st : Build) (seen : list TreeRow) : Prop :=
  forall r u, r ∈ seen -> referred_user r = Some u ->
  exists cl m, map_get (pr_id u) (nodeMap st) = Some cl /\ heap st !! cl = Some m /\
               r_level r <= n_level m.

Definition roots_ok (st : Build) : Prop := forall r, r ∈ rootNodes st -> is_Some (heap st !! r).

Definition level_le (a b : TreeRow) : Prop := r_level a <= r_level b.

(** [h'] has the nodes of [h], at the same levels. *)
Definition same_levels (h h' : list TreeNode) : Prop :=
  forall l n, h !! l = Some n -> exists n', h' !! l = Some n' /\ n_level n' = n_level n.

(** ** Lemmas *)

Lemma map_get_set_eq k v m : map_get k (map_set k v m) = Some v.
Proof.
  induction m as [|[k' v'] m IH]; simpl; unfold map_get; simpl; [by rewrite String.eqb_refl|].
  destruct (String.eqb_spec k k') as [->|Hne]; simpl; [by rewrite String.eqb_refl|].
  rewrite (proj2 (String.eqb_neq k' k)) by congruence. exact IH.
Qed.

Lemma map_get_set_ne k k' v m : k <> k' -> map_get k' (map_set k v m) = map_get k' m.
Proof.
  intros Hne. induction m as [|[k0 v0] m IH]; unfold map_get; simpl.
  - by rewrite (proj2 (String.eqb_neq k k')).
  - destruct (String.eqb_spec k k0) as [->|Hne0]; simpl.
    + by rewrite !(proj2 (String.eqb_neq k0 k')).
    + destruct (String.eqb k0 k'); [done|]. exact IH.
Qed.

Lemma same_levels_refl h : same_levels h h.
Proof. intros l n H. eauto. Qed.

Lemma attach_cases h lvl cl cid entries :
  attach h lvl cl cid entries = h \/
  exists pl p, h !! pl = Some p /\ n_level p = lvl - 1 /\
               attach h lvl cl cid entries = <[pl := push_child cl p]> h.
Proof.
  induction entries as [|[k pl] rest IH]; simpl; [by left|].
  destruct (h !! pl) as [p|] eqn:Hp; [|exact IH].
  destruct (Nat.eqb_spec (n_level p) (lvl - 1)); simpl; [|exact IH].
  destruct (has_child h p cid); simpl; [exact IH|]. right. eauto.
Qed.

Lemma push_levels h pl p cl :
  h !! pl = Some p -> same_levels h (<[pl := push_child cl p]> h).
Proof.
  intros Hp l n Hl. destruct (decide (l = pl)) as [->|Hne].
  - rewrite Hp in Hl. injection Hl as <-. exists (push_child cl p).
    split; [apply list_lookup_insert_eq; by eapply lookup_lt_Some|done].
  - exists n. by rewrite list_lookup_insert_ne.
Qed.

Lemma attach_levels h lvl cl cid entries : same_levels h (attach h lvl cl cid entries).
Proof.
  destruct (attach_cases h lvl cl cid entries) as [->|(pl & p & Hp & _ & ->)];
    [apply same_levels_refl | by apply push_levels].
Qed.

(** Pushing a node deeper than the parent keeps the edges going down. *)
Lemma attach_edges_up h lvl cl cid entries m :
  edges_up h -> h !! cl = Some m -> 1 < lvl -> lvl <= n_level m ->
  edges_up (attach h lvl cl cid entries).
Proof.
  intros He Hcl H1 Hm.
  destruct (attach_cases h lvl cl cid entries) as [->|(pl & p & Hp & Hlv & ->)]; [done|].
  pose proof (push_levels h pl p cl Hp) as Hs.
  intros l n c Hl Hc. destruct (decide (l = pl)) as [->|Hne].
  - rewrite list_lookup_insert_eq in Hl by (by eapply lookup_lt_Some). injection Hl as <-.
    cbn [children push_child n_level] in Hc |- *. apply elem_of_app in Hc as [Hc|Hc].
    + destruct (He pl p c Hp Hc) as (m0 & Hm0 & Hlt). destruct (Hs c m0 Hm0) as (m1 & -> & E).
      exists m1. split; [done|lia].
    + apply list_elem_of_singleton in Hc as ->. destruct (Hs cl m Hcl) as (m1 & -> & E).
      exists m1. split; [done|lia].
  - rewrite list_lookup_insert_ne in Hl by done.
    destruct (He l n c Hl Hc) as (m0 & Hm0 & Hlt). destruct (Hs c m0 Hm0) as (m1 & -> & E).
    exists m1. split; [done|lia].
Qed.

Lemma map_deep_levels st st' seen :
  nodeMap st' = nodeMap st -> same_levels (heap st) (heap st') -> map_deep st seen -> map_deep st' seen.
Proof.
  intros Hm Hs Hd r u Hr Hu. destruct (Hd r u Hr Hu) as (cl & m & Hg & Hcl & Hle).
  destruct (Hs cl m Hcl) as (m' & Hm' & E). exists cl, m'. rewrite Hm. split_and!; [done|done|lia].
Qed.

Lemma pass1_step st seen r :
  map_deep st seen -> (forall r0, r0 ∈ seen -> r_level r0 <= r_level r) ->
  map_deep (pass1 st r) (seen ++ [r]).
Proof.
  intros Hd Hle r0 u Hr0 Hu. unfold pass1.
  destruct (referred_user r) as [u'|] eqn:Hu'.
  - cbn [nodeMap heap id]. apply elem_of_app in Hr0 as [Hr0|Hr0].
    + destruct (String.eqb_spec (pr_id u') (pr_id u)) as [E|Hne].
      * rewrite <- E, map_get_set_eq. eexists _, _. split; [done|].
        split; [apply list_lookup_middle; done|]. cbn [n_level]. by apply Hle.
      * rewrite map_get_set_ne by done. destruct (Hd r0 u Hr0 Hu) as (cl & m & Hg & Hcl & Hl).
        exists cl, m. split; [done|]. split; [by apply lookup_app_l_Some|done].
    + apply list_elem_of_singleton in Hr0 as ->. rewrite Hu' in Hu. injection Hu as ->.
      rewrite map_get_set_eq. eexists _, _. split; [done|].
      split; [apply list_lookup_middle; done|]. cbn [n_level]. lia.
  - apply elem_of_app in Hr0 as [Hr0|Hr0]; [by apply Hd|].
    apply list_elem_of_singleton in Hr0 as ->. congruence.
Qed.

Lemma pass1_roots st r : roots_ok st -> roots_ok (pass1 st r).
Proof.
  intros Hr x Hx. unfold pass1 in *. destruct (referred_user r); [|by apply Hr].
  cbn [rootNodes heap] in *. destruct (Nat.eqb (r_level r) 1).
  - apply elem_of_app in Hx as [Hx|Hx].
    + destruct (Hr x Hx) as [n Hn]. exists n. by apply lookup_app_l_Some.
    + apply list_elem_of_singleton in Hx as ->. eexists. by apply list_lookup_middle.
  - destruct (Hr x Hx) as [n Hn]. exists n. by apply lookup_app_l_Some.
Qed.

Lemma pass1_edges st r : edges_up (heap st) -> edges_up (heap (pass1 st r)).
Proof.
  intros He l n c Hl Hc. unfold pass1 in *. destruct (referred_user r); [|by eapply He].
  cbn [heap] in *. apply lookup_app_Some in Hl as [Hl|[_ Hl]].
  - destruct (He l n c Hl Hc) as (m & Hm & Hlt). exists m. split; [by apply lookup_app_l_Some|done].
  - apply list_lookup_singleton_Some in Hl as [_ <-]. by apply elem_of_nil in Hc.
Qed.

Lemma pass1_fold rows st seen :
  map_deep st seen -> roots_ok st -> edges_up (heap st) ->
  StronglySorted level_le rows -> (forall r0 r, r0 ∈ seen -> r ∈ rows -> r_level r0 <= r_level r) ->
  let st' := foldl pass1 st rows in
  map_deep st' (seen ++ rows) /\ roots_ok st' /\ edges_up (heap st').
Proof.
  revert st seen. induction rows as [|r rows IH]; intros st seen Hd Hr He Hs Hle; simpl.
  - by rewrite app_nil_r.
  - apply StronglySorted_inv in Hs as [Hs Hf].
    replace (seen ++ r :: rows) with ((seen ++ [r]) ++ rows) by by rewrite <- app_assoc.
    apply IH; [apply pass1_step; [done|] | by apply pass1_roots | by apply pass1_edges | done |].
    + intros r0 Hr0. apply Hle; [done | by left].
    + intros r0 r1 Hr0 Hr1. apply elem_of_app in Hr0 as [Hr0|Hr0].
      * apply Hle; [done | by right].
      * apply list_elem_of_singleton in Hr0 as ->. rewrite Forall_forall in Hf. by apply Hf.
Qed.

Lemma pass2_step st rows r :
  map_deep st rows -> roots_ok st -> edges_up (heap st) -> r ∈ rows ->
  let st' := pass2 st r in
  map_deep st' rows /\ roots_ok st' /\ edges_up (heap st').
Proof.
  intros Hd Hr He Hin. unfold pass2.
  destruct (Nat.ltb_spec 1 (r_level r)) as [H1|]; [|done].
  destruct (referred_user r) as [u|] eqn:Hu; [|done].
  destruct (map_get _ _) as [cl|] eqn:Hg; [|done].
  destruct (heap st !! cl) as [child|] eqn:Hc; [|done].
  pose proof (attach_levels (heap st) (r_level r) cl (id child) (nodeMap st)) as Hs.
  split_and!.
  - by apply (map_deep_levels st).
  - intros x Hx. destruct (Hr x Hx) as [n Hn]. destruct (Hs x n Hn) as (n' & Hn' & _). by exists n'.
  - destruct (Hd r u Hin Hu) as (cl' & m & Hg' & Hcl & Hle). rewrite Hg in Hg'.
    injection Hg' as <-. rewrite Hc in Hcl. injection Hcl as ->.
    cbn [heap]. eapply attach_edges_up; eauto.
Qed.

Lemma pass2_fold rows rest st :
  map_deep st rows -> roots_ok st -> edges_up (heap st) -> (forall r, r ∈ rest -> r ∈ rows) ->
  let st' := foldl pass2 st rest in roots_ok st' /\ edges_up (heap st').
Proof.
  revert st. induction rest as [|r rest IH]; intros st Hd Hr He Hsub; simpl; [done|].
  destruct (pass2_step st rows r Hd Hr He (Hsub r ltac:(by left))) as (Hd' & Hr' & He').
  apply IH; [done|done|done|]. intros x Hx. apply Hsub. by right.
Qed.

(** The walk from a node never runs out of fuel when the fuel exceeds
    the levels still below it. *)
Lemma unfold_enough h M :
  edges_up h -> (forall l n, h !! l = Some n -> n_level n <= M) ->
  forall f l n, h !! l = Some n -> M < n_level n + f -> is_Some (unfold_node f h l).
Proof.
  intros He Hb f. induction f as [|f IH]; intros l n Hl Hf.
  - pose proof (Hb l n Hl). lia.
  - cbn [unfold_node]. rewrite Hl. apply fmap_is_Some, mapM_is_Some_2, Forall_forall.
    intros c Hc. destruct (He l n c Hl Hc) as (m & Hm & Hlt). apply (IH c m Hm). lia.
Qed.

Lemma heap_levels_bound h l n : h !! l = Some n -> n_level n <= list_max (map n_level h).
Proof.
  intros Hl. pose proof (proj1 (list_max_le (map n_level h) _) (le_n _)) as HF.
  rewrite Forall_forall in HF. apply HF, list_elem_of_In, in_map, list_elem_of_In.
  by eapply list_elem_of_lookup_2.
Qed.

Lemma insert_by_level_sorted r l :
  StronglySorted level_le l -> StronglySorted level_le (insert_by_level r l).
Proof.
  induction l as [|x l IH]; intros Hs; simpl; [repeat constructor|].
  apply StronglySorted_inv in Hs as [Hs Hf]. unfold level_le in *.
  destruct (Nat.leb_spec (r_level r) (r_level x)).
  - constructor; [by constructor|]. constructor; [lia|].
    eapply Forall_impl; [exact Hf|]. cbv beta. lia.
  - constructor; [by apply IH|]. apply Forall_forall. intros y Hy.
    assert (Hy' : y = r \/ y ∈ l).
    { clear -Hy. induction l as [|z l IH']; simpl in Hy.
      - apply list_elem_of_singleton in Hy. by left.
      - destruct (Nat.leb (r_level r) (r_level z)).
        + apply elem_of_cons in Hy as [->|Hy]; [by left|]. right. done.
        + apply elem_of_cons in Hy as [->|Hy]; [right; by left|].
          destruct (IH' Hy) as [->|Hy']; [by left|]. right. by right. }
    destruct Hy' as [->|Hy']; [lia|]. rewrite Forall_forall in Hf. by apply Hf.
Qed.

Lemma tree_rows_sorted db uid : StronglySorted level_le (tree_rows db uid).
Proof.
  unfold tree_rows. induction (List.filter _ _) as [|e l IH]; simpl; [constructor|].
  by apply insert_by_level_sorted.
Qed.

(** ** Theorems *)

(** C37: the recursion of the screen over the shared node objects
    terminates: for any table contents, every [children] edge built by
    [buildTreeStructure] leads one level deeper or more, so the walk of
    [renderTreeNode] and [countChildren] from the roots never runs out of
    its fuel (the deepest level plus one). *)
Theorem tree_walk_terminates db uid :
  let st := buildTreeStructure (tree_rows db uid) in
  edges_up (heap st) /\ is_Some (forest (tree_fuel st) st).
Proof.
  cbv zeta. unfold buildTreeStructure.
  destruct (pass1_fold (tree_rows db uid) build_init []) as (Hd & Hr & He);
    [by intros ? ? ?%elem_of_nil | by intros ? ?%elem_of_nil | by intros ? ? ? [=] |
     apply tree_rows_sorted | by intros ? ? ?%elem_of_nil |].
  destruct (pass2_fold (tree_rows db uid) (tree_rows db uid) _ Hd Hr He (fun r H => H))
    as [Hr' He']. split; [done|].
  apply mapM_is_Some_2, Forall_forall. intros x Hx. destruct (Hr' x Hx) as [n Hn].
  eapply (unfold_enough _ _ He' (fun l m Hl => heap_levels_bound _ l m Hl)); [exact Hn|]. unfold tree_fuel. lia.
Qed.

(** toggling a node twice gives back the set of expanded nodes. *)
Theorem toggleNode_twice nodeId st :
  expandedNodes (toggleNode nodeId (toggleNode nodeId st)) = expandedNodes st /\
  treeData (toggleNode nodeId (toggleNode nodeId st)) = treeData st.
Proof.
  split; [|done]. unfold toggleNode; cbn [expandedNodes].
  destruct (bool_decide_reflect (nodeId ∈ expandedNodes st)) as [H|H].
  - rewrite bool_decide_false by set_solver. apply set_eq. intros x.
    rewrite elem_of_union, elem_of_difference, elem_of_singleton.
    destruct (decide (x = nodeId)) as [->|]; naive_solver.
  - rewrite bool_decide_true by set_solver. apply set_eq. intros x.
    rewrite elem_of_difference, elem_of_union, elem_of_singleton.
    destruct (decide (x = nodeId)) as [->|]; naive_solver.
Qed.

(** ** A downline with two branches *)

Definition member (i name : string) : Profile :=
  {| prof_id := i; phone_number := "98" +:+ i; full_name := name; aadhar_number := "";
     pan_number := ""; referral_code := "REF" +:+ i; referred_by := None; prof_status := "active";
     kyc_verified := false; is_admin := false |}.

(** [U] referred [B] and [D]; [B] referred [C] and [D] referred [E].  The
    trigger of the backend stores every ancestor of a member. *)
Definition two_branch_db : DB :=
  {| gold_rates := []; plans := []; user_subscriptions := ∅; payments := []; gold_holdings := [];
     wallets := ∅;
     profiles := {[ "B" := member "B" "Bala"; "C" := member "C" "Chitra";
                    "D" := member "D" "Divya"; "E" := member "E" "Esha" ]};
     referral_tree := [mkEdge "U" "B" 1; mkEdge "U" "D" 1; mkEdge "B" "C" 1; mkEdge "U" "C" 2;
                       mkEdge "D" "E" 1; mkEdge "U" "E" 2];
     referral_commissions := []; referral_levels_config := []; next_id := 1 |}.


End Tree.
