(* ===== verification/Referrals.v ===== *)
(** * The referrals tab ([src/app/(tabs)/referrals.tsx])

    On mount the tab runs three loads side by side.  It reads the level
    configuration, and for each level from 1 to 10 it counts the caller's
    referrals and sums the caller's commissions at that level.  It also
    reads the ten latest commissions with the payer's name.  It shows the
    referral code, the totals, one row per level and the recent
    commissions.  A failed query is only logged, and its level counts as
    zero.

    The three loads write disjoint parts of the state, so their
    interleaving does not matter; the model runs them in sequence.  A
    [failN] oracle says which level queries fail. *)

From S2P Require Import Prelude Format View Wallet Store.
From Stdlib Require Import Sorting.Sorted.
Import View Store.

Module Referrals.

Record ReferralData := mkRD { rd_level : nat; rd_count : nat; rd_commission : Q }.

(** A row of the recent-commissions query; [from_user] is [null] when
    the payer's profile is not found. *)
Record CommissionView := mkCV {
  cv_id : nat;
  cv_level : nat;
  cv_amount : Q;
  cv_percentage : Q;
  cv_created_at : string;
  from_user : option string
}.

Record RefScreen := mkRefScreen {
  referralsByLevel : list ReferralData;
  recentCommissions : list CommissionView;
  levelConfig : list LevelConfig;
  totalCommission : Q;
  r_loading : bool;
  totalReferrals : nat
}.

Definition ref_init : RefScreen := mkRefScreen [] [] [] 0 true 0.

(** [referral_levels_config] ordered by level. *)
Fixpoint insert_config (c : LevelConfig) (l : list LevelConfig) : list LevelConfig :=
  match l with
  | [] => [c]
  | x :: l' => if Nat.leb (lc_level c) (lc_level x) then c :: l else x :: insert_config c l'
  end.

(** [loadLevelConfig]: an error leaves the configuration as it was. *)
Definition loadLevelConfig (fail : bool) (db : DB) (st : RefScreen) : RefScreen :=
  if fail then st else
  mkRefScreen (referralsByLevel st) (recentCommissions st)
    (foldr insert_config [] (referral_levels_config db)) (totalCommission st) (r_loading st)
    (totalReferrals st).

(** One turn of the [for] loop: the count of [referred_user_id] rows and
    the sum of the [amount]s at [level]; a failed query gives [null]. *)
Definition level_count (failN : nat -> bool) (db : DB) (uid : string) (lvl : nat) : nat :=
  if failN (2 * lvl)%nat then 0%nat
  else length (List.filter (fun e => String.eqb (anc e) uid && Nat.eqb (level e) lvl) (referral_tree db)).

Definition level_commission (failN : nat -> bool) (db : DB) (uid : string) (lvl : nat) : Q :=
  if failN (S (2 * lvl)) then 0
  else fold_sumQ c_amount
         (List.filter (fun c => String.eqb (c_user c) uid && Nat.eqb (c_level c) lvl)
                      (referral_commissions db)).

Definition loop_step (failN : nat -> bool) (db : DB) (uid : string)
    (acc : list ReferralData * Q * nat) (lvl : nat) : list ReferralData * Q * nat :=
  let '(levelData, total, totalCount) := acc in
  let count := level_count failN db uid lvl in
  let c := level_commission failN db uid lvl in
  (levelData ++ [mkRD lvl count c], total + c, (totalCount + count)%nat).

(** [loadReferralData]: [failN (2 * level)] and [failN (2 * level + 1)]
    are the two queries of a level. *)
Definition loadReferralData (failN : nat -> bool) (db : DB) (uid : string) (st : RefScreen)
  : RefScreen :=
  if String.eqb uid "" then st else
  let '(levelData, total, totalCount) := foldl (loop_step failN db uid) ([], 0, 0%nat) (seq 1 10) in
  mkRefScreen levelData (recentCommissions st) (levelConfig st) total (r_loading st) totalCount.

Definition commission_view (db : DB) (i : nat) (c : CommissionRow) : CommissionView :=
  mkCV i (c_level c) (c_amount c) (c_percentage c) (c_created_at c)
       (full_name <$> profiles db !! c_from c).

(** [loadRecentCommissions]: the caller's commissions, latest first,
    at most ten. *)
Definition loadRecentCommissions (fail : bool) (db : DB) (uid : string) (st : RefScreen) : RefScreen :=
  if String.eqb uid "" || fail then st else
  let mine := List.filter (fun c => String.eqb (c_user c) uid) (referral_commissions db) in
  mkRefScreen (referralsByLevel st)
    (take 10 (rev (imap (commission_view db) mine)))
    (levelConfig st) (totalCommission st) (r_loading st) (totalReferrals st).

(** [loadData]. *)
Definition loadData (failC failR : bool) (failN : nat -> bool) (db : DB) (uid : string)
    (st : RefScreen) : RefScreen :=
  if String.eqb uid "" then st else
  let st := loadRecentCommissions failR db uid (loadReferralData failN db uid (loadLevelConfig failC db st)) in
  mkRefScreen (referralsByLevel st) (recentCommissions st) (levelConfig st) (totalCommission st)
              false (totalReferrals st).

(** ** The rendering *)

Inductive RefAction := RShare | RTree.

(** [Share.share] with the message, when there is a referral code. *)
Definition shareReferralCode (code : string) : list Effect :=
  if String.eqb code "" then [] else
  [Share ("Join A S JEWELLERS and start saving for your future! Use my referral code: " +:+ code)].

Definition ref_press (a : RefAction) (code : string) : list Effect :=
  match a with RShare => shareReferralCode code | RTree => [Push "/tree"] end.

Definition level_row (config : list LevelConfig) (d : ReferralData) : Node RefAction :=
  let pct := lc_percentage <$> List.find (fun c => Nat.eqb (lc_level c) (rd_level d)) config in
  Box [Box [Box [Text [PS "L"; num (rd_level d)]];
            Box [Text [PS "Level "; num (rd_level d)];
                 Text [num (rd_count d); PS " referral"; PS (if Nat.eqb (rd_count d) 1 then "" else "s");
                       PS " • "; PN (js_or pct 0) Plain; PS "%"]]];
       Text [PS "₹"; PN (rd_commission d) (Fixed 2)]].

(** A recent commission; [commission.from_user.full_name] throws on a
    [null] payer, and the render fails ([None]). *)
Definition commission_row (c : CommissionView) : option (Node RefAction) :=
  match from_user c with
  | None => None
  | Some name =>
      Some (Box [Box [T name; Text [PS "Level "; num (cv_level c); PS " • "; PD (cv_created_at c) DateINLong]];
                 Text [PS "+₹"; PN (cv_amount c) (Fixed 2)]])
  end.

Definition referrals_view (code : string) (st : RefScreen) : option (Node RefAction) :=
  if r_loading st then Some (Box [Box [T "Referrals"]; Box [T "Loading..."]]) else
  match (match recentCommissions st with
         | [] => Some [Box [T "No commissions yet"; T "Share your referral code to start earning"]]
         | cs => mapM commission_row cs
         end) with
  | None => None
  | Some recent =>
  Some (Box [Box [T "Referrals"];
             Box [Box [Box [T "Your Referral Code"; Button RShare false []];
                       T code;
                       Button RShare false [T "Share Code"]];
                  Box [Box [Text [num (totalReferrals st)]; T "Total Referrals"];
                       Box [Text [PS "₹"; PN (totalCommission st) (Fixed 2)]; T "Total Earned"]];
                  Box [Box [T "View Downline Tree"]; Button RTree false [T "Open Tree View"]];
                  Box ([T "Referral Levels"; T "Commission breakdown by level"] ++
                       map (level_row (levelConfig st)) (referralsByLevel st) ++
                       [Box [T "Total Commission"; Text [PS "₹"; PN (totalCommission st) (Fixed 2)]]]);
                  Box (T "Recent Commissions" :: recent);
                  Box []]])
  end.

(** ** Lemmas *)

Section Split.
Context {A : Type} (f g h : A -> bool).
Hypothesis Hsplit : forall x, h x = f x || g x.
Hypothesis Hdisj : forall x, f x && g x = false.

Lemma length_filter_split l :
  length (List.filter h l) = (length (List.filter f l) + length (List.filter g l))%nat.
Proof.
  induction l as [|x l IH]; simpl; [done|]. rewrite Hsplit. specialize (Hdisj x).
  destruct (f x), (g x); simpl in *; try discriminate; lia.
Qed.

Lemma sumQ_filter_split (w : A -> Q) l :
  sumQ w (List.filter h l) == sumQ w (List.filter f l) + sumQ w (List.filter g l).
Proof.
  induction l as [|x l IH]; simpl; [lra|]. rewrite Hsplit. specialize (Hdisj x).
  destruct (f x), (g x); simpl in *; try discriminate; rewrite IH; lra.
Qed.

End Split.

(** The levels [a .. a + n - 1]. *)
Definition in_range (a n k : nat) : bool := Nat.leb a k && Nat.ltb k (a + n).

Lemma in_range_S (a n k : nat) : in_range a (S n) k = Nat.eqb k a || in_range (S a) n k.
Proof.
  unfold in_range. destruct (Nat.leb_spec a k), (Nat.ltb_spec k (a + S n)), (Nat.eqb_spec k a),
    (Nat.leb_spec (S a) k), (Nat.ltb_spec k (S a + n)); simpl; lia.
Qed.

Lemma in_range_disj (a n k : nat) : Nat.eqb k a && in_range (S a) n k = false.
Proof. unfold in_range. destruct (Nat.eqb_spec k a), (Nat.leb_spec (S a) k); simpl; lia. Qed.

Lemma loop_fold (failN : nat -> bool) db uid n a ld t c :
  foldl (loop_step failN db uid) (ld, t, c) (seq a n) =
    (ld ++ map (fun l => mkRD l (level_count failN db uid l) (level_commission failN db uid l)) (seq a n),
     fold_left (fun acc l => acc + level_commission failN db uid l) (seq a n) t,
     (c + list_sum (map (level_count failN db uid) (seq a n)))%nat).
Proof.
  revert a ld t c. induction n as [|n IH]; intros a ld t c; simpl.
  - rewrite app_nil_r. f_equal. lia.
  - rewrite IH, <- app_assoc. simpl. f_equal. lia.
Qed.

(** The per-level counts add up to the count over the range of levels,
    leaving out the levels whose query failed. *)
Lemma sum_level_counts (failN : nat -> bool) db uid n a :
  list_sum (map (level_count failN db uid) (seq a n)) =
  length (List.filter (fun e => String.eqb (anc e) uid && in_range a n (level e) &&
                                negb (failN (2 * level e)%nat)) (referral_tree db)).
Proof.
  revert a. induction n as [|n IH]; intros a; cbn [seq map].
  - rewrite filter_none; [done|]. intros e _. unfold in_range.
    destruct (Nat.leb_spec a (level e)), (Nat.ltb_spec (level e) (a + 0)); simpl; try lia;
      by rewrite ?andb_false_r.
  - change (list_sum (level_count failN db uid a :: map (level_count failN db uid) (seq (S a) n)))
      with (level_count failN db uid a + list_sum (map (level_count failN db uid) (seq (S a) n)))%nat.
    rewrite IH.
    rewrite (length_filter_split
               (fun e => String.eqb (anc e) uid && Nat.eqb (level e) a && negb (failN (2 * level e)%nat))
               (fun e => String.eqb (anc e) uid && in_range (S a) n (level e) && negb (failN (2 * level e)%nat))
               (fun e => String.eqb (anc e) uid && in_range a (S n) (level e) && negb (failN (2 * level e)%nat))).
    + f_equal. unfold level_count. destruct (failN (2 * a)%nat) eqn:Hf.
      * symmetry. rewrite filter_none; [done|]. intros e _.
        destruct (Nat.eqb_spec (level e) a) as [->|]; [rewrite Hf|]; by rewrite ?andb_false_r.
      * f_equal. apply filter_ext. intros e. destruct (Nat.eqb_spec (level e) a) as [->|];
          [rewrite Hf|]; by rewrite ?andb_true_r, ?andb_false_r.
    + intros e. rewrite in_range_S. by destruct (String.eqb _ _), (Nat.eqb _ _), (in_range _ _ _), (failN _).
    + intros e. pose proof (in_range_disj a n (level e)).
      destruct (String.eqb _ _), (Nat.eqb _ _), (in_range _ _ _), (failN _); simpl in *; congruence.
Qed.

Lemma sum_level_commissions (failN : nat -> bool) db uid n a t :
  fold_left (fun acc l => acc + level_commission failN db uid l) (seq a n) t ==
  t + sumQ c_amount (List.filter (fun c => String.eqb (c_user c) uid && in_range a n (c_level c) &&
                                           negb (failN (S (2 * c_level c))))
                                 (referral_commissions db)).
Proof.
  revert a t. induction n as [|n IH]; intros a t; cbn [seq fold_left].
  - rewrite filter_none; [simpl; lra|]. intros c _. unfold in_range.
    destruct (Nat.leb_spec a (c_level c)), (Nat.ltb_spec (c_level c) (a + 0)); simpl; try lia;
      by rewrite ?andb_false_r.
  - rewrite IH.
    rewrite (sumQ_filter_split
               (fun c => String.eqb (c_user c) uid && Nat.eqb (c_level c) a && negb (failN (S (2 * c_level c))))
               (fun c => String.eqb (c_user c) uid && in_range (S a) n (c_level c) &&
                         negb (failN (S (2 * c_level c))))
               (fun c => String.eqb (c_user c) uid && in_range a (S n) (c_level c) &&
                         negb (failN (S (2 * c_level c))))).
    + enough (E : level_commission failN db uid a ==
                  sumQ c_amount (List.filter (fun c => String.eqb (c_user c) uid && Nat.eqb (c_level c) a &&
                                                       negb (failN (S (2 * c_level c))))
                                             (referral_commissions db))) by lra.
      unfold level_commission. destruct (failN (S (2 * a))) eqn:Hf.
      * rewrite filter_none; [simpl; lra|]. intros c _.
        destruct (Nat.eqb_spec (c_level c) a) as [->|]; [rewrite Hf|]; by rewrite ?andb_false_r.
      * rewrite fold_sumQ_sumQ. match goal with |- ?x == ?y => enough (x = y) as -> by reflexivity end.
        f_equal. apply filter_ext. intros c.
        destruct (Nat.eqb_spec (c_level c) a) as [->|]; [rewrite Hf|]; by rewrite ?andb_true_r, ?andb_false_r.
    + intros c. rewrite in_range_S. by destruct (String.eqb _ _), (Nat.eqb _ _), (in_range _ _ _), (failN _).
    + intros c. pose proof (in_range_disj a n (c_level c)).
      destruct (String.eqb _ _), (Nat.eqb _ _), (in_range _ _ _), (failN _); simpl in *; congruence.
Qed.

Lemma commission_row_Some c : is_Some (commission_row c) <-> is_Some (from_user c).
Proof. unfold commission_row. destruct (from_user c); split; intros [? ?]; eauto; discriminate. Qed.

Lemma payers_cases (l : list CommissionView) :
  (forall c, c ∈ l -> is_Some (from_user c)) \/ exists c, c ∈ l /\ from_user c = None.
Proof.
  induction l as [|c l [IH|(c' & Hc' & Hn)]].
  - left. intros c Hc. by apply elem_of_nil in Hc.
  - destruct (from_user c) eqn:Hf.
    + left. intros c' Hc'. apply elem_of_cons in Hc' as [->|Hc']; [rewrite Hf; eauto|auto].
    + right. exists c. split; [left|done].
  - right. exists c'. split; [by right|done].
Qed.

(** ** Theorems *)

(** C38: the referrals tab shows one row per level 1 to 10, and its totals
    are the caller's referrals and commissions at levels 1 to 10 whose
    query succeeded: deeper levels are never counted, and a failed query
    silently counts as zero. *)
Theorem referral_totals failN db uid st :
  uid <> "" ->
  let st' := loadReferralData failN db uid st in
  map rd_level (referralsByLevel st') = seq 1 10 /\
  totalReferrals st' =
    length (List.filter (fun e => String.eqb (anc e) uid && in_range 1 10 (level e) &&
                                  negb (failN (2 * level e)%nat)) (referral_tree db)) /\
  totalCommission st' ==
    sumQ c_amount (List.filter (fun c => String.eqb (c_user c) uid && in_range 1 10 (c_level c) &&
                                         negb (failN (S (2 * c_level c)))) (referral_commissions db)).
Proof.
  intros Hu. unfold loadReferralData. rewrite (proj2 (String.eqb_neq _ _) Hu), loop_fold.
  cbn [referralsByLevel totalReferrals totalCommission]. split_and!.
  - by rewrite app_nil_l, map_map, map_id.
  - by rewrite sum_level_counts.
  - rewrite sum_level_commissions. lra.
Qed.

(** once loaded, the tab renders unless a recent commission has no
    payer profile: [commission.from_user.full_name] then throws and the
    whole tab fails to render. *)
Theorem recent_commission_render code st :
  r_loading st = false ->
  (referrals_view code st = None <-> exists c, c ∈ recentCommissions st /\ from_user c = None).
Proof.
  intros Hl. unfold referrals_view. rewrite Hl.
  destruct (recentCommissions st) as [|c0 cs] eqn:E.
  - split; [discriminate|]. intros (c & Hc & _). by apply elem_of_nil in Hc.
  - destruct (mapM commission_row (c0 :: cs)) as [rs|] eqn:Hm.
    + split; [discriminate|]. intros (c & Hc & Hn).
      assert (Hs : is_Some (mapM commission_row (c0 :: cs))) by (rewrite Hm; eauto).
      apply mapM_is_Some_1 in Hs. rewrite Forall_forall in Hs.
      specialize (Hs c Hc). apply commission_row_Some in Hs. rewrite Hn in Hs. by destruct Hs.
    + split; [intros _|done]. apply eq_None_not_Some in Hm.
      rewrite mapM_is_Some, Forall_forall in Hm.
      destruct (payers_cases (c0 :: cs)) as [Hall|?]; [|done].
      exfalso. apply Hm. intros c Hc. cbn. by apply commission_row_Some, Hall.
Qed.

(** ** Witnesses *)

Definition payer (i : string) : Profile :=
  {| prof_id := i; phone_number := "9000000000"; full_name := "Payer " +:+ i; aadhar_number := "";
     pan_number := ""; referral_code := "REF" +:+ i; referred_by := None; prof_status := "active";
     kyc_verified := false; is_admin := false |}.

Definition ref_db : DB :=
  {| gold_rates := []; plans := []; user_subscriptions := ∅; payments := []; gold_holdings := [];
     wallets := ∅; profiles := {[ "B" := payer "B" ]};
     referral_tree := [mkEdge "U" "B" 1; mkEdge "U" "C" 2; mkEdge "U" "F" 11];
     referral_commissions := [mkCommission "U" "B" 1 50 5 "2025-01-02" 1;
                              mkCommission "U" "C" 2 20 2 "2025-01-03" 2;
                              mkCommission "U" "F" 11 7 1 "2025-01-04" 3];
     referral_levels_config := [mkLevel 1 5; mkLevel 2 2]; next_id := 1 |}.

(** Only the level-2 referral count fails. *)
Definition fail_level2_count (q : nat) : bool := Nat.eqb q 4.

Lemma referral_totals_witness :
  let st' := loadReferralData fail_level2_count ref_db "U" ref_init in
  map rd_level (referralsByLevel st') = seq 1 10 /\ totalReferrals st' = 1%nat /\
  totalCommission st' == 70.
Proof.
  destruct (referral_totals fail_level2_count ref_db "U" ref_init ltac:(discriminate))
    as (H1 & H2 & H3).
  split; [exact H1|]. split; [rewrite H2; reflexivity|]. rewrite H3. vm_compute. reflexivity.
Defined.

Lemma recent_commission_render_witness :
  referrals_view "REFU" (loadData false false (fun _ => false) ref_db "U" ref_init) = None.
Proof.
  apply (proj2 (recent_commission_render "REFU"
                 (loadData false false (fun _ => false) ref_db "U" ref_init) eq_refl)).
  exists (commission_view ref_db 2 (mkCommission "U" "F" 11 7 1 "2025-01-04" 3)).
  split; [vm_compute; left|reflexivity].
Defined.

End Referrals.
