(* ===== verification/Admin.v ===== *)
(** * The admin area ([src/app/admin/])

    [_layout.tsx] lets a signed-in user whose profile has [is_admin] into
    the admin stack; everyone else is sent away.  [index.tsx] shows four
    counters read from [profiles], [transactions], [withdrawal_requests]
    and a [subscriptions] table.  [users.tsx] lists the profiles with the
    e-mails of the auth service, filters them, and toggles [is_admin].
    [withdrawals.tsx] lists the withdrawal requests and approves or
    rejects the pending ones.  [transactions.tsx] lists the latest
    transactions.

    [AdminDB] holds the tables these screens read.  Tables are lists in
    insertion order, which is the order of their [created_at] and
    [requested_at] columns.  The [subscriptions] table is modelled as
    the screens see it: [None] when the request for it fails.
    [supabase.auth.admin.listUsers] needs the service key, which the app
    does not hold; [auth_emails] is [None] when that call is refused.
    Updates carry a fault flag for a failed request. *)

From S2P Require Import Prelude Format View Wallet Store.
Import Format View Store.

Module Admin.

Record AdminTx := mkAdminTx {
  t_id : nat;
  t_user : option string;
  t_type : string;
  t_amount : Q;
  t_description : string;
  t_created_at : string
}.

Record Withdrawal := mkWithdrawal {
  w_id : string;
  w_user : string;
  w_amount : Q;
  w_status : string;
  payment_method : string;
  upi_id : option string;
  account_holder : option string;
  account_number : option string;
  ifsc_code : option string;
  bank_name : option string;
  requested_at : string;
  processed_at : option string
}.

Record AdminDB := mkAdminDB {
  ad_profiles : list Profile;
  auth_emails : option (list (string * string));
  ad_transactions : list AdminTx;
  withdrawal_requests : list Withdrawal;
  subscriptions_table : option (list string);       (** the [status] column *)
  ad_user_subscriptions : list SubStatus;
  ad_wallets : gmap string Wallet
}.

(** ** [_layout.tsx]: the guard *)

Inductive Guard := GuardLoading | GuardDenied | GuardAdmin.

(** [checkAdminAccess]: where the layout sends the user, and what it
    renders afterwards. *)
Definition checkAdminAccess (user : option string) (db : AdminDB) : Guard * list Effect :=
  match user with
  | None => (GuardDenied, [Replace "/auth/login"])
  | Some uid =>
      match List.find (fun p => String.eqb (prof_id p) uid) (ad_profiles db) with
      | Some p => if is_admin p then (GuardAdmin, []) else (GuardDenied, [Replace "/"])
      | None => (GuardDenied, [Replace "/"])
      end
  end.

(** ** [index.tsx]: the dashboard *)

Record Stats := mkStats {
  totalUsers : nat;
  totalInvested : Q;
  pendingWithdrawals : nat;
  activeSubscriptions : nat
}.

Definition stats_init : Stats := mkStats 0 0 0 0.

(** [loadStats]: the four queries; a failed count is [null], and
    [|| 0] makes it 0. *)
Definition loadStats (db : AdminDB) : Stats :=
  mkStats (length (ad_profiles db))
    (fold_sumQ t_amount (List.filter (fun t => String.eqb (t_type t) "investment") (ad_transactions db)))
    (length (List.filter (fun w => String.eqb (w_status w) "pending") (withdrawal_requests db)))
    (match subscriptions_table db with
     | Some l => length (List.filter (fun s => String.eqb s "active") l)
     | None => 0%nat
     end).

Inductive DashAction := DLogout | DUsers | DTransactions | DWithdrawals.

Definition dashboard_view (st : Stats) : Node DashAction :=
  Box [Box [T "Admin Dashboard"; Button DLogout false []];
       Box [Box [Box [Text [num (totalUsers st)]; T "Total Users"];
                 Box [Text [PS "₹"; PN (totalInvested st) Locale]; T "Total Invested"];
                 Box [Text [num (pendingWithdrawals st)]; T "Pending Withdrawals"];
                 Box [Text [num (activeSubscriptions st)]; T "Active Plans"]];
            Box [Button DUsers false [T "Manage Users"];
                 Button DTransactions false [T "Transactions"];
                 Button DWithdrawals false [T "Withdrawal Requests"]]]].

Definition dashboard_press (a : DashAction) : list Effect :=
  match a with
  | DLogout => [Replace "/auth/login"]
  | DUsers => [Push "/admin/users"]
  | DTransactions => [Push "/admin/transactions"]
  | DWithdrawals => [Push "/admin/withdrawals"]
  end.

(** ** [users.tsx] *)

(** The row the screen builds: it has [phone_number] but no [phone]. *)
Record UserProfile := mkUser {
  u_id : string;
  u_full_name : string;
  email : string;
  u_phone : option string;
  u_phone_number : string;
  u_is_admin : bool
}.

Definition user_of (emails : option (list (string * string))) (p : Profile) : UserProfile :=
  let e := match emails with
           | Some l => snd <$> List.find (fun x => String.eqb (fst x) (prof_id p)) l
           | None => None
           end in
  mkUser (prof_id p) (full_name p) (match e with Some s => if String.eqb s "" then "N/A" else s
                                               | None => "N/A" end)
         None (phone_number p) (is_admin p).

(** [loadUsers]: profiles, newest first, with the e-mail of the auth user. *)
Definition loadUsers (db : AdminDB) : list UserProfile :=
  map (user_of (auth_emails db)) (rev (ad_profiles db)).

(** The search effect: [full_name] or [email] contains the query, both
    lower-cased; an empty query keeps every user. *)
Definition filterUsers (q : string) (users : list UserProfile) : list UserProfile :=
  if String.eqb q "" then users else
  List.filter (fun u => includes (toLowerCase (u_full_name u)) (toLowerCase q) ||
                        includes (toLowerCase (email u)) (toLowerCase q)) users.

Record UsersScreen := mkUsersScreen { users : list UserProfile; searchQuery : string; u_loading : bool }.

Definition users_init : UsersScreen := mkUsersScreen [] "" true.

Definition set_profile_admin (userId : string) (b : bool) (p : Profile) : Profile :=
  if String.eqb (prof_id p) userId then
    {| prof_id := prof_id p; phone_number := phone_number p; full_name := full_name p;
       aadhar_number := aadhar_number p; pan_number := pan_number p; referral_code := referral_code p;
       referred_by := referred_by p; prof_status := prof_status p; kyc_verified := kyc_verified p;
       is_admin := b |}
  else p.

Definition set_ad_profiles (l : list Profile) (db : AdminDB) : AdminDB :=
  mkAdminDB l (auth_emails db) (ad_transactions db) (withdrawal_requests db)
            (subscriptions_table db) (ad_user_subscriptions db) (ad_wallets db).

(** [toggleAdminRole(userId, currentIsAdmin)]: [fail] is an error of the update. *)
Definition toggleAdminRole (fail : bool) (userId : string) (currentIsAdmin : bool) (db : AdminDB)
    (st : UsersScreen) : AdminDB * UsersScreen * list Effect :=
  let newIsAdmin := negb currentIsAdmin in
  if fail then (db, st, [Alert "Error" "Failed to update user role"]) else
  let db' := set_ad_profiles (map (set_profile_admin userId newIsAdmin) (ad_profiles db)) db in
  (db', mkUsersScreen (loadUsers db') (searchQuery st) false,
   [Alert "Success" ("User " +:+ (if newIsAdmin then "promoted to" else "removed from") +:+ " admin")]).

Inductive UsersAction := UBack | UToggle (userId : string) (currentIsAdmin : bool).

(** [renderUser]: [item.phone || 'No Phone']. *)
Definition renderUser (u : UserProfile) : Node UsersAction :=
  Box [Box [Box [];
            Box [T (if String.eqb (u_full_name u) "" then "No Name" else u_full_name u);
                 T (email u);
                 T (match u_phone u with Some s => if String.eqb s "" then "No Phone" else s
                                       | None => "No Phone" end);
                 Text [PS "Role: "; PS (if u_is_admin u then "Admin" else "User")]]];
       Button (UToggle (u_id u) (u_is_admin u)) false
         [T (if u_is_admin u then "Remove Admin" else "Make Admin")]].

Definition users_view (st : UsersScreen) : Node UsersAction :=
  Box [Box [Button UBack false []; T "User Management"];
       Box [Box []; Input "searchQuery" (searchQuery st) false];
       Box (map renderUser (filterUsers (searchQuery st) (users st)))].

(** ** [withdrawals.tsx] *)

Record WithdrawalsScreen := mkWScreen { withdrawals : list Withdrawal; w_loading : bool }.

(** [loadWithdrawals]: newest request first. *)
Definition loadWithdrawals (db : AdminDB) : list Withdrawal := rev (withdrawal_requests db).

Definition set_status (withdrawalId newStatus now : string) (w : Withdrawal) : Withdrawal :=
  if String.eqb (w_id w) withdrawalId then
    mkWithdrawal (w_id w) (w_user w) (w_amount w) newStatus (payment_method w) (upi_id w)
                 (account_holder w) (account_number w) (ifsc_code w) (bank_name w) (requested_at w)
                 (Some now)
  else w.

Definition set_withdrawals (l : list Withdrawal) (db : AdminDB) : AdminDB :=
  mkAdminDB (ad_profiles db) (auth_emails db) (ad_transactions db) l
            (subscriptions_table db) (ad_user_subscriptions db) (ad_wallets db).

(** [updateWithdrawalStatus(withdrawalId, newStatus)]: the update
    filters on the id only. *)
Definition updateWithdrawalStatus (fail : bool) (now withdrawalId newStatus : string) (db : AdminDB)
  : AdminDB * WithdrawalsScreen * list Effect :=
  if fail then (db, mkWScreen (loadWithdrawals db) false, [Alert "Error" "Failed to update withdrawal status"])
  else
    let db' := set_withdrawals (map (set_status withdrawalId newStatus now) (withdrawal_requests db)) db in
    (db', mkWScreen (loadWithdrawals db') false, [Alert "Success" ("Withdrawal " +:+ newStatus)]).

Inductive WAction := WBack | WApprove (id : string) | WReject (id : string).

(** [item.profiles?.full_name || 'Unknown User'] and the phone number. *)
Definition renderWithdrawal (profiles : list Profile) (w : Withdrawal) : Node WAction :=
  let d := fun o => default "" o in
  let p := List.find (fun p => String.eqb (prof_id p) (w_user w)) profiles in
  Box ([Box [Box [T (match p with Some p => if String.eqb (full_name p) "" then "Unknown User" else full_name p
                                | None => "Unknown User" end);
                  T (default "" (phone_number <$> p))];
             Box [T (w_status w)]]] ++
       [Box ([Box [T "Amount:"; Text [PS "₹"; PN (w_amount w) Locale]];
              Box [T "Payment Method:"; T (toUpperCase (payment_method w))]] ++
             (if String.eqb (payment_method w) "upi" && negb (String.eqb (d (upi_id w)) "")
              then [Box [T "UPI ID:"; T (d (upi_id w))]] else []) ++
             (if String.eqb (payment_method w) "account"
              then [Box [T "Bank:"; T (d (bank_name w))]; Box [T "Account:"; T (d (account_number w))];
                    Box [T "IFSC:"; T (d (ifsc_code w))]; Box [T "Holder:"; T (d (account_holder w))]]
              else []) ++
             [Box [T "Date:"; Text [PD (requested_at w) DateDefault]]])] ++
       when (String.eqb (w_status w) "pending")
         (Box [Button (WApprove (w_id w)) false [T "Approve"];
               Button (WReject (w_id w)) false [T "Reject"]])).

Definition withdrawals_view (profiles : list Profile) (st : WithdrawalsScreen) : Node WAction :=
  Box [Box [Button WBack false []; T "Withdrawal Requests"];
       Box (map (renderWithdrawal profiles) (withdrawals st))].

(** ** [transactions.tsx] *)

(** [loadTransactions]: the latest hundred.  The joined
    [profile.phone] is not modelled: the schema's [profiles] columns are
    not in the repository. *)
Definition loadTransactions (db : AdminDB) : list AdminTx := take 100 (rev (ad_transactions db)).

Definition renderTransaction (profiles : list Profile) (t : AdminTx) : Node unit :=
  let p := match t_user t with
           | Some u => List.find (fun p => String.eqb (prof_id p) u) profiles
           | None => None
           end in
  Box [Box [];
       Box [T (match p with Some p => if String.eqb (full_name p) "" then "Unknown User" else full_name p
                          | None => "Unknown User" end);
            T (t_description t); Text [PD (t_created_at t) DateDefault]];
       Box [Text [PS "₹"; PN (t_amount t) Locale]; T (t_type t)]].

Definition transactions_view (db : AdminDB) (txs : list AdminTx) : Node unit :=
  Box [Box [Button tt false []; T "Transactions"];
       Box (map (renderTransaction (ad_profiles db)) txs)].

(** ** Lemmas *)

Lemma loadUsers_phone db u : u ∈ loadUsers db -> u_phone u = None.
Proof.
  unfold loadUsers. intros (p & -> & _)%list_elem_of_fmap. reflexivity.
Qed.

Lemma filterUsers_sub q l u : u ∈ filterUsers q l -> u ∈ l.
Proof.
  unfold filterUsers. destruct (String.eqb q ""); [done|].
  intros Hu. apply list_elem_of_In, filter_In in Hu as [Hu _]. by apply list_elem_of_In.
Qed.

Lemma set_status_same withdrawalId newStatus now w :
  w_id w = withdrawalId ->
  let w' := set_status withdrawalId newStatus now w in
  w_id w' = withdrawalId /\ w_status w' = newStatus /\ w_amount w' = w_amount w /\ w_user w' = w_user w.
Proof. intros <-. unfold set_status. by rewrite String.eqb_refl. Qed.

(** ** Theorems *)

(** the user list never shows a phone number: the rows built by
    [loadUsers] carry [phone_number] but [renderUser] reads [phone],
    so every listed user shows "No Phone". *)
Theorem users_phone_never_shown db q u :
  u ∈ filterUsers q (loadUsers db) -> u_phone u = None /\ shows (renderUser u) [PS "No Phone"].
Proof.
  intros Hu. apply filterUsers_sub, loadUsers_phone in Hu. split; [done|].
  unfold shows, renderUser. rewrite Hu. cbn. set_solver.
Qed.

(** C40: approving or rejecting a withdrawal only rewrites the request's
    status, whatever status it had: a completed request can be rejected
    and a rejected one approved from a stale list, and no wallet balance
    is debited or restored. *)
Theorem withdrawal_update_unguarded now withdrawalId newStatus db w :
  w ∈ withdrawal_requests db -> w_id w = withdrawalId ->
  let '(db', _, eff) := updateWithdrawalStatus false now withdrawalId newStatus db in
  ad_wallets db' = ad_wallets db /\
  eff = [Alert "Success" ("Withdrawal " +:+ newStatus)] /\
  exists w', w' ∈ withdrawal_requests db' /\ w_id w' = withdrawalId /\ w_status w' = newStatus /\
             w_amount w' = w_amount w /\ w_user w' = w_user w.
Proof.
  intros Hw Hid. cbn. split; [done|]. split; [done|].
  exists (set_status withdrawalId newStatus now w). split; [by apply list_elem_of_fmap_2|].
  by apply set_status_same.
Qed.

(** ** Witnesses *)

Definition admin_profile (i name : string) (adm : bool) : Profile :=
  {| prof_id := i; phone_number := "9123456780"; full_name := name; aadhar_number := "";
     pan_number := ""; referral_code := "REF" +:+ i; referred_by := None; prof_status := "active";
     kyc_verified := false; is_admin := adm |}.

Definition rejected_request : Withdrawal :=
  mkWithdrawal "w1" "A" 500 "rejected" "upi" (Some "asha@upi") None None None None "2025-02-01" (Some "2025-02-02").

Definition admin_db : AdminDB :=
  mkAdminDB [admin_profile "A" "Asha" false; admin_profile "Z" "Zoya" true] None []
            [rejected_request] (Some []) [] ∅.

Lemma users_phone_never_shown_witness :
  let u := user_of None (admin_profile "A" "Asha" false) in
  u_phone u = None /\ shows (renderUser u) [PS "No Phone"].
Proof.
  apply (users_phone_never_shown admin_db "ash"). vm_compute. left.
Defined.

Lemma withdrawal_update_unguarded_witness :
  let '(db', _, eff) := updateWithdrawalStatus false "2025-03-01" "w1" "completed" admin_db in
  ad_wallets db' = ad_wallets admin_db /\
  eff = [Alert "Success" ("Withdrawal " +:+ "completed")] /\
  exists w', w' ∈ withdrawal_requests db' /\ w_id w' = "w1" /\ w_status w' = "completed" /\
             w_amount w' = 500 /\ w_user w' = "A".
Proof.
  exact (withdrawal_update_unguarded "2025-03-01" "w1" "completed" admin_db rejected_request
           ltac:(left) eq_refl).
Defined.

End Admin.
