(* ===== verification/AccountTable.v ===== *)
(** * The investment-account table and its writers

    Three parts of the program write [investment_accounts]:
    - the account context ([createAccount],
      [src/contexts/AccountContext.tsx]);
    - the KYC screen ([handleSubmit], [src/app/kyc/[accountId].tsx]);
    - the Razorpay verifier
      ([src/supabase/functions/verify-razorpay-payment/index.ts]).
    The verifier also appends to [transactions].  The order function
    ([create-razorpay-order]) reads both tables.  [table_step]
    interleaves the four handlers over one [RzStore].

    What holds of every interleaving:
    - the table stays well formed, with at most ten accounts per user;
    - every transaction row names an account;
    - accounts keep their owner and their number;
    - each wallet balance is the sum of its top-up rows, as long as no
      row insert is lost;
    - the admin dashboard ([src/app/admin/index.tsx]) sums the
      [investment] rows of [transactions], which no writer ever adds, so
      its Total Invested never moves;
    - a KYC submission and a payment verification commute. *)

From S2P Require Import Prelude Format View Wallet Store Auth Register Accounts Kyc Razorpay Admin.
Import Accounts Kyc Razorpay.

Module AccountTable.

Definition with_accounts (db : AcctDB) (s : RzStore) : RzStore :=
  mkRzStore (rs_auth s) db (rs_transactions s).

(** The top-ups recorded for account [k]. *)
Definition topups (k : string) (l : list TxRow) : Q :=
  sumQ tx_amount (filter (fun t => tx_account t = k /\ tx_type t = "wallet_topup") l).

Section Table.

(** The HMAC-SHA256 primitive of the verifier. *)
Context (hmac_sha256 : list N -> list N -> list N).

(** The write failures of the verifier that a run allows. *)
Variable admissible : RzFaults -> Prop.

(** One request to one of the four handlers.  Configuration, gateway
    answers and clock are chosen per request. *)
Inductive table_step : RzStore -> RzStore -> Prop :=
| ts_create number pl user name c r db' c' s :
    createAccount number pl (rs_accounts s) user name c = (r, db', c') ->
    table_step s (with_accounts db' s)
| ts_kyc err pl user c accountId st st' eff db' c' s :
    handleSubmit err pl (rs_accounts s) user c accountId st = (st', eff, db', c') ->
    table_step s (with_accounts db' s)
| ts_order cfg gw now req r s s' :
    serve (create_order cfg gw now) req s = (r, s') -> table_step s s'
| ts_verify fl cfg gw req r s s' :
    admissible fl -> serve (verify_payment hmac_sha256 fl cfg gw) req s = (r, s') ->
    table_step s s'.

End Table.

(** Runs in which the verifier's transaction insert never fails. *)
Definition rows_kept (fl : RzFaults) : Prop := f_transaction fl = false.

Definition table_ok (s : RzStore) : Prop :=
  acct_ok (rs_accounts s) /\
  (forall u, (length (user_accounts (rs_accounts s) u) <= 10)%nat) /\
  (forall t, t ∈ rs_transactions s -> is_Some (inv_accounts (rs_accounts s) !! tx_account t)).

Definition audited (s : RzStore) : Prop :=
  forall k a, inv_accounts (rs_accounts s) !! k = Some a ->
    current_balance a == topups k (rs_transactions s).

(** Every account of [s] is in [s'] with the same owner and number. *)
Definition keeps_owners (s s' : RzStore) : Prop :=
  forall k a, inv_accounts (rs_accounts s) !! k = Some a ->
    exists a', inv_accounts (rs_accounts s') !! k = Some a' /\
               acc_user a' = acc_user a /\ account_number a' = account_number a.

(** The dashboard's view of [transactions]: the same rows in the same
    order, each with its type and amount. *)
Definition same_rows (l : list TxRow) (l' : list Admin.AdminTx) : Prop :=
  Forall2 (fun t t' => Admin.t_type t' = tx_type t /\ Admin.t_amount t' = tx_amount t) l l'.

(** ** Lemmas *)

(** A handler behind [serve] leaves the store it was given to a
    pre-flight request. *)
Lemma serve_cases {B} (h : Request B -> ST RzStore string RespBody) req s r s' :
  serve h req s = (r, s') -> s' = s \/ exists x, h req s = (x, s').
Proof.
  unfold serve. case_if; [intros [= _ <-]; by left|].
  destruct (h req s) as [x s1]. destruct x; intros [= _ <-]; right; eauto.
Qed.

Lemma create_order_store cfg gw now req s x s' :
  create_order cfg gw now req s = (x, s') -> s' = s.
Proof.
  unfold create_order, authenticate, st_bind, st_get, st_throw, st_ret.
  repeat case_match; congruence.
Qed.

(** The verifier throws before it writes. *)
Lemma verify_payment_Throw hmac_sha256 fl cfg gw req s m s' :
  verify_payment hmac_sha256 fl cfg gw req s = (Throw m, s') -> s' = s.
Proof.
  unfold verify_payment, authenticate, st_bind, st_get, st_throw, st_modify, st_ret.
  repeat case_match; congruence.
Qed.

Lemma handleSubmit_db err pl db user c accountId st st' eff db' c' :
  handleSubmit err pl db user c accountId st = (st', eff, db', c') ->
  db' = db \/ exists x y,
    db' = mkAcctDB (alter (set_kyc_numbers x y) accountId (inv_accounts db)) (acct_next db).
Proof.
  unfold handleSubmit. repeat case_if; try (intros [= _ _ <- _]; by left).
  destruct err; intros [= _ _ <- _]; [by left|]. right. eauto.
Qed.

Lemma topups_fresh k l : (forall t, t ∈ l -> tx_account t <> k) -> topups k l == 0.
Proof.
  unfold topups. induction l as [|t l IH]; intros H; [reflexivity|].
  rewrite filter_cons_False; [apply IH; set_solver|]. intros [Hk _]. apply (H t); set_solver.
Qed.

Lemma topups_snoc k l t :
  topups k (l ++ [t]) ==
  topups k l + (if bool_decide (tx_account t = k /\ tx_type t = "wallet_topup") then tx_amount t else 0).
Proof.
  unfold topups. rewrite filter_app, sumQ_app. rewrite filter_cons, filter_nil.
  case_bool_decide; case_decide; try done; cbn; lra.
Qed.

(** An update of one row that keeps its id and owner. *)
Lemma alter_table_ok f k s :
  (forall a, acc_id (f a) = acc_id a) -> (forall a, acc_user (f a) = acc_user a) ->
  table_ok s ->
  table_ok (with_accounts (mkAcctDB (alter f k (inv_accounts (rs_accounts s))) (acct_next (rs_accounts s))) s).
Proof.
  intros Hid Hu (Hok & Hcap & Hrows). split_and!; cbn [with_accounts rs_accounts rs_transactions].
  - by apply alter_acct_ok.
  - intros u. rewrite user_accounts_alter by done. apply Hcap.
  - intros t Ht. cbn [inv_accounts]. rewrite lookup_alter.
    destruct (Hrows t Ht) as [a Ha].
    case_decide as E; [subst; rewrite Ha|]; cbn; by eexists.
Qed.

Lemma alter_keeps_owners f k s :
  (forall a, acc_user (f a) = acc_user a) -> (forall a, account_number (f a) = account_number a) ->
  keeps_owners s
    (with_accounts (mkAcctDB (alter f k (inv_accounts (rs_accounts s))) (acct_next (rs_accounts s))) s).
Proof.
  intros Hu Hn k' a Ha. cbn [with_accounts rs_accounts inv_accounts]. rewrite lookup_alter.
  case_decide; [subst; rewrite Ha; exists (f a)|exists a]; auto.
Qed.

(** An update of one row that keeps its balance keeps the audit. *)
Lemma alter_audited f k s :
  (forall a, wallet_balance (f a) = wallet_balance a) -> audited s ->
  audited (with_accounts (mkAcctDB (alter f k (inv_accounts (rs_accounts s))) (acct_next (rs_accounts s))) s).
Proof.
  intros Hb Ha k' a. cbn [with_accounts rs_accounts inv_accounts rs_transactions].
  rewrite lookup_alter_Some. intros [(-> & a0 & H0 & ->)|[_ H]]; [|by apply Ha].
  unfold current_balance. rewrite Hb. by apply Ha.
Qed.

Lemma keeps_owners_refl s : keeps_owners s s.
Proof. intros k a Ha. eauto. Qed.

Lemma keeps_owners_trans s1 s2 s3 : keeps_owners s1 s2 -> keeps_owners s2 s3 -> keeps_owners s1 s3.
Proof.
  intros H12 H23 k a Ha. destruct (H12 k a Ha) as (a2 & H2 & Hu2 & Hn2).
  destruct (H23 k a2 H2) as (a3 & H3 & Hu3 & Hn3). exists a3. split_and!; congruence.
Qed.


Lemma with_accounts_id s : with_accounts (rs_accounts s) s = s.
Proof. by destruct s. Qed.

Lemma insert_account_balance db uid n name a db' :
  insert_account db uid n name = inr (a, db') -> wallet_balance a = None.
Proof. unfold insert_account. case_if; [discriminate|]. by intros [= <- _]. Qed.

Lemma find_account_lookup db k uid a : find_account db k uid = Some a -> inv_accounts db !! k = Some a.
Proof. unfold find_account. destruct (_ !! k); [case_if|]; congruence. Qed.

(** [createAccount] inserts at most one fresh account, with no balance
    and no row. *)
Lemma table_create number pl user name c r db' c' s :
  createAccount number pl (rs_accounts s) user name c = (r, db', c') -> table_ok s ->
  table_ok (with_accounts db' s) /\ (audited s -> audited (with_accounts db' s)) /\
  keeps_owners s (with_accounts db' s).
Proof.
  intros E (Hok & Hcap & Hrows).
  destruct (createAccount_db _ _ _ _ _ _ _ _ _ E) as [->|(uid & n & a & _ & _ & Ei)].
  { rewrite with_accounts_id. split_and!; [done|done|apply keeps_owners_refl]. }
  pose proof (insert_account_cap _ _ _ _ _ _ Hok Hcap Ei) as Hcap'.
  pose proof (insert_account_balance _ _ _ _ _ _ Ei) as Hb.
  destruct (insert_account_ok _ _ _ _ _ _ Hok Ei) as (Hok' & _ & Hfree & ->).
  unfold table_ok, audited, keeps_owners. cbn [with_accounts rs_accounts rs_transactions inv_accounts].
  split_and!; [done|done| | |].
  - intros t Ht. rewrite lookup_insert_is_Some'. auto.
  - intros Ha k b. rewrite lookup_insert_Some. intros [[<- <-]|[_ Hk]]; [|by apply Ha].
    unfold current_balance. rewrite Hb. symmetry. apply topups_fresh.
    intros t Ht Et. destruct (Hrows t Ht) as [x Hx]. rewrite Et in Hx. congruence.
  - intros k b Hk. exists b. rewrite lookup_insert_ne by congruence. auto.
Qed.

(** A KYC submission rewrites the two numbers of one account. *)
Lemma table_kyc err pl user c accountId st st' eff db' c' s :
  handleSubmit err pl (rs_accounts s) user c accountId st = (st', eff, db', c') -> table_ok s ->
  table_ok (with_accounts db' s) /\ (audited s -> audited (with_accounts db' s)) /\
  keeps_owners s (with_accounts db' s).
Proof.
  intros E Hs. destruct (handleSubmit_db _ _ _ _ _ _ _ _ _ _ _ E) as [->|(x & y & ->)].
  - rewrite with_accounts_id. split_and!; [done|done|apply keeps_owners_refl].
  - split_and!; [apply alter_table_ok|intros; apply alter_audited|apply alter_keeps_owners]; done.
Qed.

Lemma insert_row_ok t s :
  table_ok s -> is_Some (inv_accounts (rs_accounts s) !! tx_account t) ->
  table_ok (insert_transaction t s).
Proof.
  intros (Hok & Hcap & Hrows) Ht. split_and!; [done|done|]. cbn [insert_transaction rs_transactions].
  intros t' Ht'. apply elem_of_app in Ht' as [Ht'|Ht']; [auto|]. by apply list_elem_of_singleton in Ht' as ->.
Qed.

(** A credit of [amt] to account [k] with its top-up row. *)
Lemma audited_credit s k acct amt o p sg :
  inv_accounts (rs_accounts s) !! k = Some acct -> audited s ->
  audited (insert_transaction (topup_row k amt o p sg) (set_wallet_balance k (current_balance acct + amt) s)).
Proof.
  intros Hk Ha k' a. cbn [insert_transaction set_wallet_balance rs_accounts rs_transactions inv_accounts].
  rewrite topups_snoc. cbn [topup_row tx_account tx_type tx_amount]. rewrite lookup_alter.
  case_decide as E; [subst k'; rewrite Hk; intros [= <-]|intros Hk'].
  - rewrite bool_decide_true by done. rewrite <- (Ha k acct Hk). reflexivity.
  - rewrite bool_decide_false by naive_solver. rewrite (Ha k' a Hk'). ring.
Qed.

(** A request to the verifier, with or without its transaction row. *)
Lemma table_verify hmac_sha256 fl cfg gw req r s s' :
  serve (verify_payment hmac_sha256 fl cfg gw) req s = (r, s') -> table_ok s ->
  table_ok s' /\ (rows_kept fl -> audited s -> audited s') /\ keeps_owners s s'.
Proof.
  intros E Hs. destruct (serve_cases _ _ _ _ _ E) as [->|([b|m] & E')].
  - split_and!; [done|done|apply keeps_owners_refl].
  - destruct (verify_payment_Ret _ _ _ _ _ _ _ _ E') as (uid & pay & acct & Hacc & _ & _ & ->).
    destruct Hacc as (_ & _ & _ & _ & _ & Hk). apply find_account_lookup in Hk.
    set (k := default "" (v_accountId (body req))) in *.
    set (nb := current_balance acct + inject_Z (p_amount pay) / 100).
    assert (Hs1 : table_ok (set_wallet_balance k nb s)) by (apply alter_table_ok; done).
    assert (Ho1 : keeps_owners s (set_wallet_balance k nb s)) by (apply alter_keeps_owners; done).
    unfold rows_kept. destruct (f_transaction fl); split_and!; try done; try discriminate.
    + apply insert_row_ok; [done|]. cbn. rewrite lookup_alter_eq, Hk. by eexists.
    + intros _. by apply audited_credit.
  - apply verify_payment_Throw in E' as ->. split_and!; [done|done|apply keeps_owners_refl].
Qed.

Lemma table_step_inv hmac_sha256 adm s s' :
  table_step hmac_sha256 adm s s' -> table_ok s ->
  table_ok s' /\ keeps_owners s s' /\ ((forall fl, adm fl -> rows_kept fl) -> audited s -> audited s').
Proof.
  destruct 1 as [? ? ? ? ? ? ? ? s E|? ? ? ? ? ? ? ? ? ? s E|? ? ? ? ? s s' E|fl ? ? ? ? s s' Hfl E];
    intros Hs.
  - destruct (table_create _ _ _ _ _ _ _ _ _ E Hs) as (? & ? & ?). auto.
  - destruct (table_kyc _ _ _ _ _ _ _ _ _ _ _ E Hs) as (? & ? & ?). auto.
  - destruct (serve_cases _ _ _ _ _ E) as [->|[x Ex]]; [|apply create_order_store in Ex as ->];
      split_and!; auto using keeps_owners_refl.
  - destruct (table_verify _ _ _ _ _ _ _ _ E Hs) as (? & Ha & ?). split_and!; auto.
Qed.

Lemma table_rtc_inv hmac_sha256 adm s s' :
  rtc (table_step hmac_sha256 adm) s s' -> table_ok s ->
  table_ok s' /\ keeps_owners s s' /\ ((forall fl, adm fl -> rows_kept fl) -> audited s -> audited s').
Proof.
  induction 1 as [s|s1 s2 s3 H12 _ IH]; intros Hs; [split_and!; auto using keeps_owners_refl|].
  destruct (table_step_inv _ _ _ _ H12 Hs) as (Hs2 & Ho12 & Ha12).
  destruct (IH Hs2) as (Hs3 & Ho23 & Ha23). split_and!; eauto using keeps_owners_trans.
Qed.

(** The only rows any writer appends to [transactions] are top-ups. *)
Definition topup_rows (new : list TxRow) : Prop := Forall (fun t => tx_type t = "wallet_topup") new.

Lemma table_step_rows hmac_sha256 adm s s' :
  table_step hmac_sha256 adm s s' ->
  exists new, rs_transactions s' = rs_transactions s ++ new /\ topup_rows new.
Proof.
  assert (Hnil : forall l : list TxRow, l = l ++ [] /\ topup_rows []) by (intros; split; [by rewrite app_nil_r|constructor]).
  destruct 1 as [? ? ? ? ? ? ? ? s E|? ? ? ? ? ? ? ? ? ? s E|? ? ? ? ? s s' E|fl ? ? ? ? s s' Hfl E];
    try (exists []; apply Hnil).
  - destruct (serve_cases _ _ _ _ _ E) as [->|[x Ex]]; [|apply create_order_store in Ex as ->];
      exists []; apply Hnil.
  - destruct (serve_cases _ _ _ _ _ E) as [->|[[b|m] Ex]];
      [exists []; apply Hnil| |apply verify_payment_Throw in Ex as ->; exists []; apply Hnil].
    destruct (verify_payment_Ret _ _ _ _ _ _ _ _ Ex) as (? & ? & ? & _ & _ & _ & ->).
    destruct (f_transaction fl); [exists []; apply Hnil|]. eexists. split; [reflexivity|]. apply Forall_singleton. reflexivity.
Qed.

Lemma table_rtc_rows hmac_sha256 adm s s' :
  rtc (table_step hmac_sha256 adm) s s' ->
  exists new, rs_transactions s' = rs_transactions s ++ new /\ topup_rows new.
Proof.
  induction 1 as [s|s1 s2 s3 H12 _ (n2 & E2 & H2)]; [exists []; split; [by rewrite app_nil_r|constructor]|].
  destruct (table_step_rows _ _ _ _ H12) as (n1 & E1 & H1).
  exists (n1 ++ n2). rewrite E2, E1, app_assoc. split; [done|]. by apply Forall_app.
Qed.

(** The dashboard's Total Invested, read from rows of [transactions]. *)
Lemma invested_same_rows l adb :
  same_rows l (Admin.ad_transactions adb) ->
  Admin.totalInvested (Admin.loadStats adb) == sumQ tx_amount (filter (fun t => tx_type t = "investment") l).
Proof.
  unfold Admin.loadStats. cbn [Admin.totalInvested]. rewrite fold_sumQ_sumQ.
  induction 1 as [|t t' l l' [Ht Ha] _ IH]; [reflexivity|]. cbn [List.filter].
  rewrite Ht. destruct (String.eqb_spec (tx_type t) "investment").
  - rewrite filter_cons_True by done. cbn. rewrite IH, Ha. reflexivity.
  - rewrite filter_cons_False by done. exact IH.
Qed.

Lemma invested_topups l new :
  topup_rows new ->
  sumQ tx_amount (filter (fun t => tx_type t = "investment") (l ++ new)) ==
  sumQ tx_amount (filter (fun t => tx_type t = "investment") l).
Proof.
  intros Hn. rewrite filter_app, sumQ_app.
  assert (filter (fun t => tx_type t = "investment") new = []) as ->; [|cbn; ring].
  induction Hn as [|t new Ht _ IH]; [done|]. rewrite filter_cons_False; [done|]. by rewrite Ht.
Qed.

(** A KYC submission's write does not depend on the table. *)
Lemma handleSubmit_write err pl user c accountId st :
  (forall db, ((handleSubmit err pl db user c accountId st).1).2 = db) \/
  exists x y, forall db, ((handleSubmit err pl db user c accountId st).1).2 =
    mkAcctDB (alter (set_kyc_numbers x y) accountId (inv_accounts db)) (acct_next db).
Proof.
  unfold handleSubmit. repeat case_if; try (left; reflexivity).
  destruct err; [left; reflexivity|]. right. eauto.
Qed.

(** ** Updates of one account that the verifier does not see

    [tmap] applies [f] to account [k].  When [f] keeps the owner and the
    balance and commutes with a credit, a verification run on the
    updated store is the update of the run on the original. *)

Section Commute.
Context (f : InvestmentAccount -> InvestmentAccount) (k : string).
Hypothesis f_user : forall a, acc_user (f a) = acc_user a.
Hypothesis f_balance : forall a, wallet_balance (f a) = wallet_balance a.
Hypothesis f_credit : forall a b, f (with_wallet_balance b a) = with_wallet_balance b (f a).

Definition tmap (s : RzStore) : RzStore :=
  with_accounts (mkAcctDB (alter f k (inv_accounts (rs_accounts s))) (acct_next (rs_accounts s))) s.

Lemma find_account_tmap s aid uid :
  find_account (rs_accounts (tmap s)) aid uid =
  (fun a => if decide (k = aid) then f a else a) <$> find_account (rs_accounts s) aid uid.
Proof.
  unfold find_account. cbn [tmap with_accounts rs_accounts inv_accounts]. rewrite lookup_alter.
  case_decide; [subst k|]; destruct (inv_accounts (rs_accounts s) !! aid) as [a|]; cbn; try done;
    rewrite ?f_user; by destruct (String.eqb (acc_user a) uid).
Qed.

Lemma set_wallet_tmap aid nb s : set_wallet_balance aid nb (tmap s) = tmap (set_wallet_balance aid nb s).
Proof.
  unfold set_wallet_balance, tmap, with_accounts. cbn. f_equal. f_equal.
  destruct (decide (aid = k)) as [->|Hne].
  - rewrite !alter_alter_eq. apply alter_ext. intros a _. cbn. by rewrite f_credit.
  - by rewrite alter_alter_ne.
Qed.

Lemma insert_tx_tmap t s : insert_transaction t (tmap s) = tmap (insert_transaction t s).
Proof. reflexivity. Qed.

Lemma verify_tmap hmac_sha256 fl cfg gw req s :
  verify_payment hmac_sha256 fl cfg gw req (tmap s) =
  ((verify_payment hmac_sha256 fl cfg gw req s).1, tmap (verify_payment hmac_sha256 fl cfg gw req s).2).
Proof.
  unfold verify_payment, authenticate, st_bind, st_get, st_throw, st_modify, st_ret.
  destruct (authorization req) as [h|]; [|reflexivity]. simpl rs_auth.
  destruct (Auth.getUser _ _); [|reflexivity].
  repeat (case_if; [reflexivity|]). destruct (rz_payments gw !! _); [|reflexivity].
  case_if; [reflexivity|]. rewrite find_account_tmap.
  destruct (find_account (rs_accounts s) _ _) as [a|]; [|reflexivity]. cbn.
  assert (Hb : current_balance (if decide (k = default "" (v_accountId (body req))) then f a else a) =
               current_balance a) by (case_decide; unfold current_balance; by rewrite ?f_balance).
  rewrite Hb. destruct (f_update fl); [reflexivity|]. cbn.
  rewrite set_wallet_tmap. destruct (f_transaction fl); cbn; [reflexivity|].
  by rewrite insert_tx_tmap.
Qed.
End Commute.

(** ** Theorems *)

(** C19: along any interleaving of account creations, KYC submissions,
    order requests and payment verifications, whatever write fails, the
    account table stays keyed by its generated ids with at most ten
    accounts per user, every transaction row names an existing account,
    and no account is removed or changes owner or number. *)
Theorem account_table_invariant hmac_sha256 adm s s' :
  rtc (table_step hmac_sha256 adm) s s' -> table_ok s -> table_ok s' /\ keeps_owners s s'.
Proof. intros Hr Hs. destruct (table_rtc_inv _ _ _ _ Hr Hs) as (? & ? & _). auto. Qed.

(** C20: as long as no transaction insert of the verifier fails, every
    wallet balance of the account table equals the sum of the top-up
    rows recorded for that account, along any interleaving of the four
    writers.  A replayed verification keeps this (it adds both the
    credit and a row); a lost row breaks it. *)
Theorem topups_audited hmac_sha256 s s' :
  rtc (table_step hmac_sha256 rows_kept) s s' -> table_ok s -> audited s -> audited s'.
Proof. intros Hr Hs. destruct (table_rtc_inv _ _ _ _ Hr Hs) as (_ & _ & Ha). by apply Ha. Qed.

(** C21: the admin dashboard's Total Invested sums the [investment] rows
    of [transactions], but the only writer of that table appends
    [wallet_topup] rows: along any interleaving of the writers, the
    figure the dashboard shows never changes, however much is credited. *)
Theorem dashboard_invested_frozen hmac_sha256 adm s s' adb adb' :
  rtc (table_step hmac_sha256 adm) s s' ->
  same_rows (rs_transactions s) (Admin.ad_transactions adb) ->
  same_rows (rs_transactions s') (Admin.ad_transactions adb') ->
  Admin.totalInvested (Admin.loadStats adb') == Admin.totalInvested (Admin.loadStats adb).
Proof.
  intros Hr H H'. destruct (table_rtc_rows _ _ _ _ Hr) as (new & E & Hn).
  rewrite (invested_same_rows _ _ H'), (invested_same_rows _ _ H), E. by apply invested_topups.
Qed.

(** C22: a KYC submission and a payment verification can run in either
    order, even on the same account: the verifier answers the same
    response, and the two orders leave the same account table and the
    same transactions.  The KYC write never depends on the table, and
    the verifier reads only the owner and the balance, which KYC leaves
    alone. *)
Theorem kyc_topup_commute hmac_sha256 fl cfg gw req err pl user c accountId st s :
  let kyc (s : RzStore) := with_accounts ((handleSubmit err pl (rs_accounts s) user c accountId st).1.2) s in
  let verify (s : RzStore) := serve (verify_payment hmac_sha256 fl cfg gw) req s in
  (verify (kyc s)).1 = (verify s).1 /\ (verify (kyc s)).2 = kyc (verify s).2.
Proof.
  intros kyc verify. destruct (handleSubmit_write err pl user c accountId st) as [Hid|(x & y & Hw)].
  - unfold kyc. rewrite !Hid, !with_accounts_id. done.
  - assert (Hk : forall s, kyc s = tmap (set_kyc_numbers x y) accountId s)
      by (intros; unfold kyc; by rewrite Hw).
    rewrite !Hk. unfold verify, serve. case_if; [done|].
    rewrite verify_tmap by done. by destruct (verify_payment _ _ _ _ _ _) as [[b|m] s'].
Qed.

(** ** Witnesses *)

(** The dashboard's list of [transactions]: the verifier sets no
    [user_id]; ids and timestamps are the table's. *)
Definition admin_rows (l : list TxRow) : list Admin.AdminTx :=
  imap (fun i t => Admin.mkAdminTx i None (tx_type t) (tx_amount t) (tx_description t) "") l.

Definition admin_db_of (s : RzStore) : Admin.AdminDB :=
  Admin.mkAdminDB [] None (admin_rows (rs_transactions s)) [] None [] ∅.

Lemma same_rows_imap f l :
  (forall i t, Admin.t_type (f i t) = tx_type t /\ Admin.t_amount (f i t) = tx_amount t) ->
  same_rows l (imap f l).
Proof.
  revert f. induction l as [|t l IH]; intros f Hf; cbn; constructor; [apply Hf|].
  apply IH. intros; apply Hf.
Qed.

Lemma same_admin_rows l : same_rows l (admin_rows l).
Proof. by apply same_rows_imap. Qed.

(** The sample table with a top-up of 250 already recorded for [acct-1]. *)
Definition table0 : RzStore :=
  mkRzStore (rs_auth store0) sample_acct_db [topup_row "acct-1" 250 "order_0" "pay_0" "sig_0"].

(** [table0] after a verified payment of 500 rupees to [acct-0]. *)
Definition table1 : RzStore :=
  snd (serve (verify_payment toy_hmac rz_no_faults cfg0 gw0) topup_req table0).

Lemma table0_ok : table_ok table0.
Proof.
  split_and!; [apply sample_acct_ok| |].
  - intros u. etransitivity; [apply user_accounts_bound|]. vm_compute. lia.
  - intros t Ht. apply list_elem_of_singleton in Ht as ->. vm_compute. by eexists.
Qed.

Lemma table0_audited : audited table0.
Proof.
  intros k a H. cbn in H. apply lookup_insert_Some in H as [[<- <-]|[_ H]];
    [|apply lookup_singleton_Some in H as [<- <-]]; vm_compute; reflexivity.
Qed.

Lemma table0_run : rtc (table_step toy_hmac rows_kept) table0 table1.
Proof.
  apply rtc_once. eapply (ts_verify toy_hmac rows_kept rz_no_faults cfg0 gw0 topup_req);
    [reflexivity|apply surjective_pairing].
Qed.

Lemma account_table_invariant_witness :
  (table_ok table1 /\ keeps_owners table0 table1) /\
  default 0 (current_balance <$> inv_accounts (rs_accounts table1) !! "acct-0") == 500.
Proof.
  split; [exact (account_table_invariant toy_hmac rows_kept table0 table1 table0_run table0_ok)|].
  vm_compute. reflexivity.
Defined.

Lemma topups_audited_witness :
  audited table1 /\ topups "acct-0" (rs_transactions table1) == 500.
Proof.
  split; [exact (topups_audited toy_hmac table0 table1 table0_run table0_ok table0_audited)|].
  vm_compute. reflexivity.
Defined.

Lemma dashboard_invested_frozen_witness :
  Admin.totalInvested (Admin.loadStats (admin_db_of table1)) ==
    Admin.totalInvested (Admin.loadStats (admin_db_of table0)) /\
  Admin.totalInvested (Admin.loadStats (admin_db_of table1)) == 0 /\
  topups "acct-0" (rs_transactions table1) == 500.
Proof.
  split_and!; [|vm_compute; reflexivity|vm_compute; reflexivity].
  exact (dashboard_invested_frozen toy_hmac rows_kept table0 table1 (admin_db_of table0) (admin_db_of table1)
           table0_run (same_admin_rows _) (same_admin_rows _)).
Defined.

End AccountTable.
