(* ===== verification/Home.v ===== *)
(** * The home tab ([src/app/(tabs)/index.tsx])

    [loadData] reads the caller's wallet row, the active subscription
    with its plan, the direct (level-1) referrals, all of the caller's
    commissions and the latest gold rate.  Each result replaces the
    screen's value only when data came back.  The screen shows the
    balances, the gold in grams with its value at the latest rate, the
    subscription card, the earnings and the referral code.  The account
    switcher of this tab lists four hard-coded demo accounts, not the
    accounts of [AccountContext].

    The tables are those of [Store.DB]; the theorems connect what the tab
    shows with the ledger invariant of [LedgerInv.v] and with the
    referrals tab of [Referrals.v]. *)

From S2P Require Import Prelude Format View Wallet Store GoldRate Ledger LedgerInv Referrals.
Import View Wallet Store GoldRate Ledger LedgerInv Referrals.

Module Home.

Record SubscriptionData := mkSD {
  sd_id : nat;
  sd_status : SubStatus;
  sd_total_paid : Q;
  sd_plan : option (string * Q)       (** [plan:plans(name, monthly_amount)] *)
}.

Record ReferralStats := mkRS { total_referrals : nat; total_commission : Q }.

Record DummyAccount := mkDummy {
  d_id : string;
  d_account_name : string;
  d_account_number : string;
  d_is_primary : bool;
  d_kyc_verified : bool;
  d_icon : string
}.

(** The file is stored with its non-ASCII characters encoded twice
    (UTF-8 read as Windows-1252 and saved again): the literals the tab
    displays are these. *)
Definition rupee : string := "â‚¹".
Definition crown : string := "ðŸ‘‘".
Definition briefcase : string := "ðŸ’¼".
Definition bullet : string := "â€¢".
Definition cross : string := "âœ•".

Definition DUMMY_ACCOUNTS : list DummyAccount :=
  [mkDummy "1" "Primary Account" "INV111111-001" true true crown;
   mkDummy "2" "Wife's Gold Savings" "INV111111-002" false true briefcase;
   mkDummy "3" "Children's Education" "INV111111-003" false true briefcase;
   mkDummy "4" "Business Investment" "INV111111-004" false false briefcase].

Record HomeState := mkHome {
  h_wallet : option Wallet;
  subscription : option SubscriptionData;
  referralStats : ReferralStats;
  goldRate : option GoldRateRow;
  accountModalVisible : bool;
  selectedAccount : DummyAccount
}.

Definition zero_wallet : Wallet := mkWallet 0 0 0 0 0 0.

Definition dummy0 : DummyAccount := mkDummy "1" "Primary Account" "INV111111-001" true true crown.

Definition home_init : HomeState :=
  mkHome (Some zero_wallet) None (mkRS 0 0) None false dummy0.

(** The subscription query: [maybeSingle] on the active rows, [null]
    for none or more than one. *)
Definition home_subscription (db : DB) (uid : string) : option SubscriptionData :=
  match active_subs db uid with
  | [s] => Some (mkSD (sub_id s) (sub_status s) (total_paid s)
                      ((fun p => (plan_name p, monthly_amount p)) <$> find_plan (sub_plan_id s) (plans db)))
  | _ => None
  end.

(** [total_commission]: every commission of the caller, at any level. *)
Definition home_commission (db : DB) (uid : string) : Q :=
  fold_sumQ c_amount (List.filter (fun c => String.eqb (c_user c) uid) (referral_commissions db)).

(** [loadData]: each result replaces the state only when there is data. *)
Definition loadData (db : DB) (uid : string) (st : HomeState) : HomeState :=
  if String.eqb uid "" then st else
  mkHome (match wallets db !! uid with Some w => Some w | None => h_wallet st end)
         (match home_subscription db uid with Some sd => Some sd | None => subscription st end)
         (mkRS (length (List.filter (fun e => String.eqb (anc e) uid && Nat.eqb (level e) 1)
                                    (referral_tree db)))
               (home_commission db uid))
         (match latest_row (gold_rates db) with Some r => Some r | None => goldRate st end)
         (accountModalVisible st) (selectedAccount st).

(** ** The rendering *)

Inductive HomeAction := HOpenAccounts | HCloseAccounts | HSelect (a : DummyAccount)
                      | HManage | HPlans | HReferrals.

(** [x?.toFixed(2) || '0.00'] on a wallet field. *)
Definition money (f : Wallet -> Q) (w : option Wallet) : list Piece :=
  match w with Some w => [PS rupee; PN (f w) (Fixed 2)] | None => [PS rupee; PS "0.00"] end.

Definition gold_mg_of (w : option Wallet) : Q := js_or (gold_balance_mg <$> w) 0.

Definition dummy_item (sel : DummyAccount) (a : DummyAccount) : Node HomeAction :=
  Button (HSelect a) false
    ([Box [Box [T (d_icon a)];
           Box [T (d_account_name a); T (d_account_number a);
                Box (when (d_is_primary a) (Box [T "PRIMARY"]) ++
                     [Box [Box []; T (if d_kyc_verified a then "Verified" else "Pending")]])]]] ++
     when (String.eqb (d_id sel) (d_id a)) (Box [])).

Definition home_modal (st : HomeState) : Node HomeAction :=
  Modal (accountModalVisible st)
    [Button HCloseAccounts false
       [Box [Box [T "Switch Account"; Button HCloseAccounts false [T cross]];
             Text [PN (inject_Z (Z.of_nat (length DUMMY_ACCOUNTS))) Plain;
                   PS " of 10 accounts "; PS bullet; PS " Each account is independent"];
             Box (map (dummy_item (selectedAccount st)) DUMMY_ACCOUNTS ++
                  [Button HManage false
                     [Box []; Box [T "Create New Account";
                                   Text [PN (inject_Z (10 - Z.of_nat (length DUMMY_ACCOUNTS))) Plain;
                                         PS " slots available"]]]]);
             Button HManage false [Box []; T "Manage All Accounts"]]]].

(** The "My Earnings" grid. *)
Definition home_earnings (w : option Wallet) (rs : ReferralStats) : Node HomeAction :=
  Box [T "My Earnings";
       Box [Box [Box []; T "Total Earnings"; Text [PS rupee; PN (js_or (total_earnings <$> w) 0) (Fixed 2)]];
            Box [Box []; T "Available Balance"; Text [PS rupee; PN (js_or (referral_balance <$> w) 0) (Fixed 2)]]];
       Box [Box [Box []; T "Total Withdrawn"; Text [PS rupee; PN (js_or (total_withdrawn <$> w) 0) (Fixed 2)]];
            Box [Box []; T "Referral Income"; Text [PS rupee; PN (total_commission rs) (Fixed 2)]]]].

(** The "Referral Stats" card. *)
Definition home_referral_stats (rs : ReferralStats) : Node HomeAction :=
  Box [Box [Box []; T "Referral Stats"];
       Box [Box [Text [PN (inject_Z (Z.of_nat (total_referrals rs))) Plain]; T "Total Referrals"];
            Box [Text [PS rupee; PN (total_commission rs) (Fixed 2)]; T "Total Commission"]];
       Button HReferrals false [T "View Details"]].

(** The "Your Referral Code" card. *)
Definition home_code_card (referral_code : string) : Node HomeAction :=
  Box [Box [Box []; T "Your Referral Code"];
       Box [T (if String.eqb referral_code "" then "REF000000" else referral_code)];
       T "Share this code to earn commissions"].

(** The screen; [subscription.plan.monthly_amount] throws when the plan
    join is [null], and the render fails ([None]). *)
Definition home_view (full_name referral_code : string) (st : HomeState) : option (Node HomeAction) :=
  let w := h_wallet st in
  let rate := (fun r => rate_per_gram r) <$> goldRate st in
  let sub_card :=
    match subscription st with
    | Some sd =>
        match sd_plan sd with
        | None => None
        | Some (name, monthly) =>
            Some (Box [Box [Box []; T "Active Plan"]; T name;
                       Box [Box [T "Monthly"; Text [PS rupee; PN monthly Plain]];
                            Box [T "Total Paid"; Text [PS rupee; PN (sd_total_paid sd) (Fixed 2)]]];
                       Button HPlans false [T "Make Payment"]])
        end
    | None => Some (Box [Box [Box []; T "No Active Plan"]; T "Start your gold saving journey today!";
                         Button HPlans false [T "View Plans"]])
    end in
  match sub_card with
  | None => None
  | Some card =>
  Some (Box
    [Box [Box [T "Welcome back,"; T (if String.eqb full_name "" then "Demo User" else full_name)];
          Box (match rate with
               | Some r => [Box [T "Today's Gold Rate"; Text [PS rupee; PN r Plain; PS "/g"]]]
               | None => [] end)];
     Button HOpenAccounts false
       [Box [T (d_icon (selectedAccount st))];
        Box [T "Current Account"; T (d_account_name (selectedAccount st));
             T (d_account_number (selectedAccount st))];
        Box []];
     Box [Box [Box []; T "Total Balance"]; Text (money total_balance w);
          Box [Box [T "Savings"; Text (money saving_balance w)];
               Box [T "Referral Income"; Text (money referral_balance w)]];
          Box [Box [Box []; T "Gold Holdings";
                    Text [PN (gold_mg_of w / 1000) (Fixed 3); PS " grams"];
                    Text ([PS "("] ++ (match w with Some w => [PN (gold_balance_mg w) (Fixed 3)]
                                                   | None => [PS "0.000"] end) ++ [PS " mg)"])];
               Box (match rate with
                    | Some r => [Box [T "Current Value"; Text [PS rupee; PN (gold_mg_of w / 1000 * r) (Fixed 2)];
                                      Text [PS "@ "; PS rupee; PN r Plain; PS "/g"]]]
                    | None => [] end)]];
     card;
     home_earnings w (referralStats st);
     home_referral_stats (referralStats st);
     home_code_card referral_code;
     home_modal st])
  end.

Definition home_press (a : HomeAction) (st : HomeState) : HomeState * list Effect :=
  match a with
  | HOpenAccounts => (mkHome (h_wallet st) (subscription st) (referralStats st) (goldRate st) true
                             (selectedAccount st), [])
  | HCloseAccounts => (mkHome (h_wallet st) (subscription st) (referralStats st) (goldRate st) false
                              (selectedAccount st), [])
  | HSelect acc => (mkHome (h_wallet st) (subscription st) (referralStats st) (goldRate st) false acc, [])
  | HManage => (mkHome (h_wallet st) (subscription st) (referralStats st) (goldRate st) false
                       (selectedAccount st), [Push "/accounts"])
  | HPlans => (st, [Push "/plans"])
  | HReferrals => (st, [Push "/referrals"])
  end.

(** ** Lemmas *)

(** The subscription the tab reads is a row of the store. *)
Lemma home_subscription_row db uid sd :
  ledger_inv db -> home_subscription db uid = Some sd ->
  exists s, user_subscriptions db !! sd_id sd = Some s /\ sd_status sd = sub_status s /\
            sd_total_paid sd = total_paid s.
Proof.
  intros Hinv. unfold home_subscription.
  destruct (active_subs db uid) as [|s [|]] eqn:E; try discriminate.
  intros [= <-]. assert (Hs : s ∈ active_subs db uid) by (rewrite E; set_solver).
  apply active_subs_elem in Hs as (k & Hk & _). cbn.
  destruct (li_keys db Hinv k s Hk) as [Hid _]. rewrite Hid. eauto.
Qed.

(** A row of a well-formed store is active and has paid the sum of its
    monthly payments. *)
Lemma sub_total_paid db k s :
  ledger_inv db -> user_subscriptions db !! k = Some s ->
  sub_status s = SubActive /\ total_paid s == sumQ amount (monthly_of db (sub_id s)).
Proof.
  intros Hinv Hk. destruct (li_subs db Hinv k s Hk) as [Hst Hp]. split; [done|].
  destruct (find_plan (sub_plan_id s) (plans db)) as [p|].
  - destruct Hp as (_ & _ & _ & Ht & _). exact Ht.
  - destruct Hp as (Hm & _ & Ht & _). rewrite Hm. exact Ht.
Qed.

(** ** Theorems *)



(** C39: the "Referral Income" of the home tab and the "Total Commission"
    of the referrals tab disagree by exactly the caller's commissions
    outside levels 1 to 10: the home tab sums every commission row of
    the caller, the referrals tab only the ten levels it loops over
    (when none of its queries fails). *)
Theorem home_commission_vs_referrals db u st :
  u <> "" ->
  total_commission (referralStats (loadData db u home_init)) ==
    totalCommission (loadReferralData (fun _ => false) db u st) +
    sumQ c_amount (List.filter (fun c => String.eqb (c_user c) u && negb (in_range 1 10 (c_level c)))
                               (referral_commissions db)).
Proof.
  intros Hu. unfold loadData, loadReferralData. rewrite (proj2 (String.eqb_neq u "") Hu), loop_fold.
  cbn [referralStats total_commission totalCommission]. rewrite sum_level_commissions.
  unfold home_commission. rewrite fold_sumQ_sumQ.
  rewrite (sumQ_filter_split (fun c => String.eqb (c_user c) u && in_range 1 10 (c_level c) && negb false)
             (fun c => String.eqb (c_user c) u && negb (in_range 1 10 (c_level c))));
    [lra| |]; intros c; destruct (String.eqb (c_user c) u), (in_range 1 10 (c_level c)); reflexivity.
Qed.

(** A commission at level 11 shows on the home tab and not on the
    referrals tab. *)
Definition deep_commission : CommissionRow :=
  mkCommission "A" "K" 11 5 1 "2024-01-01" 1.

Definition deep_db : DB := set_commissions [deep_commission] (init_db []).

Lemma home_commission_vs_referrals_witness :
  sumQ c_amount (List.filter (fun c => String.eqb (c_user c) "A" && negb (in_range 1 10 (c_level c)))
                             (referral_commissions deep_db)) == 5 /\
  total_commission (referralStats (loadData deep_db "A" home_init)) ==
    totalCommission (loadReferralData (fun _ => false) deep_db "A" ref_init) +
    sumQ c_amount (List.filter (fun c => String.eqb (c_user c) "A" && negb (in_range 1 10 (c_level c)))
                               (referral_commissions deep_db)).
Proof.
  split; [vm_compute; reflexivity|].
  apply (home_commission_vs_referrals deep_db "A" ref_init). discriminate.
Defined.

End Home.
