(* ===== verification/Transactions.v ===== *)
(** * The transactions tab ([src/app/(tabs)/transactions.tsx])

    [loadData] reads the caller's payments, latest first, and, when the
    caller has one active subscription, builds the monthly schedule:
    one cell per month [1 .. plan.payment_months], paid when a monthly
    payment of that month exists.  The screen shows the schedule and one
    card per payment.

    [created_at] is the timestamp the database assigns to a payment row;
    it is an input of the model (a [Section] variable).  Payment rows are
    kept in insertion order, which is the order of [created_at], so the
    descending order of the query is the reversed list. *)

From S2P Require Import Prelude Format View Store Ledger LedgerInv.
Import View Store Ledger LedgerInv.

Module Transactions.

Local Open Scope asj_scope.

Inductive SchedStatus := Paid | Pending.

(** [MonthlySchedule]. *)
Record MonthlySchedule := mkSched {
  month : nat;
  s_amount : Q;
  goldMg : Q;
  s_status : SchedStatus;
  date : option string
}.

Record TxScreen := mkTx {
  transactions : list PaymentRow;
  schedule : list MonthlySchedule;
  refreshing : bool
}.

Definition tx_init : TxScreen := mkTx [] [] false.

Definition set_transactions (l : list PaymentRow) (st : TxScreen) : TxScreen :=
  mkTx l (schedule st) (refreshing st).

Definition set_schedule (l : list MonthlySchedule) (st : TxScreen) : TxScreen :=
  mkTx (transactions st) l (refreshing st).

(** The two queries of [loadData] that can come back without data. *)
Inductive TxQuery := QPayments | QSchedulePayments.
#[export] Instance TxQuery_eq_dec : EqDecision TxQuery.
Proof. solve_decision. Defined.

(** [plan.payment_months] on a [null] plan join. *)
Definition null_plan_error : string :=
  "TypeError: Cannot read properties of null (reading 'payment_months')".

Section WithClock.
Variable created_at : PaymentRow -> string.

(** [payments.select(...).eq('user_id', uid).order('created_at', desc)]. *)
Definition user_payments (db : DB) (uid : string) : list PaymentRow :=
  rev (List.filter (fun q => String.eqb (pay_user q) uid) (payments db)).

(** One iteration of the schedule loop. *)
Definition schedule_item (paymentsData : option (list PaymentRow)) (plan : Plan) (i : nat)
  : MonthlySchedule :=
  let payment : option PaymentRow := paymentsData ≫= List.find (fun q => Nat.eqb (month_number q) i) in
  mkSched i (monthly_amount plan) (js_or (gold_milligrams <$> payment) 0)
          (match payment with Some _ => Paid | None => Pending end) (created_at <$> payment).

(** [for (let i = 1; i <= plan.payment_months; i++) scheduleData.push(...)]. *)
Definition build_schedule (paymentsData : option (list PaymentRow)) (plan : Plan)
  : list MonthlySchedule :=
  foldl (fun acc i => acc ++ [schedule_item paymentsData plan i]) [] (seq 1 (payment_months plan)).

Definition loadData (fail : Faults TxQuery) (db : DB) (uid : string) : ST TxScreen string unit :=
  if String.eqb uid "" then st_ret tt else
  (if fail QPayments then st_ret tt else st_modify (set_transactions (user_payments db uid))) ;;
  match loadSubscription db uid with
  | None => st_ret tt
  | Some sv =>
      let paymentsData := if fail QSchedulePayments then None
                          else Some (loadPayments db (sub_id (sv_row sv))) in
      match sv_plan sv with
      | None => st_throw null_plan_error
      | Some plan => st_modify (set_schedule (build_schedule paymentsData plan))
      end
  end.

(** ** The rendering *)

Definition getPaymentTypeLabel (t : PaymentType) : string :=
  match t with MonthlyPayment => "Monthly Payment" | BonusPayment => "Bonus Gold" end.

(** The [status] column as the database stores it. *)
Definition pay_status_text (s : PayStatus) : string :=
  match s with PayPending => "pending" | PayCompleted => "completed" | PayFailed => "failed" end.

Definition schedule_cell (item : MonthlySchedule) : Node unit :=
  Box (Text [PS "Month "; num (month item)] ::
       match s_status item with
       | Paid => [Text [PS "₹"; PN (s_amount item) Plain]; Text [PN (goldMg item) (Fixed 3); PS "mg"]] ++
                 match date item with
                 | Some d => when (negb (String.eqb d "")) (Text [PD d DateIN2Year])
                 | None => []
                 end
       | Pending => [T "Pending"]
       end).

Definition transaction_card (t : PaymentRow) : Node unit :=
  Box [Box [Box [T (getPaymentTypeLabel (payment_type t)); Text [PD (created_at t) DateIN2Year]];
            Box [Text [PS "₹"; PN (amount t) Plain]; Text [PN (gold_milligrams t) (Fixed 3); PS "mg"]]];
       Box ([Box [T "Gold Rate"; Text [PS "₹"; PN (gold_rate t) Plain; PS "/g"]]] ++
            when (bool_decide (payment_type t = MonthlyPayment))
                 (Box [T "Month"; Text [num (month_number t)]]) ++
            [Box [T "Status"; Box [T (pay_status_text (pay_status t))]]])].

Definition transactions_view (st : TxScreen) : Node unit :=
  Box ([Box [T "Transactions"; T "Your purchase history"]] ++
       when (Nat.ltb 0 (length (schedule st)))
            (Box [Box [T "Monthly Schedule"]; Box (map schedule_cell (schedule st))]) ++
       [Box (Box [T "All Transactions"] ::
             match transactions st with
             | [] => [Box [T "No transactions yet"; T "Your purchase history will appear here"]]
             | l => map transaction_card l
             end)]).

End WithClock.

Definition is_paid (c : MonthlySchedule) : bool :=
  match s_status c with Paid => true | Pending => false end.

(** ** Lemmas *)

Lemma build_schedule_map ca pd plan :
  build_schedule ca pd plan = map (schedule_item ca pd plan) (seq 1 (payment_months plan)).
Proof. unfold build_schedule. by rewrite foldl_snoc_map. Qed.

Lemma insert_by_month_perm q l : insert_by_month q l ≡ₚ q :: l.
Proof.
  induction l as [|x l IH]; simpl; [done|]. case_if; [done|].
  rewrite IH. apply Permutation_swap.
Qed.

Lemma sort_by_month_perm l : sort_by_month l ≡ₚ l.
Proof. induction l as [|x l IH]; simpl; [done|]. by rewrite insert_by_month_perm, IH. Qed.

Lemma find_is_Some {A} (f : A -> bool) l : is_Some (List.find f l) <-> exists x, x ∈ l /\ f x = true.
Proof.
  induction l as [|x l IH]; cbn [List.find]; [split; [by intros []|set_solver]|].
  destruct (f x) eqn:E; [split; [intros _; exists x; set_solver|eauto]|].
  rewrite IH. split; intros (y & Hy & Hf); [exists y; set_solver|].
  exists y. split; [|done]. apply elem_of_cons in Hy as [->|]; [congruence|done].
Qed.

(** The month [i] is among the loaded payments exactly when it lies in
    [1 .. k] for a schedule paid up to month [k]. *)
Lemma find_month_schedule ms i :
  map month_number ms = seq 1 (length ms) ->
  is_Some (List.find (fun q => Nat.eqb (month_number q) i) (sort_by_month ms)) <->
  (1 <= i <= length ms)%nat.
Proof.
  intros Hm. rewrite find_is_Some. setoid_rewrite (sort_by_month_perm ms).
  transitivity (i ∈ map month_number ms).
  - rewrite list_elem_of_fmap. setoid_rewrite Nat.eqb_eq. naive_solver.
  - rewrite Hm, list_elem_of_In, in_seq. lia.
Qed.

Lemma filter_seq_prefix (P : nat -> bool) a k n :
  (k <= n)%nat -> (forall i, (a <= i < a + n)%nat -> P i = Nat.ltb i (a + k)) ->
  List.filter P (seq a n) = seq a k.
Proof.
  revert a k. induction n as [|n IH]; intros a k Hk HP; [by replace k with 0%nat by lia|].
  cbn [seq List.filter]. rewrite (HP a) by lia.
  destruct k as [|k].
  - replace (Nat.ltb a (a + 0)) with false by (symmetry; apply Nat.ltb_ge; lia).
    apply (IH (S a) 0%nat); [lia|]. intros i Hi. rewrite HP by lia.
    destruct (Nat.ltb_spec i (a + 0)), (Nat.ltb_spec i (S a + 0)); lia.
  - replace (Nat.ltb a (a + S k)) with true by (symmetry; apply Nat.ltb_lt; lia).
    cbn [seq]. f_equal. apply IH; [lia|]. intros i Hi. rewrite HP by lia. f_equal. lia.
Qed.

(** What the schedule loop builds from a well-formed schedule of [k]
    monthly payments. *)
Lemma schedule_of_sched ca plan s ms bs :
  sched_inv plan s ms bs ->
  let sch := build_schedule ca (Some (sort_by_month ms)) plan in
  map month sch = seq 1 (payment_months plan) /\
  (forall c, c ∈ sch -> s_status c = Paid <-> (month c <= length ms)%nat) /\
  sumQ s_amount (List.filter is_paid sch) == total_paid s.
Proof.
  intros (Hm & Hle & Hamt & Ht & _) sch. subst sch. rewrite build_schedule_map.
  assert (Hst : forall i, s_status (schedule_item ca (Some (sort_by_month ms)) plan i) = Paid <->
                          (1 <= i <= length ms)%nat).
  { intros i. rewrite <- (find_month_schedule ms i Hm). unfold schedule_item. cbn.
    destruct (List.find _ _); split; intros H; [by eexists|done|discriminate|by destruct H]. }
  split_and!.
  - rewrite map_map. cbn. apply map_id.
  - intros c. rewrite list_elem_of_fmap. intros (i & -> & Hi).
    apply list_elem_of_In, in_seq in Hi. rewrite Hst. cbn. lia.
  - rewrite filter_map_swap.
    rewrite (filter_seq_prefix _ 1 (length ms)); [|done|].
    + rewrite Ht, (sumQ_const amount ms (monthly_amount plan)).
      * rewrite sumQ_const with (c := monthly_amount plan); [rewrite length_map, length_seq; reflexivity|].
        intros c. rewrite list_elem_of_fmap. intros (i & -> & _). reflexivity.
      * intros q Hq. rewrite Forall_forall in Hamt.
        rewrite (proj1 (Hamt q Hq)). reflexivity.
    + intros i Hi. specialize (Hst i). unfold is_paid.
      destruct (s_status _), (Nat.ltb_spec i (1 + length ms)); try reflexivity.
      * destruct Hst as [Hp _]. specialize (Hp eq_refl). lia.
      * destruct Hst as [_ Hp]. specialize (Hp ltac:(lia)). discriminate.
Qed.

(** ** Theorems *)

(** C12: composed with the ledger: in every store reachable from a fresh
    one, the monthly schedule the tab builds for an active plan has one
    cell per month [1 .. payment_months], a cell is paid exactly when
    its month is at most the number of monthly payments made, and the
    amounts of the paid cells add up to the subscription's
    [total_paid]. *)
Theorem schedule_matches_ledger ca ps db uid sv plan :
  rtc ledger_step (init_db ps) db -> uid <> "" ->
  loadSubscription db uid = Some sv -> sv_plan sv = Some plan ->
  let sch := schedule (st_state (loadData ca no_faults db uid) tx_init) in
  map month sch = seq 1 (payment_months plan) /\
  (forall c, c ∈ sch ->
     s_status c = Paid <-> (month c <= length (monthly_of db (sub_id (sv_row sv))))%nat) /\
  sumQ s_amount (List.filter is_paid sch) == total_paid (sv_row sv).
Proof.
  intros Hr Hu Hl Hp. pose proof (inv_rtc _ _ Hr (inv_init ps)) as Hinv.
  destruct (loadSubscription_Some _ _ _ Hl) as [[k Hk] [_ Hfind]].
  destruct (li_subs db Hinv k _ Hk) as [_ Hsched]. rewrite <- Hfind, Hp in Hsched.
  unfold loadData. rewrite (proj2 (String.eqb_neq uid "") Hu), Hl, Hp. cbn.
  exact (schedule_of_sched ca plan _ _ _ Hsched).
Qed.

(** C13: when the query of the subscription's payments comes back without
    data, the tab shows every month of the plan as pending with no gold,
    and reports nothing; the payment list is loaded independently. *)
Theorem schedule_failure_shows_unpaid ca fl db uid sv plan st :
  uid <> "" -> loadSubscription db uid = Some sv -> sv_plan sv = Some plan ->
  fl QSchedulePayments = true ->
  let r := loadData ca fl db uid st in
  fst r = Ret tt /\
  schedule (snd r) = map (fun i => mkSched i (monthly_amount plan) 0 Pending None)
                         (seq 1 (payment_months plan)) /\
  transactions (snd r) = (if fl QPayments then transactions st else user_payments db uid).
Proof.
  intros Hu Hl Hp Hf. unfold loadData. rewrite (proj2 (String.eqb_neq uid "") Hu), Hl, Hp, Hf.
  destruct (fl QPayments); cbn; rewrite build_schedule_map; split_and!; try done;
    apply map_ext; intros i; reflexivity.
Qed.

(** The null plan join: [plan.payment_months] throws after the payment
    list has been set, and the schedule keeps its previous value. *)
Lemma loadData_null_plan ca fl db uid sv st :
  uid <> "" -> loadSubscription db uid = Some sv -> sv_plan sv = None ->
  loadData ca fl db uid st =
    (Throw null_plan_error,
     if fl QPayments then st else set_transactions (user_payments db uid) st).
Proof.
  intros Hu Hl Hp. unfold loadData. rewrite (proj2 (String.eqb_neq uid "") Hu), Hl, Hp.
  by destruct (fl QPayments).
Qed.

(** After three payments of the sample run, the schedule shown for the
    sample plan is the ledger's. *)
Definition sample_clock (_ : PaymentRow) : string := "2024-01-01T00:00:00Z".

Lemma schedule_matches_ledger_witness :
  exists sv plan,
    loadSubscription (sample_run 3) "A" = Some sv /\ sv_plan sv = Some plan /\
    let sch := schedule (st_state (loadData sample_clock no_faults (sample_run 3) "A") tx_init) in
    map month sch = seq 1 (payment_months plan) /\
    (forall c, c ∈ sch ->
       s_status c = Paid <-> (month c <= length (monthly_of (sample_run 3) (sub_id (sv_row sv))))%nat) /\
    sumQ s_amount (List.filter is_paid sch) == total_paid (sv_row sv).
Proof.
  destruct (loadSubscription (sample_run 3) "A") as [sv|] eqn:E; [|vm_compute in E; discriminate].
  destruct (sv_plan sv) as [plan|] eqn:Ep.
  - exists sv, plan. split_and!; [done|done|].
    apply (schedule_matches_ledger sample_clock [sample_plan]); [apply rtc_sample_run|discriminate|done|done].
  - vm_compute in E. injection E as <-. vm_compute in Ep. discriminate.
Defined.

Lemma schedule_failure_shows_unpaid_witness :
  let r := loadData sample_clock (fun q => bool_decide (q = QSchedulePayments)) (sample_run 3) "A" tx_init in
  fst r = Ret tt /\
  schedule (snd r) = map (fun i => mkSched i 1000 0 Pending None) (seq 1 12) /\
  transactions (snd r) = user_payments (sample_run 3) "A".
Proof.
  destruct (loadSubscription (sample_run 3) "A") as [sv|] eqn:E; [|vm_compute in E; discriminate].
  pose proof E as E'. vm_compute in E'. injection E' as <-.
  destruct (schedule_failure_shows_unpaid sample_clock (fun q => bool_decide (q = QSchedulePayments))
              (sample_run 3) "A" _ sample_plan tx_init ltac:(discriminate) E eq_refl eq_refl)
    as (H1 & H2 & H3).
  split_and!; [exact H1|rewrite H2; reflexivity|rewrite H3; reflexivity].
Defined.

End Transactions.
