(* ===== verification/PlansTab.v ===== *)
(** * The plans tab as a screen ([src/app/(tabs)/plans.tsx])

    [Ledger.v] models the handlers of this file that write the store.
    This file models the screen around them: its state
    ([plans], [subscription], [payments], [goldRate], [loading]), the
    three loaders run on mount, the confirmation alerts with their
    buttons, the handlers that show alerts and reload after a payment,
    and the rendering of the plan cards and of the active plan's
    progress.

    An [Alert.alert] with buttons is kept in the state as the open
    [dialog]; pressing one of its buttons is an action.  Alerts without
    buttons are effects.  Numbers divided by a rate that may be [0] are
    JavaScript numbers ([JsNum]): [toFixed] prints [Infinity] and
    [NaN]. *)

From S2P Require Import Prelude Format JsNumber View Store GoldRate Ledger LedgerInv.
Import JsNumber View Store GoldRate Ledger LedgerInv.

Module PlansTab.

Local Open Scope asj_scope.

(** [n.toFixed(d)] as a text child. *)
Definition fixed_piece (d : nat) (n : JsNum) : Piece :=
  match n with
  | JFin q => PN q (Fixed d)
  | JInf true => PS "Infinity"
  | JInf false => PS "-Infinity"
  | JNaN => PS "NaN"
  end.

(** ** State *)

(** The open alert with buttons: [initiatePayment]'s "Payment Gateway",
    [processPaymentGateway]'s "Payment Successful" and
    [initiateMonthlyPayment]'s "Monthly Payment". *)
Inductive Dialog :=
| DGateway (plan : Plan)
| DGatewayOK (plan : Plan)
| DMonthly.

Record PlansScreen := mkPlans {
  plans : list Plan;
  subscription : option SubView;
  payments : list PaymentRow;
  goldRate : Q;
  loading : bool;
  dialog : option (Dialog * string * list Piece)
}.

Definition plans_init : PlansScreen := mkPlans [] None [] default_rate false None.

Definition set_loading (b : bool) (st : PlansScreen) : PlansScreen :=
  mkPlans (plans st) (subscription st) (payments st) (goldRate st) b (dialog st).

Definition set_dialog (d : option (Dialog * string * list Piece)) (st : PlansScreen) : PlansScreen :=
  mkPlans (plans st) (subscription st) (payments st) (goldRate st) (loading st) d.

(** [loadSubscription] of the screen: on data, set the subscription and
    load its monthly payments. *)
Definition reloadSubscription (db : DB) (uid : string) (st : PlansScreen) : PlansScreen :=
  if String.eqb uid "" then st else
  match loadSubscription db uid with
  | Some sv => mkPlans (plans st) (Some sv) (loadPayments db (sub_id (sv_row sv)))
                       (goldRate st) (loading st) (dialog st)
  | None => st
  end.

(** The mount effect: [loadPlans], [loadSubscription], [loadGoldRate]. *)
Definition plans_mount (db : DB) (uid : string) (st : PlansScreen) : PlansScreen :=
  let st1 := mkPlans (loadPlans db) (subscription st) (payments st) (goldRate st)
                     (loading st) (dialog st) in
  let st2 := reloadSubscription db uid st1 in
  mkPlans (plans st2) (subscription st2) (payments st2) (loadGoldRate (goldRate st2) db)
          (loading st2) (dialog st2).

(** ** Messages *)

(** [error.message] of what a handler's [catch] receives; the message
    of a Supabase error is the backend's, an input. *)
Definition error_message (sbmsg : LedgerWrite -> string) (e : LedgerError) : string :=
  match e with
  | PlanNotFound => "Plan not found"
  | DbFailed w => sbmsg w
  | BonusPaymentNull => "Cannot read properties of null (reading 'id')"
  | PlanJoinNull => "Cannot read properties of null (reading 'payment_months')"
  end.

(** [s || d] on a string. *)
Definition js_or_str (s d : string) : string := if String.eqb s "" then d else s.

(** ** Handlers *)

Inductive PlansAction :=
| PChoose (planId : string)     (** a plan card's button *)
| PPayMonth                     (** "Pay Month k" *)
| PDialogCancel                 (** the open alert's "Cancel" *)
| PDialogOK.                    (** the open alert's "Pay Now" or "OK" *)

(** [initiatePayment]: the "Payment Gateway" confirmation. *)
Definition initiatePayment (plan : Plan) (st : PlansScreen) : PlansScreen :=
  set_dialog (Some (DGateway plan, "Payment Gateway",
                    [PS "Proceed to pay ₹"; PN (monthly_amount plan) Plain; PS " for ";
                     PS (plan_name plan); PS "?"])) st.

(** [processPaymentGateway]: after the simulated delay, "Payment
    Successful" whose OK subscribes; the [try] cannot throw. *)
Definition processPaymentGateway (plan : Plan) (st : PlansScreen) : PlansScreen :=
  set_dialog (Some (DGatewayOK plan, "Payment Successful",
                    [PS "Your payment has been processed successfully!"])) (set_loading true st).

Section Handlers.
Variables (fl : Faults LedgerWrite) (sbmsg : LedgerWrite -> string) (uid : string) (today : nat).

(** [subscribeToPlan] with its [catch] and [finally]; without a profile
    it returns before the [try]. *)
Definition subscribe_handler (plan : Plan) (st : PlansScreen) (db : DB)
  : PlansScreen * DB * list Effect :=
  if String.eqb uid "" then (st, db, []) else
  match subscribeToPlan fl (plans st) uid (plan_id plan) today db with
  | (Ret _, db') => (set_loading false (reloadSubscription db' uid st), db', [])
  | (Throw e, db') =>
      (set_loading false st, db', [Alert "Error" (js_or_str (error_message sbmsg e) "Failed to subscribe")])
  end.

(** [initiateMonthlyPayment]: [subscription.plan.monthly_amount] throws
    in the handler when the plan join is [null] ([None]). *)
Definition initiateMonthlyPayment (st : PlansScreen) : option PlansScreen :=
  match subscription st with
  | None => Some st
  | Some sv =>
      match sv_plan sv with
      | None => None
      | Some plan =>
          Some (set_dialog (Some (DMonthly, "Monthly Payment",
                                  [PS "Proceed to pay ₹"; PN (monthly_amount plan) Plain;
                                   PS " for Month "; num (S (length (payments st))); PS "?"])) st)
      end
  end.

(** [processMonthlyPayment] and the screen half of [makePayment]: the
    alerts, the reload after success and the [finally]. *)
Definition processMonthlyPayment (st : PlansScreen) (db : DB) : PlansScreen * DB * list Effect :=
  let st1 := set_loading true st in
  match subscription st1 with
  | None => (st1, db, [])
  | Some sv =>
      if String.eqb uid "" then (st1, db, []) else
      match makePayment fl uid sv (payments st1) db with
      | (Ret (Paid m mg), db') =>
          (set_loading false (reloadSubscription db' uid st1), db',
           [AlertP "Success" [PS "Payment for month "; num m; PS " completed! You received ";
                              PN mg (Fixed 3); PS "mg of gold."]])
      | (Ret AllPaid, db') =>
          (set_loading false st1, db', [Alert "Info" "All payments completed! Waiting for bonus month."])
      | (Ret NoSubscription, db') => (set_loading false st1, db', [])
      | (Throw e, db') =>
          (set_loading false st1, db', [Alert "Error" (js_or_str (error_message sbmsg e) "Payment failed")])
      end
  end.

(** A press; [None] when the handler throws. *)
Definition plans_press (a : PlansAction) (st : PlansScreen) (db : DB)
  : option (PlansScreen * DB * list Effect) :=
  match a with
  | PChoose pid => Some (st, db, [Push ("/planScreen?planId=" +:+ pid)])
  | PPayMonth => (fun st' => (st', db, [])) <$> initiateMonthlyPayment st
  | PDialogCancel => Some (set_dialog None st, db, [])
  | PDialogOK =>
      match dialog st with
      | None => Some (st, db, [])
      | Some (d, _, _) =>
          let st0 := set_dialog None st in
          match d with
          | DGateway plan => Some (processPaymentGateway plan st0, db, [])
          | DGatewayOK plan => Some (subscribe_handler plan st0 db)
          | DMonthly => Some (processMonthlyPayment st0 db)
          end
      end
  end.

End Handlers.

(** ** The rendering *)

(** [renderPlanCard].  The JSX holds a stray ["/"] between the
    calculation and the button, rendered as a text child of a [View]. *)
Definition renderPlanCard (st : PlansScreen) (plan : Plan) : Node PlansAction :=
  let totalToPay := monthly_amount plan * inject_Z (Z.of_nat (payment_months plan)) in
  let bonusGoldGrams := fixed_piece 3 (js_div bonusAmountRs (goldRate st)) in
  let goldPerMonth := fixed_piece 3 (js_scale (js_div (monthly_amount plan) (goldRate st)) 1000) in
  Box [Box [T (plan_name plan)];
       Box [T "Today's Gold Rate"; Text [PS "₹"; PN (goldRate st) Plain; PS "/gram"]];
       Box [Box [Text [PS "₹"; PN (monthly_amount plan) Plain; PS "/month = "; goldPerMonth; PS "mg gold"]];
            Box [Text [num (duration_months plan); PS " months"]];
            Box [Text [bonusGoldGrams; PS "g gold bonus"]]];
       Box [Box [Text [PS "You Pay ("; num (payment_months plan); PS " months)"];
                 Text [PS "₹"; PN totalToPay (Fixed 2)]];
            Box [T "Company Bonus (Gold)"; Text [bonusGoldGrams; PS " grams"]]];
       T "/";
       Button (PChoose (plan_id plan)) (loading st || bool_decide (is_Some (subscription st)))
              [T (match subscription st with Some _ => "Already Subscribed" | None => "Subscribe Now" end)]].

(** One month of the progress list. *)
Definition payment_cell (paid : list PaymentRow) (monthNumber : nat) : Node PlansAction :=
  Box (Text [PS "Month "; num monthNumber] ::
       match List.find (fun p => Nat.eqb (month_number p) monthNumber) paid with
       | Some p => [Text [PS "₹"; PN (amount p) Plain]]
       | None => []
       end).

Definition banner_text : string := "All payments completed! Bonus credited.".

(** [renderActiveSubscription]; [subscription.plan.payment_months]
    throws on a [null] plan join and the render fails ([None]). *)
Definition renderActiveSubscription (st : PlansScreen) : option (list (Node PlansAction)) :=
  match subscription st with
  | None => Some []
  | Some sv =>
      match sv_plan sv with
      | None => None
      | Some plan =>
          let totalMonths := payment_months plan in
          let paidMonths := length (payments st) in
          Some [Box ([T "Active Plan Progress"; T (plan_name plan);
                      Box [Box [Box []];
                           Text [num paidMonths; PS " / "; num totalMonths; PS " months completed"]];
                      Box (map (payment_cell (payments st)) (seq 1 totalMonths))] ++
                     when (Nat.ltb paidMonths totalMonths)
                       (Button PPayMonth (loading st)
                          [Text (if loading st then [PS "Processing..."]
                                 else [PS "Pay Month "; num (S paidMonths); PS " (₹";
                                       PN (monthly_amount plan) Plain; PS ")"])]) ++
                     when (Nat.eqb paidMonths totalMonths) (Box [Box []; T banner_text]))]
      end
  end.

Definition plans_view (st : PlansScreen) : option (Node PlansAction) :=
  act ← renderActiveSubscription st;
  Some (Box ([Box [T "Plans"; T "Choose your gold saving plan"]] ++ act ++
             match subscription st with
             | Some _ => []
             | None => [Box (map (renderPlanCard st) (plans st))]
             end)).

(** ** Runs of the tab *)

(** Mounting, or pressing any action with any backend behaviour. *)
Inductive plans_step : PlansScreen * DB -> PlansScreen * DB -> Prop :=
| pst_mount uid st db : plans_step (st, db) (plans_mount db uid st, db)
| pst_press fl sbmsg uid today a st db st' db' effs :
    plans_press fl sbmsg uid today a st db = Some (st', db', effs) -> plans_step (st, db) (st', db').

(** No open alert leads to a subscription. *)
Definition no_gateway_dialog (st : PlansScreen) : Prop :=
  match dialog st with Some (DGateway _, _, _) | Some (DGatewayOK _, _, _) => False | _ => True end.

(** ** Lemmas *)

Lemma makePayment_subs_dom fl u sv paid (D : gset nat) :
  st_preserves (fun db => dom (user_subscriptions db) = D) (makePayment fl u sv paid).
Proof.
  unfold makePayment, pay_bonus. st_preserves_split.
  all: try apply sb_write_preserves; try apply sb_insert_payment_preserves.
  all: intros db <-; cbn; by rewrite ?dom_alter_L.
Qed.

Lemma reloadSubscription_dialog db uid st : dialog (reloadSubscription db uid st) = dialog st.
Proof. unfold reloadSubscription. case_if; [done|]. by destruct (loadSubscription db uid). Qed.

(** A press of the tab keeps the subscriptions' keys and opens no
    gateway alert. *)
Local Ltac press_done :=
  intros [= <- <- _]; split;
    [try assumption; unfold no_gateway_dialog; cbn; rewrite ?reloadSubscription_dialog; done
    | first [reflexivity | assumption]].

Lemma plans_press_inv fl sbmsg uid today a st db st' db' effs :
  no_gateway_dialog st -> plans_press fl sbmsg uid today a st db = Some (st', db', effs) ->
  no_gateway_dialog st' /\ dom (user_subscriptions db') = dom (user_subscriptions db).
Proof.
  intros Hd. destruct a; cbn; [press_done| |press_done|].
  - unfold initiateMonthlyPayment. destruct (subscription st) as [sv|]; [|press_done].
    destruct (sv_plan sv); [press_done|done].
  - destruct (dialog st) as [[[dg ?] ?]|] eqn:Ed; [|press_done].
    unfold no_gateway_dialog in Hd. rewrite Ed in Hd.
    destruct dg; try done. unfold processMonthlyPayment. cbn.
    destruct (subscription st) as [sv|]; [|press_done].
    case_if; [press_done|].
    pose proof (makePayment_subs_dom fl uid sv (payments st) _ db eq_refl) as Hm.
    destruct (makePayment fl uid sv (payments st) db) as [[[]|] db''] eqn:Em; cbn in Hm;
      press_done.
Qed.


Lemma plans_mount_dialog db uid st : dialog (plans_mount db uid st) = dialog st.
Proof. unfold plans_mount. cbn. by rewrite reloadSubscription_dialog. Qed.

Lemma plans_step_inv x y :
  plans_step x y -> no_gateway_dialog x.1 ->
  no_gateway_dialog y.1 /\ dom (user_subscriptions y.2) = dom (user_subscriptions x.2).
Proof.
  destruct 1 as [uid st db|fl sbmsg uid today a st db st' db' effs Hp]; cbn; intros Hd.
  - unfold no_gateway_dialog in *. by rewrite plans_mount_dialog.
  - exact (plans_press_inv _ _ _ _ _ _ _ _ _ _ Hd Hp).
Qed.

Lemma plans_rtc_inv x y :
  rtc plans_step x y -> no_gateway_dialog x.1 ->
  no_gateway_dialog y.1 /\ dom (user_subscriptions y.2) = dom (user_subscriptions x.2).
Proof.
  induction 1 as [x|x y z Hxy Hyz IH]; [done|]. intros Hx.
  destruct (plans_step_inv x y Hxy Hx) as [Hy Hd]. destruct (IH Hy) as [Hz Hd'].
  split; [done|]. by rewrite Hd', Hd.
Qed.

Lemma cells_actions paid l : flat_map actions (map (payment_cell paid) l) = [].
Proof.
  induction l as [|i l IH]; [done|]. cbn -[payment_cell]. rewrite IH, app_nil_r.
  unfold payment_cell. cbn. by destruct (List.find _ _).
Qed.

Lemma cells_texts paid l ps :
  ps ∈ flat_map texts (map (payment_cell paid) l) -> length ps = 2%nat.
Proof.
  induction l as [|i l IH]; cbn -[payment_cell]; [set_solver|].
  rewrite elem_of_app. intros [Hc|Hc]; [|by apply IH].
  unfold payment_cell in Hc. cbn in Hc.
  destruct (List.find _ _); cbn in Hc; rewrite ?app_nil_r in Hc; set_solver.
Qed.

(** The mounted tab of a user with a loaded subscription. *)
Lemma plans_mount_sub db uid sv :
  uid <> "" -> loadSubscription db uid = Some sv ->
  subscription (plans_mount db uid plans_init) = Some sv /\
  payments (plans_mount db uid plans_init) = loadPayments db (sub_id (sv_row sv)) /\
  loading (plans_mount db uid plans_init) = false.
Proof.
  intros Hu Hl. unfold plans_mount, reloadSubscription. cbn.
  rewrite (proj2 (String.eqb_neq uid "") Hu), Hl. done.
Qed.

(** ** Theorems *)

(** C28: no run of the plans tab, mounting it and pressing any of its
    actions whatever the backend answers, ever inserts a subscription:
    the plan cards only navigate to [planScreen], so the gateway alert
    that leads to [subscribeToPlan] never opens. *)
Theorem plans_tab_never_subscribes db st' db' :
  rtc plans_step (plans_init, db) (st', db') ->
  dom (user_subscriptions db') = dom (user_subscriptions db).
Proof. intros Hr. by destruct (plans_rtc_inv _ _ Hr I). Qed.

(** After the latest rate was published as 0, every plan card of the
    mounted tab announces an [Infinity] gram bonus. *)
Theorem zero_rate_card_infinity uid plan :
  [PS "Infinity"; PS "g gold bonus"] ∈ texts (renderPlanCard (plans_mount zero_rate_db uid plans_init) plan).
Proof.
  assert (Hr : goldRate (plans_mount zero_rate_db uid plans_init) = 0).
  { reflexivity. }
  unfold renderPlanCard. rewrite Hr. cbn. set_solver.
Qed.

(** A run on the sample store: mount, press "Pay Month 1", confirm. *)
Definition sbmsg0 (_ : LedgerWrite) : string := "request failed".
Definition demo_mounted : PlansScreen := plans_mount (sample_run 0) "A" plans_init.
Definition demo_dialog : PlansScreen := default demo_mounted (initiateMonthlyPayment demo_mounted).
Definition demo_paid : PlansScreen * DB * list Effect :=
  processMonthlyPayment no_faults sbmsg0 "A" (set_dialog None demo_dialog) (sample_run 0).

Lemma plans_tab_never_subscribes_witness :
  length (Store.payments demo_paid.1.2) = 1%nat /\
  dom (user_subscriptions demo_paid.1.2) = dom (user_subscriptions (sample_run 0)).
Proof.
  split; [vm_compute; reflexivity|].
  apply (plans_tab_never_subscribes _ demo_paid.1.1).
  apply (rtc_l _ _ (demo_mounted, sample_run 0)); [apply (pst_mount "A")|].
  apply (rtc_l _ _ (demo_dialog, sample_run 0)).
  { apply (pst_press no_faults sbmsg0 "A" 0 PPayMonth _ _ _ _ []). vm_compute. reflexivity. }
  apply (rtc_l _ _ (demo_paid.1.1, demo_paid.1.2)); [|apply rtc_refl].
  apply (pst_press no_faults sbmsg0 "A" 0 PDialogOK _ _ _ _ demo_paid.2). vm_compute. reflexivity.
Defined.

(** C14: composed with the ledger: in every reachable store, the mounted
    plans tab of a user with an active plan offers exactly one action,
    "Pay Month k+1", while fewer than [payment_months] monthly payments
    are recorded, and shows "All payments completed! Bonus credited."
    exactly when all are; then, for a plan of at least one month, the
    store holds the single 4500 bonus payment the banner announces. *)
Theorem progress_matches_ledger ps db uid sv plan :
  rtc ledger_step (init_db ps) db -> uid <> "" ->
  loadSubscription db uid = Some sv -> sv_plan sv = Some plan ->
  plan_name plan <> banner_text ->
  let k := length (monthly_of db (sub_id (sv_row sv))) in
  exists v, plans_view (plans_mount db uid plans_init) = Some v /\
    actions v = (if Nat.ltb k (payment_months plan) then [PPayMonth] else []) /\
    ([PS banner_text] ∈ texts v <-> k = payment_months plan) /\
    (k = payment_months plan -> (0 < payment_months plan)%nat ->
       exists b, bonus_of db (sub_id (sv_row sv)) = [b] /\ amount b = bonusAmountRs).
Proof.
  intros Hr Hu Hl Hp Hn k. pose proof (inv_rtc _ _ Hr (inv_init ps)) as Hinv.
  destruct (plans_mount_sub db uid sv Hu Hl) as (Hs & Hpay & Hload).
  unfold plans_view, renderActiveSubscription. rewrite Hs, Hp, Hpay, Hload, length_loadPayments.
  fold k. eexists. split; [reflexivity|]. split_and!.
  - cbn -[Nat.ltb Nat.eqb payment_cell]. rewrite cells_actions.
    by destruct (Nat.ltb _ _), (Nat.eqb _ _).
  - cbn -[Nat.ltb Nat.eqb payment_cell]. rewrite app_nil_r.
    pose proof (cells_texts (loadPayments db (sub_id (sv_row sv))) (seq 1 (payment_months plan))
                            [PS banner_text]) as Hc.
    unfold banner_text in *.
    destruct (Nat.ltb_spec k (payment_months plan)), (Nat.eqb_spec k (payment_months plan));
      cbn [when flat_map texts app T]; rewrite ?app_nil_r; try lia;
      (split; [|intros; try lia]);
      repeat rewrite ?elem_of_cons, ?elem_of_app, ?elem_of_list_singleton, ?elem_of_nil;
      try (intros Hin; destruct_or! Hin; simplify_eq/=; try done;
           solve [by specialize (Hc Hin) | by apply Hn]);
      do 6 right; by left.
  - intros Hk Hpos. destruct (loadSubscription_Some _ _ _ Hl) as [[j Hj] [_ Hfind]].
    destruct (li_subs db Hinv j _ Hj) as [_ Hsched]. rewrite <- Hfind, Hp in Hsched.
    destruct Hsched as (_ & _ & _ & _ & Hb). unfold bonus_due in Hb. fold k in Hb.
    rewrite (proj2 (Nat.eqb_eq k _) Hk), (proj2 (Nat.ltb_lt _ _) Hpos) in Hb.
    destruct Hb as [(b & Hb & Hamt & _) _]. eauto.
Qed.

Lemma progress_matches_ledger_witness :
  exists sv plan,
    loadSubscription (sample_run 3) "A" = Some sv /\ sv_plan sv = Some plan /\
    let k := length (monthly_of (sample_run 3) (sub_id (sv_row sv))) in
    exists v, plans_view (plans_mount (sample_run 3) "A" plans_init) = Some v /\
      actions v = (if Nat.ltb k (payment_months plan) then [PPayMonth] else []) /\
      ([PS banner_text] ∈ texts v <-> k = payment_months plan) /\
      (k = payment_months plan -> (0 < payment_months plan)%nat ->
         exists b, bonus_of (sample_run 3) (sub_id (sv_row sv)) = [b] /\ amount b = bonusAmountRs).
Proof.
  destruct (loadSubscription (sample_run 3) "A") as [sv|] eqn:E; [|vm_compute in E; discriminate].
  pose proof E as E'. vm_compute in E'. injection E' as Hsv.
  assert (Hp : sv_plan sv = Some sample_plan) by (rewrite <- Hsv; reflexivity).
  exists sv, sample_plan. split_and!; [done|done|].
  apply (progress_matches_ledger [sample_plan]); [apply rtc_sample_run|discriminate|done|done|].
  vm_compute. discriminate.
Defined.

End PlansTab.
