(* ===== verification/MockScreens.v ===== *)
(** * The demonstration screens of the tab group

    [planScreen.tsx] (the installment payment the plan cards open),
    [myActivityPlan.tsx], [planDetail.tsx], [option.tsx], [wallet.tsx]
    and [dummy.tsx] show hard-coded data and simulate their actions: no
    handler of these files reads or writes the store.  Each is a
    [Module] with its state, its handlers and its rendering, so that
    what the user is shown and where the buttons lead can be stated.

    Route parameters ([useLocalSearchParams]) are [SearchParam]s: absent,
    one string, or repeated (an array). *)

From S2P Require Import Prelude Format JsNumber View Store.
Import JsNumber View Store.

Inductive SearchParam := SPNone | SPOne (s : string) | SPMany (l : list string).

(** [Array.isArray(p) ? p[0] : p || '']; an empty array gives
    [undefined], printed as nothing. *)
Definition param_string (p : SearchParam) : string :=
  match p with SPNone => "" | SPOne s => s | SPMany l => default "" (head l) end.

(** [profile?.x || d] on a string field. *)
Definition str_or (o : option string) (d : string) : string :=
  match o with Some s => if String.eqb s "" then d else s | None => d end.

(** The user header of [myActivityPlan] and [planDetail]. *)
Definition user_header {A} (prof : option Profile) : Node A :=
  Box [Box [T (str_or (full_name <$> prof) "Demo User");
            Box [T (str_or (phone_number <$> prof) "1234567890")]]].

(** ** [planScreen.tsx]: the installment payment *)

Module Installment.

Record IState := mkI {
  amount : string;
  paymentMethod : string;
  processing : bool;
  success : bool;
  errorMsg : string
}.

Definition i_init : IState := mkI "" "UPI" false false "".

Definition min_error : string := "Minimum installment must be ₹5000".

(** [handlePayNow]: [!amount || Number(amount) < 5000] refuses; otherwise
    the processing modal opens until the timer fires. *)
Definition handlePayNow (st : IState) : IState :=
  if String.eqb (amount st) "" || js_lt (js_Number (amount st)) 5000
  then mkI (amount st) (paymentMethod st) (processing st) (success st) min_error
  else mkI (amount st) (paymentMethod st) true (success st) "".

(** The [setTimeout] callback, 2 s later. *)
Definition timer_done (st : IState) : IState :=
  mkI (amount st) (paymentMethod st) false true (errorMsg st).

Inductive IAction := ISetAmount (s : string) | IMethod (m : string) | IPay | ITimer | IContinue.

Definition methods : list string := ["UPI"; "Card"; "NetBanking"; "Cash"].

Definition i_press (a : IAction) (st : IState) : IState * list Effect :=
  match a with
  | ISetAmount s => (mkI s (paymentMethod st) (processing st) (success st) (errorMsg st), [])
  | IMethod m => (mkI (amount st) m (processing st) (success st) (errorMsg st), [])
  | IPay => (handlePayNow st, [])
  | ITimer => (timer_done st, [])
  | IContinue => (st, [Push "/(tabs)/myActivityPlan"])
  end.

Definition i_view (planId : SearchParam) (st : IState) : Node IAction :=
  Box ([T "Installment Payment"; Text [PS "Plan ID: "; PS (param_string planId)];
        T "Enter Installment Amount *"; Input "amount" (amount st) false] ++
       when (negb (String.eqb (errorMsg st) "")) (T (errorMsg st)) ++
       [T "Select Payment Mode";
        Box (map (fun m => Button (IMethod m) false [T m]) methods);
        Button IPay false [T "Proceed to Pay"];
        Modal (processing st) [Box [Box [Spinner; T "Processing Payment…"]]];
        Modal (success st)
          [Box [Box [T "✔"; T "Payment Successful"; T "Amount"; Text [PS "₹"; PS (amount st)];
                     T "Method"; T (paymentMethod st);
                     Button IContinue false [T "Continue"]]]]]).

End Installment.

(** ** [myActivityPlan.tsx] and [planDetail.tsx] *)

Module ActivityPlan.

(** The [Plan] shape of the two screens. *)
Record MockPlan := mkMock {
  m_id : string;
  m_name : string;
  m_monthly_amount : Q;
  m_duration_months : Z;
  m_bonus_percentage : Q;
  m_bonus_amount : Q;
  m_status : string;
  m_months_paid : Z;
  m_pending_amount : Q
}.

(** [fetchPlans]'s hard-coded list. *)
Definition activity_data : list MockPlan :=
  [mkMock "1" "Gold Plan" 1000 12 5 500 "active" 5 7000;
   mkMock "2" "Silver Plan" 500 6 3 150 "active" 5 500;
   mkMock "3" "Platinum Plan" 2000 24 7 1400 "active" 5 38000;
   mkMock "4" "Bronze Plan" 300 3 2 18 "active" 2 300].

(** [remainingMonths > 0 ? pending_amount / remainingMonths : 0]. *)
Definition pendingPerMonth (p : MockPlan) : Q :=
  let remainingMonths := (m_duration_months p - m_months_paid p)%Z in
  if Z.ltb 0 remainingMonths then m_pending_amount p / inject_Z remainingMonths else 0.

Record AState := mkA { a_plans : list MockPlan; a_loading : bool }.

Definition a_init : AState := mkA [] true.

(** The mount effect: [fetchPlans] with its [finally]. *)
Definition fetchPlans (st : AState) : AState := mkA activity_data false.

Inductive AAction := AOpen (planId : string) | AHistory | AInvite.

Definition zint (z : Z) : Piece := PN (inject_Z z) Plain.

Definition plan_card (p : MockPlan) : Node AAction :=
  Button (AOpen (m_id p)) false
    [Box [T (m_name p)];
     Text [PS "Monthly: ₹"; PN (m_monthly_amount p) Plain];
     Text [PS "Duration: "; zint (m_duration_months p); PS " months | Paid: "; zint (m_months_paid p);
           PS " "; PS "months | Status: "; PS (Format.toUpperCase (m_status p))];
     Text [PS "Pending Payment: ₹"; PN (m_pending_amount p) Plain; PS " | ₹";
           PN (pendingPerMonth p) (Fixed 0); PS "/month"]].

Definition a_view (prof : option Profile) (st : AState) : Node AAction :=
  if a_loading st then Box [Spinner] else
  Box ([user_header prof; T "My Activity Plans"] ++ map plan_card (a_plans st) ++
       [Box [Button AHistory false [T "Go to Referral History"];
             Button AInvite false [T "Invite & Earn"]]]).

(** [router.push({pathname, params: {planId}})] is the path with the
    query string. *)
Definition a_press (a : AAction) (st : AState) : AState * list Effect :=
  match a with
  | AOpen pid => (st, [Push ("/(tabs)/planDetail?planId=" +:+ pid)])
  | AHistory => (st, [Push "/(tabs)/planDetail"])
  | AInvite => (st, [Push "/wallet"])
  end.

(** [planDetail.tsx]: [fetchPlanDetail] builds the plan from the id
    alone; without an id nothing is fetched and the screen renders
    [null] ([None]). *)
Definition detail_of (planId : string) : MockPlan :=
  let pick {A} (a b c d : A) :=
    if String.eqb planId "1" then a else if String.eqb planId "2" then b
    else if String.eqb planId "3" then c else d in
  mkMock (if String.eqb planId "" then "1" else planId)
         (pick "Gold Plan" "Silver Plan" "Platinum Plan" "Bronze Plan")
         (pick 1000 500 2000 300) (pick 12 6 24 3)%Z (pick 5 3 7 2) (pick 500 150 1400 18)
         (pick "active" "completed" "active" "completed") (pick 10 6 20 3)%Z
         (pick 2000 0 8000 0).

Definition detail_mount (planId : option string) : option MockPlan :=
  match planId with Some pid => if String.eqb pid "" then None else Some (detail_of pid) | None => None end.

Definition detail_view (prof : option Profile) (plan : option MockPlan) : option (Node unit) :=
  p ← plan;
  Some (Box [user_header prof; T (m_name p);
             Box [Box [T "Monthly Amount:"; Text [PS "₹"; PN (m_monthly_amount p) Plain]];
                  Box [T "Duration:"; Text [zint (m_duration_months p); PS " months"]];
                  Box [T "Months Paid:"; Text [zint (m_months_paid p)]];
                  Box [T "Bonus:"; Text [PN (m_bonus_amount p) Plain; PS " (";
                                         PN (m_bonus_percentage p) Plain; PS "%)"]];
                  Box [T "Status:"; T (Format.toUpperCase (m_status p))];
                  Box [T "Pending Payment:";
                       Text [PS "₹"; PN (m_pending_amount p) Plain; PS " | ₹";
                             PN (pendingPerMonth p) (Fixed 0); PS "/month"]]]]).

End ActivityPlan.

(** ** [option.tsx]: the static plan summary *)

Module OptionPlan.

Definition userId : string := "USER12345".
Definition monthlyAmount : Q := 1500.
Definition durationMonths : Q := 12.
Definition bonusPercentage : Q := 5.
Definition goldRate : Q := 8500.
Definition startDate : string := "01/01/2025".
Definition endDate : string := "01/01/2026".

(** The three derived strings, each through [toFixed(2)]; the total
    reads the bonus string back with [Number]. *)
Definition goldSavingGram : string := Format.toFixed 2 (monthlyAmount * durationMonths / goldRate).
Definition bonusAmount : string := Format.toFixed 2 (monthlyAmount * durationMonths * bonusPercentage / 100).
Definition totalPayable : option string :=
  match js_Number bonusAmount with
  | JFin b => Some (Format.toFixed 2 (monthlyAmount * durationMonths + b))
  | _ => None
  end.

Inductive OAction := OConfirm.

Definition detail (label : string) (value : list Piece) : Node OAction :=
  Box [Text [PS label; PS ":"]; Text value].

Definition o_view (planId : SearchParam) : Node OAction :=
  Box [T "Plan Details";
       Box [detail "Plan ID" [PS (param_string planId)];
            detail "User ID" [PS userId];
            detail "Gold Rate" [PS "₹ "; PN goldRate Plain];
            detail "Start Date" [PS startDate];
            detail "End Date" [PS endDate];
            detail "Duration" [PN durationMonths Plain; PS " months"];
            detail "Monthly Amount" [PS "₹ "; PN monthlyAmount Plain];
            detail "Bonus Amount" [PS "₹ "; PS bonusAmount];
            detail "Total Payable" [PS "₹ "; PS (default "NaN" totalPayable)];
            detail "Gold Saving (Grams)" [PS goldSavingGram; PS " g"]];
       Button OConfirm false [T "Pay Confirm"]].

Definition o_press (planId : SearchParam) (a : OAction) : list Effect :=
  match a with OConfirm => [Push ("/(tabs)/myActivityPlan?planId=" +:+ param_string planId)] end.

End OptionPlan.

(** ** [wallet.tsx]: the static wallet *)

Module WalletMock.

Record Entry := mkEntry { e_id : string; e_type : string; e_amount : Q; e_date : string }.

Definition user_fields : list (string * string) :=
  [("User ID", "U12345"); ("Name", "Madhumitha"); ("Email", "madhumitha@example.com");
   ("Phone", "+91 98765 43210")].

Definition earnings : list Entry :=
  [mkEntry "e1" "Referral" 500 "2025-11-01"; mkEntry "e2" "Bonus" 200 "2025-11-05"].

Definition commissions : list Entry :=
  [mkEntry "c1" "Sale" 150 "2025-11-02"; mkEntry "c2" "Level Bonus" 120 "2025-11-04";
   mkEntry "c3" "Team Bonus" 250 "2025-11-09"].

Definition totalEarnings : Q := fold_sumQ e_amount earnings.
Definition totalCommissions : Q := fold_sumQ e_amount commissions.

Definition entry_row (e : Entry) : Node unit :=
  Box [T (e_type e); Text [PS "₹"; PN (e_amount e) Plain]; Text [PD (e_date e) DateDefault]].

Definition w_view : Node unit :=
  Box [Box (T "User Details" :: map (fun '(l, v) => Box [T l; T v]) user_fields);
       Box [Box [T "Total Earnings"; Text [PS "₹"; PN totalEarnings Plain]];
            Box [T "Total Commissions"; Text [PS "₹"; PN totalCommissions Plain]]];
       Box (T "Earnings" :: map entry_row earnings);
       Box (T "Commissions" :: map entry_row commissions)].

End WalletMock.

(** ** [dummy.tsx]: the static referral programme *)

Module DummyReferral.

Definition referralCode : string := "MADHU123".
Definition inviteLink : string := "https://yourapp.com/ref/" +:+ referralCode.

Record Row := mkRow { r_amount : Q; r_percent : Q }.

Definition rows : list Row :=
  [mkRow 150 10; mkRow 45 3; mkRow 30 2; mkRow (45 # 2) (3 # 2); mkRow (45 # 4) (3 # 4);
   mkRow (45 # 4) (3 # 4); mkRow (15 # 2) (1 # 2); mkRow (15 # 2) (1 # 2); mkRow (15 # 2) (1 # 2);
   mkRow (15 # 2) (1 # 2)].

Definition bonus : Q := 200.
Definition totalAmount : Q := fold_sumQ r_amount rows.
Definition totalPercent : Q := fold_sumQ r_percent rows.
Definition totalReferralBonus : Q := totalAmount + bonus.

Inductive DAction := DCopy | DShare | DHistory | DEarn.

(** [copyToClipboard] writes the clipboard (not modelled) and alerts;
    [shareLink] opens the share sheet, whose failure only alerts. *)
Definition d_press (shareFails : bool) (a : DAction) : list Effect :=
  match a with
  | DCopy => [Alert "Copied!" "Copied to clipboard."]
  | DShare => if shareFails then [Alert "Error" "Unable to share link."]
              else [Share ("Join me using my referral link: " +:+ inviteLink)]
  | DHistory => [Push "/(tabs)/myActivityPlan"]
  | DEarn => [Push "/wallet"]
  end.

Definition row_view (i : nat) (r : Row) : Node DAction :=
  Box [Text [num (S i)]; Text [PS "₹ "; PN (r_amount r) (Fixed 2)]; Text [PS "("; PN (r_percent r) Plain; PS "%)"]].

Definition d_view : Node DAction :=
  Box [T "Referral Program";
       Box [T "Total Referral Bonus"; Text [PS "₹ "; PN totalReferralBonus (Fixed 2)]];
       Box [T "Your Referral Code"; T referralCode; Button DCopy false [T "Copy Code"]];
       Box [T "Invite Link"; T inviteLink; Button DShare false [T "Share Link"]];
       T "Referral Bonus Table";
       Box ([Box [T "#"; T "Amount"; T "%"]] ++ imap row_view rows ++
            [Box [T "Extra Bonus"; Text [PS "₹ "; PN bonus (Fixed 2)]];
             Box [Text [PS "Total ₹ "; PN (totalAmount + bonus) Plain; PS " (";
                        PN totalPercent (Fixed 1); PS "%)"]]]);
       Box [Button DHistory false [T "Go to Referral History"];
            Button DEarn false [T " Earn & commissions"]]].

End DummyReferral.

(** ** Theorems *)

Import Installment ActivityPlan.

(** [handlePayNow] accepts exactly a non-empty amount whose [Number] is
    not below 5000: [NaN] and [Infinity] pass. *)
Lemma handlePayNow_accepts s m e :
  processing (handlePayNow (mkI s m false false e)) = true <->
  s <> "" /\ js_lt (js_Number s) 5000 = false.
Proof.
  unfold handlePayNow. cbn [amount processing].
  destruct (String.eqb_spec s ""), (js_lt (js_Number s) 5000); cbn; intuition congruence.
Qed.

(** the installment screen confirms a payment of any non-empty amount
    that is not a number: the check [Number(amount) < 5000] is false on
    [NaN], so after the simulated delay the screen shows "Payment
    Successful" with the text typed as the amount, and no request is
    made. *)
Theorem installment_accepts_nan s planId :
  s <> "" -> js_Number s = JNaN ->
  let st := timer_done (handlePayNow (mkI s "UPI" false false "")) in
  success st = true /\ [PS "Payment Successful"] ∈ texts (i_view planId st) /\
  [PS "₹"; PS s] ∈ texts (i_view planId st).
Proof.
  intros Hs Hn st.
  assert (Hp : processing (handlePayNow (mkI s "UPI" false false "")) = true)
    by (apply handlePayNow_accepts; by rewrite Hn).
  assert (He : errorMsg (handlePayNow (mkI s "UPI" false false "")) = "").
  { unfold handlePayNow. cbn [amount]. rewrite Hn. destruct (String.eqb_spec s ""); [done|].
    reflexivity. }
  assert (Ha : amount (handlePayNow (mkI s "UPI" false false "")) = s).
  { unfold handlePayNow. by destruct (_ || _). }
  subst st. unfold i_view, timer_done. cbn [success amount errorMsg processing paymentMethod].
  rewrite He, Ha. cbn. split; [done|]. split; set_solver.
Qed.

Lemma installment_accepts_nan_witness :
  ("abc" <> "" /\ js_Number "abc" = JNaN) /\
  let st := timer_done (handlePayNow (mkI "abc" "UPI" false false "")) in
  success st = true /\ [PS "Payment Successful"] ∈ texts (i_view SPNone st) /\
  [PS "₹"; PS "abc"] ∈ texts (i_view SPNone st).
Proof.
  split; [split; [discriminate|vm_compute; reflexivity]|].
  apply installment_accepts_nan; [discriminate|vm_compute; reflexivity].
Defined.
