(* ===== verification/Navigation.v ===== *)
(** * The profile tab and the routes between screens

    [ProfileScreen] models [src/app/(tabs)/profile.tsx] over the
    [AuthContext] of [Auth.v]: the card, the admin entry shown to
    administrators, and the sign-out confirmation.

    [Navigation] joins the screens: a [Route] for each file under
    [src/app], the reading of the paths the code pushes, and the step
    relation [nav] whose edges are the navigation effects the modelled
    handlers produce, plus the tab bar.  The root layout
    ([src/app/_layout.tsx]) is a stack over every route; the tab layout
    ([src/app/(tabs)/_layout.tsx]) declares six tabs, and expo-router
    adds the other files of the group (which the layout does not hide
    with [href: null]) as further tabs opened without parameters. *)

From Stdlib Require Import Ascii.
From S2P Require Import Prelude Format JsNumber View Store Ledger Auth Register Referrals Admin Home PlansTab MockScreens.
Import View Store Ledger Auth Register Referrals Admin Home PlansTab.

(** ** [profile.tsx] *)

Module ProfileScreen.

Inductive PAction := PAdmin | PWallet | PReferrals | PSignOut | PCancel | PConfirmSignOut.

(** [profile?.is_admin === true]. *)
Definition isAdmin (c : AuthCtx) : bool :=
  match profile c with Some p => is_admin p | None => false end.

Definition p_view (c : AuthCtx) : Node PAction :=
  let prof := profile c in
  Box [Box [T "Profile"];
       Box [Box []; T (str_or (full_name <$> prof) "Demo User");
            T (str_or (phone_number <$> prof) "1234567890");
            Box [T (str_or (Format.toUpperCase <$> (prof_status <$> prof)) "ACTIVE")]];
       Box ([T "Account Details";
             Box [Box [Box [T "Phone Number"]; T (str_or (phone_number <$> prof) "1234567890")]];
             Box [Box [Box [T "Referral Code"]; T (str_or (referral_code <$> prof) "REF000000")]]] ++
            when (negb (String.eqb (str_or (prof ≫= referred_by) "") ""))
                 (Box [Box [Box [T "Referred By"]; T "Yes"]]));
       Box ([T "Quick Actions"] ++ when (isAdmin c) (Button PAdmin false [T "Admin Panel"]) ++
            [Button PWallet false [T "View Wallet"]; Button PReferrals false [T "My Referrals"]]);
       Box [Button PSignOut false [T "Sign Out"]];
       Box [T "A S JEWELLERS"; T "Version 1.0.0"]].

(** A press; the sign-out confirmation is the open alert
    ([dialog = true]), and its "Sign Out" button awaits [signOut] and
    replaces the route by the login screen. *)
Definition p_press (a : PAction) (dialog : bool) (srv : AuthServer) (dev : Device) (c : AuthCtx)
  : bool * AuthServer * Device * AuthCtx * list Effect :=
  match a with
  | PAdmin => (dialog, srv, dev, c, [Push "/admin"])
  | PWallet => (dialog, srv, dev, c, [Push "/(tabs)"])
  | PReferrals => (dialog, srv, dev, c, [Push "/referrals"])
  | PSignOut => (true, srv, dev, c, [])
  | PCancel => (false, srv, dev, c, [])
  | PConfirmSignOut =>
      if dialog then let '(srv', dev', c') := ctx_signOut srv dev c in
                     (false, srv', dev', c', [Replace "/auth/login"])
      else (dialog, srv, dev, c, [])
  end.

End ProfileScreen.

(** ** Routes *)

Module Navigation.
Import ProfileScreen Installment ActivityPlan OptionPlan DummyReferral.

(** The screens of the [(tabs)] group. *)
Inductive TabRoute :=
| THome | TWallet | TPlans | TTransactions | TReferrals | TProfile
| TPlanScreen (p : SearchParam) | TActivity (p : SearchParam) | TDetail (p : option string)
| TOption (p : SearchParam) | TDummy.

Inductive Route :=
| RIndex | RLogin | RRegister | RTab (t : TabRoute) | RAccounts | RKyc (accountId : string)
| RTreeScreen | RAdmin | RAdminUsers | RAdminTransactions | RAdminWithdrawals
| RNotFound (path : string).

(** The six tabs [(tabs)/_layout.tsx] declares, in order. *)
Definition declared_tabs : list TabRoute := [THome; TWallet; TPlans; TTransactions; TReferrals; TProfile].

(** The tab bar: the declared tabs and the other files of the group. *)
Definition tab_bar : list TabRoute :=
  declared_tabs ++ [TPlanScreen SPNone; TActivity SPNone; TDetail None; TOption SPNone; TDummy].

(** ** Reading a path *)

Definition chars_prefix_drop (p l : list ascii) : option (list ascii) :=
  if Format.chars_prefix p l then Some (drop (length p) l) else None.

Fixpoint split_at (c : ascii) (l : list ascii) : list ascii * list ascii :=
  match l with
  | d :: l' => if Ascii.eqb d c then ([], l') else let '(a, b) := split_at c l' in (d :: a, b)
  | [] => ([], [])
  end.

Definition str (l : list ascii) : string := String.string_of_list_ascii l.

(** [?planId=v]: the only query the code builds. *)
Definition planId_of (q : list ascii) : option string :=
  str <$> chars_prefix_drop (JsNumber.chars_of "planId=") q.

Definition sp (o : option string) : SearchParam := match o with Some s => SPOne s | None => SPNone end.

(** The route a path names; the group segment [/(tabs)] does not
    appear in the URL and is dropped. *)
Definition route_of_path (path : string) : Route :=
  let '(pth, q) := split_at "?" (JsNumber.chars_of path) in
  let param := planId_of q in
  let '(grp, rest) := match chars_prefix_drop (JsNumber.chars_of "/(tabs)") pth with
                      | Some r => (true, str r) | None => (false, str pth) end in
  if String.eqb rest "" then (if grp then RTab THome else RNotFound path)
  else if String.eqb rest "/" then RIndex
  else if String.eqb rest "/auth/login" then RLogin
  else if String.eqb rest "/auth/register" then RRegister
  else if String.eqb rest "/wallet" then RTab TWallet
  else if String.eqb rest "/plans" then RTab TPlans
  else if String.eqb rest "/transactions" then RTab TTransactions
  else if String.eqb rest "/referrals" then RTab TReferrals
  else if String.eqb rest "/profile" then RTab TProfile
  else if String.eqb rest "/planScreen" then RTab (TPlanScreen (sp param))
  else if String.eqb rest "/myActivityPlan" then RTab (TActivity (sp param))
  else if String.eqb rest "/planDetail" then RTab (TDetail param)
  else if String.eqb rest "/option" then RTab (TOption (sp param))
  else if String.eqb rest "/dummy" then RTab TDummy
  else if String.eqb rest "/accounts" then RAccounts
  else if String.eqb rest "/tree" then RTreeScreen
  else if String.eqb rest "/admin" then RAdmin
  else if String.eqb rest "/admin/users" then RAdminUsers
  else if String.eqb rest "/admin/transactions" then RAdminTransactions
  else if String.eqb rest "/admin/withdrawals" then RAdminWithdrawals
  else match chars_prefix_drop (JsNumber.chars_of "/kyc/") (JsNumber.chars_of rest) with
       | Some id => RKyc (str id)
       | None => RNotFound path
       end.

(** Where an effect navigates; an alert's OK button navigates where its
    continuation does. *)
Fixpoint target (e : Effect) : option string :=
  match e with
  | Push p | Replace p => Some p
  | AlertThen _ _ e' => target e'
  | _ => None
  end.

(** ** The navigation effects of each screen *)

(** What the screens read besides their own state. *)
Record Env := mkEnv {
  e_db : DB;
  e_srv : AuthServer;
  e_dev : Device;
  e_ctx : AuthCtx;
  e_admin : AdminDB
}.

(** [index.tsx]: after mounting, a 100 ms timer replaces the route. *)
Definition index_effects : list Effect := [Replace "/auth/login"].

Definition profile_effects (env : Env) : list Effect :=
  flat_map (fun a => let '(_, _, _, _, e) := p_press a true (e_srv env) (e_dev env) (e_ctx env) in e)
           (actions (p_view (e_ctx env)) ++ [PConfirmSignOut]).

Definition screen_effects (env : Env) (r : Route) : list Effect :=
  match r with
  | RIndex => index_effects
  | RLogin => snd (login_press DoLogin (mkLogin validPhone validPassword false "")) ++
              snd (login_press GoRegister login_init)
  | RRegister => success_alert :: goLogin_effects
  | RTab THome => flat_map (fun a => snd (home_press a home_init)) [HManage; HPlans; HReferrals]
  | RTab TPlans =>
      flat_map (fun p => match plans_press no_faults (fun _ => "") "" 0 (PChoose (plan_id p))
                                           plans_init (e_db env) with
                         | Some (_, _, e) => e | None => [] end) (loadPlans (e_db env))
  | RTab TReferrals => ref_press RTree ""
  | RTab TProfile => profile_effects env
  | RTab (TPlanScreen _) => snd (i_press IContinue i_init)
  | RTab (TActivity _) =>
      flat_map (fun a => snd (a_press a a_init)) (actions (a_view (profile (e_ctx env)) (fetchPlans a_init)))
  | RTab (TOption p) => o_press p OConfirm
  | RTab TDummy => flat_map (d_press false) [DCopy; DShare; DHistory; DEarn]
  | RAdmin => snd (checkAdminAccess (user (e_ctx env)) (e_admin env)) ++
              flat_map dashboard_press [DLogout; DUsers; DTransactions; DWithdrawals]
  | _ => []
  end.

(** One navigation: a tab of the bar, or a navigation effect of the
    screen on display. *)
Inductive nav (env : Env) : Route -> Route -> Prop :=
| nav_tab t t' : t' ∈ tab_bar -> nav env (RTab t) (RTab t')
| nav_effect r e p : e ∈ screen_effects env r -> target e = Some p -> nav env r (route_of_path p).

(** ** Lemmas *)

Lemma nav_path env r e p r' :
  e ∈ screen_effects env r -> target e = Some p -> route_of_path p = r' -> nav env r r'.
Proof. intros He Ht <-. by apply (nav_effect env r e p). Qed.

(** The start screen leads to the login screen, and the hard-coded
    credentials to the home tab. *)
Lemma nav_start env : rtc (nav env) RIndex (RTab THome).
Proof.
  apply (rtc_l _ _ RLogin); [apply (nav_path env RIndex (Replace "/auth/login") "/auth/login");
                               [constructor|done|reflexivity]|].
  apply rtc_once. apply (nav_path env RLogin (Replace "/(tabs)") "/(tabs)"); [constructor|done|reflexivity].
Qed.

Lemma history_in_view prof :
  AHistory ∈ actions (a_view prof (fetchPlans a_init)).
Proof. cbn. set_solver. Qed.

Lemma history_edge env p : nav env (RTab (TActivity p)) (RTab (TDetail None)).
Proof.
  apply (nav_path env _ (Push "/(tabs)/planDetail") "/(tabs)/planDetail"); [|done|reflexivity].
  cbn [screen_effects]. apply list_elem_of_In, in_flat_map. exists AHistory.
  split; [apply list_elem_of_In, (history_in_view (profile (e_ctx env)))|by left].
Qed.

(** An effect of a fixed list: its target is a constant path, read by
    computation. *)
Ltac fixed_links :=
  repeat match goal with
  | H : False |- _ => destruct H
  | H : _ = _ ∨ _ |- _ => destruct H as [<-|H]
  end;
  cbn [target]; intros [= <-] x; vm_compute; discriminate.

(** ** Theorems *)


(** "Go to Referral History" on the activity-plan screen opens the
    plan detail route without a [planId]; that screen fetches nothing and
    renders [null], and it is reachable from the start screen. *)
Theorem history_button_blank env p prof :
  nav env (RTab (TActivity p)) (RTab (TDetail None)) /\
  rtc (nav env) RIndex (RTab (TDetail None)) /\
  detail_view prof (detail_mount None) = None.
Proof.
  split_and!; [apply history_edge| |reflexivity].
  eapply rtc_r; [eapply rtc_r; [apply nav_start|]|apply (history_edge env SPNone)].
  apply nav_tab. set_solver.
Qed.


(** An environment: an empty store, no session. *)
Definition env0 : Env := mkEnv empty_db srv0 (mkDevice None None) ctx_init admin_db.



End Navigation.
